(** * DLRover master coordination core: a shallow embedding

The development follows the Python sources file by file:

- [Py]        the fragment of Python's dynamic semantics the code relies on
              (exceptions, [try/except], [int()], [max()]);
- [Resource]  [dlrover/python/master/resource/job.py]
              ([JobResourceOptimizer], the stage machine and the
              user-override filter);
- [Shard]     [dlrover/python/master/shard/task_manager.py] ([TaskManager]);
- [Servicer]  [dlrover/python/master/servicer.py] ([MasterServicer], and its
              handlers on the server's thread pool);
- [Atorch]    [dlrover/python/diagnosis/datacollector/atorch_event_collector.py]
              (the file-monitor loop, its retries and the rank threads);
- [ShardRpc]  the calls of [servicer.py] that reach into the task manager's
              datasets;
- [Log]       [dlrover/python/common/log.py];
- [Megatron]  [dlrover/trainer/torch/flash_checkpoint/megatron_dist_ckpt.py]
              (the deletion strategies and the names of the checkpoint files).

Conventions.  Python [int] is [Z].  A finite Python [float] is the
rational [Q] it denotes.  Cpu cores and wall-clock readings are only
compared, copied and subtracted by the code below; the product of a memory
size with the growth factor is rounded as binary64 arithmetic rounds it
([Py.Float]), and an [int] too large for a float raises.  A Python
dictionary whose iteration order is observable ([OrderedDict], a [doing]
table that is swept with a [break]) is an association list; the other
dictionaries are [gmap]s.  Calls into objects whose classes live outside
these files (the resource optimizer, the dataset managers, the clock) are
interfaces: type classes or section variables.  A method is a function on
the state of its object; where several threads run methods on one object
(the servicer's handlers, the collector's rank threads) each thread is cut
into steps between which another thread can run, and a schedule says which
thread takes the next step. *)

From Stdlib Require Import ZArith QArith Qabs Qpower List String Bool Lia Lqa.
From Stdlib Require DecimalString DecimalN DecimalPos.
From stdpp Require Import base option list gmap strings.

#[local] Open Scope Z_scope.

(** ** Python semantics used by the sources *)

Module Py.

Inductive exn : Type :=
  | AttributeError
  | KeyError
  | TypeError
  | ValueError
  | OverflowError
  | UnboundLocalError
  | SyntaxError
  | OtherException.

Inductive result (A : Type) : Type :=
  | Ok (a : A)
  | Raise (e : exn).
Arguments Ok {A} a.
Arguments Raise {A} e.

(** A method of an object with mutable attributes of type [S]: it runs from
    the attributes' current values and leaves new ones, also when it raises
    (assignments made before the exception stay). *)
Definition M (S A : Type) : Type := S -> S * result A.

Definition ret {S A} (a : A) : M S A := fun s => (s, Ok a).

Definition bind {S A B} (m : M S A) (k : A -> M S B) : M S B :=
  fun s =>
    match m s with
    | (s', Ok a) => k a s'
    | (s', Raise e) => (s', Raise e)
    end.

Definition raise {S A} (e : exn) : M S A := fun s => (s, Raise e).
Definition get {S} : M S S := fun s => (s, Ok s).
Definition put {S} (s : S) : M S unit := fun _ => (s, Ok tt).
Definition modify {S} (f : S -> S) : M S unit := fun s => (f s, Ok tt).

(** [try: body / except Exception: handler]. *)
Definition try_except {S A} (body : M S A) (handler : exn -> M S A) : M S A :=
  fun s =>
    match body s with
    | (s', Ok a) => (s', Ok a)
    | (s', Raise e) => handler e s'
    end.

(** [d[k]] on a dictionary: [KeyError] when the key is absent. *)
Definition subscript {S A} (o : option A) : M S A :=
  match o with
  | Some a => ret a
  | None => raise KeyError
  end.

(** Attribute access on a value that may be [None]. *)
Definition attr_of {S A} (o : option A) : M S A :=
  match o with
  | Some a => ret a
  | None => raise AttributeError
  end.

(** [int(x)] on a float: truncation toward zero. *)
Definition int (q : Q) : Z := Z.quot (Qnum q) (Z.pos (Qden q)).

(** [max(a, b)] and [max(a, b, c)]: the first maximal argument is kept, a
    later one replaces it only when strictly greater. *)
Definition max2 (a b : Q) : Q := if Qlt_le_dec a b then b else a.
Definition max3 (a b c : Q) : Q := max2 (max2 a b) c.

(** [m] run from [s] leaves the observation [f] of the object as it was. *)
Definition keeps_at {S A X} (f : S -> X) (s : S) (m : M S A) : Prop :=
  f (fst (m s)) = f s.

(** An expression that yields a value or raises, inside a method. *)
Definition of_result {S A} (r : result A) : M S A := fun s => (s, r).

(** *** Floats

    A Python [float] is an IEEE 754 binary64 number.  A finite one is
    embedded as the rational it denotes; [round64] is the rounding every
    operation ends with: to the nearest float, a tie going to the one with an
    even significand, and past the largest float to infinity. *)
Module Float.

Inductive float : Type :=
| Finite (q : Q)
| Infinite (negative : bool).

(** The integer nearest to [a / b] for [0 < b]; a tie goes to the even
    one. *)
Definition rne_div (a b : Z) : Z :=
  let q := a / b in
  let r := a mod b in
  if 2 * r <? b then q
  else if b <? 2 * r then q + 1
  else if Z.even q then q else q + 1.

Definition rne (y : Q) : Z := rne_div (Qnum y) (Z.pos (Qden y)).

(** [floor(log2 x)] for [0 < x]: the logarithms of the numerator and of the
    denominator give it up to one. *)
Definition ilog2 (x : Q) : Z :=
  let k := Z.log2 (Qnum x) - Z.log2 (Z.pos (Qden x)) in
  if Qle_bool (2 ^ k) x then k else k - 1.

(** The exponent of the unit in the last place of [x]: 53 significant bits,
    and no unit below [2^-1074] (the subnormal numbers). *)
Definition ulp_exponent (x : Q) : Z := Z.max (ilog2 (Qabs x) - 52) (-1074).

(** [x] rounded to a multiple of its unit in the last place. *)
Definition rounded (x : Q) : Q :=
  (inject_Z (rne (x / 2 ^ ulp_exponent x)) * 2 ^ ulp_exponent x)%Q.

Definition round64 (x : Q) : float :=
  if Qle_bool (2 ^ 1024) (Qabs (rounded x)) then Infinite (negb (Qle_bool 0 x))
  else Finite (rounded x).

(** The conversion of an [int] operand to a float: [OverflowError] ("int too
    large to convert to float") when the nearest float is not finite. *)
Definition of_int (n : Z) : result Q :=
  match round64 (inject_Z n) with
  | Finite q => Ok q
  | Infinite _ => Raise OverflowError
  end.

(** [a * b] on two finite floats. *)
Definition mul (a b : Q) : float := round64 (a * b).

(** [n * f] for an [int] [n] and a finite float [f]. *)
Definition int_times (n : Z) (f : Q) : result float :=
  match of_int n with
  | Ok q => Ok (mul q f)
  | Raise e => Raise e
  end.

(** [int(max(a, x, b))] for two [int]s and a float: the comparisons of an
    [int] with a float are exact; [int] truncates a finite float and raises
    [OverflowError] on an infinite one. *)
Definition int_of_max3 (a : Z) (x : float) (b : Z) : result Z :=
  match x with
  | Finite q => Ok (int (max3 (inject_Z a) q (inject_Z b)))
  | Infinite true => Ok (Z.max a b)
  | Infinite false => Raise OverflowError
  end.

End Float.

End Py.

#[global] Instance M_ret {S} : MRet (Py.M S) := @Py.ret S.
#[global] Instance M_bind {S} : MBind (Py.M S) := fun A B k m => Py.bind m k.

Import Py.

(** ** [master/resource/job.py] *)

Module Resource.

Inductive NodeType : Type := WORKER | PS | EVALUATOR | CHIEF.

Inductive JobOptStage : Type := CREATE | WORKER_INITIAL | PS_INITIAL | RUNNING.

Inductive OptimizeWorkerPhase : Type := INITIAL | SAMPLE | STABLE.

Record NodeResource : Type := {
  cpu : Q;
  memory : Z;
  gpu_type : string;
  gpu_num : Z
}.

Record NodeGroupResource : Type := {
  count : Z;
  node_resource : NodeResource;
  priority : option string
}.

Record Node : Type := {
  name : string;
  config_resource : NodeResource
}.

End Resource.

#[global] Instance NodeType_eq_dec : EqDecision Resource.NodeType.
Proof. solve_decision. Defined.

#[global] Instance NodeType_countable : Countable Resource.NodeType.
Proof.
  refine (inj_countable'
    (fun t => match t with
              | Resource.WORKER => 0%nat | Resource.PS => 1%nat
              | Resource.EVALUATOR => 2%nat | Resource.CHIEF => 3%nat
              end)
    (fun n => match n with
              | 0%nat => Resource.WORKER | 1%nat => Resource.PS
              | 2%nat => Resource.EVALUATOR | _ => Resource.CHIEF
              end) _).
  by intros [].
Defined.

#[global] Instance JobOptStage_eq_dec : EqDecision Resource.JobOptStage.
Proof. solve_decision. Defined.

Module Plan.
Import Resource.

(** [master/resource/optimizer.py] is not among the sources; the plan is the
    two dictionaries the code reads and writes. *)
Record ResourcePlan : Type := {
  node_group_resources : gmap NodeType NodeGroupResource;
  node_resources : gmap string NodeResource
}.

(** [ResourcePlan()] *)
Definition new_plan : ResourcePlan :=
  {| node_group_resources := ∅; node_resources := ∅ |}.

(** Modelled from the spec: [ResourcePlan.empty] (optimizer.py is missing);
    the data model gives "empty() iff both maps empty". *)
Definition ResourcePlan_empty (p : ResourcePlan) : bool :=
  bool_decide (node_group_resources p = ∅) && bool_decide (node_resources p = ∅).

Definition set_group (p : ResourcePlan) (t : NodeType) (g : NodeGroupResource)
  : ResourcePlan :=
  {| node_group_resources := <[t := g]> (node_group_resources p);
     node_resources := node_resources p |}.

(** The optimizer behind [new_resource_optimizer]: [Local] or [Brain].  Both
    are external; [O] is whatever state they keep between calls.  A call may
    answer [None] (the code tests [if not plan]). *)
Class ResourceOptimizer (O : Type) : Type := {
  generate_opt_plan :
    O -> JobOptStage -> option OptimizeWorkerPhase -> O * option ResourcePlan;
  generate_oom_recovery_plan :
    O -> list string -> JobOptStage -> O * option ResourcePlan
}.

End Plan.

Module Job.
Import Resource Plan.

(** [NodeResourceLimit] of [common/constants.py] (not among the sources):
    the constants job.py reads.  [INCREMENTAL_MEMORY_FACTOR] is a float (1.5
    in the method's docstring). *)
Record NodeResourceLimit : Type := {
  MIN_VALID_MEMORY : Z;
  MIN_VALID_CPU : Q;
  MAX_PS_NUM : Z;
  MAX_MEMORY : Z;
  INCREMENTAL_MEMORY_FACTOR : Q
}.

(** The two switches of the global [Context] that job.py reads. *)
Record Context : Type := {
  easydl_worker_enabled : bool;
  easydl_ps_enabled : bool
}.

Section JobResourceOptimizer.

Context {O : Type} `{ResourceOptimizer O}.
Variable limit : NodeResourceLimit.
Variable _dlrover_context : Context.

(** [NodeGroupResource.update] of [common/node.py], not among the
    sources. *)
Variable NodeGroupResource_update :
  NodeGroupResource -> Z -> Q -> Z -> NodeGroupResource.
(** [ResourcePlan.adjust_plan_by_context] and [ResourcePlan.new_default_plan]
    of [optimizer.py], not among the sources. *)
Variable adjust_plan_by_context : ResourcePlan -> ResourcePlan.
Variable new_default_plan : ResourcePlan.

Record JobResourceOptimizer : Type := {
  _worker_resource : NodeGroupResource;
  _ps_resource : NodeGroupResource;
  _original_worker_resource : NodeGroupResource;
  _original_ps_resource : NodeGroupResource;
  _resource_optimizer : O;
  optimized_ps_mem : bool;
  optimize_worker_sampled : bool;
  _job_stage : JobOptStage
}.

(** [__init__]: the originals are deep copies, so no later assignment to
    the live resources reaches them. *)
Definition new_JobResourceOptimizer
    (worker_resource ps_resource : NodeGroupResource) (optimizer : O)
  : JobResourceOptimizer :=
  {| _worker_resource := worker_resource;
     _ps_resource := ps_resource;
     _original_worker_resource := worker_resource;
     _original_ps_resource := ps_resource;
     _resource_optimizer := optimizer;
     optimized_ps_mem := false;
     optimize_worker_sampled := false;
     _job_stage := CREATE |}.

(** Attribute assignments. *)
Definition set_worker_resource (r : NodeGroupResource) (s : JobResourceOptimizer) :=
  {| _worker_resource := r;
     _ps_resource := _ps_resource s;
     _original_worker_resource := _original_worker_resource s;
     _original_ps_resource := _original_ps_resource s;
     _resource_optimizer := _resource_optimizer s;
     optimized_ps_mem := optimized_ps_mem s;
     optimize_worker_sampled := optimize_worker_sampled s;
     _job_stage := _job_stage s |}.

Definition set_ps_resource (r : NodeGroupResource) (s : JobResourceOptimizer) :=
  {| _worker_resource := _worker_resource s;
     _ps_resource := r;
     _original_worker_resource := _original_worker_resource s;
     _original_ps_resource := _original_ps_resource s;
     _resource_optimizer := _resource_optimizer s;
     optimized_ps_mem := optimized_ps_mem s;
     optimize_worker_sampled := optimize_worker_sampled s;
     _job_stage := _job_stage s |}.

Definition set_resource_optimizer (o : O) (s : JobResourceOptimizer) :=
  {| _worker_resource := _worker_resource s;
     _ps_resource := _ps_resource s;
     _original_worker_resource := _original_worker_resource s;
     _original_ps_resource := _original_ps_resource s;
     _resource_optimizer := o;
     optimized_ps_mem := optimized_ps_mem s;
     optimize_worker_sampled := optimize_worker_sampled s;
     _job_stage := _job_stage s |}.

Definition set_optimize_worker_sampled (b : bool) (s : JobResourceOptimizer) :=
  {| _worker_resource := _worker_resource s;
     _ps_resource := _ps_resource s;
     _original_worker_resource := _original_worker_resource s;
     _original_ps_resource := _original_ps_resource s;
     _resource_optimizer := _resource_optimizer s;
     optimized_ps_mem := optimized_ps_mem s;
     optimize_worker_sampled := b;
     _job_stage := _job_stage s |}.

Definition set_job_stage (g : JobOptStage) (s : JobResourceOptimizer) :=
  {| _worker_resource := _worker_resource s;
     _ps_resource := _ps_resource s;
     _original_worker_resource := _original_worker_resource s;
     _original_ps_resource := _original_ps_resource s;
     _resource_optimizer := _resource_optimizer s;
     optimized_ps_mem := optimized_ps_mem s;
     optimize_worker_sampled := optimize_worker_sampled s;
     _job_stage := g |}.

Definition with_memory (m : Z) (r : NodeResource) : NodeResource :=
  {| cpu := cpu r; memory := m; gpu_type := gpu_type r; gpu_num := gpu_num r |}.

Definition with_cpu (c : Q) (r : NodeResource) : NodeResource :=
  {| cpu := c; memory := memory r; gpu_type := gpu_type r; gpu_num := gpu_num r |}.

Definition with_count (n : Z) (g : NodeGroupResource) : NodeGroupResource :=
  {| count := n; node_resource := node_resource g; priority := priority g |}.

Definition with_node_resource (r : NodeResource) (g : NodeGroupResource)
  : NodeGroupResource :=
  {| count := count g; node_resource := r; priority := priority g |}.

(** [g.count = n; g.node_resource.cpu = c; g.node_resource.memory = m] *)
Definition assign_group (n : Z) (c : Q) (m : Z) (g : NodeGroupResource)
  : NodeGroupResource :=
  with_node_resource (with_memory m (with_cpu c (node_resource g))) (with_count n g).

Definition with_config_memory (m : Z) (n : Node) : Node :=
  {| name := name n; config_resource := with_memory m (config_resource n) |}.

Abbreviation Method := (M JobResourceOptimizer).

(** A call to [self._resource_optimizer.generate_opt_plan]. *)
Definition call_generate_opt_plan
    (stage : JobOptStage) (config : option OptimizeWorkerPhase)
  : Method (option ResourcePlan) :=
  fun s =>
    let '(o, plan) := generate_opt_plan (_resource_optimizer s) stage config in
    (set_resource_optimizer o s, Ok plan).

Definition call_generate_oom_recovery_plan
    (names : list string) (stage : JobOptStage)
  : Method (option ResourcePlan) :=
  fun s =>
    let '(o, plan) := generate_oom_recovery_plan (_resource_optimizer s) names stage in
    (set_resource_optimizer o s, Ok plan).

(** The user-override filter on a group's original resource. *)
Definition check_ignore_original
    (original : NodeGroupResource) (num : Z) (cpu0 : Q) (mem : Z) : Z * Q * Z :=
  let num := if 0 <? count original then count original else num in
  let mem :=
    if MIN_VALID_MEMORY limit <=? memory (node_resource original)
    then memory (node_resource original) else mem in
  let cpu0 :=
    if Qle_bool (MIN_VALID_CPU limit) (cpu (node_resource original))
    then cpu (node_resource original) else cpu0 in
  (num, cpu0, mem).

Definition _check_ignore_original_worker_resource
    (self : JobResourceOptimizer) (num : Z) (cpu0 : Q) (mem : Z) : Z * Q * Z :=
  check_ignore_original (_original_worker_resource self) num cpu0 mem.

Definition _check_ignore_original_ps_resource
    (self : JobResourceOptimizer) (num : Z) (cpu0 : Q) (mem : Z) : Z * Q * Z :=
  check_ignore_original (_original_ps_resource self) num cpu0 mem.

(** [_verify_optimized_group_resource]: the plan is mutated in place, so
    the mutated plan is returned next to the group. *)
Definition _verify_optimized_group_resource
    (plan : ResourcePlan) (node_type : NodeType)
  : Method (ResourcePlan * NodeGroupResource) :=
  group ← subscript (node_group_resources plan !! node_type);
  self ← get;
  '(num, cpu0, mem) ←
    match node_type with
    | WORKER =>
        let '(num, cpu0, mem) :=
          _check_ignore_original_worker_resource self (count group)
            (cpu (node_resource group)) (memory (node_resource group)) in
        _ ← put (set_worker_resource
                   (assign_group num cpu0 mem (_worker_resource self)) self);
        mret (num, cpu0, mem)
    | PS =>
        let '(num, cpu0, mem) :=
          _check_ignore_original_ps_resource self (count group)
            (cpu (node_resource group)) (memory (node_resource group)) in
        _ ← put (set_ps_resource
                   (assign_group (Z.min num (MAX_PS_NUM limit)) cpu0 mem
                      (_ps_resource self)) self);
        mret (num, cpu0, mem)
    | _ => raise UnboundLocalError
    end;
  let group' := assign_group num cpu0 mem group in
  mret (set_group plan node_type group', group').

(** [key in plan.node_group_resources] *)
Definition has_group (plan : ResourcePlan) (node_type : NodeType) : bool :=
  bool_decide (is_Some (node_group_resources plan !! node_type)).

(** [_get_worker_resource_at_init_phase]: a bare [return] (that is, [None])
    when the optimizer's plan is empty. *)
Definition _get_worker_resource_at_init_phase : Method (option ResourcePlan) :=
  plan ← call_generate_opt_plan WORKER_INITIAL (Some INITIAL);
  p ← attr_of plan;
  if ResourcePlan_empty p then mret None else mret (Some p).

(** [if not plan: return] tests the object, not [plan.empty()]: only [None]
    is falsy. *)
Definition _get_worker_resource_at_sample_phase : Method (option ResourcePlan) :=
  plan ← call_generate_opt_plan WORKER_INITIAL (Some SAMPLE);
  match plan with
  | None => mret None
  | Some p => mret (Some p)
  end.

Definition _get_worker_resource_at_stable_phase : Method (option ResourcePlan) :=
  plan ← call_generate_opt_plan WORKER_INITIAL (Some STABLE);
  match plan with
  | None => mret None
  | Some p => mret (Some p)
  end.

Definition _get_worker_resource_at_running : Method (option ResourcePlan) :=
  self ← get;
  if negb (optimize_worker_sampled self) then
    plan ← _get_worker_resource_at_sample_phase;
    _ ← modify (set_optimize_worker_sampled true);
    mret plan
  else _get_worker_resource_at_stable_phase.

Definition _get_ps_resource_plan : Method (option ResourcePlan) :=
  self ← get;
  call_generate_opt_plan (_job_stage self) None.

(** [if key in plan.node_group_resources: self._verify_optimized_group_resource(plan, key)] *)
Definition verify_if_present (plan : ResourcePlan) (node_type : NodeType)
  : Method ResourcePlan :=
  if has_group plan node_type then
    r ← _verify_optimized_group_resource plan node_type;
    mret (fst r)
  else mret plan.

Definition get_job_resource_plan : Method (option ResourcePlan) :=
  self ← get;
  plan ←
    match _job_stage self with
    | WORKER_INITIAL =>
        plan ← _get_worker_resource_at_init_phase;
        _ ← modify (set_job_stage PS_INITIAL);
        mret plan
    | PS_INITIAL =>
        plan ← _get_ps_resource_plan;
        _ ← modify (set_job_stage RUNNING);
        mret plan
    | RUNNING =>
        plan ← _get_ps_resource_plan;
        p ← attr_of plan;
        if ResourcePlan_empty p then _get_worker_resource_at_running
        else mret plan
    | CREATE => mret None
    end;
  p ← attr_of plan;
  if ResourcePlan_empty p then mret None
  else
    p ← verify_if_present p WORKER;
    p ← verify_if_present p PS;
    mret (Some (adjust_plan_by_context p)).

Definition optimize_worker_resource : Method unit :=
  plan ← _get_worker_resource_at_init_phase;
  match plan with
  | Some p =>
      match node_group_resources p !! WORKER with
      | Some worker_resource =>
          modify (fun s =>
            set_worker_resource
              (NodeGroupResource_update (_worker_resource s)
                 (count worker_resource)
                 (cpu (node_resource worker_resource))
                 (memory (node_resource worker_resource))) s)
      | None => mret tt
      end
  | None => mret tt
  end.

(** [g.node_resource.memory = max(g.node_resource.memory, m)] *)
Definition raise_memory (m : Z) (g : NodeGroupResource) : NodeGroupResource :=
  with_node_resource
    (with_memory (Z.max (memory (node_resource g)) m) (node_resource g)) g.

(** The memory a relaunched node gets: [cur_mem *= INCREMENTAL_MEMORY_FACTOR]
    (an [int] times the float factor), then
    [int(max(live, cur_mem, original))].  [OverflowError] when [cur_mem] is
    too large for a float or the product is infinite. *)
Definition incremented_memory (live original : NodeGroupResource) (cur_mem : Z)
  : result Z :=
  match Float.int_times cur_mem (INCREMENTAL_MEMORY_FACTOR limit) with
  | Ok x =>
      Float.int_of_max3 (memory (node_resource live)) x
        (memory (node_resource original))
  | Raise e => Raise e
  end.

(** [adjust_oom_worker_resource]: the node is mutated in place; the mutated
    node is the result. *)
Definition adjust_oom_worker_resource (node : Node) : Method Node :=
  let cur_mem := memory (config_resource node) in
  self ← get;
  _ ←
    (if easydl_worker_enabled _dlrover_context
        && bool_decide (_job_stage self = WORKER_INITIAL)
     then
       plan ← call_generate_oom_recovery_plan [name node] CREATE;
       match plan with
       | Some p =>
           if negb (ResourcePlan_empty p) then
             new_resource ← subscript (node_group_resources p !! WORKER);
             modify (fun s =>
               set_worker_resource
                 (raise_memory (memory (node_resource new_resource))
                    (_worker_resource s)) s)
           else mret tt
       | None => mret tt
       end
     else optimize_worker_resource);
  self ← get;
  new_memory ← of_result (incremented_memory (_worker_resource self)
                            (_original_worker_resource self) cur_mem);
  mret (with_config_memory new_memory node).

(** [adjust_oom_ps_resource]: the result is the returned plan and the node as
    the call leaves it. *)
Definition adjust_oom_ps_resource (node : Node) (training_started : bool)
  : Method (ResourcePlan * Node) :=
  plan ← call_generate_oom_recovery_plan [name node] PS_INITIAL;
  early ←
    match plan with
    | Some p =>
        if negb (ResourcePlan_empty p) then
          ps ← subscript (node_group_resources p !! PS);
          if negb training_started && (0 <? count ps)
             && (memory (node_resource ps) <? MAX_MEMORY limit)
          then
            r ← _verify_optimized_group_resource p PS;
            mret (Some (adjust_plan_by_context (fst r)))
          else
            _ ← modify (fun s =>
                  set_ps_resource
                    (raise_memory (memory (node_resource ps)) (_ps_resource s)) s);
            mret None
        else mret None
    | None => mret None
    end;
  match early with
  | Some p => mret (p, node)
  | None =>
      self ← get;
      new_memory ← of_result (incremented_memory (_ps_resource self)
                                (_original_ps_resource self)
                                (memory (config_resource node)));
      mret (new_plan, with_config_memory new_memory node)
  end.

Definition _init_job_resource_by_optimizer : Method unit :=
  self ← get;
  plan ← call_generate_opt_plan (_job_stage self) None;
  let plan :=
    match plan with
    | Some p => if ResourcePlan_empty p then new_default_plan else p
    | None => new_default_plan
    end in
  _ ← modify (set_job_stage WORKER_INITIAL);
  _ ←
    match node_group_resources plan !! WORKER with
    | Some worker_resource =>
        if easydl_worker_enabled _dlrover_context then
          self ← get;
          let '(num, cpu0, mem) :=
            _check_ignore_original_worker_resource self (count worker_resource)
              (cpu (node_resource worker_resource))
              (memory (node_resource worker_resource)) in
          modify (fun s =>
            set_worker_resource
              (NodeGroupResource_update (_worker_resource s) num cpu0 mem) s)
        else mret tt
    | None => mret tt
    end;
  match node_group_resources plan !! PS with
  | Some ps_resource =>
      if easydl_ps_enabled _dlrover_context then
        self ← get;
        let '(num, cpu0, mem) :=
          _check_ignore_original_ps_resource self (count ps_resource)
            (cpu (node_resource ps_resource))
            (memory (node_resource ps_resource)) in
        modify (fun s =>
          set_ps_resource
            (NodeGroupResource_update (_ps_resource s) num cpu0 mem) s)
      else mret tt
  | None => mret tt
  end.

(** The user-override filter as a relation between a group's original and
    live resource, as the specification words it: a count, memory or cpu the
    user has set is the one in force. *)
Definition user_override_wins (original live : NodeGroupResource) : Prop :=
  (0 < count original -> count live = count original)
  /\ (MIN_VALID_MEMORY limit <= memory (node_resource original) ->
      memory (node_resource live) = memory (node_resource original))
  /\ ((MIN_VALID_CPU limit <= cpu (node_resource original))%Q ->
      cpu (node_resource live) = cpu (node_resource original)).

(** The same with the count capped at [MAX_PS_NUM], which is what the code
    does for the PS group. *)
Definition user_override_wins_capped (original live : NodeGroupResource) : Prop :=
  (0 < count original -> count live = Z.min (count original) (MAX_PS_NUM limit))
  /\ (MIN_VALID_MEMORY limit <= memory (node_resource original) ->
      memory (node_resource live) = memory (node_resource original))
  /\ ((MIN_VALID_CPU limit <= cpu (node_resource original))%Q ->
      cpu (node_resource live) = cpu (node_resource original))
  /\ count live <= MAX_PS_NUM limit.

(** A change of a live resource that is either no change or ends in a
    resource satisfying [good]. *)
Definition unchanged_or (good : NodeGroupResource -> Prop)
    (before after : NodeGroupResource) : Prop :=
  after = before \/ good after.

(** The two snapshots taken by [__init__]. *)
Definition originals (s : JobResourceOptimizer) : NodeGroupResource * NodeGroupResource :=
  (_original_worker_resource s, _original_ps_resource s).

(** The four resources the object holds. *)
Definition resources (s : JobResourceOptimizer)
  : NodeGroupResource * NodeGroupResource * NodeGroupResource * NodeGroupResource :=
  (_worker_resource s, _ps_resource s, _original_worker_resource s,
   _original_ps_resource s).

(** The public methods, as one alphabet of calls on the object;
    [init_job_resource] stands for its part that acts on the optimizer,
    [_init_job_resource_by_optimizer] (the rest writes to its argument). *)
Inductive call : Type :=
| Call_init_job_resource
| Call_optimize_worker_resource
| Call_adjust_oom_worker_resource (node : Node)
| Call_adjust_oom_ps_resource (node : Node) (training_started : bool)
| Call_get_job_resource_plan.

(** The object after a call, whether the call returned or raised. *)
Definition after (c : call) (s : JobResourceOptimizer) : JobResourceOptimizer :=
  match c with
  | Call_init_job_resource => fst (_init_job_resource_by_optimizer s)
  | Call_optimize_worker_resource => fst (optimize_worker_resource s)
  | Call_adjust_oom_worker_resource node => fst (adjust_oom_worker_resource node s)
  | Call_adjust_oom_ps_resource node ts => fst (adjust_oom_ps_resource node ts s)
  | Call_get_job_resource_plan => fst (get_job_resource_plan s)
  end.

Definition run (calls : list call) (s : JobResourceOptimizer) : JobResourceOptimizer :=
  fold_left (fun s c => after c s) calls s.

End JobResourceOptimizer.

Arguments JobResourceOptimizer : clear implicits.

(** The place of a stage in the order [CREATE], [WORKER_INITIAL],
    [PS_INITIAL], [RUNNING] in which [get_job_resource_plan] walks them. *)
Definition stage_rank (g : JobOptStage) : nat :=
  match g with
  | CREATE => 0
  | WORKER_INITIAL => 1
  | PS_INITIAL => 2
  | RUNNING => 3
  end.

(** *** The optimizer's side of the calls

    What an optimizer is asked, oldest request first: wrapping an optimizer
    so that it records its requests makes the requests of a call sequence
    observable without changing any answer. *)
Inductive request : Type :=
| Opt_plan_request (stage : JobOptStage) (config : option OptimizeWorkerPhase)
| Oom_recovery_request (names : list string) (stage : JobOptStage).

Definition logged (O : Type) : Type := (O * list request)%type.

#[global] Instance logged_optimizer {O} `{ResourceOptimizer O}
  : ResourceOptimizer (logged O) := {
  generate_opt_plan o stage config :=
    let '(o', plan) := generate_opt_plan (fst o) stage config in
    ((o', snd o ++ [Opt_plan_request stage config]), plan);
  generate_oom_recovery_plan o names stage :=
    let '(o', plan) := generate_oom_recovery_plan (fst o) names stage in
    ((o', snd o ++ [Oom_recovery_request names stage]), plan)
}.

(** The worker phases other than [INITIAL] among the requests, in order. *)
Definition running_phase (r : request) : option OptimizeWorkerPhase :=
  match r with
  | Opt_plan_request _ (Some SAMPLE) => Some SAMPLE
  | Opt_plan_request _ (Some STABLE) => Some STABLE
  | _ => None
  end.

Definition running_phases (log : list request) : list OptimizeWorkerPhase :=
  omap running_phase log.

(** The sampling flag of a job over a recording optimizer, next to the
    phases it has asked for. *)
Definition requested_phases {O} (s : JobResourceOptimizer (logged O))
  : bool * list OptimizeWorkerPhase :=
  (optimize_worker_sampled s, running_phases (snd (_resource_optimizer s))).

(** *** [JobResource] *)

(** The dictionary [node_group_resources]; its insertion order is read only
    by [get_node_types]. *)
Record JobResource : Type := {
  job_node_group_resources : gmap NodeType NodeGroupResource
}.

(** [JobResource()] *)
Definition new_JobResource : JobResource :=
  {| job_node_group_resources := ∅ |}.

Definition get_node_group_resource (node_type : NodeType) (self : JobResource)
  : option NodeGroupResource :=
  job_node_group_resources self !! node_type.

Definition _get_group_node_num (node_type : NodeType) (self : JobResource) : Z :=
  match job_node_group_resources self !! node_type with
  | Some g => count g
  | None => 0
  end.

(** [a or b] on numbers: [a] unless it is zero. *)
Definition or_Z (a b : Z) : Z := if a =? 0 then b else a.
Definition or_Q (a b : Q) : Q := if Qeq_bool a 0 then b else a.

(** [NodeGroupResource(count=0, node_resource=NodeResource(0, 0), priority=None)];
    [NodeResource] leaves the gpu fields at their defaults. *)
Definition blank_group : NodeGroupResource :=
  {| count := 0;
     node_resource := {| cpu := 0; memory := 0; gpu_type := EmptyString; gpu_num := 0 |};
     priority := None |}.

(** [update_node_group_resource]: [setdefault], then the three assignments
    on the stored group. *)
Definition update_node_group_resource
    (node_type : NodeType) (num : Z) (cpu0 : Q) (mem : Z) (self : JobResource)
  : JobResource :=
  let resource :=
    match job_node_group_resources self !! node_type with
    | Some g => g
    | None => blank_group
    end in
  let resource := with_count (or_Z num (count resource)) resource in
  let resource :=
    with_node_resource
      (with_cpu (or_Q cpu0 (cpu (node_resource resource))) (node_resource resource))
      resource in
  let resource :=
    with_node_resource
      (with_memory (or_Z mem (memory (node_resource resource))) (node_resource resource))
      resource in
  {| job_node_group_resources :=
       <[node_type := resource]> (job_node_group_resources self) |}.

Definition worker_num (self : JobResource) : Z := _get_group_node_num WORKER self.
Definition ps_num (self : JobResource) : Z := _get_group_node_num PS self.
Definition evaluator_num (self : JobResource) : Z := _get_group_node_num EVALUATOR self.
Definition chief_num (self : JobResource) : Z := _get_group_node_num CHIEF self.

End Job.

(** ** [master/shard/task_manager.py] *)

Module Shard.
Import Resource.

(** The task types of [elastic_training.proto] (not among the sources); [NONE]
    is the default value of a message's [type] field. *)
Inductive TaskType : Type :=
| NONE | TRAINING | EVALUATION | PREDICTION | WAIT | TRAIN_END_CALLBACK.

Record Shard : Type := {
  shard_name : string;
  shard_start : Z;
  shard_end : Z;
  record_indices : list Z
}.

Record Task : Type := {
  task_id : Z;
  task_type : TaskType;
  shard : Shard
}.

Record DoingTask : Type := {
  task : Task;
  node_type : NodeType;
  node_id : Z;
  start_time : Q
}.

Definition is_EVALUATION (t : TaskType) : bool :=
  match t with EVALUATION => true | _ => false end.

Definition is_TRAINING (t : TaskType) : bool :=
  match t with TRAINING => true | _ => false end.

Definition is_PREDICTION (t : TaskType) : bool :=
  match t with PREDICTION => true | _ => false end.

(** [a > b] on floats. *)
Definition Qgtb (a b : Q) : bool := negb (Qle_bool a b).

(** An [OrderedDict] keyed by strings: insertion order is kept, assigning to a
    present key replaces its value in place. *)
Fixpoint od_get {A} (k : string) (d : list (string * A)) : option A :=
  match d with
  | [] => None
  | (k', v) :: d' => if String.eqb k k' then Some v else od_get k d'
  end.

Fixpoint od_set {A} (k : string) (v : A) (d : list (string * A)) : list (string * A) :=
  match d with
  | [] => [(k, v)]
  | (k', v') :: d' =>
      if String.eqb k k' then (k, v) :: d' else (k', v') :: od_set k v d'
  end.

Definition od_mem {A} (k : string) (d : list (string * A)) : bool :=
  match od_get k d with Some _ => true | None => false end.

(** What task_manager.py uses of a [DatasetManger] ([base_dataset_manager.py]
    and [batch_dataset_manager.py] are not among the sources).  A method that
    mutates the dataset returns the dataset it leaves. *)
Class DatasetManger (D Splitter Checkpoint : Type) : Type := {
  BatchDatasetManager : TaskType -> Z -> Splitter -> D;
  get_task : D -> NodeType -> Z -> D * Task;
  report_task_status : D -> Z -> bool -> D * (bool * option DoingTask);
  doing : D -> list (Z * DoingTask);
  todo : D -> list Task;
  get_latest_task_end_time : D -> Q;
  completed : D -> bool;
  get_epoch : D -> Z;
  get_completed_step : D -> Z;
  checkpoint : D -> option Checkpoint;
  restore_checkpoint : D -> Checkpoint -> D * result unit;
  (** [DatasetShardCheckpoint.from_json] and the [dataset_name] field *)
  from_json : string -> result Checkpoint;
  dataset_name : Checkpoint -> string
}.

(** What task_manager.py calls on its [PerfMonitor]. *)
Class PerfMonitor (P : Type) : Type := {
  reset_running_perf_monitor : P -> P;
  set_worker_start_eval_time : P -> Z -> P;
  add_running_worker : P -> NodeType -> Z -> P;
  update_worker_eval_time : P -> Z -> P
}.

(** [comm.TaskResult] *)
Record TaskResult : Type := {
  req_task_id : Z;
  req_dataset_name : string;
  err_message : string
}.

Section TaskManager.

Context {D Splitter Checkpoint P : Type}.
Context `{DatasetManger D Splitter Checkpoint} `{PerfMonitor P}.
(** The registered timeout callbacks are opaque callables; a sweep records
    which one it called with which worker id. *)
Variable Callback : Type.

Record TaskManager : Type := {
  _task_process_timeout : Z;
  _should_stop : bool;
  _datasets : list (string * D);
  _worker_start_task_time : gmap Z Q;
  _task_timeout_callbacks : list Callback;
  _perf_monitor : P;
  _paral_eval_count : Z;
  _paral_eval_started : bool
}.

(** [__init__] *)
Definition new_TaskManager (task_process_timeout : Z) (perf_monitor : P) : TaskManager :=
  {| _task_process_timeout := task_process_timeout;
     _should_stop := false;
     _datasets := [];
     _worker_start_task_time := ∅;
     _task_timeout_callbacks := [];
     _perf_monitor := perf_monitor;
     _paral_eval_count := 0;
     _paral_eval_started := false |}.

Definition set_datasets (d : list (string * D)) (s : TaskManager) : TaskManager :=
  {| _task_process_timeout := _task_process_timeout s;
     _should_stop := _should_stop s;
     _datasets := d;
     _worker_start_task_time := _worker_start_task_time s;
     _task_timeout_callbacks := _task_timeout_callbacks s;
     _perf_monitor := _perf_monitor s;
     _paral_eval_count := _paral_eval_count s;
     _paral_eval_started := _paral_eval_started s |}.

Definition set_worker_start_task_time (w : gmap Z Q) (s : TaskManager) : TaskManager :=
  {| _task_process_timeout := _task_process_timeout s;
     _should_stop := _should_stop s;
     _datasets := _datasets s;
     _worker_start_task_time := w;
     _task_timeout_callbacks := _task_timeout_callbacks s;
     _perf_monitor := _perf_monitor s;
     _paral_eval_count := _paral_eval_count s;
     _paral_eval_started := _paral_eval_started s |}.

Definition set_task_timeout_callbacks (c : list Callback) (s : TaskManager) : TaskManager :=
  {| _task_process_timeout := _task_process_timeout s;
     _should_stop := _should_stop s;
     _datasets := _datasets s;
     _worker_start_task_time := _worker_start_task_time s;
     _task_timeout_callbacks := c;
     _perf_monitor := _perf_monitor s;
     _paral_eval_count := _paral_eval_count s;
     _paral_eval_started := _paral_eval_started s |}.

Definition set_perf_monitor (p : P) (s : TaskManager) : TaskManager :=
  {| _task_process_timeout := _task_process_timeout s;
     _should_stop := _should_stop s;
     _datasets := _datasets s;
     _worker_start_task_time := _worker_start_task_time s;
     _task_timeout_callbacks := _task_timeout_callbacks s;
     _perf_monitor := p;
     _paral_eval_count := _paral_eval_count s;
     _paral_eval_started := _paral_eval_started s |}.

Definition set_paral_eval (n : Z) (b : bool) (s : TaskManager) : TaskManager :=
  {| _task_process_timeout := _task_process_timeout s;
     _should_stop := _should_stop s;
     _datasets := _datasets s;
     _worker_start_task_time := _worker_start_task_time s;
     _task_timeout_callbacks := _task_timeout_callbacks s;
     _perf_monitor := _perf_monitor s;
     _paral_eval_count := n;
     _paral_eval_started := b |}.

(** [new_dataset]: under the lock, return early when the name is taken or the
    size test fails, else build the manager and store it. *)
Definition new_dataset
    (batch_size dataset_size : Z) (name : string)
    (dataset_splitter : Splitter) (task_type0 : TaskType)
    (self : TaskManager) : TaskManager :=
  if od_mem name (_datasets self) then self
  else if dataset_size <? 0 then self
  else
    let dataset := BatchDatasetManager task_type0 batch_size dataset_splitter in
    set_datasets (od_set name dataset (_datasets self)) self.

Definition get_dataset (name : string) (self : TaskManager) : option D :=
  od_get name (_datasets self).

(** [reset_worker_start_task_time]; [now] is the reading of [time.time()]. *)
Definition reset_worker_start_task_time (worker_id : Z) (now : Q) (self : TaskManager)
  : TaskManager :=
  set_worker_start_task_time (<[worker_id := now]> (_worker_start_task_time self)) self.

(** [get_dataset_task] *)
Definition get_dataset_task
    (node_type0 : NodeType) (node_id0 : Z) (name : string) (now : Q)
    (self : TaskManager) : TaskManager * option Task :=
  match od_get name (_datasets self) with
  | Some dataset =>
      let '(dataset, t) := get_task dataset node_type0 node_id0 in
      let self := set_datasets (od_set name dataset (_datasets self)) self in
      let self :=
        if is_EVALUATION (task_type t) && bool_decide (node_type0 = WORKER) then
          let self :=
            set_perf_monitor
              (set_worker_start_eval_time
                 (reset_running_perf_monitor (_perf_monitor self)) node_id0) self in
          if negb (_paral_eval_started self)
          then set_paral_eval (_paral_eval_count self + 1) true self
          else self
        else self in
      let self :=
        if is_TRAINING (task_type t) then
          set_paral_eval (_paral_eval_count self) false
            (set_perf_monitor
               (update_worker_eval_time
                  (add_running_worker (_perf_monitor self) node_type0 node_id0)
                  node_id0) self)
        else self in
      (reset_worker_start_task_time node_id0 now self, Some t)
  | None => (self, None)
  end.

(** [report_dataset_task] *)
Definition report_dataset_task (request : TaskResult) (success : bool) (now : Q)
  : M TaskManager (option Task * option Z) :=
  self ← get;
  match od_get (req_dataset_name request) (_datasets self) with
  | None => raise ValueError
  | Some dataset =>
      let '(dataset, (success, doing_task)) :=
        report_task_status dataset (req_task_id request) success in
      _ ← put (set_datasets (od_set (req_dataset_name request) dataset (_datasets self)) self);
      if success then
        doing_task ← attr_of doing_task;
        _ ← modify (reset_worker_start_task_time (node_id doing_task) now);
        mret (Some (task doing_task), Some (node_id doing_task))
      else mret (None, None)
  end.

(** [task_hanged]; [clock i] is the reading of [time.time()] taken while the
    [i]-th dataset is examined. *)
Definition hang (timeout : Z) (now : Q) (ds : D) : bool :=
  let end_time := get_latest_task_end_time ds in
  Qgtb end_time 0 && Qgtb (now - end_time) (inject_Z timeout).

Definition task_hanged (clock : nat -> Q) (self : TaskManager) : bool :=
  let dataset_hang :=
    imap (fun i nd => hang (_task_process_timeout self) (clock i) (snd nd))
         (_datasets self) in
  match dataset_hang with
  | [] => false
  | _ => forallb id dataset_hang
  end.

(** What a sweep does to the outside: a task reported failed, a callback
    called with a worker id. *)
Inductive sweep_event : Type :=
| Reported_failed (name : string) (id : Z)
| Callback_invoked (callback : Callback) (worker_id : Z).

Definition set_task_timeout_callback (callback_fn : Callback) (self : TaskManager)
  : TaskManager :=
  set_task_timeout_callbacks (_task_timeout_callbacks self ++ [callback_fn]) self.

Definition _invoke_task_timeout_callback (worker_id : Z) (self : TaskManager)
  : list sweep_event :=
  map (fun callback_fn => Callback_invoked callback_fn worker_id)
      (_task_timeout_callbacks self).

(** The test of the inner loop of [_check_and_reassign_timeout_tasks]. *)
Definition is_timeout (self : TaskManager) (cur : Q) (doing_task : DoingTask) : bool :=
  let start := default cur (_worker_start_task_time self !! node_id doing_task) in
  is_EVALUATION (task_type (task doing_task))
  && Qgtb (cur - start) (inject_Z (_task_process_timeout self)).

(** The inner [for] loop over the copy of [dataset.doing], with its [break]. *)
Fixpoint check_doing_tasks
    (self : TaskManager) (name : string) (cur : Q)
    (doing_tasks : list (Z * DoingTask)) (dataset : D) : D * list sweep_event :=
  match doing_tasks with
  | [] => (dataset, [])
  | (id, doing_task) :: rest =>
      if is_timeout self cur doing_task then
        (fst (report_task_status dataset id false),
         Reported_failed name id
           :: _invoke_task_timeout_callback (node_id doing_task) self)
      else check_doing_tasks self name cur rest dataset
  end.

(** One dataset of one pass. *)
Definition sweep_dataset (self : TaskManager) (name : string) (cur : Q) (dataset : D)
  : D * list sweep_event :=
  check_doing_tasks self name cur (doing dataset) dataset.

(** One pass of the [while True] loop of [_check_and_reassign_timeout_tasks]
    (the body before [time.sleep(30)]); [clock i] is the reading taken for the
    [i]-th dataset. *)
Fixpoint sweep_datasets
    (self : TaskManager) (clock : nat -> Q) (i : nat) (datasets : list (string * D))
  : list (string * D) * list sweep_event :=
  match datasets with
  | [] => ([], [])
  | (name, dataset) :: rest =>
      let '(dataset, events) := sweep_dataset self name (clock i) dataset in
      let '(rest, events') := sweep_datasets self clock (S i) rest in
      ((name, dataset) :: rest, events ++ events')
  end.

Definition sweep_pass (clock : nat -> Q) (self : TaskManager)
  : TaskManager * list sweep_event :=
  let '(datasets, events) := sweep_datasets self clock 0%nat (_datasets self) in
  (set_datasets datasets self, events).

(** [restore_dataset_from_checkpoint] *)
Definition lift_result {S A} (r : result A) : M S A :=
  match r with
  | Ok a => mret a
  | Raise e => raise e
  end.

Definition restore_dataset_from_checkpoint (blob : string) : M TaskManager bool :=
  try_except
    (dataset_checkpoint ← lift_result (from_json blob);
     self ← get;
     let dataset := od_get (dataset_name dataset_checkpoint) (_datasets self) in
     dataset ← attr_of dataset;
     let '(dataset, outcome) := restore_checkpoint dataset dataset_checkpoint in
     _ ← put (set_datasets
                (od_set (dataset_name dataset_checkpoint) dataset (_datasets self)) self);
     _ ← lift_result outcome;
     mret true)
    (fun _ => mret false).

Definition training_started (self : TaskManager) : bool :=
  existsb (fun nd => 0 <? get_completed_step (snd nd)) (_datasets self).

(** [is_dataset_initialized]: [not self._datasets] is true of the empty
    dictionary. *)
Definition is_dataset_initialized (self : TaskManager) : bool :=
  match _datasets self with
  | [] => false
  | _ => true
  end.

(** [finished] *)
Definition finished (self : TaskManager) : bool :=
  if negb (is_dataset_initialized self) then false
  else forallb (fun nd => completed (snd nd)) (_datasets self).

(** [get_dataset_checkpoint] *)
Definition get_dataset_checkpoint (name : string) (self : TaskManager)
  : option Checkpoint :=
  match od_get name (_datasets self) with
  | Some dataset => checkpoint dataset
  | None => None
  end.

(** [get_dataset_epoch] *)
Definition get_dataset_epoch (name : string) (self : TaskManager) : Z :=
  match od_get name (_datasets self) with
  | Some dataset => get_epoch dataset
  | None => 0
  end.

Definition get_paral_eval_count (self : TaskManager) : Z := _paral_eval_count self.

(** The comprehension of [recover_tasks]: the ids of the doing tasks held by
    the node, in the order of the [doing] table. *)
Definition doing_ids_of (node_type0 : NodeType) (node_id0 : Z) (dataset : D) : list Z :=
  map fst
    (List.filter
       (fun p => (node_id (snd p) =? node_id0)
                 && bool_decide (node_type (snd p) = node_type0))
       (doing dataset)).

(** The inner loop of [recover_tasks]: each id is appended to the list that
    is logged and then reported as failed; [clock name id] is the reading of
    [time.time()] inside that report. *)
Fixpoint recover_ids (name : string) (clock : string -> Z -> Q) (ids : list Z)
  : M TaskManager (list Z) :=
  match ids with
  | [] => mret []
  | id :: rest =>
      _ ← report_dataset_task
            {| req_task_id := id; req_dataset_name := name;
               err_message := EmptyString |} false (clock name id);
      recovered ← recover_ids name clock rest;
      mret (id :: recovered)
  end.

(** The outer loop over [self._datasets.items()].  The dictionary's keys do
    not change while it runs, so it visits the names present at the start;
    each dataset is read when it is visited.  The result is what the method
    logs: per dataset with tasks to recover, the ids reported. *)
Fixpoint recover_datasets
    (node_type0 : NodeType) (node_id0 : Z) (clock : string -> Z -> Q)
    (names : list string) : M TaskManager (list (string * list Z)) :=
  match names with
  | [] => mret []
  | name :: rest =>
      self ← get;
      let ids :=
        match od_get name (_datasets self) with
        | Some dataset => doing_ids_of node_type0 node_id0 dataset
        | None => []
        end in
      match ids with
      | [] => recover_datasets node_type0 node_id0 clock rest
      | _ =>
          recovered ← recover_ids name clock ids;
          logged ← recover_datasets node_type0 node_id0 clock rest;
          mret ((name, recovered) :: logged)
      end
  end.

(** [recover_tasks] *)
Definition recover_tasks
    (node_type0 : NodeType) (node_id0 : Z) (clock : string -> Z -> Q)
  : M TaskManager (list (string * list Z)) :=
  self ← get;
  recover_datasets node_type0 node_id0 clock (map fst (_datasets self)).

(** The calls a task manager receives, as one alphabet. *)
Inductive call : Type :=
| Call_new_dataset (batch_size dataset_size : Z) (name : string)
    (dataset_splitter : Splitter) (task_type0 : TaskType)
| Call_get_dataset_task (node_type0 : NodeType) (node_id0 : Z) (name : string) (now : Q)
| Call_report_dataset_task (request : TaskResult) (success : bool) (now : Q)
| Call_recover_tasks (node_type0 : NodeType) (node_id0 : Z) (clock : string -> Z -> Q)
| Call_reset_worker_start_task_time (worker_id : Z) (now : Q)
| Call_set_task_timeout_callback (callback_fn : Callback)
| Call_sweep_pass (clock : nat -> Q)
| Call_restore_dataset_from_checkpoint (blob : string).

(** The task manager after a call, whether the call returned or raised. *)
Definition after (c : call) (s : TaskManager) : TaskManager :=
  match c with
  | Call_new_dataset batch_size dataset_size name dataset_splitter task_type0 =>
      new_dataset batch_size dataset_size name dataset_splitter task_type0 s
  | Call_get_dataset_task node_type0 node_id0 name now =>
      fst (get_dataset_task node_type0 node_id0 name now s)
  | Call_report_dataset_task request success now =>
      fst (report_dataset_task request success now s)
  | Call_recover_tasks node_type0 node_id0 clock =>
      fst (recover_tasks node_type0 node_id0 clock s)
  | Call_reset_worker_start_task_time worker_id now =>
      reset_worker_start_task_time worker_id now s
  | Call_set_task_timeout_callback callback_fn =>
      set_task_timeout_callback callback_fn s
  | Call_sweep_pass clock => fst (sweep_pass clock s)
  | Call_restore_dataset_from_checkpoint blob =>
      fst (restore_dataset_from_checkpoint blob s)
  end.

Definition run (calls : list call) (s : TaskManager) : TaskManager :=
  fold_left (fun s c => after c s) calls s.

(** The names of the datasets, in the dictionary's order. *)
Definition dataset_names (self : TaskManager) : list string :=
  map fst (_datasets self).

End TaskManager.

Arguments TaskManager : clear implicits.
Arguments _task_process_timeout {D P Callback} _.
Arguments _should_stop {D P Callback} _.
Arguments _datasets {D P Callback} _.
Arguments _worker_start_task_time {D P Callback} _.
Arguments _task_timeout_callbacks {D P Callback} _.
Arguments _perf_monitor {D P Callback} _.
Arguments _paral_eval_count {D P Callback} _.
Arguments _paral_eval_started {D P Callback} _.
Arguments Reported_failed {Callback} _ _.
Arguments Callback_invoked {Callback} _ _.
Arguments Call_new_dataset {Splitter Callback} _ _ _ _ _.
Arguments Call_get_dataset_task {Splitter Callback} _ _ _ _.
Arguments Call_report_dataset_task {Splitter Callback} _ _ _.
Arguments Call_recover_tasks {Splitter Callback} _ _ _.
Arguments Call_reset_worker_start_task_time {Splitter Callback} _ _.
Arguments Call_set_task_timeout_callback {Splitter Callback} _.
Arguments Call_sweep_pass {Splitter Callback} _.
Arguments Call_restore_dataset_from_checkpoint {Splitter Callback} _.

End Shard.

(** ** [master/servicer.py] *)

Module Servicer.
Import Resource Shard.

(** What the servicer uses of its task manager.  A dataset is reached by its
    name: [tm_has_dataset] is the truth value of [get_dataset(name)], and
    [tm_dataset_completed] reads [completed()] of that same object in the task
    manager's current state (the servicer keeps a reference to the object
    while [get_dataset_task] mutates it). *)
Class TaskManagerLike (T : Type) : Type := {
  tm_has_dataset : string -> T -> bool;
  tm_dataset_completed : string -> T -> bool;
  tm_get_dataset_task : NodeType -> Z -> string -> Q -> T -> T * option Task;
  tm_reset_worker_start_task_time : Z -> Q -> T -> T;
  tm_report_dataset_task : TaskResult -> bool -> Q -> T -> T * result (option Task * option Z)
}.

(** [NodeManager], [SpeedMonitor] and [JobMetricCollector] are collaborators
    defined outside these files.  [start_auto_scale] leaves the node manager
    in a new state and returns or raises. *)
Class NodeManager (N Running : Type) : Type := {
  get_running_workers : N -> list Running;
  get_running_nodes : N -> list Running;
  start_auto_scale : N -> N * result unit
}.

Class SpeedMonitor (Sp : Type) : Type := {
  completed_global_step : Sp -> Z;
  get_sample_count : Sp -> Z;
  collect_global_step : Sp -> Z -> Z -> Sp
}.

Class JobMetricCollector (J Sp Running : Type) : Type := {
  collect_runtime_stats : J -> Sp -> list Running -> J
}.

(** The options of the global [Context] that servicer.py reads. *)
Record Context : Type := {
  seconds_to_autoscale_worker : Z;
  sample_count_to_adjust_worker : Z
}.

(** [elastic_training_pb2.Shard] and [elastic_training_pb2.Task].  In
    [elastic_training.proto] (not among the sources) [Task.task_id] is an
    [int32] and [Shard.start], [Shard.end] and [Shard.indices] are [int64]:
    assigning an [int] outside the field's range raises [ValueError]. *)
Definition fits_int32 (z : Z) : bool := (- 2 ^ 31 <=? z) && (z <? 2 ^ 31).
Definition fits_int64 (z : Z) : bool := (- 2 ^ 63 <=? z) && (z <? 2 ^ 63).

Record ShardMsg : Type := {
  msg_name : string;
  msg_start : Z;
  msg_end : Z;
  msg_indices : list Z
}.

Record TaskMsg : Type := {
  msg_task_id : Z;
  msg_type : TaskType;
  msg_shard : ShardMsg;
  model_version : Z
}.

(** [elastic_training_pb2.Task(shard=elastic_training_pb2.Shard())]: every
    field at its protobuf default. *)
Definition new_TaskMsg : TaskMsg :=
  {| msg_task_id := 0;
     msg_type := NONE;
     msg_shard := {| msg_name := EmptyString; msg_start := 0; msg_end := 0;
                     msg_indices := [] |};
     model_version := 0 |}.

Definition with_model_version (v : Z) (r : TaskMsg) : TaskMsg :=
  {| msg_task_id := msg_task_id r; msg_type := msg_type r;
     msg_shard := msg_shard r; model_version := v |}.

Definition with_type (t : TaskType) (r : TaskMsg) : TaskMsg :=
  {| msg_task_id := msg_task_id r; msg_type := t;
     msg_shard := msg_shard r; model_version := model_version r |}.

(** Whether every number of the task fits the field it is assigned to. *)
Definition fits_TaskMsg (t : Task) : bool :=
  fits_int32 (task_id t)
  && fits_int64 (shard_start (shard t))
  && fits_int64 (shard_end (shard t))
  && forallb fits_int64 (record_indices (shard t)).

(** The six assignments of the [if task:] branch: the message they leave, or
    the [ValueError] of the first number that does not fit its field. *)
Definition with_task (t : Task) (r : TaskMsg) : result TaskMsg :=
  if fits_TaskMsg t then
    Ok {| msg_task_id := task_id t;
          msg_type := task_type t;
          msg_shard :=
            {| msg_name := shard_name (shard t);
               msg_start := shard_start (shard t);
               msg_end := shard_end (shard t);
               msg_indices := msg_indices (msg_shard r) ++ record_indices (shard t) |};
          model_version := model_version r |}
  else Raise ValueError.

Record GetTaskRequest : Type := {
  worker_type : NodeType;
  worker_id : Z;
  get_dataset_name : string
}.

Record GlobalStepRecord : Type := {
  global_step : Z;
  timestamp : Z
}.

(** Where a call to [node_manager.start_auto_scale()] is written. *)
Inductive autoscale_site : Type :=
| Non_training_trigger
| Sample_count_trigger.

Section MasterServicer.

Context {T N Running Sp J R : Type}.
Context `{TaskManagerLike T} `{NodeManager N Running} `{SpeedMonitor Sp}.
Context `{JobMetricCollector J Sp Running}.
Variable _dlrover_context : Context.

Record MasterServicer : Type := {
  _task_manager : T;
  _node_manager : option N;
  _speed_monitor : Sp;
  _rendezvous_server : option R;
  _job_metric_collector : option J;
  _version : Z;
  _start_training_time : option Z;
  _start_autoscale : bool;
  (** history variable, not an attribute of the class: the calls made to
      [start_auto_scale], oldest first *)
  autoscale_calls : list autoscale_site
}.

(** [__init__] *)
Definition new_MasterServicer
    (task_manager : T) (node_manager : option N) (speed_monitor : Sp)
    (rendezvous_server : option R) (job_metric_collector : option J)
  : MasterServicer :=
  {| _task_manager := task_manager;
     _node_manager := node_manager;
     _speed_monitor := speed_monitor;
     _rendezvous_server := rendezvous_server;
     _job_metric_collector := job_metric_collector;
     _version := 0;
     _start_training_time := None;
     _start_autoscale := false;
     autoscale_calls := [] |}.

Definition set_task_manager (t : T) (s : MasterServicer) : MasterServicer :=
  {| _task_manager := t;
     _node_manager := _node_manager s;
     _speed_monitor := _speed_monitor s;
     _rendezvous_server := _rendezvous_server s;
     _job_metric_collector := _job_metric_collector s;
     _version := _version s;
     _start_training_time := _start_training_time s;
     _start_autoscale := _start_autoscale s;
     autoscale_calls := autoscale_calls s |}.

Definition set_speed_monitor (m : Sp) (s : MasterServicer) : MasterServicer :=
  {| _task_manager := _task_manager s;
     _node_manager := _node_manager s;
     _speed_monitor := m;
     _rendezvous_server := _rendezvous_server s;
     _job_metric_collector := _job_metric_collector s;
     _version := _version s;
     _start_training_time := _start_training_time s;
     _start_autoscale := _start_autoscale s;
     autoscale_calls := autoscale_calls s |}.

Definition set_job_metric_collector (j : option J) (s : MasterServicer) : MasterServicer :=
  {| _task_manager := _task_manager s;
     _node_manager := _node_manager s;
     _speed_monitor := _speed_monitor s;
     _rendezvous_server := _rendezvous_server s;
     _job_metric_collector := j;
     _version := _version s;
     _start_training_time := _start_training_time s;
     _start_autoscale := _start_autoscale s;
     autoscale_calls := autoscale_calls s |}.

Definition set_start_training_time (t : option Z) (s : MasterServicer) : MasterServicer :=
  {| _task_manager := _task_manager s;
     _node_manager := _node_manager s;
     _speed_monitor := _speed_monitor s;
     _rendezvous_server := _rendezvous_server s;
     _job_metric_collector := _job_metric_collector s;
     _version := _version s;
     _start_training_time := t;
     _start_autoscale := _start_autoscale s;
     autoscale_calls := autoscale_calls s |}.

Definition set_start_autoscale (b : bool) (s : MasterServicer) : MasterServicer :=
  {| _task_manager := _task_manager s;
     _node_manager := _node_manager s;
     _speed_monitor := _speed_monitor s;
     _rendezvous_server := _rendezvous_server s;
     _job_metric_collector := _job_metric_collector s;
     _version := _version s;
     _start_training_time := _start_training_time s;
     _start_autoscale := b;
     autoscale_calls := autoscale_calls s |}.

(** The node manager as a call of [start_auto_scale()] leaves it, and the
    call recorded. *)
Definition autoscale_started (site : autoscale_site) (n : N) (s : MasterServicer)
  : MasterServicer :=
  {| _task_manager := _task_manager s;
     _node_manager := Some n;
     _speed_monitor := _speed_monitor s;
     _rendezvous_server := _rendezvous_server s;
     _job_metric_collector := _job_metric_collector s;
     _version := _version s;
     _start_training_time := _start_training_time s;
     _start_autoscale := _start_autoscale s;
     autoscale_calls := autoscale_calls s ++ [site] |}.

Abbreviation Rpc := (M MasterServicer).

(** [self._node_manager.start_auto_scale()]: the call is recorded whether it
    returns or raises. *)
Definition call_start_auto_scale (site : autoscale_site) : Rpc unit :=
  self ← get;
  n ← attr_of (_node_manager self);
  _ ← put (autoscale_started site (fst (start_auto_scale n)) self);
  of_result (snd (start_auto_scale n)).

(** A call into the task manager that may raise. *)
Definition on_task_manager {A} (f : T -> T * result A) : Rpc A :=
  fun s =>
    let '(t, r) := f (_task_manager s) in
    (set_task_manager t s, r).

Definition _collect_runtime_stats : Rpc unit :=
  self ← get;
  match _job_metric_collector self with
  | Some j =>
      n ← attr_of (_node_manager self);
      put (set_job_metric_collector
             (Some (collect_runtime_stats j (_speed_monitor self) (get_running_nodes n)))
             self)
  | None => mret tt
  end.

Definition _check_start_auto_scale_worker : Rpc unit :=
  self ← get;
  let sample_count := get_sample_count (_speed_monitor self) in
  if negb (_start_autoscale self)
     && (sample_count_to_adjust_worker _dlrover_context <=? sample_count)
  then
    _ ← call_start_auto_scale Sample_count_trigger;
    modify (set_start_autoscale true)
  else mret tt.

(** The guard of the non-training trigger, with [and]'s left-to-right
    evaluation: the subtraction is reached, and fails on [None], only when the
    three tests before it hold. *)
Definition non_training_guard (now : Q) : Rpc bool :=
  self ← get;
  if negb (_start_autoscale self)
     && bool_decide (is_Some (_node_manager self))
     && (completed_global_step (_speed_monitor self) =? 0)
  then
    match _start_training_time self with
    | Some t0 =>
        mret (seconds_to_autoscale_worker _dlrover_context <? Py.int now - t0)
    | None => raise TypeError
    end
  else mret false.

(** [report_task_result]; [t_report] is the clock as read inside
    [report_dataset_task], [now] as read by the guard. *)
Definition report_task_result (request : TaskResult) (t_report now : Q) : Rpc unit :=
  let success := String.eqb (err_message request) EmptyString in
  r ← on_task_manager (tm_report_dataset_task request success t_report);
  let t := fst r in
  fire ← non_training_guard now;
  _ ← (if fire : bool then
         _ ← call_start_auto_scale Non_training_trigger;
         modify (set_start_autoscale true)
       else mret tt);
  self ← get;
  match _job_metric_collector self with
  | Some _ =>
      t ← attr_of t;
      if is_PREDICTION (task_type t) then
        _ ← _collect_runtime_stats;
        _check_start_auto_scale_worker
      else mret tt
  | None => mret tt
  end.

(** [not self._start_training_time]: [None] and [0] are both falsy. *)
Definition start_time_unset (t : option Z) : bool :=
  match t with
  | None => true
  | Some t0 => t0 =? 0
  end.

(** [get_task]; [t_first], [t_task] and [t_reset] are the clock as read for
    [_start_training_time], inside [get_dataset_task] and inside
    [reset_worker_start_task_time]. *)
Definition get_task (request : GetTaskRequest) (t_first t_task t_reset : Q)
  : Rpc TaskMsg :=
  self ← get;
  _ ← (if start_time_unset (_start_training_time self)
       then modify (set_start_training_time (Some (Py.int t_first)))
       else mret tt);
  let res := with_model_version (_version self) new_TaskMsg in
  let ds_name := get_dataset_name request in
  if negb (tm_has_dataset ds_name (_task_manager self)) then mret res
  else
    t ← on_task_manager (fun tm =>
           let '(tm, t) :=
             tm_get_dataset_task (worker_type request) (worker_id request)
               ds_name t_task tm in
           (tm, Ok t));
    self ← get;
    res ←
      match t with
      | Some t => of_result (with_task t res)
      | None =>
          if negb (tm_dataset_completed ds_name (_task_manager self)) then
            match _rendezvous_server self with
            | Some _ =>
                n ← attr_of (_node_manager self);
                if (length (get_running_workers n) =? 1)%nat
                then mret (with_type WAIT res)
                else mret res
            | None => mret (with_type WAIT res)
            end
          else mret res
      end;
    _ ← modify (fun s =>
          set_task_manager
            (tm_reset_worker_start_task_time (worker_id request) t_reset
               (_task_manager s)) s);
    mret res.

Definition report_global_step (request : GlobalStepRecord) : Rpc unit :=
  _ ← modify (fun s =>
        set_speed_monitor
          (collect_global_step (_speed_monitor s) (global_step request)
             (timestamp request)) s);
  _ ← _collect_runtime_stats;
  _check_start_auto_scale_worker.

(** What the autoscale claims are about: the flag and the calls made so
    far. *)
Definition autoscale_view (s : MasterServicer) : bool * list autoscale_site :=
  (_start_autoscale s, autoscale_calls s).

(** The calls a servicer receives, and what its collaborators may do between
    two of them (other components hold references to them). *)
Inductive call : Type :=
| Call_get_task (request : GetTaskRequest) (t_first t_task t_reset : Q)
| Call_report_task_result (request : TaskResult) (t_report now : Q)
| Call_report_global_step (request : GlobalStepRecord)
| Collaborators_change (ft : T -> T) (fn : N -> N) (fs : Sp -> Sp) (fj : J -> J).

Definition collaborators_changed
    (ft : T -> T) (fn : N -> N) (fs : Sp -> Sp) (fj : J -> J) (s : MasterServicer)
  : MasterServicer :=
  {| _task_manager := ft (_task_manager s);
     _node_manager := fn <$> _node_manager s;
     _speed_monitor := fs (_speed_monitor s);
     _rendezvous_server := _rendezvous_server s;
     _job_metric_collector := fj <$> _job_metric_collector s;
     _version := _version s;
     _start_training_time := _start_training_time s;
     _start_autoscale := _start_autoscale s;
     autoscale_calls := autoscale_calls s |}.

(** The servicer after a call, whether the call returned or raised. *)
Definition after (c : call) (s : MasterServicer) : MasterServicer :=
  match c with
  | Call_get_task request t_first t_task t_reset =>
      fst (get_task request t_first t_task t_reset s)
  | Call_report_task_result request t_report now =>
      fst (report_task_result request t_report now s)
  | Call_report_global_step request => fst (report_global_step request s)
  | Collaborators_change ft fn fs fj => collaborators_changed ft fn fs fj s
  end.

Definition run (calls : list call) (s : MasterServicer) : MasterServicer :=
  fold_left (fun s c => after c s) calls s.

(** *** Handlers on the thread pool

    [create_master_service] gives the gRPC server a pool of 64 threads
    ([futures.ThreadPoolExecutor(max_workers=64)]), so several handlers run on
    one servicer at a time, and neither [report_task_result] nor
    [report_global_step] takes [self._lock].  A handler is cut where another
    thread can run between two of its accesses to the servicer or to a
    collaborator: [Step effect rest] is what it does next to the servicer
    without being interrupted, and what is left of it afterwards; [Raised e]
    is a handler ended by an exception.  The cuts below are at statement
    boundaries; the interpreter can also switch threads inside a statement,
    so every schedule of these steps is a schedule of the code. *)
Inductive handler : Type :=
| Finished
| Raised (e : exn)
| Step (effect : MasterServicer -> MasterServicer)
       (rest : MasterServicer -> handler).

Definition atomically {A} (m : Rpc A) (rest : A -> handler) : handler :=
  Step (fun s => fst (m s))
       (fun s => match snd (m s) with Ok a => rest a | Raise e => Raised e end).

(** [_check_start_auto_scale_worker], then [rest]: the test, the call of
    [start_auto_scale()] and the assignment of the flag are three steps. *)
Definition _check_start_auto_scale_worker_steps (rest : handler) : handler :=
  atomically
    (self ← get;
     mret (negb (_start_autoscale self)
           && (sample_count_to_adjust_worker _dlrover_context
               <=? get_sample_count (_speed_monitor self))))
    (fun fire : bool =>
       if fire then
         atomically (call_start_auto_scale Sample_count_trigger) (fun _ =>
         atomically (modify (set_start_autoscale true)) (fun _ => rest))
       else rest).

Definition report_global_step_steps (request : GlobalStepRecord) : handler :=
  atomically
    (modify (fun s =>
       set_speed_monitor
         (collect_global_step (_speed_monitor s) (global_step request)
            (timestamp request)) s)) (fun _ =>
  atomically _collect_runtime_stats (fun _ =>
  _check_start_auto_scale_worker_steps Finished)).

Definition report_task_result_steps (request : TaskResult) (t_report now : Q)
  : handler :=
  let success := String.eqb (err_message request) EmptyString in
  atomically (on_task_manager (tm_report_dataset_task request success t_report))
    (fun r =>
  let stats :=
    atomically
      (self ← get;
       match _job_metric_collector self with
       | Some _ => t ← attr_of (fst r); mret (is_PREDICTION (task_type t))
       | None => mret false
       end)
      (fun prediction : bool =>
         if prediction then
           atomically _collect_runtime_stats (fun _ =>
           _check_start_auto_scale_worker_steps Finished)
         else Finished) in
  atomically (non_training_guard now) (fun fire : bool =>
    if fire then
      atomically (call_start_auto_scale Non_training_trigger) (fun _ =>
      atomically (modify (set_start_autoscale true)) (fun _ => stats))
    else stats)).

(** A handler run to its end with no other thread in between. *)
Fixpoint uninterrupted (h : handler) (s : MasterServicer)
  : MasterServicer * result unit :=
  match h with
  | Finished => (s, Ok tt)
  | Raised e => (s, Raise e)
  | Step effect rest => uninterrupted (rest s) (effect s)
  end.

(** The servicer and the handlers in flight (the server turns a handler's
    exception into an error status). *)
Record pool : Type := {
  master_servicer : MasterServicer;
  in_flight : list handler
}.

(** The thread of handler [i] runs one step. *)
Definition step_handler (i : nat) (p : pool) : pool :=
  match in_flight p !! i with
  | Some (Step effect rest) =>
      {| master_servicer := effect (master_servicer p);
         in_flight := <[i := rest (master_servicer p)]> (in_flight p) |}
  | _ => p
  end.

(** A schedule names the thread that runs at each turn. *)
Definition interleave (schedule : list nat) (p : pool) : pool :=
  fold_left (fun p i => step_handler i p) schedule p.

End MasterServicer.

Arguments MasterServicer : clear implicits.
Arguments handler : clear implicits.
Arguments pool : clear implicits.

End Servicer.

(** How a call may move the flag and the history: not at all, or from an
    unset flag to a set one with a single call added, made at an allowed
    site. *)
Definition latch (allowed : Servicer.autoscale_site -> Prop)
    (before after : bool * list Servicer.autoscale_site) : Prop :=
  after = before
  \/ (fst before = false /\ fst after = true
      /\ exists site, allowed site /\ snd after = snd before ++ [site]).

(** ** [diagnosis/datacollector/atorch_event_collector.py] *)

Module Atorch.

(** The values [parse_line] lets through: it raises unless the target, the
    event name and the event type are among these. *)
Inductive EventTargetName : Type := TRAINER | SAVER.
Inductive TrainEventName : Type := TRAIN_EVT_STEP | TRAIN_EVT_FLASH_CKPT.
Inductive EventTypeName : Type := BEGIN | END.

(** The tuple [parse_line] returns. *)
Record event : Type := {
  ts : Z;
  target : EventTargetName;
  event_name : TrainEventName;
  event_type : EventTypeName;
  step : Z
}.

Definition is_trainer_step_begin (e : event) : bool :=
  match target e, event_name e, event_type e with
  | TRAINER, TRAIN_EVT_STEP, BEGIN => true
  | _, _, _ => false
  end.

Record AtorchEventCollector : Type := {
  _first_step : option Z;
  _stop_collector : bool;
  (** history variable: the events handed to [_report_event], oldest first *)
  reported : list event
}.

(** [__init__] *)
Definition new_AtorchEventCollector : AtorchEventCollector :=
  {| _first_step := None; _stop_collector := false; reported := [] |}.

Definition set_first_step (f : option Z) (c : AtorchEventCollector) : AtorchEventCollector :=
  {| _first_step := f; _stop_collector := _stop_collector c; reported := reported c |}.

Definition _report_event (e : event) (c : AtorchEventCollector) : AtorchEventCollector :=
  {| _first_step := _first_step c; _stop_collector := _stop_collector c;
     reported := reported c ++ [e] |}.

Section Monitor.

(** A line of the log file, and [parse_line] on it (regular expressions,
    [datetime] and [literal_eval] are not modelled): the tuple, or the
    exception raised. *)
Variable line : Type.
Variable parse_line : line -> result event.

(** The two [if]s after a successful parse. *)
Definition handle_event (e : event) (c : AtorchEventCollector) : AtorchEventCollector :=
  let c :=
    match _first_step c with
    | None => if is_trainer_step_begin e then set_first_step (Some (step e)) c else c
    | Some _ => c
    end in
  match _first_step c with
  | Some first => if negb (step e =? first)%Z then _report_event e c else c
  | None => c
  end.

(** One turn of the [while True] loop on a line that was read: every
    exception of [parse_line] is caught and the loop continues. *)
Definition handle_line (l : line) (c : AtorchEventCollector) : AtorchEventCollector :=
  match parse_line l with
  | Ok e => handle_event e c
  | Raise _ => c
  end.

(** [_monitor_file] run by one thread with no other thread in between, on
    the lines read until the collector is stopped (an empty read sleeps and
    changes nothing).  The rank threads that share the collector are
    modelled further down. *)
Definition _monitor_file (lines : list line) (c : AtorchEventCollector)
  : AtorchEventCollector :=
  fold_left (fun c l => handle_line l c) lines c.

(** The events the lines parse to, in order. *)
Definition parsed (lines : list line) : list event :=
  omap (fun l => match parse_line l with Ok e => Some e | Raise _ => None end) lines.

(** [step != self._first_step] for a first step that is set. *)
Definition differs_from (first : Z) (e : event) : bool := negb (step e =? first)%Z.

(** [collect_events] on one rank's file.  [_monitor_file] returns only when
    the collector is stopped; an exception ends it early (the file cannot be
    opened, or the report to the master fails) and, after a pause, the file is
    opened and read again from its beginning.  [attempts] holds, for each
    call of [_monitor_file], the lines it read before it ended. *)
Definition collect_events (attempts : list (list line)) (c : AtorchEventCollector)
  : AtorchEventCollector :=
  if _stop_collector c then c
  else fold_left (fun c lines => _monitor_file lines c) attempts c.

(** What a collector goes through: [start_collectors] and [stop_collectors]
    assign [_stop_collector]; the threads started are the [collect_events]
    runs that follow. *)
Inductive activity : Type :=
| Start_collectors
| Stop_collectors
| Collect_events (attempts : list (list line)).

Definition set_stop_collector (b : bool) (c : AtorchEventCollector)
  : AtorchEventCollector :=
  {| _first_step := _first_step c; _stop_collector := b; reported := reported c |}.

Definition start_collectors (c : AtorchEventCollector) : AtorchEventCollector :=
  set_stop_collector false c.

Definition stop_collectors (c : AtorchEventCollector) : AtorchEventCollector :=
  set_stop_collector true c.

Definition after (a : activity) (c : AtorchEventCollector) : AtorchEventCollector :=
  match a with
  | Start_collectors => start_collectors c
  | Stop_collectors => stop_collectors c
  | Collect_events attempts => collect_events attempts c
  end.

Definition run (activities : list activity) (c : AtorchEventCollector)
  : AtorchEventCollector :=
  fold_left (fun c a => after a c) activities c.

(** *** The rank threads

    [start_collectors] starts one thread per local rank; each runs
    [collect_events] on its own file and all of them on the one collector, so
    between two accesses of a thread to [self._first_step],
    [self._stop_collector] or the master client another thread can run.  A
    thread is where it stands in [collect_events] and [_monitor_file]; a step
    takes it to its next access of the collector. *)
Inductive position : Type :=
| At_while_not_stopped        (** l.175, and the [open] of l.121 *)
| At_while_true               (** l.126, and the [readline] and [parse_line] *)
| At_first_if (e : event)     (** l.153 *)
| At_assignment (e : event)   (** l.161 *)
| At_second_if (e : event)    (** l.163, [self._first_step is not None] *)
| At_comparison (e : event)   (** l.163, [step != self._first_step] *)
| At_report (e : event)       (** l.167 *)
| Ended.

Record thread : Type := {
  (** the lines of the rank's file *)
  log_file : list line;
  unread : list line;
  at_line : position
}.

(** The thread [collect_events] starts as. *)
Definition new_thread (file : list line) : thread :=
  {| log_file := file; unread := []; at_line := At_while_not_stopped |}.

Definition at_position (p : position) (t : thread) : thread :=
  {| log_file := log_file t; unread := unread t; at_line := p |}.

(** One step of a thread that does not raise: the thread and the collector
    afterwards, and the event parsed if the step parsed one. *)
Definition thread_step (t : thread) (c : AtorchEventCollector)
  : thread * AtorchEventCollector * list event :=
  match at_line t with
  | At_while_not_stopped =>
      if _stop_collector c then (at_position Ended t, c, [])
      else ({| log_file := log_file t; unread := log_file t;
               at_line := At_while_true |}, c, [])
  | At_while_true =>
      if _stop_collector c then (at_position At_while_not_stopped t, c, [])
      else
        match unread t with
        | [] => (t, c, [])
        | l :: rest =>
            match parse_line l with
            | Ok e =>
                ({| log_file := log_file t; unread := rest;
                    at_line := At_first_if e |}, c, [e])
            | Raise _ =>
                ({| log_file := log_file t; unread := rest;
                    at_line := At_while_true |}, c, [])
            end
        end
  | At_first_if e =>
      (at_position
         (match _first_step c with
          | None => if is_trainer_step_begin e then At_assignment e else At_second_if e
          | Some _ => At_second_if e
          end) t, c, [])
  | At_assignment e => (at_position (At_second_if e) t, set_first_step (Some (step e)) c, [])
  | At_second_if e =>
      (at_position
         (match _first_step c with
          | Some _ => At_comparison e
          | None => At_while_true
          end) t, c, [])
  | At_comparison e =>
      (at_position
         (match _first_step c with
          | Some first => if differs_from first e then At_report e else At_while_true
          | None => At_report e
          end) t, c, [])
  | At_report e => (at_position At_while_true t, _report_event e c, [])
  | Ended => (t, c, [])
  end.

(** One step of a thread that raises where it can: [open] (the thread
    sleeps and tests [_stop_collector] again), [readline], or the report to
    the master, handed to [_report_event] all the same; [collect_events]
    catches the exception and goes round its loop. *)
Definition thread_fails (t : thread) (c : AtorchEventCollector)
  : thread * AtorchEventCollector * list event :=
  match at_line t with
  | At_while_not_stopped =>
      if _stop_collector c then (at_position Ended t, c, []) else (t, c, [])
  | At_while_true =>
      (at_position At_while_not_stopped t, c, [])
  | At_report e => (at_position At_while_not_stopped t, _report_event e c, [])
  | _ => (t, c, [])
  end.

Record collectors : Type := {
  shared : AtorchEventCollector;
  threads : list thread;
  (** history variable: the events the threads have parsed, oldest first *)
  observed : list event
}.

(** What happens next: a thread takes a step, a thread's step raises, or
    another component calls [stop_collectors] or [start_collectors] (which
    starts a thread for each of the rank files). *)
Inductive turn : Type :=
| Runs (i : nat)
| Fails (i : nat)
| Stop_is_called
| Start_is_called (files : list (list line)).

Definition thread_turn
    (f : thread -> AtorchEventCollector -> thread * AtorchEventCollector * list event)
    (i : nat) (st : collectors) : collectors :=
  match threads st !! i with
  | Some t =>
      let '(t', c', parsed_now) := f t (shared st) in
      {| shared := c'; threads := <[i := t']> (threads st);
         observed := observed st ++ parsed_now |}
  | None => st
  end.

Definition turn_of (u : turn) (st : collectors) : collectors :=
  match u with
  | Runs i => thread_turn thread_step i st
  | Fails i => thread_turn thread_fails i st
  | Stop_is_called =>
      {| shared := stop_collectors (shared st); threads := threads st;
         observed := observed st |}
  | Start_is_called files =>
      {| shared := start_collectors (shared st);
         threads := threads st ++ (new_thread <$> files);
         observed := observed st |}
  end.

Definition scheduled (turns : list turn) (st : collectors) : collectors :=
  fold_left (fun st u => turn_of u st) turns st.

(** A collector before any thread is started. *)
Definition no_threads (c : AtorchEventCollector) : collectors :=
  {| shared := c; threads := []; observed := [] |}.

(** [f] is a value that [_first_step] can have got: the one it had before
    the threads were started, or the step of a TRAINER step event of type
    BEGIN that a thread has parsed. *)
Definition first_step_source (c0 : AtorchEventCollector) (events : list event) (f : Z)
  : Prop :=
  _first_step c0 = Some f
  \/ exists b, b ∈ events /\ is_trainer_step_begin b = true /\ step b = f.

(** What a thread's position says of the event it holds, given the events
    parsed so far and the value of [_first_step]. *)
Definition position_justified
    (c0 : AtorchEventCollector) (events : list event) (first : option Z) (p : position)
  : Prop :=
  match p with
  | At_first_if e | At_second_if e => e ∈ events
  | At_assignment e => e ∈ events /\ is_trainer_step_begin e = true
  | At_comparison e => e ∈ events /\ first <> None
  | At_report e =>
      e ∈ events /\ exists f, first_step_source c0 events f /\ step e <> f
  | At_while_not_stopped | At_while_true | Ended => True
  end.

(** What holds of the collector and its threads at every moment, [c0] being
    the collector before the threads were started. *)
Definition threads_invariant (c0 : AtorchEventCollector) (st : collectors) : Prop :=
  (forall f, _first_step (shared st) = Some f -> first_step_source c0 (observed st) f)
  /\ Forall (fun t => position_justified c0 (observed st) (_first_step (shared st))
                       (at_line t)) (threads st)
  /\ exists new,
       reported (shared st) = reported c0 ++ new
       /\ Forall (fun e => e ∈ observed st
                          /\ exists f, first_step_source c0 (observed st) f
                                       /\ step e <> f) new.

End Monitor.

Arguments Runs {line} _.
Arguments Fails {line} _.
Arguments Stop_is_called {line}.
Arguments Start_is_called {line} _.
Arguments Start_collectors {line}.
Arguments Stop_collectors {line}.
Arguments Collect_events {line} _.

End Atorch.

(** ** The task manager as the servicer's collaborator *)

Module Wiring.
Import Resource Shard Servicer.

Section TaskManagerInstance.

Context {D Splitter Checkpoint P : Type}.
Context `{DatasetManger D Splitter Checkpoint} `{PerfMonitor P}.
Variable Callback : Type.

#[local] Instance TaskManager_like : TaskManagerLike (TaskManager D P Callback) := {
  tm_has_dataset name tm :=
    match get_dataset Callback name tm with Some _ => true | None => false end;
  tm_dataset_completed name tm :=
    match get_dataset Callback name tm with
    | Some dataset => completed dataset
    | None => false
    end;
  tm_get_dataset_task := get_dataset_task Callback;
  tm_reset_worker_start_task_time := reset_worker_start_task_time Callback;
  tm_report_dataset_task request success now tm :=
    report_dataset_task Callback request success now tm
}.

End TaskManagerInstance.
End Wiring.

(** ** The servicer's calls that reach into the task manager's datasets *)

Module ShardRpc.
Import Resource Shard Servicer.

(** [ReportDatasetShardParamsRequest] *)
Record ShardParams : Type := {
  batch_size : Z;
  num_epochs : Z;
  dataset_size : Z;
  shuffle : bool;
  num_minibatches_per_shard : Z;
  params_dataset_name : string;
  params_task_type : TaskType;
  storage_type : string
}.

Definition _DEFAULT_NUM_MINIBATCHES_PER_SHARD : Z := 100.

(** [TrainingLoopStatus] as [query_training_status] answers it. *)
Inductive TrainingLoopStatus : Type := START | PENDING.

Section Rpcs.

Context {D Splitter Checkpoint P : Type}.
Context `{DatasetManger D Splitter Checkpoint} `{PerfMonitor P}.
Variable Callback : Type.
Context {N Running Sp J R : Type}.
Context `{NodeManager N Running} `{SpeedMonitor Sp} `{JobMetricCollector J Sp Running}.

(** [new_dataset_splitter] of [dataset_splitter.py], [to_json] of the shard
    checkpoint, and the two collector methods [report_dataset_shard_params]
    calls: none is among the sources. *)
Variable new_dataset_splitter : bool -> Z -> Z -> Z -> string -> string -> Splitter.
Variable to_json : Checkpoint -> string.
Variable collect_dataset_metric : J -> string -> Z -> string -> J.
Variable collect_training_hyper_params : J -> Z -> Z -> J.

Abbreviation Servicer := (MasterServicer (TaskManager D P Callback) N Sp J R).

(** [report_dataset_shard_params] *)
Definition report_dataset_shard_params (request : ShardParams) : M Servicer unit :=
  let num_minibatches_per_task :=
    if num_minibatches_per_shard request =? 0
    then _DEFAULT_NUM_MINIBATCHES_PER_SHARD
    else num_minibatches_per_shard request in
  let shard_size := batch_size request * num_minibatches_per_task in
  let splitter :=
    new_dataset_splitter (shuffle request) shard_size (dataset_size request)
      (num_epochs request) (params_dataset_name request) (storage_type request) in
  _ ← modify (fun s =>
        set_task_manager
          (new_dataset Callback (batch_size request) (dataset_size request)
             (params_dataset_name request) splitter (params_task_type request)
             (_task_manager s)) s);
  self ← get;
  match _job_metric_collector self with
  | Some j =>
      let j :=
        collect_dataset_metric j (params_dataset_name request)
          (dataset_size request) (storage_type request) in
      let j :=
        if is_TRAINING (params_task_type request)
        then collect_training_hyper_params j (num_epochs request) (batch_size request)
        else j in
      put (set_job_metric_collector (Some j) self)
  | None => mret tt
  end.

(** [get_shard_checkpoint]: the content of the response. *)
Definition get_shard_checkpoint (name : string) : M Servicer string :=
  self ← get;
  dataset ← attr_of (get_dataset Callback name (_task_manager self));
  match checkpoint dataset with
  | Some c => mret (to_json c)
  | None => mret EmptyString
  end.

(** [report_shard_checkpoint]: the [success] field of the response. *)
Definition report_shard_checkpoint (content : string) : M Servicer bool :=
  on_task_manager (restore_dataset_from_checkpoint Callback content).

(** [get_dataset_epoch]: the [epoch] field of the response. *)
Definition get_dataset_epoch (name : string) : M Servicer Z :=
  self ← get;
  mret (Shard.get_dataset_epoch Callback name (_task_manager self)).

(** [query_training_status] *)
Definition query_training_status : M Servicer TrainingLoopStatus :=
  self ← get;
  if training_started Callback (_task_manager self) then mret START else mret PENDING.

End Rpcs.
End ShardRpc.

(** ** [os.path] *)

Module OsPath.
Import Stdlib.Strings.Ascii.

(** [os.path.join(a, b)] on POSIX for a relative [b]. *)
Definition ends_with_slash (a : string) : bool :=
  match rev (list_ascii_of_string a) with
  | c :: _ => Ascii.eqb c "/"%char
  | [] => false
  end.

Definition path_join (a b : string) : string :=
  if String.eqb a EmptyString || ends_with_slash a then a ++ b
  else a ++ "/" ++ b.

End OsPath.

(** ** [common/log.py] *)

Module Log.
Import Stdlib.Strings.Ascii OsPath.

(** A Python [str] is embedded as the string of its UTF-8 bytes: equality
    and membership in a list of ASCII literals are those of Python.
    [str.isdigit] and [int] are modelled on ASCII strings; what they answer
    on a string with a character outside ASCII (a Unicode digit) is left to
    the parameters below. *)
Definition chars (s : string) : list ascii := list_ascii_of_string s.

Definition is_ascii_char (a : ascii) : bool := (nat_of_ascii a <? 128)%nat.

Definition is_ascii_digit (a : ascii) : bool :=
  (48 <=? nat_of_ascii a)%nat && (nat_of_ascii a <=? 57)%nat.

Definition digit_value (a : ascii) : Z := Z.of_nat (nat_of_ascii a) - 48.

Definition is_ascii (s : string) : bool := forallb is_ascii_char (chars s).

Definition all_ascii_digits (s : string) : bool := forallb is_ascii_digit (chars s).

(** The number a string of ASCII digits denotes in base ten. *)
Definition decimal_value (s : string) : Z :=
  fold_left (fun acc a => 10 * acc + digit_value a) (chars s) 0.

(** [bool(s)] on a string: the empty string is falsy. *)
Definition truthy (s : string) : bool := negb (String.eqb s EmptyString).

Definition _LOGGER_LEVEL_RANGE : list string :=
  ["DEBUG"; "INFO"; "WARNING"; "ERROR"; "CRITICAL"].

(** The handlers the module deals with: the stream handler [_ch] on
    [sys.stderr], the rotating file handler it builds, and whatever the
    caller passes. *)
Inductive Handler : Type :=
| StreamHandler_stderr
| RotatingFileHandler (filename : string) (maxBytes backupCount : Z)
| Caller_handler (id : nat).

(** A [logging.Logger], by what [get_logger] assigns. *)
Record Logger : Type := {
  level : string;
  handlers : list Handler;
  propagate : bool
}.

(** A logger as [logging.getLogger] creates it. *)
Definition new_Logger : Logger :=
  {| level := "NOTSET"; handlers := []; propagate := true |}.

(** The state the module works on: the registry of the [logging] module,
    which [logging.getLogger] reads and extends, and the module's two
    globals.  A logger object is referred to by its name in the registry. *)
Record Logging : Type := {
  loggers : gmap string Logger;
  _LOGGER_CACHE : gmap string string;
  _DEFAULT_HANDLERS : list Handler
}.

(** The module's globals after import, over an empty registry. *)
Definition initial_Logging : Logging :=
  {| loggers := ∅; _LOGGER_CACHE := ∅; _DEFAULT_HANDLERS := [StreamHandler_stderr] |}.

Definition set_loggers (l : gmap string Logger) (s : Logging) : Logging :=
  {| loggers := l; _LOGGER_CACHE := _LOGGER_CACHE s;
     _DEFAULT_HANDLERS := _DEFAULT_HANDLERS s |}.

(** [logging.getLogger(name)]: the registered logger, created on first
    use. *)
Definition getLogger (name : string) : M Logging Logger :=
  s ← get;
  match loggers s !! name with
  | Some l => mret l
  | None =>
      _ ← put (set_loggers (<[name := new_Logger]> (loggers s)) s);
      mret new_Logger
  end.

(** An assignment to an attribute of the logger registered as [name]. *)
Definition update_logger (name : string) (f : Logger -> Logger) : M Logging unit :=
  modify (fun s =>
    set_loggers
      (<[name := f (default new_Logger (loggers s !! name))]> (loggers s)) s).

Definition setLevel (l : string) (g : Logger) : Logger :=
  {| level := l; handlers := handlers g; propagate := propagate g |}.

Definition set_handlers (h : list Handler) (g : Logger) : Logger :=
  {| level := level g; handlers := h; propagate := propagate g |}.

Definition set_propagate (b : bool) (g : Logger) : Logger :=
  {| level := level g; handlers := handlers g; propagate := b |}.

Definition set_default_handlers (h : list Handler) (s : Logging) : Logging :=
  {| loggers := loggers s; _LOGGER_CACHE := _LOGGER_CACHE s; _DEFAULT_HANDLERS := h |}.

(** The list object a caller passes as [handlers]: a list of its own, the
    module's [_DEFAULT_HANDLERS] itself, or the list that is the [handlers]
    attribute of a registered logger.  ([logger.handlers = list(handlers)]
    stores a copy, so a logger holds neither the caller's list nor the
    module's.) *)
Inductive handlers_arg : Type :=
| Own_list (h : list Handler)
| The_default_handlers
| Handlers_of (logger : string).

(** What the list passed holds. *)
Definition contents (a : handlers_arg) (s : Logging) : list Handler :=
  match a with
  | Own_list h => h
  | The_default_handlers => _DEFAULT_HANDLERS s
  | Handlers_of other => handlers (default new_Logger (loggers s !! other))
  end.

(** [handlers.extend(_DEFAULT_HANDLERS)]: the list passed is extended in
    place, where it is held, and the result is what it holds afterwards.
    Extending the module's list by itself doubles it. *)
Definition extend_by_default_handlers (a : handlers_arg) : M Logging (list Handler) :=
  s ← get;
  let extended := contents a s ++ _DEFAULT_HANDLERS s in
  match a with
  | Own_list _ => mret extended
  | The_default_handlers =>
      _ ← put (set_default_handlers extended s);
      mret extended
  | Handlers_of other =>
      _ ← update_logger other (set_handlers extended);
      mret extended
  end.

Section Log.

(** [os.environ], and the names of the variables ([BasicClass] of
    [common/constants.py] is not among the sources). *)
Variable environ : gmap string string.
Variable LOG_LEVEL_ENV : string.
Variable LOG_ROOT_DIR_ENV : string.
Variable LOG_ROTATE_MAX_BYTES_ENV : string.
Variable LOG_ROTATE_BACKUP_COUNT_ENV : string.

(** [str.isdigit] and [int] on a string with a character outside ASCII, and
    whether the interpreter's limit on the length of a decimal string
    ([sys.set_int_max_str_digits]) lets [int] convert a string of ASCII
    digits. *)
Variable unicode_isdigit : string -> bool.
Variable unicode_int : string -> result Z.
Variable within_int_max_str_digits : string -> bool.

(** [os.makedirs(log_dir, exist_ok=True)] and the opening of the log file
    by [RotatingFileHandler(...)]: they succeed or raise. *)
Variable makedirs : string -> result unit.
Variable open_log_file : string -> result unit.

(** [s.isdigit()] *)
Definition isdigit (s : string) : bool :=
  if is_ascii s then truthy s && all_ascii_digits s else unicode_isdigit s.

(** [int(s)] for a string that [isdigit] accepts. *)
Definition int_of_digits (s : string) : result Z :=
  if is_ascii s then
    if within_int_max_str_digits s then Ok (decimal_value s) else Raise ValueError
  else unicode_int s.

(** [os.getenv(key, "")] *)
Definition getenv_or_empty (key : string) : string :=
  default EmptyString (environ !! key).

(** [get_log_level] *)
Definition get_log_level : string :=
  match environ !! LOG_LEVEL_ENV with
  | None => "INFO"
  | Some log_level =>
      if negb (truthy log_level)
         || negb (existsb (String.eqb log_level) _LOGGER_LEVEL_RANGE)
      then "INFO"
      else log_level
  end.

(** [get_base_log_dir] *)
Definition get_base_log_dir : string := getenv_or_empty LOG_ROOT_DIR_ENV.

(** [get_base_log_file] *)
Definition get_base_log_file : result string :=
  let log_dir := get_base_log_dir in
  if truthy log_dir then
    match makedirs log_dir with
    | Ok _ => Ok (path_join log_dir "dlrover.log")
    | Raise e => Raise e
    end
  else Ok EmptyString.

(** The shape of the two functions that read a number from the environment:
    [s and s.isdigit() and int(s) >= least], then [return int(s)]. *)
Definition number_from_env (key : string) (least fallback : Z) : result Z :=
  let s := getenv_or_empty key in
  if truthy s && isdigit s then
    match int_of_digits s with
    | Ok v => if least <=? v then int_of_digits s else Ok fallback
    | Raise e => Raise e
    end
  else Ok fallback.

(** [get_file_handler_max_bytes] *)
Definition get_file_handler_max_bytes : result Z :=
  number_from_env LOG_ROTATE_MAX_BYTES_ENV (1024 * 1024) (200 * 1024 * 1024).

(** [get_file_handler_backup_count] *)
Definition get_file_handler_backup_count : result Z :=
  number_from_env LOG_ROTATE_BACKUP_COUNT_ENV 1 5.

(** [__setup_extra_logger] *)
Definition __setup_extra_logger : M Logging unit :=
  _ ← getLogger "tornado.access";
  update_logger "tornado.access" (setLevel "WARNING").

(** The handlers [get_logger] builds when the caller passes none. *)
Definition own_handlers : M Logging (list Handler) :=
  base_log_file ← Shard.lift_result get_base_log_file;
  if truthy base_log_file then
    max_bytes ← Shard.lift_result get_file_handler_max_bytes;
    backup_count ← Shard.lift_result get_file_handler_backup_count;
    _ ← Shard.lift_result (open_log_file base_log_file);
    s ← get;
    mret (RotatingFileHandler base_log_file max_bytes backup_count
            :: _DEFAULT_HANDLERS s)
  else
    s ← get;
    mret (_DEFAULT_HANDLERS s).

(** [get_logger].  The result is the logger returned, by its name in the
    registry, and what the list passed holds when the call returns. *)
Definition get_logger (name : string) (handlers0 : option handlers_arg) (update : bool)
  : M Logging (string * option (list Handler)) :=
  _ ← __setup_extra_logger;
  s ← get;
  match (if negb update then _LOGGER_CACHE s !! name else None) with
  | Some cached => mret (cached, (fun a => contents a s) <$> handlers0)
  | None =>
      _ ← getLogger name;
      _ ← update_logger name (setLevel get_log_level);
      handlers1 ←
        match handlers0 with
        | None => own_handlers
        | Some a => extend_by_default_handlers a
        end;
      _ ← update_logger name (set_handlers handlers1);
      _ ← update_logger name (set_propagate false);
      mret (name, match handlers0 with None => None | Some _ => Some handlers1 end)
  end.

(** The calls the module receives, and the state after them. *)
Inductive call : Type :=
| Call_get_logger (name : string) (handlers0 : option handlers_arg) (update : bool).

(** Whether a call passes the module's own [_DEFAULT_HANDLERS]. *)
Definition passes_the_default_handlers (c : call) : bool :=
  match c with
  | Call_get_logger _ (Some The_default_handlers) _ => true
  | _ => false
  end.

Definition after (c : call) (s : Logging) : Logging :=
  match c with
  | Call_get_logger name handlers0 update => fst (get_logger name handlers0 update s)
  end.

Definition run (calls : list call) (s : Logging) : Logging :=
  fold_left (fun s c => after c s) calls s.

End Log.
End Log.

(** ** [trainer/torch/flash_checkpoint/megatron_dist_ckpt.py] *)

Module Megatron.
Import OsPath.

(** ["{:0wd}".format(z)]: the sign, then zeros, then the decimal digits, at
    least [w] characters in all; a number that needs more is not cut. *)
Definition zero_padded (width : nat) (z : Z) : string :=
  let digits := N.to_uint (Z.abs_N z) in
  let sign := if z <? 0 then 1%nat else 0%nat in
  let zeros := (width - sign - Decimal.nb_digits digits)%nat in
  (if z <? 0 then "-" else "")
  ++ DecimalString.NilEmpty.string_of_uint (Nat.iter zeros Decimal.D0 digits).

(** ["iter_{:07d}".format(step)] *)
Definition iter_directory (step : Z) : string := "iter_" ++ zero_padded 7 step.

(** [os.path.join(checkpoint_dir, directory)] *)
Definition step_path (checkpoint_dir : string) (step : Z) : string :=
  path_join checkpoint_dir (iter_directory step).

Section Strategies.

(** The function that removes a directory: it succeeds or raises. *)
Variable delete_func : string -> result unit.

(** [try: delete_func(rm_dir) / except Exception: ...], with the call
    recorded by [record]. *)
Definition try_delete {S} (record : string -> S -> S) (rm_dir : string) : M S unit :=
  try_except
    (_ ← modify (record rm_dir);
     Shard.lift_result (delete_func rm_dir))
    (fun _ => mret tt).

(** *** [KeepStepIntervalStrategy] *)

Record KeepStepIntervalStrategy : Type := {
  _keep_interval : Z;
  interval_checkpoint_dir : string;
  (** history variable: the paths handed to [delete_func], oldest first *)
  interval_deleted : list string
}.

(** [__init__] *)
Definition new_KeepStepIntervalStrategy (keep_interval : Z) (checkpoint_dir : string)
  : KeepStepIntervalStrategy :=
  {| _keep_interval := keep_interval;
     interval_checkpoint_dir := checkpoint_dir;
     interval_deleted := [] |}.

Definition interval_record (rm_dir : string) (s : KeepStepIntervalStrategy)
  : KeepStepIntervalStrategy :=
  {| _keep_interval := _keep_interval s;
     interval_checkpoint_dir := interval_checkpoint_dir s;
     interval_deleted := interval_deleted s ++ [rm_dir] |}.

(** [clean_up]; [step % 0] raises [ZeroDivisionError], which is not one of
    the exceptions [Py] names. *)
Definition interval_clean_up (step : Z) : M KeepStepIntervalStrategy unit :=
  self ← get;
  if _keep_interval self =? 0 then raise OtherException
  else if step mod _keep_interval self =? 0 then mret tt
  else try_delete interval_record (step_path (interval_checkpoint_dir self) step).

(** *** [KeepLatestStepStrategy] *)

Record KeepLatestStepStrategy : Type := {
  _max_to_keep : Z;
  latest_checkpoint_dir : string;
  _steps : list Z;
  (** history variable: the paths handed to [delete_func], oldest first *)
  latest_deleted : list string
}.

(** [__init__] *)
Definition new_KeepLatestStepStrategy (max_to_keep : Z) (checkpoint_dir : string)
  : KeepLatestStepStrategy :=
  {| _max_to_keep := Z.max max_to_keep 1;
     latest_checkpoint_dir := checkpoint_dir;
     _steps := [];
     latest_deleted := [] |}.

Definition set_steps (l : list Z) (s : KeepLatestStepStrategy) : KeepLatestStepStrategy :=
  {| _max_to_keep := _max_to_keep s;
     latest_checkpoint_dir := latest_checkpoint_dir s;
     _steps := l;
     latest_deleted := latest_deleted s |}.

Definition latest_record (rm_dir : string) (s : KeepLatestStepStrategy)
  : KeepLatestStepStrategy :=
  {| _max_to_keep := _max_to_keep s;
     latest_checkpoint_dir := latest_checkpoint_dir s;
     _steps := _steps s;
     latest_deleted := latest_deleted s ++ [rm_dir] |}.

(** [clean_up]; [pop(0)] on an empty list would raise [IndexError], another
    exception [Py] does not name. *)
Definition latest_clean_up (step : Z) : M KeepLatestStepStrategy unit :=
  _ ← modify (fun s => set_steps (_steps s ++ [step]) s);
  self ← get;
  if Z.of_nat (length (_steps self)) =? _max_to_keep self then
    match _steps self with
    | rm_step :: rest =>
        _ ← put (set_steps rest self);
        try_delete latest_record (step_path (latest_checkpoint_dir self) rm_step)
    | [] => raise OtherException
    end
  else mret tt.

(** The strategy after [clean_up] has been called with each step in turn,
    whether the calls returned or raised. *)
Definition interval_run (steps : list Z) (s : KeepStepIntervalStrategy)
  : KeepStepIntervalStrategy :=
  fold_left (fun s step => fst (interval_clean_up step s)) steps s.

Definition latest_run (steps : list Z) (s : KeepLatestStepStrategy)
  : KeepLatestStepStrategy :=
  fold_left (fun s step => fst (latest_clean_up step s)) steps s.

End Strategies.

(** [get_dist_optimizer_checkpoint_name]; [rank] is [dist.get_rank()] when
    the process group is initialized. *)
Definition get_dist_optimizer_checkpoint_name
    (rank : option Z) (checkpoints_path : string) (iteration : Z) (release : bool)
  : string :=
  let directory := if release then "release" else iter_directory iteration in
  let rank := match rank with Some r => r | None => 0 end in
  let common_path :=
    path_join (path_join checkpoints_path directory) ("rank_" ++ zero_padded 5 rank) in
  path_join common_path "distrib_optim.pt".

End Megatron.

(** ** Concrete collaborators for the examples *)

Module Fixtures.
Import Resource Plan Job Shard Servicer.

(** Sample values for the constants of [NodeResourceLimit]; the docstring of
    [adjust_oom_worker_resource] gives the factor 1.5. *)
Definition sample_limit : NodeResourceLimit :=
  {| MIN_VALID_MEMORY := 1024;
     MIN_VALID_CPU := 2;
     MAX_PS_NUM := 15;
     MAX_MEMORY := 65536;
     INCREMENTAL_MEMORY_FACTOR := 3 # 2 |}.

Definition easydl_on : Job.Context :=
  {| easydl_worker_enabled := true; easydl_ps_enabled := true |}.

(** An optimizer that answers from a script, one entry per call, and with an
    empty plan once the script is used up. *)
Definition scripted : Type := list (option ResourcePlan).

Definition next_answer (o : scripted) : scripted * option ResourcePlan :=
  match o with
  | [] => ([], Some new_plan)
  | answer :: o' => (o', answer)
  end.

#[global] Instance scripted_optimizer : ResourceOptimizer scripted := {
  generate_opt_plan o _ _ := next_answer o;
  generate_oom_recovery_plan o _ _ := next_answer o
}.

(** A stand-in for [NodeGroupResource.update]: positive values are taken. *)
Definition update_positive (g : NodeGroupResource) (n : Z) (c : Q) (m : Z)
  : NodeGroupResource :=
  let g := if 0 <? n then with_count n g else g in
  let r := node_resource g in
  let r := if Qgtb c 0 then with_cpu c r else r in
  let r := if 0 <? m then with_memory m r else r in
  with_node_resource r g.

Definition resource (c : Q) (m : Z) : NodeResource :=
  {| cpu := c; memory := m; gpu_type := EmptyString; gpu_num := 0 |}.

Definition group (n : Z) (c : Q) (m : Z) : NodeGroupResource :=
  {| count := n; node_resource := resource c m; priority := None |}.

Definition plan_of (groups : list (NodeType * NodeGroupResource)) : ResourcePlan :=
  {| node_group_resources := list_to_map groups; node_resources := ∅ |}.

Definition node (n : string) (m : Z) : Node :=
  {| name := n; config_resource := resource 4 m |}.

(** A job whose user asked for 4 workers and 20 parameter servers, each with
    4 cores and 8192 MiB. *)
Definition pinned_job (script : scripted) : JobResourceOptimizer scripted :=
  new_JobResourceOptimizer (group 4 4 8192) (group 20 4 8192) script.

(** A job whose user set nothing. *)
Definition unpinned_job (script : scripted) : JobResourceOptimizer scripted :=
  new_JobResourceOptimizer (group 0 0 0) (group 0 0 0) script.

(** The job once [init_job_resource] has run. *)
Definition initialised (s : JobResourceOptimizer scripted) : JobResourceOptimizer scripted :=
  fst (_init_job_resource_by_optimizer sample_limit easydl_on update_positive new_plan s).

(** The job of the OOM scenario: the user's workers have 8192 MiB, the
    optimizer has no initial plan and then proposes 12288 MiB after the OOM. *)
Definition oom_plan : ResourcePlan := plan_of [(WORKER, group 0 0 12288)].

Definition oom_job : JobResourceOptimizer scripted :=
  initialised (pinned_job [None; Some oom_plan]).

(** A job with nothing set by the user, initialised, whose optimizer then
    answers with an empty plan. *)
Definition idle_job : JobResourceOptimizer scripted :=
  initialised (unpinned_job [None; Some new_plan]).

(** Modelled from the spec: a [DatasetManger] ([base_dataset_manager.py] and
    [batch_dataset_manager.py] are missing), with the queues of the data
    model: [todo] is first-in first-out, a dispatched task moves to [doing], a
    success removes it, a failure puts it back at the head of [todo]. *)
Record dataset : Type := {
  ds_task_type : TaskType;
  ds_batch_size : Z;
  ds_todo : list Task;
  ds_doing : list (Z * DoingTask);
  ds_latest_task_end_time : Q;
  ds_completed_step : Z
}.

Definition invalid_task : Task :=
  {| task_id := -1; task_type := NONE;
     shard := {| shard_name := EmptyString; shard_start := -1; shard_end := -1;
                 record_indices := [] |} |}.

Definition ds_get_task (d : dataset) (t : NodeType) (n : Z) : dataset * Task :=
  match ds_todo d with
  | [] => (d, invalid_task)
  | x :: rest =>
      ({| ds_task_type := ds_task_type d; ds_batch_size := ds_batch_size d;
          ds_todo := rest;
          ds_doing := ds_doing d
                      ++ [(task_id x, {| task := x; node_type := t; node_id := n;
                                         start_time := 0 |})];
          ds_latest_task_end_time := ds_latest_task_end_time d;
          ds_completed_step := ds_completed_step d |}, x)
  end.

Definition ds_find (id : Z) (d : dataset) : option DoingTask :=
  snd <$> find (fun p => fst p =? id) (ds_doing d).

Definition ds_report (d : dataset) (id : Z) (success : bool)
  : dataset * (bool * option DoingTask) :=
  match ds_find id d with
  | None => (d, (false, None))
  | Some dt =>
      let rest := filter (fun p => fst p ≠ id) (ds_doing d) in
      if success then
        ({| ds_task_type := ds_task_type d; ds_batch_size := ds_batch_size d;
            ds_todo := ds_todo d; ds_doing := rest;
            ds_latest_task_end_time := ds_latest_task_end_time d;
            ds_completed_step :=
              if is_TRAINING (task_type (task dt))
              then ds_completed_step d + 1 else ds_completed_step d |},
         (true, Some dt))
      else
        ({| ds_task_type := ds_task_type d; ds_batch_size := ds_batch_size d;
            ds_todo := task dt :: ds_todo d; ds_doing := rest;
            ds_latest_task_end_time := ds_latest_task_end_time d;
            ds_completed_step := ds_completed_step d |},
         (false, Some dt))
  end.

(** A splitter that already holds its tasks, and a checkpoint that names a
    dataset and holds the tasks to restore. *)
Definition splitter : Type := list Task.
Definition shard_checkpoint : Type := string * list Task.

Definition ds_restore (d : dataset) (c : shard_checkpoint) : dataset * result unit :=
  ({| ds_task_type := ds_task_type d; ds_batch_size := ds_batch_size d;
      ds_todo := snd c; ds_doing := [];
      ds_latest_task_end_time := ds_latest_task_end_time d;
      ds_completed_step := ds_completed_step d |}, Ok tt).

(** A blob is the dataset's name; the empty blob does not parse. *)
Definition blob_from_json (blob : string) : result shard_checkpoint :=
  if String.eqb blob EmptyString then Raise ValueError else Ok (blob, []).

#[global] Instance dataset_manager : DatasetManger dataset splitter shard_checkpoint := {
  BatchDatasetManager t b s :=
    {| ds_task_type := t; ds_batch_size := b; ds_todo := s; ds_doing := [];
       ds_latest_task_end_time := 0; ds_completed_step := 0 |};
  Shard.get_task := ds_get_task;
  report_task_status := ds_report;
  doing := ds_doing;
  todo := ds_todo;
  get_latest_task_end_time := ds_latest_task_end_time;
  completed d := match ds_todo d, ds_doing d with [], [] => true | _, _ => false end;
  get_epoch _ := 0;
  get_completed_step := ds_completed_step;
  checkpoint d := None;
  restore_checkpoint := ds_restore;
  from_json := blob_from_json;
  dataset_name := fst
}.

(** A perf monitor that keeps nothing. *)
#[global] Instance no_perf_monitor : PerfMonitor unit := {
  reset_running_perf_monitor p := p;
  set_worker_start_eval_time p _ := p;
  add_running_worker p _ _ := p;
  update_worker_eval_time p _ := p
}.

(** Timeout callbacks are told apart by a number. *)
Definition manager : Type := TaskManager dataset unit nat.

#[global] Instance manager_like : TaskManagerLike manager :=
  Wiring.TaskManager_like nat.

Definition fresh_manager : manager := new_TaskManager nat 60 tt.

Definition a_shard (a b : Z) : Shard :=
  {| shard_name := "train"; shard_start := a; shard_end := b; record_indices := [] |}.

Definition a_task (id : Z) (t : TaskType) : Task :=
  {| task_id := id; task_type := t; shard := a_shard (100 * id) (100 * id + 100) |}.

(** A task manager with a timeout of 60 s and two callbacks, whose dataset
    "eval" has handed a training task to worker 1 at time 0 and evaluation
    tasks to worker 2 at time 10 and to worker 3 at time 5. *)
Definition sweeping_manager : manager :=
  fst (get_dataset_task nat WORKER 3 "eval" 5
    (fst (get_dataset_task nat WORKER 2 "eval" 10
      (fst (get_dataset_task nat WORKER 1 "eval" 0
        (new_dataset nat 32 300 "eval"
           [a_task 0 TRAINING; a_task 1 EVALUATION; a_task 2 EVALUATION] EVALUATION
           (set_task_timeout_callback nat 8%nat
              (set_task_timeout_callback nat 7%nat fresh_manager)))))))).

Definition sweeping_dataset : dataset :=
  default (BatchDatasetManager NONE 0 []) (get_dataset nat "eval" sweeping_manager).

(** A node manager reduced to its running workers and a count of the
    [start_auto_scale] calls; a speed monitor reduced to the two readings. *)
Record node_manager : Type := {
  running_workers : list Z;
  scale_calls : nat
}.

#[global] Instance node_manager_like : NodeManager node_manager Z := {
  get_running_workers := running_workers;
  get_running_nodes := running_workers;
  start_auto_scale n :=
    ({| running_workers := running_workers n; scale_calls := S (scale_calls n) |},
     Ok tt)
}.

Record speed_monitor : Type := {
  completed_steps : Z;
  samples : Z
}.

#[global] Instance speed_monitor_like : SpeedMonitor speed_monitor := {
  completed_global_step := completed_steps;
  get_sample_count := samples;
  collect_global_step m step_ _ :=
    {| completed_steps := step_; samples := samples m + 1 |}
}.

#[global] Instance collector_like : JobMetricCollector unit speed_monitor Z := {
  collect_runtime_stats j _ _ := j
}.

(** A task manager that knows every dataset, never has a task to hand out
    and whose datasets are never completed. *)
#[global] Instance drained : TaskManagerLike unit := {
  tm_has_dataset _ _ := true;
  tm_dataset_completed _ _ := false;
  tm_get_dataset_task _ _ _ _ tm := (tm, None);
  tm_reset_worker_start_task_time _ _ tm := tm;
  tm_report_dataset_task _ _ _ tm := (tm, Ok (None, None))
}.

Definition sample_context : Servicer.Context :=
  {| seconds_to_autoscale_worker := 90; sample_count_to_adjust_worker := 5 |}.

Definition servicer : Type :=
  MasterServicer manager node_manager speed_monitor unit unit.

(** A task manager whose dataset "train" has two training tasks to hand
    out. *)
Definition serving_manager : manager :=
  new_dataset nat 32 200 "train" [a_task 0 TRAINING; a_task 1 TRAINING] TRAINING
    fresh_manager.

(** A servicer over it, with three running workers, no rendezvous server and
    no metric collector. *)
Definition a_servicer : servicer :=
  new_MasterServicer serving_manager
    (Some {| running_workers := [1; 2; 3]; scale_calls := 0 |})
    {| completed_steps := 0; samples := 0 |} None None.

(** A servicer whose dataset "train" has one task to hand out, numbered
    [2^31]: one more than an [int32] holds. *)
Definition a_servicer_past_int32 : servicer :=
  new_MasterServicer
    (new_dataset nat 32 200 "train" [a_task (2 ^ 31) TRAINING] TRAINING fresh_manager)
    (Some {| running_workers := [1; 2; 3]; scale_calls := 0 |})
    {| completed_steps := 0; samples := 0 |} None None.

(** A servicer whose speed monitor has taken nine samples, with the limit at
    five. *)
Definition a_sampled_servicer : servicer :=
  new_MasterServicer serving_manager
    (Some {| running_workers := [1; 2; 3]; scale_calls := 0 |})
    {| completed_steps := 40; samples := 9 |} None None.

(** A node manager whose [start_auto_scale] fails a number of times before
    it succeeds, and a servicer over it. *)
Record flaky_node_manager : Type := {
  failures_left : nat;
  start_attempts : nat
}.

#[global] Instance flaky_node_manager_like : NodeManager flaky_node_manager Z := {
  get_running_workers _ := [];
  get_running_nodes _ := [];
  start_auto_scale n :=
    ({| failures_left := pred (failures_left n);
        start_attempts := S (start_attempts n) |},
     match failures_left n with
     | O => Ok tt
     | S _ => Raise OtherException
     end)
}.

Definition a_flaky_servicer
  : MasterServicer manager flaky_node_manager speed_monitor unit unit :=
  new_MasterServicer serving_manager
    (Some {| failures_left := 1; start_attempts := 0 |})
    {| completed_steps := 40; samples := 9 |} None None.

(** Servicers over the drained task manager, with a rendezvous server and the
    given running workers, or without a rendezvous server. *)
Definition a_drained_servicer (rendezvous : option unit) (workers : list Z)
  : MasterServicer unit node_manager speed_monitor unit unit :=
  new_MasterServicer tt (Some {| running_workers := workers; scale_calls := 0 |})
    {| completed_steps := 0; samples := 0 |} rendezvous None.

Definition a_request : GetTaskRequest :=
  {| worker_type := WORKER; worker_id := 4; get_dataset_name := "train" |}.

(** Events of two log files: rank 0 starts step 5 and then step 6; rank 1
    only has a checkpoint event of step 7. *)
Definition an_event (t : Atorch.EventTargetName) (n : Atorch.TrainEventName)
    (k : Atorch.EventTypeName) (s : Z) : Atorch.event :=
  {| Atorch.ts := 0; Atorch.target := t; Atorch.event_name := n;
     Atorch.event_type := k; Atorch.step := s |}.

Definition rank0_log : list (result Atorch.event) :=
  [ Raise ValueError;
    Ok (an_event Atorch.SAVER Atorch.TRAIN_EVT_FLASH_CKPT Atorch.END 4);
    Ok (an_event Atorch.TRAINER Atorch.TRAIN_EVT_STEP Atorch.BEGIN 5);
    Ok (an_event Atorch.TRAINER Atorch.TRAIN_EVT_STEP Atorch.END 5);
    Ok (an_event Atorch.TRAINER Atorch.TRAIN_EVT_STEP Atorch.BEGIN 6) ].

Definition rank1_log : list (result Atorch.event) :=
  [ Ok (an_event Atorch.SAVER Atorch.TRAIN_EVT_FLASH_CKPT Atorch.END 7) ].

(** The lines of the sample logs are already parsed. *)
Definition parsed_line (l : result Atorch.event) : result Atorch.event := l.

(** A recovery plan for the parameter servers: 3 servers of 16384 MiB. *)
Definition ps_oom_plan : ResourcePlan := plan_of [(PS, group 3 4 16384)].

(** A splitter that makes one task of one shard, a checkpoint rendered by the
    name of its dataset, and metric collectors that keep nothing. *)
Definition one_shard_splitter
    (shuffle0 : bool) (shard_size dataset_size0 num_epochs0 : Z)
    (name0 storage : string) : splitter :=
  [ {| task_id := 0; task_type := TRAINING;
       shard := {| shard_name := name0; shard_start := 0; shard_end := shard_size;
                   record_indices := [] |} |} ].

Definition checkpoint_to_json (c : shard_checkpoint) : string := fst c.

Definition no_dataset_metric (j : unit) (name0 : string) (size : Z) (storage : string)
  : unit := j.

Definition no_hyper_params (j : unit) (epochs batch : Z) : unit := j.

(** The shard parameters a worker reports for a dataset of 1000 records in
    batches of 32, leaving the number of minibatches per shard unset. *)
Definition shard_params (name0 : string) (batch size : Z) : ShardRpc.ShardParams :=
  {| ShardRpc.batch_size := batch;
     ShardRpc.num_epochs := 1;
     ShardRpc.dataset_size := size;
     ShardRpc.shuffle := false;
     ShardRpc.num_minibatches_per_shard := 0;
     ShardRpc.params_dataset_name := name0;
     ShardRpc.params_task_type := TRAINING;
     ShardRpc.storage_type := EmptyString |}.

(** The servicer [a_servicer] with a metric collector, after a first
    [get_task] at time 1000. *)
Definition a_measured_servicer : servicer :=
  fst (get_task a_request 1000 1000 1000
         (new_MasterServicer serving_manager
            (Some {| running_workers := [1; 2; 3]; scale_calls := 0 |})
            {| completed_steps := 0; samples := 0 |} None (Some tt))).

(** An environment for [common/log.py], with sample names for the four
    variables; an interpreter without a limit on decimal strings, and a file
    system on which every operation succeeds. *)
Definition log_environ : gmap string string :=
  list_to_map
    [("LOG_LEVEL", "DEBUG"); ("LOG_ROOT_DIR", "/var/log/dlrover");
     ("LOG_ROTATE_MAX_BYTES", "10485760"); ("LOG_ROTATE_BACKUP_COUNT", "0")]%string.

Definition no_unicode_digit (s : string) : bool := false.
Definition no_unicode_int (s : string) : result Z := Raise ValueError.
Definition any_length (s : string) : bool := true.
Definition fs_ok (path : string) : result unit := Ok tt.

(** [get_logger] in that environment. *)
Definition sample_get_logger
    (name0 : string) (handlers0 : option Log.handlers_arg) (update : bool)
  : M Log.Logging (string * option (list Log.Handler)) :=
  Log.get_logger log_environ "LOG_LEVEL" "LOG_ROOT_DIR" "LOG_ROTATE_MAX_BYTES"
    "LOG_ROTATE_BACKUP_COUNT" no_unicode_digit no_unicode_int any_length fs_ok fs_ok
    name0 handlers0 update.

End Fixtures.

(** * Properties *)

(** ** Python's [int()] and [max()] *)

Module PyFacts.

Lemma int_inject_Z (z : Z) : Py.int (inject_Z z) = z.
Proof. unfold Py.int; simpl. apply Z.quot_1_r. Qed.

Lemma int_mono (a b : Q) : (a <= b)%Q -> Py.int a <= Py.int b.
Proof.
  destruct a as [an ad], b as [bn bd]; unfold Qle, Py.int; simpl; intros Hle.
  rewrite <- (Z.quot_mul_cancel_r an (Z.pos ad) (Z.pos bd)) by lia.
  rewrite <- (Z.quot_mul_cancel_r bn (Z.pos bd) (Z.pos ad)) by lia.
  rewrite (Z.mul_comm (Z.pos bd) (Z.pos ad)).
  apply Z.quot_le_mono; lia.
Qed.

Lemma max2_ge_l (a b : Q) : (a <= Py.max2 a b)%Q.
Proof. unfold Py.max2; destruct (Qlt_le_dec a b); lra. Qed.

Lemma max2_ge_r (a b : Q) : (b <= Py.max2 a b)%Q.
Proof. unfold Py.max2; destruct (Qlt_le_dec a b); lra. Qed.

Lemma max3_ge_2 (a b c : Q) : (b <= Py.max3 a b c)%Q.
Proof.
  unfold Py.max3. apply Qle_trans with (Py.max2 a b);
    [apply max2_ge_r | apply max2_ge_l].
Qed.

Lemma max3_ge_1 (a b c : Q) : (a <= Py.max3 a b c)%Q.
Proof.
  unfold Py.max3. apply Qle_trans with (Py.max2 a b);
    [apply max2_ge_l | apply max2_ge_l].
Qed.

Lemma max3_ge_3 (a b c : Q) : (c <= Py.max3 a b c)%Q.
Proof. unfold Py.max3. apply max2_ge_r. Qed.

(** Scaling a non-negative integer by a factor of at least one and truncating
    does not go below the integer. *)
Lemma int_scale_ge (m : Z) (f : Q) :
  0 <= m -> (1 <= f)%Q -> m <= Py.int (inject_Z m * f).
Proof.
  intros Hm Hf. rewrite <- (int_inject_Z m) at 1. apply int_mono.
  assert (0 <= inject_Z m)%Q by (unfold Qle; simpl; lia).
  nra.
Qed.

End PyFacts.

(** ** Binary64 rounding *)

Module FloatFacts.
Import Py.Float.

Lemma rne_div_near (a b : Z) :
  0 < b -> 2 * a - b <= 2 * (b * rne_div a b) <= 2 * a + b.
Proof.
  intros Hb. unfold rne_div.
  pose proof (Z.div_mod a b ltac:(lia)) as Hdm.
  pose proof (Z.mod_pos_bound a b Hb) as Hr.
  destruct (2 * (a mod b) <? b) eqn:E1; [apply Z.ltb_lt in E1; nia |].
  apply Z.ltb_ge in E1.
  destruct (b <? 2 * (a mod b)) eqn:E2; [apply Z.ltb_lt in E2; nia |].
  apply Z.ltb_ge in E2.
  destruct (Z.even (a / b)); nia.
Qed.

(** The nearest integer is within one half. *)
Lemma rne_near (y : Q) :
  (inject_Z (rne y) - (1 # 2) <= y <= inject_Z (rne y) + (1 # 2))%Q.
Proof.
  destruct y as [a b]. unfold rne; simpl.
  pose proof (rne_div_near a (Z.pos b) ltac:(lia)) as H.
  unfold Qle, Qminus, Qplus, Qopp, inject_Z; simpl. split; lia.
Qed.

(** An integer that a rational reaches is reached by its nearest integer. *)
Lemma rne_ge (c : Z) (y : Q) : (inject_Z c <= y)%Q -> c <= rne y.
Proof.
  intros H. destruct (rne_near y) as [_ Hu].
  assert (Hq : (inject_Z c <= inject_Z (rne y) + (1 # 2))%Q) by lra.
  unfold Qle, Qplus, inject_Z in Hq; simpl in Hq. lia.
Qed.

Lemma rne_le (c : Z) (y : Q) : (y <= inject_Z c)%Q -> rne y <= c.
Proof.
  intros H. destruct (rne_near y) as [Hl _].
  assert (Hq : (inject_Z (rne y) - (1 # 2) <= inject_Z c)%Q) by lra.
  unfold Qle, Qminus, Qplus, Qopp, inject_Z in Hq; simpl in Hq. lia.
Qed.

Lemma rne_exact (c : Z) (y : Q) : (y == inject_Z c)%Q -> rne y = c.
Proof.
  intros H. apply Z.le_antisymm; [apply rne_le | apply rne_ge]; rewrite H; lra.
Qed.

Lemma pow2_pos (e : Z) : (0 < 2 ^ e)%Q.
Proof. apply Qpower_0_lt. reflexivity. Qed.

Lemma pow2_plus (a b : Z) : (2 ^ (a + b) == 2 ^ a * 2 ^ b)%Q.
Proof. apply Qpower_plus. discriminate. Qed.

Lemma pow2_Z (n : Z) : 0 <= n -> (inject_Z (2 ^ n) == 2 ^ n)%Q.
Proof. intros Hn. apply (Zpower_Qpower 2 n Hn). Qed.

Lemma pow2_le (a b : Z) : a <= b -> (2 ^ a <= 2 ^ b)%Q.
Proof. intros H. apply Qpower_le_compat_l; [exact H | discriminate]. Qed.

Lemma inject_Z_le (a b : Z) : a <= b -> (inject_Z a <= inject_Z b)%Q.
Proof. intros H. rewrite <- Zle_Qle. exact H. Qed.

(** [ilog2] is the floor of the binary logarithm. *)
Lemma ilog2_spec (x : Q) :
  (0 < x)%Q -> (2 ^ ilog2 x <= x)%Q /\ (x < 2 ^ (ilog2 x + 1))%Q.
Proof.
  intros Hx. destruct x as [n d]. unfold ilog2; cbn [Qnum Qden].
  assert (Hn : 0 < n) by (unfold Qlt in Hx; simpl in Hx; lia).
  set (ln := Z.log2 n). set (ld := Z.log2 (Z.pos d)).
  destruct (Z.log2_spec n Hn) as [Hn1 Hn2]. fold ln in Hn1, Hn2.
  destruct (Z.log2_spec (Z.pos d) ltac:(lia)) as [Hd1 Hd2]. fold ld in Hd1, Hd2.
  assert (Hln : 0 <= ln) by apply Z.log2_nonneg.
  assert (Hld : 0 <= ld) by apply Z.log2_nonneg.
  assert (Hxq : (n # d == inject_Z n / inject_Z (Z.pos d))%Q) by apply Qmake_Qdiv.
  assert (Hdq : (0 < inject_Z (Z.pos d))%Q) by reflexivity.
  assert (En1 : (2 ^ ln <= inject_Z n)%Q)
    by (rewrite <- pow2_Z by exact Hln; apply inject_Z_le; exact Hn1).
  assert (En2 : (inject_Z n < 2 ^ (ln + 1))%Q).
  { rewrite <- pow2_Z by lia. rewrite <- Zlt_Qlt. replace (ln + 1) with (Z.succ ln) by lia.
    exact Hn2. }
  assert (Ed1 : (2 ^ ld <= inject_Z (Z.pos d))%Q)
    by (rewrite <- pow2_Z by exact Hld; apply inject_Z_le; exact Hd1).
  assert (Ed2 : (inject_Z (Z.pos d) < 2 ^ (ld + 1))%Q).
  { rewrite <- pow2_Z by lia. rewrite <- Zlt_Qlt. replace (ld + 1) with (Z.succ ld) by lia.
    exact Hd2. }
  (* x * d = n *)
  assert (Hmul : ((n # d) * inject_Z (Z.pos d) == inject_Z n)%Q)
    by (rewrite Hxq; field; lra).
  pose proof (pow2_pos ld) as Pld. pose proof (pow2_pos (ln - ld)) as Pk.
  pose proof (pow2_pos (ln - ld - 1)) as Pk1.
  assert (S1 : (2 ^ ln == 2 ^ (ln - ld) * 2 ^ ld)%Q)
    by (rewrite <- pow2_plus; apply Qpower_comp; [reflexivity | lia]).
  assert (S2 : (2 ^ ln == 2 ^ (ln - ld - 1) * 2 ^ (ld + 1))%Q)
    by (rewrite <- pow2_plus; apply Qpower_comp; [reflexivity | lia]).
  assert (S3 : (2 ^ (ln + 1) == 2 ^ (ln - ld + 1) * 2 ^ ld)%Q)
    by (rewrite <- pow2_plus; apply Qpower_comp; [reflexivity | lia]).
  assert (S4 : (2 ^ (ln - ld) == 2 ^ (ln - ld - 1 + 1))%Q)
    by (apply Qpower_comp; [reflexivity | lia]).
  pose proof (pow2_pos (ln - ld + 1)) as Pk2.
  pose proof (pow2_pos (ld + 1)) as Pld1.
  destruct (Qle_bool (2 ^ (ln - ld)) (n # d)) eqn:Et.
  - apply Qle_bool_iff in Et. split; [exact Et |].
    (* x * d = n < 2^(ln+1) = 2^(k+1) * 2^ld <= 2^(k+1) * d *)
    apply Qnot_le_lt. intros Hc.
    assert ((2 ^ (ln - ld + 1) * 2 ^ ld <= (n # d) * inject_Z (Z.pos d))%Q).
    { apply Qle_trans with (2 ^ (ln - ld + 1) * inject_Z (Z.pos d))%Q.
      - apply Qmult_le_l; [exact Pk2 | exact Ed1].
      - apply Qmult_le_r; [exact Hdq | exact Hc]. }
    lra.
  - assert (Hlt : (n # d < 2 ^ (ln - ld))%Q).
    { apply Qnot_le_lt. intros Hc. apply Qle_bool_iff in Hc. congruence. }
    split; [| rewrite <- S4; exact Hlt].
    (* 2^(k0-1) * d < 2^(k0-1) * 2^(ld+1) = 2^ln <= n = x * d *)
    apply Qnot_lt_le. intros Hc.
    assert (((n # d) * inject_Z (Z.pos d) < 2 ^ (ln - ld - 1) * 2 ^ (ld + 1))%Q).
    { apply Qlt_trans with (2 ^ (ln - ld - 1) * inject_Z (Z.pos d))%Q.
      - apply Qmult_lt_r; [exact Hdq | exact Hc].
      - apply Qmult_lt_l; [exact Pk1 | exact Ed2]. }
    lra.
Qed.


Lemma ilog2_of_zero (x : Q) : Qnum x = 0 -> ilog2 (Qabs x) <= 0.
Proof.
  destruct x as [n d]; cbn [Qnum]; intros ->. unfold ilog2, Qabs; cbn [Qnum Qden Z.abs].
  pose proof (Z.log2_nonneg (Z.pos d)).
  change (Z.log2 (Z.abs 0)) with 0.
  destruct (Qle_bool _ _); lia.
Qed.

Lemma Qabs_of_pos (x : Q) : (0 < x)%Q -> Qabs x = x.
Proof.
  destruct x as [n d]. unfold Qlt; cbn. intros H. unfold Qabs.
  rewrite Z.abs_eq by lia. reflexivity.
Qed.

Lemma pow2_minus (a b : Z) : (2 ^ (a - b) == 2 ^ a / 2 ^ b)%Q.
Proof. apply Qpower_minus. discriminate. Qed.

Lemma pow2_opp (a : Z) : (2 ^ (- a) == / 2 ^ a)%Q.
Proof. apply Qpower_opp. Qed.

Lemma round64_eq (x : Q) :
  round64 x = if Qle_bool (2 ^ 1024) (Qabs (rounded x))
              then Infinite (negb (Qle_bool 0 x)) else Finite (rounded x).
Proof. reflexivity. Qed.

(** Rounding does not go below an integer of at most 53 bits that the
    number reaches. *)
Lemma rounded_ge (c : Z) (x : Q) :
  0 <= c <= 2 ^ 53 -> (inject_Z c <= x)%Q -> (inject_Z c <= rounded x)%Q.
Proof.
  intros [Hc0 Hc] Hx. unfold rounded.
  set (e := ulp_exponent x).
  pose proof (pow2_pos e) as Pe.
  destruct (Z_le_gt_dec e 0) as [He | He].
  - (* the unit is at most one: [c / 2^e] is an integer *)
    assert (HC : (inject_Z (c * 2 ^ (- e)) == inject_Z c / 2 ^ e)%Q).
    { rewrite inject_Z_mult, pow2_Z by lia. rewrite pow2_opp. reflexivity. }
    assert (Hy : (inject_Z (c * 2 ^ (- e)) <= x / 2 ^ e)%Q).
    { rewrite HC. unfold Qdiv. apply Qmult_le_r; [apply Qinv_lt_0_compat; exact Pe | exact Hx]. }
    apply rne_ge in Hy. apply inject_Z_le in Hy.
    assert (Hc' : (inject_Z c == inject_Z (c * 2 ^ (- e)) * 2 ^ e)%Q)
      by (rewrite HC; field; lra).
    rewrite Hc'. apply Qmult_le_r; [exact Pe | exact Hy].
  - (* the unit is above one: the number is at least [2^53] *)
    assert (Hx0 : (0 < x)%Q).
    { apply Qnot_le_lt. intros Hle.
      assert (Hn : Qnum x = 0).
      { assert (H0 : (0 <= x)%Q) by (apply Qle_trans with (inject_Z c); [apply (inject_Z_le 0 c Hc0) | exact Hx]).
        destruct x as [n d]. unfold Qle in *; cbn in *. lia. }
      pose proof (ilog2_of_zero x Hn). unfold e, ulp_exponent in He. lia. }
    assert (Ek : e = ilog2 x - 52).
    { unfold e, ulp_exponent in *. rewrite Qabs_of_pos in * by exact Hx0. lia. }
    destruct (ilog2_spec x Hx0) as [Hk _].
    assert (Sk : (2 ^ ilog2 x == 2 ^ 52 * 2 ^ e)%Q).
    { rewrite <- pow2_plus. apply Qpower_comp; [reflexivity | lia]. }
    assert (Hy : (inject_Z (2 ^ 52) <= x / 2 ^ e)%Q).
    { rewrite pow2_Z by lia. apply Qle_shift_div_l; [exact Pe |]. rewrite <- Sk. exact Hk. }
    apply rne_ge in Hy. apply inject_Z_le in Hy. rewrite pow2_Z in Hy by lia.
    assert (H2 : (2 ^ 1 <= 2 ^ e)%Q) by (apply pow2_le; lia).
    assert (H53 : (inject_Z c <= 2 ^ 52 * 2 ^ 1)%Q).
    { rewrite <- pow2_plus. rewrite <- pow2_Z by lia. apply inject_Z_le. exact Hc. }
    pose proof (pow2_pos 52) as P52.
    apply Qle_trans with (2 ^ 52 * 2 ^ 1)%Q; [exact H53 |].
    apply Qle_trans with (2 ^ 52 * 2 ^ e)%Q.
    + apply Qmult_le_l; [exact P52 | exact H2].
    + apply Qmult_le_r; [exact Pe | exact Hy].
Qed.

(** Rounding a number of at least one loses at most one part in [2^53]. *)
Lemma rounded_rel (x : Q) :
  (1 <= x)%Q -> (x * (1 - 1 / 2 ^ 53) <= rounded x)%Q.
Proof.
  intros Hx. assert (Hx0 : (0 < x)%Q) by lra. unfold rounded.
  destruct (ilog2_spec x Hx0) as [Hk Hk1].
  assert (Hk0 : 0 <= ilog2 x).
  { assert (H1 : (2 ^ 0 < 2 ^ (ilog2 x + 1))%Q) by (apply Qle_lt_trans with x; [exact Hx | exact Hk1]).
    pose proof (Qpower_lt_compat_l_inv 2 0 (ilog2 x + 1) H1 eq_refl). lia. }
  assert (Ee : ulp_exponent x = ilog2 x - 52).
  { unfold ulp_exponent. rewrite Qabs_of_pos by exact Hx0. lia. }
  rewrite Ee. set (e := ilog2 x - 52).
  pose proof (pow2_pos e) as Pe. pose proof (pow2_pos 53) as P53.
  destruct (rne_near (x / 2 ^ e)) as [_ Hu].
  assert (Sk : (2 ^ ilog2 x == 2 ^ 53 * (2 ^ e * (1 # 2)))%Q).
  { assert (S1 : (2 ^ ilog2 x == 2 ^ 52 * 2 ^ e)%Q)
      by (rewrite <- pow2_plus; apply Qpower_comp; [reflexivity | unfold e; lia]).
    assert (S2 : (2 ^ 53 == 2 ^ 52 * 2)%Q) by reflexivity.
    rewrite S1, S2. field. }
  (* m >= y - 1/2, so m * 2^e >= x - 2^e / 2 >= x - x / 2^53 *)
  assert (Hm : (x - 2 ^ e * (1 # 2) <= inject_Z (rne (x / 2 ^ e)) * 2 ^ e)%Q).
  { assert (Hy : (x == x / 2 ^ e * 2 ^ e)%Q) by (field; lra).
    rewrite Hy at 1.
    assert (Hz : (x / 2 ^ e * 2 ^ e - 2 ^ e * (1 # 2)
                  == (x / 2 ^ e - (1 # 2)) * 2 ^ e)%Q) by ring.
    rewrite Hz. apply Qmult_le_r; [exact Pe | lra]. }
  assert (Hh : (2 ^ e * (1 # 2) <= x / 2 ^ 53)%Q).
  { apply Qle_shift_div_l; [exact P53 |]. rewrite Qmult_comm. rewrite <- Sk. exact Hk. }
  assert (Hx' : (x * (1 - 1 / 2 ^ 53) == x - x / 2 ^ 53)%Q) by (field; lra).
  rewrite Hx'. lra.
Qed.

(** An integer of at most 53 bits is a float. *)
Lemma rounded_int (n : Z) : 0 <= n <= 2 ^ 53 -> (rounded (inject_Z n) == inject_Z n)%Q.
Proof.
  intros Hn. apply Qle_antisym; [| apply rounded_ge; [exact Hn | apply Qle_refl]].
  unfold rounded. set (e := ulp_exponent (inject_Z n)).
  pose proof (pow2_pos e) as Pe.
  destruct (Z_le_gt_dec e 0) as [He | He].
  - assert (HC : (inject_Z (n * 2 ^ (- e)) == inject_Z n / 2 ^ e)%Q).
    { rewrite inject_Z_mult, pow2_Z by lia. rewrite pow2_opp. reflexivity. }
    rewrite (rne_exact (n * 2 ^ (- e))) by (symmetry; exact HC).
    rewrite HC. apply Qle_lteq; right. field. lra.
  - assert (Hx0 : (0 < inject_Z n)%Q).
    { apply Qnot_le_lt. intros Hle.
      assert (Hz : Qnum (inject_Z n) = 0)
        by (unfold Qle in Hle; cbn in *; lia).
      pose proof (ilog2_of_zero _ Hz). unfold e, ulp_exponent in He. lia. }
    assert (Ek : e = ilog2 (inject_Z n) - 52).
    { unfold e, ulp_exponent in *. rewrite Qabs_of_pos in * by exact Hx0. lia. }
    destruct (ilog2_spec _ Hx0) as [Hk _].
    assert (H53 : (2 ^ 53 <= 2 ^ ilog2 (inject_Z n))%Q) by (apply pow2_le; lia).
    assert (Hn53 : 2 ^ 53 <= n).
    { rewrite Zle_Qle. rewrite pow2_Z by lia. lra. }
    assert (En : n = 2 ^ 53) by lia.
    subst n. vm_compute. discriminate.
Qed.


Lemma round64_finite (x v : Q) : round64 x = Finite v -> v = rounded x.
Proof. rewrite round64_eq. destruct (Qle_bool _ _); congruence. Qed.

Lemma round64_infinite (x : Q) (negative : bool) :
  round64 x = Infinite negative ->
  negative = negb (Qle_bool 0 x) /\ (2 ^ 1024 <= Qabs (rounded x))%Q.
Proof.
  rewrite round64_eq. destruct (Qle_bool _ _) eqn:E; [| discriminate].
  intros [= <-]. split; [reflexivity | apply Qle_bool_iff; exact E].
Qed.

Lemma of_int_ok (n : Z) (q : Q) : of_int n = Ok q -> q = rounded (inject_Z n).
Proof.
  unfold of_int. destruct (round64 (inject_Z n)) eqn:E; [| discriminate].
  intros [= <-]. apply round64_finite. exact E.
Qed.

(** An [int] of at most 53 bits converts to the float that denotes it. *)
Lemma of_int_exact (n : Z) :
  0 <= n <= 2 ^ 53 -> exists q, of_int n = Ok q /\ (q == inject_Z n)%Q.
Proof.
  intros Hn. pose proof (rounded_int n Hn) as Hr.
  exists (rounded (inject_Z n)). split; [| exact Hr].
  unfold of_int. rewrite round64_eq.
  destruct (Qle_bool (2 ^ 1024) (Qabs (rounded (inject_Z n)))) eqn:E; [| reflexivity].
  exfalso. apply Qle_bool_iff in E. rewrite Hr in E.
  assert (H0 : (0 <= inject_Z n)%Q) by (apply (inject_Z_le 0 n); lia).
  rewrite Qabs_pos in E by exact H0.
  rewrite <- pow2_Z in E by lia. rewrite <- Zle_Qle in E.
  assert (2 ^ 53 < 2 ^ 1024) by (apply Z.pow_lt_mono_r; lia). lia.
Qed.

(** Rounding a number that is at most a power of two stays at most that
    power. *)
Lemma rounded_le_pow2 (j : Z) (x : Q) :
  -1074 <= j -> (0 <= x)%Q -> (x <= 2 ^ j)%Q -> (rounded x <= 2 ^ j)%Q.
Proof.
  intros Hj Hx0 Hx. unfold rounded. set (e := ulp_exponent x).
  pose proof (pow2_pos e) as Pe. pose proof (pow2_pos j) as Pj.
  destruct (Qlt_le_dec 0 x) as [Hpos | Hle].
  2:{ assert (Hz : (x / 2 ^ e == inject_Z 0)%Q).
      { assert (x == 0)%Q by lra. rewrite H. field. lra. }
      rewrite (rne_exact 0 _ Hz). change (inject_Z 0) with 0%Q. lra. }
  destruct (Z_le_gt_dec e j) as [He | He].
  - assert (HC : (inject_Z (2 ^ (j - e)) == 2 ^ j / 2 ^ e)%Q)
      by (rewrite pow2_Z by lia; apply pow2_minus).
    assert (Hy : (x / 2 ^ e <= inject_Z (2 ^ (j - e)))%Q).
    { rewrite HC. unfold Qdiv. apply Qmult_le_r; [apply Qinv_lt_0_compat; exact Pe | exact Hx]. }
    apply rne_le in Hy. apply inject_Z_le in Hy.
    assert (Hc' : (2 ^ j == inject_Z (2 ^ (j - e)) * 2 ^ e)%Q)
      by (rewrite HC; field; lra).
    rewrite Hc'. apply Qmult_le_r; [exact Pe | exact Hy].
  - exfalso.
    assert (Ek : e = ilog2 x - 52).
    { unfold e, ulp_exponent in *. rewrite Qabs_of_pos in * by exact Hpos. lia. }
    destruct (ilog2_spec x Hpos) as [Hk _].
    assert (Hlt : (2 ^ j < 2 ^ ilog2 x)%Q) by (apply Qpower_lt_compat_l; [lia | reflexivity]).
    lra.
Qed.

Lemma rounded_nonneg (x : Q) : (0 <= x)%Q -> (0 <= rounded x)%Q.
Proof. intros H. apply (rounded_ge 0 x); [split; [lia | apply Z.pow_nonneg; lia] | exact H]. Qed.

Lemma Qmult_le_mono (a b c d : Q) :
  (0 <= a)%Q -> (a <= c)%Q -> (0 <= b)%Q -> (b <= d)%Q -> (a * b <= c * d)%Q.
Proof.
  intros Ha Hac Hb Hbd. apply Qle_trans with (c * b)%Q.
  - rewrite (Qmult_comm a b), (Qmult_comm c b).
    destruct (Qle_lt_or_eq _ _ Hb) as [Hlt | Heq].
    + apply Qmult_le_l; assumption.
    + rewrite <- Heq. lra.
  - assert (Hc : (0 <= c)%Q) by lra.
    destruct (Qle_lt_or_eq _ _ Hc) as [Hlt | Heq].
    + apply Qmult_le_l; assumption.
    + rewrite <- Heq. lra.
Qed.

(** The product of a non-negative [int] of at most 53 bits with a float
    between 0 and [2^960] is finite. *)
Lemma int_times_finite (n : Z) (f : Q) :
  0 <= n <= 2 ^ 53 -> (0 <= f)%Q -> (f <= 2 ^ 960)%Q ->
  exists q, of_int n = Ok q /\ (q == inject_Z n)%Q
            /\ int_times n f = Ok (Finite (rounded (q * f))).
Proof.
  intros Hn Hf0 Hf. destruct (of_int_exact n Hn) as (q & Eq & Hq).
  exists q. split; [exact Eq |]. split; [exact Hq |].
  unfold int_times. rewrite Eq. unfold mul. rewrite round64_eq.
  assert (Hq0 : (0 <= q)%Q) by (rewrite Hq; apply (inject_Z_le 0 n); lia).
  assert (Hq53 : (q <= 2 ^ 53)%Q).
  { rewrite Hq. rewrite <- pow2_Z by lia. apply inject_Z_le. lia. }
  assert (Hp0 : (0 <= q * f)%Q) by (apply Qmult_le_0_compat; assumption).
  assert (Hp : (q * f <= 2 ^ 1013)%Q).
  { assert (S : (2 ^ 1013 == 2 ^ 53 * 2 ^ 960)%Q) by (rewrite <- pow2_plus; reflexivity).
    rewrite S. apply Qmult_le_mono; assumption. }
  pose proof (rounded_le_pow2 1013 (q * f) ltac:(lia) Hp0 Hp) as Hr.
  pose proof (rounded_nonneg (q * f) Hp0) as Hr0.
  destruct (Qle_bool (2 ^ 1024) (Qabs (rounded (q * f)))) eqn:E; [| reflexivity].
  exfalso. apply Qle_bool_iff in E. rewrite Qabs_pos in E by exact Hr0.
  assert (Hlt : (2 ^ 1013 < 2 ^ 1024)%Q) by (apply Qpower_lt_compat_l; [lia | reflexivity]).
  lra.
Qed.

(** [(3/2) * (1 - 2^-53)^2 >= 1]: two roundings do not undo a growth by one
    half. *)
Lemma two_roundings_of_growth (m q x f : Q) :
  (0 <= m)%Q -> (m * (1 - 1 / 2 ^ 53) <= q)%Q -> (3 # 2 <= f)%Q ->
  (q * f * (1 - 1 / 2 ^ 53) <= x)%Q -> (m <= x)%Q.
Proof.
  intros Hm Hq Hf Hx.
  set (u := (1 - 1 / 2 ^ 53)%Q) in *.
  assert (Hu0 : (0 <= u)%Q) by (vm_compute; discriminate).
  assert (Hu : (1 <= (3 # 2) * u * u)%Q) by (vm_compute; discriminate).
  assert (Hmu : (0 <= m * u)%Q) by (apply Qmult_le_0_compat; assumption).
  assert (H1 : (m * u * (3 # 2) <= q * f)%Q) by (apply Qmult_le_mono; [exact Hmu | exact Hq | lra | exact Hf]).
  assert (H2 : (m * u * (3 # 2) * u <= q * f * u)%Q).
  { destruct (Qle_lt_or_eq _ _ Hu0) as [Hlt | Heq].
    - apply Qmult_le_r; assumption.
    - rewrite <- Heq. lra. }
  assert (H3 : (m * 1 <= m * ((3 # 2) * u * u))%Q).
  { destruct (Qle_lt_or_eq _ _ Hm) as [Hlt | Heq].
    - apply Qmult_le_l; assumption.
    - rewrite <- Heq. lra. }
  assert (H4 : (m * ((3 # 2) * u * u) == m * u * (3 # 2) * u)%Q) by ring.
  lra.
Qed.

End FloatFacts.

(** ** Reasoning about methods *)

Module MethodFacts.

Lemma keeps_ret {S A X} (f : S -> X) s (a : A) : keeps_at f s (mret a).
Proof. reflexivity. Qed.

Lemma keeps_raise {S A X} (f : S -> X) s e : keeps_at f s (@raise S A e).
Proof. reflexivity. Qed.

Lemma keeps_get {S X} (f : S -> X) s : keeps_at f s get.
Proof. reflexivity. Qed.

Lemma keeps_put {S X} (f : S -> X) s s' : f s' = f s -> keeps_at f s (put s').
Proof. intros E; exact E. Qed.

Lemma keeps_modify {S X} (f : S -> X) s g : f (g s) = f s -> keeps_at f s (modify g).
Proof. intros E; exact E. Qed.

Lemma keeps_of_result {S A X} (f : S -> X) s (r : result A) :
  keeps_at f s (of_result r).
Proof. reflexivity. Qed.

Lemma keeps_bind {S A B X} (f : S -> X) s (m : M S A) (k : A -> M S B) :
  keeps_at f s m ->
  (forall a s', m s = (s', Ok a) -> keeps_at f s' (k a)) ->
  keeps_at f s (m ≫= k).
Proof.
  unfold keeps_at, mbind, M_bind, bind; intros Hm Hk.
  destruct (m s) as [s' [a | e]] eqn:E; simpl in *.
  - rewrite (Hk a s' eq_refl). exact Hm.
  - exact Hm.
Qed.

Lemma keeps_get_bind {S B X} (f : S -> X) s (k : S -> M S B) :
  keeps_at f s (k s) -> keeps_at f s (get ≫= k).
Proof. intros Hk; exact Hk. Qed.

Lemma bind_ok {S A B} (m : M S A) (k : A -> M S B) s s' a :
  m s = (s', Ok a) -> (m ≫= k) s = k a s'.
Proof. unfold mbind, M_bind, bind; intros ->; reflexivity. Qed.

Lemma bind_raise {S A B} (m : M S A) (k : A -> M S B) s s' e :
  m s = (s', Raise e) -> (m ≫= k) s = (s', Raise e).
Proof. unfold mbind, M_bind, bind; intros ->; reflexivity. Qed.

Ltac keeps_step :=
  lazymatch goal with
  | |- keeps_at _ _ (mret _) => apply keeps_ret
  | |- keeps_at _ _ (ret _) => apply keeps_ret
  | |- keeps_at _ _ (raise _) => apply keeps_raise
  | |- keeps_at _ _ (of_result _) => apply keeps_of_result
  | |- keeps_at _ _ get => apply keeps_get
  | |- keeps_at _ _ (put _) => apply keeps_put; reflexivity
  | |- keeps_at _ _ (modify _) => apply keeps_modify; reflexivity
  | |- keeps_at _ _ (get ≫= _) => apply keeps_get_bind
  | |- keeps_at _ _ (_ ≫= _) => apply keeps_bind; [ | intros ? ? ? ]
  | |- keeps_at _ _ _ => first [ progress cbv beta zeta | case_match ]
  end.

Ltac keeps := repeat keeps_step.

End MethodFacts.

Module JobFacts.
Import Resource Plan Job MethodFacts.

Section Facts.

Context {O : Type} `{ResourceOptimizer O}.
Variable limit : NodeResourceLimit.
Variable ctx : Job.Context.
Variable update : NodeGroupResource -> Z -> Q -> Z -> NodeGroupResource.
Variable adjust : ResourcePlan -> ResourcePlan.
Variable default_plan : ResourcePlan.

Lemma keeps_call_generate_opt_plan (s : JobResourceOptimizer O) stage config :
  keeps_at originals s (call_generate_opt_plan stage config).
Proof.
  unfold keeps_at, call_generate_opt_plan.
  destruct (generate_opt_plan _ _ _); reflexivity.
Qed.

Lemma keeps_call_generate_oom_recovery_plan (s : JobResourceOptimizer O) names stage :
  keeps_at originals s (call_generate_oom_recovery_plan names stage).
Proof.
  unfold keeps_at, call_generate_oom_recovery_plan.
  destruct (generate_oom_recovery_plan _ _ _); reflexivity.
Qed.

Lemma keeps_verify (s : JobResourceOptimizer O) plan node_type :
  keeps_at originals s (_verify_optimized_group_resource limit plan node_type).
Proof.
  unfold _verify_optimized_group_resource, subscript. keeps.
Qed.

Lemma keeps_init_phase (s : JobResourceOptimizer O) :
  keeps_at originals s _get_worker_resource_at_init_phase.
Proof.
  unfold _get_worker_resource_at_init_phase, attr_of.
  keeps; apply keeps_call_generate_opt_plan.
Qed.

Lemma keeps_running (s : JobResourceOptimizer O) :
  keeps_at originals s _get_worker_resource_at_running.
Proof.
  unfold _get_worker_resource_at_running, _get_worker_resource_at_sample_phase,
    _get_worker_resource_at_stable_phase.
  keeps; apply keeps_call_generate_opt_plan.
Qed.

Lemma keeps_ps_plan (s : JobResourceOptimizer O) :
  keeps_at originals s _get_ps_resource_plan.
Proof.
  unfold _get_ps_resource_plan. keeps; apply keeps_call_generate_opt_plan.
Qed.

Lemma keeps_verify_if_present (s : JobResourceOptimizer O) plan node_type :
  keeps_at originals s (verify_if_present limit plan node_type).
Proof. unfold verify_if_present. keeps; apply keeps_verify. Qed.

Lemma keeps_get_job_resource_plan (s : JobResourceOptimizer O) :
  keeps_at originals s (get_job_resource_plan limit adjust).
Proof.
  unfold get_job_resource_plan, attr_of.
  keeps; first [ apply keeps_init_phase | apply keeps_ps_plan
               | apply keeps_running | apply keeps_verify_if_present ].
Qed.

Lemma keeps_optimize_worker_resource (s : JobResourceOptimizer O) :
  keeps_at originals s (optimize_worker_resource update).
Proof. unfold optimize_worker_resource. keeps; apply keeps_init_phase. Qed.

Lemma keeps_adjust_oom_worker_resource (s : JobResourceOptimizer O) node :
  keeps_at originals s (adjust_oom_worker_resource limit ctx update node).
Proof.
  unfold adjust_oom_worker_resource, subscript.
  keeps; first [ apply keeps_call_generate_oom_recovery_plan
               | apply keeps_optimize_worker_resource ].
Qed.

Lemma keeps_adjust_oom_ps_resource (s : JobResourceOptimizer O) node started :
  keeps_at originals s (adjust_oom_ps_resource limit adjust node started).
Proof.
  unfold adjust_oom_ps_resource, subscript.
  keeps; first [ apply keeps_call_generate_oom_recovery_plan | apply keeps_verify ].
Qed.

Lemma keeps_init_job_resource (s : JobResourceOptimizer O) :
  keeps_at originals s (_init_job_resource_by_optimizer limit ctx update default_plan).
Proof.
  unfold _init_job_resource_by_optimizer.
  keeps; apply keeps_call_generate_opt_plan.
Qed.

(** No call touches the snapshots: after any sequence of calls they are the
    constructor's arguments. *)
Lemma originals_after (c : call) (s : JobResourceOptimizer O) :
  originals (after limit ctx update adjust default_plan c s) = originals s.
Proof.
  destruct c; simpl.
  - apply keeps_init_job_resource.
  - apply keeps_optimize_worker_resource.
  - apply keeps_adjust_oom_worker_resource.
  - apply keeps_adjust_oom_ps_resource.
  - apply keeps_get_job_resource_plan.
Qed.

Lemma originals_run (calls : list call) (s : JobResourceOptimizer O) :
  originals (run limit ctx update adjust default_plan calls s) = originals s.
Proof.
  unfold run. revert s; induction calls as [| c calls IH]; intros s; [reflexivity |].
  simpl. rewrite IH. apply originals_after.
Qed.

Lemma check_ignore_original_spec (original : NodeGroupResource) num c mem :
  check_ignore_original limit original num c mem =
  (if 0 <? count original then count original else num,
   if Qle_bool (MIN_VALID_CPU limit) (cpu (node_resource original))
   then cpu (node_resource original) else c,
   if MIN_VALID_MEMORY limit <=? memory (node_resource original)
   then memory (node_resource original) else mem).
Proof. reflexivity. Qed.

(** [_verify_optimized_group_resource] on the worker group, computed. *)
Lemma verify_worker (s : JobResourceOptimizer O) plan proposed :
  node_group_resources plan !! WORKER = Some proposed ->
  exists num c mem,
    check_ignore_original limit (_original_worker_resource s) (count proposed)
      (cpu (node_resource proposed)) (memory (node_resource proposed)) = (num, c, mem)
    /\ _verify_optimized_group_resource limit plan WORKER s =
       (set_worker_resource (assign_group num c mem (_worker_resource s)) s,
        Ok (set_group plan WORKER (assign_group num c mem proposed),
            assign_group num c mem proposed)).
Proof.
  intros Hp.
  destruct (check_ignore_original limit (_original_worker_resource s) (count proposed)
              (cpu (node_resource proposed)) (memory (node_resource proposed)))
    as [[num c] mem] eqn:E.
  exists num, c, mem; split; [reflexivity |].
  unfold _verify_optimized_group_resource, subscript. rewrite Hp.
  unfold mbind, M_bind, bind, get, put, mret, M_ret, ret,
    _check_ignore_original_worker_resource.
  cbv beta iota. rewrite E. reflexivity.
Qed.

(** [_verify_optimized_group_resource] on the PS group, computed. *)
Lemma verify_ps (s : JobResourceOptimizer O) plan proposed :
  node_group_resources plan !! PS = Some proposed ->
  exists num c mem,
    check_ignore_original limit (_original_ps_resource s) (count proposed)
      (cpu (node_resource proposed)) (memory (node_resource proposed)) = (num, c, mem)
    /\ _verify_optimized_group_resource limit plan PS s =
       (set_ps_resource
          (assign_group (Z.min num (MAX_PS_NUM limit)) c mem (_ps_resource s)) s,
        Ok (set_group plan PS (assign_group num c mem proposed),
            assign_group num c mem proposed)).
Proof.
  intros Hp.
  destruct (check_ignore_original limit (_original_ps_resource s) (count proposed)
              (cpu (node_resource proposed)) (memory (node_resource proposed)))
    as [[num c] mem] eqn:E.
  exists num, c, mem; split; [reflexivity |].
  unfold _verify_optimized_group_resource, subscript. rewrite Hp.
  unfold mbind, M_bind, bind, get, put, mret, M_ret, ret,
    _check_ignore_original_ps_resource.
  cbv beta iota. rewrite E. reflexivity.
Qed.

(** The filter's three values put into a live group make the user's
    settings win. *)
Lemma filter_wins (original proposed live : NodeGroupResource) num c mem :
  check_ignore_original limit original (count proposed)
    (cpu (node_resource proposed)) (memory (node_resource proposed)) = (num, c, mem) ->
  user_override_wins limit original (assign_group num c mem live).
Proof.
  rewrite check_ignore_original_spec. intros [= <- <- <-].
  unfold user_override_wins; cbn. repeat split.
  - intros Hc. apply Z.ltb_lt in Hc. rewrite Hc. reflexivity.
  - intros Hm. apply Z.leb_le in Hm. rewrite Hm. reflexivity.
  - intros Hc. apply Qle_bool_iff in Hc. rewrite Hc. reflexivity.
Qed.

Lemma filter_wins_capped (original proposed live : NodeGroupResource) num c mem :
  check_ignore_original limit original (count proposed)
    (cpu (node_resource proposed)) (memory (node_resource proposed)) = (num, c, mem) ->
  user_override_wins_capped limit original
    (assign_group (Z.min num (MAX_PS_NUM limit)) c mem live).
Proof.
  rewrite check_ignore_original_spec. intros [= <- <- <-].
  unfold user_override_wins_capped; cbn. repeat split.
  - intros Hc. apply Z.ltb_lt in Hc. rewrite Hc. reflexivity.
  - intros Hm. apply Z.leb_le in Hm. rewrite Hm. reflexivity.
  - intros Hc. apply Qle_bool_iff in Hc. rewrite Hc. reflexivity.
  - lia.
Qed.

(** *** The plan applications inside the public methods *)

Lemma keeps_resources_opt_call (s : JobResourceOptimizer O) stage config :
  keeps_at resources s (call_generate_opt_plan stage config).
Proof.
  unfold keeps_at, call_generate_opt_plan.
  destruct (generate_opt_plan _ _ _); reflexivity.
Qed.

Lemma keeps_resources_oom_call (s : JobResourceOptimizer O) names stage :
  keeps_at resources s (call_generate_oom_recovery_plan names stage).
Proof.
  unfold keeps_at, call_generate_oom_recovery_plan.
  destruct (generate_oom_recovery_plan _ _ _); reflexivity.
Qed.

Lemma keeps_resources_init_phase (s : JobResourceOptimizer O) :
  keeps_at resources s _get_worker_resource_at_init_phase.
Proof.
  unfold _get_worker_resource_at_init_phase, attr_of.
  keeps; apply keeps_resources_opt_call.
Qed.

Lemma keeps_resources_running (s : JobResourceOptimizer O) :
  keeps_at resources s _get_worker_resource_at_running.
Proof.
  unfold _get_worker_resource_at_running, _get_worker_resource_at_sample_phase,
    _get_worker_resource_at_stable_phase.
  keeps; apply keeps_resources_opt_call.
Qed.

Lemma keeps_resources_ps_plan (s : JobResourceOptimizer O) :
  keeps_at resources s _get_ps_resource_plan.
Proof.
  unfold _get_ps_resource_plan. keeps; apply keeps_resources_opt_call.
Qed.

(** [verify_if_present] on the worker group: the PS group and the snapshots
    stay, the live worker resource stays or ends with the user's settings
    winning. *)
Lemma verify_if_present_worker (s : JobResourceOptimizer O) plan :
  _ps_resource (fst (verify_if_present limit plan WORKER s)) = _ps_resource s
  /\ originals (fst (verify_if_present limit plan WORKER s)) = originals s
  /\ unchanged_or (user_override_wins limit (_original_worker_resource s))
       (_worker_resource s)
       (_worker_resource (fst (verify_if_present limit plan WORKER s))).
Proof.
  unfold verify_if_present, has_group. case_bool_decide as Hsome.
  - destruct Hsome as [proposed Hp].
    destruct (verify_worker s plan proposed Hp) as (num & c & mem & E & Hv).
    rewrite (bind_ok _ _ _ _ _ Hv). cbn.
    repeat split. right. apply (filter_wins _ proposed). exact E.
  - cbn. repeat split. left. reflexivity.
Qed.

Lemma verify_if_present_ps (s : JobResourceOptimizer O) plan :
  _worker_resource (fst (verify_if_present limit plan PS s)) = _worker_resource s
  /\ originals (fst (verify_if_present limit plan PS s)) = originals s
  /\ unchanged_or (user_override_wins_capped limit (_original_ps_resource s))
       (_ps_resource s)
       (_ps_resource (fst (verify_if_present limit plan PS s))).
Proof.
  unfold verify_if_present, has_group. case_bool_decide as Hsome.
  - destruct Hsome as [proposed Hp].
    destruct (verify_ps s plan proposed Hp) as (num & c & mem & E & Hv).
    rewrite (bind_ok _ _ _ _ _ Hv). cbn.
    repeat split. right. apply (filter_wins_capped _ proposed). exact E.
  - cbn. repeat split. left. reflexivity.
Qed.

(** Every change [get_job_resource_plan] makes to a live resource goes
    through the filter. *)
Lemma get_job_resource_plan_filtered (s : JobResourceOptimizer O) :
  unchanged_or (user_override_wins limit (_original_worker_resource s))
    (_worker_resource s)
    (_worker_resource (fst (get_job_resource_plan limit adjust s)))
  /\ unchanged_or (user_override_wins_capped limit (_original_ps_resource s))
       (_ps_resource s)
       (_ps_resource (fst (get_job_resource_plan limit adjust s))).
Proof.
  unfold get_job_resource_plan.
  change ((get ≫= ?k) s) with (k s s). cbv beta.
  match goal with
  | |- context [(?fetch ≫= ?k) s] =>
      assert (K : keeps_at resources s fetch)
        by (destruct (_job_stage s); unfold attr_of; keeps;
            first [ apply keeps_resources_init_phase | apply keeps_resources_ps_plan
                  | apply keeps_resources_running ]);
      destruct (fetch s) as [s1 [plan | e]] eqn:E1;
      [ rewrite (bind_ok fetch k s s1 plan E1)
      | rewrite (bind_raise fetch k s s1 e E1) ]
  end;
  unfold keeps_at in K; rewrite E1 in K; cbn [fst] in K;
  unfold resources in K; injection K as Kw Kp Kow Kop.
  - destruct plan as [p |]; unfold attr_of.
    2:{ rewrite (bind_raise _ _ s1 s1 AttributeError eq_refl). cbn [fst].
        rewrite Kw, Kp. split; left; reflexivity. }
    rewrite (bind_ok _ _ s1 s1 p eq_refl).
    destruct (ResourcePlan_empty p).
    { unfold mret, M_ret, ret. cbn [fst].
      rewrite Kw, Kp. split; left; reflexivity. }
    destruct (verify_if_present_worker s1 p) as (Hp1 & Ho1 & Hw1).
    unfold originals in Ho1; injection Ho1 as Ho1w Ho1p.
    destruct (verify_if_present limit p WORKER s1) as [s2 [p2 | e]] eqn:E2;
      cbn [fst] in *.
    + rewrite (bind_ok _ _ _ _ _ E2).
      destruct (verify_if_present_ps s2 p2) as (Hw2 & Ho2 & Hp2).
      destruct (verify_if_present limit p2 PS s2) as [s3 [p3 | e]] eqn:E3;
        cbn [fst] in *.
      * rewrite (bind_ok _ _ _ _ _ E3).
        unfold mret, M_ret, ret. cbn [fst].
        rewrite Hw2, <- Kw, <- Kow, <- Kop, <- Kp, <- Ho1p, <- Hp1. split; assumption.
      * rewrite (bind_raise _ _ _ _ _ E3). cbn [fst].
        rewrite Hw2, <- Kw, <- Kow, <- Kop, <- Kp, <- Ho1p, <- Hp1. split; assumption.
    + rewrite (bind_raise _ _ _ _ _ E2). cbn [fst].
      rewrite Hp1, <- Kw, <- Kow, Kp. split; [assumption | left; reflexivity].
  - cbn [fst]. rewrite Kw, Kp. split; left; reflexivity.
Qed.

(** C1 (as amended): on a [JobResourceOptimizer] built from the user's
    [worker] and [ps] resources, after any sequence of calls: applying an
    optimizer-proposed group through [_verify_optimized_group_resource]
    returns, and leaves the live worker resource with the user's count when
    that is positive, the user's memory when at least [MIN_VALID_MEMORY] and
    the user's cpu when at least [MIN_VALID_CPU]; for the PS group the same
    holds for memory and cpu, while the live count is the smaller of the
    user's count and [MAX_PS_NUM], and never exceeds [MAX_PS_NUM].  In
    particular whatever [get_job_resource_plan] changes of a live resource
    ends in this form. *)
Theorem user_override_filter_invariant
    (worker ps : NodeGroupResource) (optimizer : O) (calls : list call) :
  let s := run limit ctx update adjust default_plan calls
             (new_JobResourceOptimizer worker ps optimizer) in
  (forall plan node_type proposed,
     node_type = WORKER \/ node_type = PS ->
     node_group_resources plan !! node_type = Some proposed ->
     exists s' verified,
       _verify_optimized_group_resource limit plan node_type s = (s', Ok verified)
       /\ match node_type with
          | PS => user_override_wins_capped limit ps (_ps_resource s')
          | _ => user_override_wins limit worker (_worker_resource s')
          end)
  /\ unchanged_or (user_override_wins limit worker) (_worker_resource s)
       (_worker_resource (fst (get_job_resource_plan limit adjust s)))
  /\ unchanged_or (user_override_wins_capped limit ps) (_ps_resource s)
       (_ps_resource (fst (get_job_resource_plan limit adjust s))).
Proof.
  intros s.
  assert (Ho : originals s = (worker, ps)) by (apply originals_run).
  unfold originals in Ho; injection Ho as Hw Hps.
  split.
  - intros plan node_type proposed Hty Hp. destruct Hty as [-> | ->].
    + destruct (verify_worker s plan proposed Hp) as (num & c & mem & E & ->).
      eexists _, _; split; [reflexivity |]. cbn.
      rewrite <- Hw. apply (filter_wins _ proposed). exact E.
    + destruct (verify_ps s plan proposed Hp) as (num & c & mem & E & ->).
      eexists _, _; split; [reflexivity |]. cbn.
      rewrite <- Hps. apply (filter_wins_capped _ proposed). exact E.
  - rewrite <- Hw, <- Hps. apply get_job_resource_plan_filtered.
Qed.

(** [optimize_worker_resource] hands the optimizer's worker group to
    [NodeGroupResource.update] as proposed: the user-override filter is not
    on this path. *)
Lemma optimize_worker_resource_unfiltered
    (s : JobResourceOptimizer O) (o' : O) (p : ResourcePlan) (proposed : NodeGroupResource) :
  generate_opt_plan (_resource_optimizer s) WORKER_INITIAL (Some INITIAL) = (o', Some p) ->
  ResourcePlan_empty p = false ->
  node_group_resources p !! WORKER = Some proposed ->
  _worker_resource (fst (optimize_worker_resource update s))
  = update (_worker_resource s) (count proposed) (cpu (node_resource proposed))
      (memory (node_resource proposed)).
Proof.
  intros Hg He Hp.
  destruct s as [w ps ow ops o m sampled stage]; cbn in *.
  unfold optimize_worker_resource, _get_worker_resource_at_init_phase,
    call_generate_opt_plan, mbind, M_bind, bind, get; cbn.
  rewrite Hg; cbn. rewrite He; cbn. rewrite Hp. reflexivity.
Qed.

(** *** The stage machine of [get_job_resource_plan] *)

Lemma call_generate_opt_plan_eq (s : JobResourceOptimizer O) stage config o' answer :
  generate_opt_plan (_resource_optimizer s) stage config = (o', answer) ->
  call_generate_opt_plan stage config s = (set_resource_optimizer o' s, Ok answer).
Proof. unfold call_generate_opt_plan; intros ->; reflexivity. Qed.

Lemma call_generate_oom_recovery_plan_eq
    (s : JobResourceOptimizer O) names stage o' answer :
  generate_oom_recovery_plan (_resource_optimizer s) names stage = (o', answer) ->
  call_generate_oom_recovery_plan names stage s = (set_resource_optimizer o' s, Ok answer).
Proof. unfold call_generate_oom_recovery_plan; intros ->; reflexivity. Qed.

(** [_get_worker_resource_at_init_phase] hands back [None] for an empty
    plan. *)
Lemma init_phase_empty (s : JobResourceOptimizer O) o' p :
  generate_opt_plan (_resource_optimizer s) WORKER_INITIAL (Some INITIAL) = (o', Some p) ->
  ResourcePlan_empty p = true ->
  _get_worker_resource_at_init_phase s = (set_resource_optimizer o' s, Ok None).
Proof.
  intros Hg He. unfold _get_worker_resource_at_init_phase.
  rewrite (bind_ok _ _ _ _ _ (call_generate_opt_plan_eq _ _ _ _ _ Hg)).
  cbn. unfold mbind, M_bind, bind; cbn. rewrite He. reflexivity.
Qed.

(** C2, the failing case: in stage [WORKER_INITIAL], when the optimizer
    yields an empty plan, [get_job_resource_plan] moves to [PS_INITIAL] and
    then raises [AttributeError] ([plan] is [None] when [plan.empty()] is
    evaluated); it does not return [None]. *)
Theorem get_job_resource_plan_raises_on_empty_worker_plan
    (s : JobResourceOptimizer O) (o' : O) (p : ResourcePlan) :
  _job_stage s = WORKER_INITIAL ->
  generate_opt_plan (_resource_optimizer s) WORKER_INITIAL (Some INITIAL) = (o', Some p) ->
  ResourcePlan_empty p = true ->
  get_job_resource_plan limit adjust s
  = (set_job_stage PS_INITIAL (set_resource_optimizer o' s), Raise AttributeError).
Proof.
  intros Hs Hg He. unfold get_job_resource_plan.
  unfold mbind at 1, M_bind at 1, bind at 1, get at 1. cbv beta iota. rewrite Hs.
  unfold mbind at 1, M_bind at 1, bind at 1.
  unfold mbind at 1, M_bind at 1, bind at 1.
  rewrite (init_phase_empty s o' p Hg He). reflexivity.
Qed.

(** In stage [PS_INITIAL] an empty plan gives [None], and the stage moves to
    [RUNNING]. *)
Lemma get_job_resource_plan_ps_initial_empty
    (s : JobResourceOptimizer O) (o' : O) (p : ResourcePlan) :
  _job_stage s = PS_INITIAL ->
  generate_opt_plan (_resource_optimizer s) PS_INITIAL None = (o', Some p) ->
  ResourcePlan_empty p = true ->
  get_job_resource_plan limit adjust s
  = (set_job_stage RUNNING (set_resource_optimizer o' s), Ok None).
Proof.
  intros Hs Hg He.
  destruct s as [w ps ow ops o m sampled stage]; cbn in *; subst stage.
  unfold get_job_resource_plan, _get_ps_resource_plan, call_generate_opt_plan,
    mbind, M_bind, bind, get; cbn.
  rewrite Hg; cbn. rewrite He. reflexivity.
Qed.

(** In stage [RUNNING] the PS plan is asked first, then, when that is empty,
    a worker plan at phase [SAMPLE] the first time and [STABLE] afterwards; an
    empty worker plan gives [None] and the stage stays [RUNNING]. *)
Lemma get_job_resource_plan_running_empty
    (s : JobResourceOptimizer O) (o1 o2 : O) (p1 p2 : ResourcePlan) :
  _job_stage s = RUNNING ->
  generate_opt_plan (_resource_optimizer s) RUNNING None = (o1, Some p1) ->
  ResourcePlan_empty p1 = true ->
  generate_opt_plan o1 WORKER_INITIAL
    (Some (if optimize_worker_sampled s then STABLE else SAMPLE)) = (o2, Some p2) ->
  ResourcePlan_empty p2 = true ->
  get_job_resource_plan limit adjust s
  = (set_optimize_worker_sampled true (set_resource_optimizer o2 s), Ok None).
Proof.
  intros Hs Hg1 He1 Hg2 He2.
  destruct s as [w ps ow ops o m sampled stage]; cbn in *; subst stage.
  unfold get_job_resource_plan, _get_ps_resource_plan, _get_worker_resource_at_running,
    _get_worker_resource_at_sample_phase, _get_worker_resource_at_stable_phase,
    call_generate_opt_plan, mbind, M_bind, bind, get; cbn.
  rewrite Hg1; cbn. rewrite He1.
  destruct sampled; cbn; rewrite Hg2; cbn; rewrite He2; reflexivity.
Qed.

(** In stage [WORKER_INITIAL] a non-empty plan is verified and returned, and
    the stage moves to [PS_INITIAL]. *)
Lemma get_job_resource_plan_worker_initial
    (s : JobResourceOptimizer O) (o' : O) (p : ResourcePlan) :
  _job_stage s = WORKER_INITIAL ->
  generate_opt_plan (_resource_optimizer s) WORKER_INITIAL (Some INITIAL) = (o', Some p) ->
  ResourcePlan_empty p = false ->
  exists s' p',
    get_job_resource_plan limit adjust s = (s', Ok (Some p'))
    /\ _job_stage s' = PS_INITIAL.
Proof.
  intros Hs Hg He. unfold get_job_resource_plan, _get_worker_resource_at_init_phase.
  unfold mbind, M_bind, bind, get. cbv beta iota. rewrite Hs.
  rewrite (call_generate_opt_plan_eq s WORKER_INITIAL (Some INITIAL) o' (Some p) Hg).
  cbn. rewrite He. cbn. rewrite He.
  unfold verify_if_present, has_group.
  set (s1 := set_job_stage PS_INITIAL (set_resource_optimizer o' s)).
  assert (stage_verify : forall (x : JobResourceOptimizer O) q t g,
            node_group_resources q !! t = Some g -> t = WORKER \/ t = PS ->
            exists x' q' g',
              _verify_optimized_group_resource limit q t x = (x', Ok (q', g'))
              /\ _job_stage x' = _job_stage x).
  { intros x q t g Hq [-> | ->].
    - destruct (verify_worker x q g Hq) as (n & c & m & _ & ->).
      eexists _, _, _; split; reflexivity.
    - destruct (verify_ps x q g Hq) as (n & c & m & _ & ->).
      eexists _, _, _; split; reflexivity. }
  assert (stage_opt : forall (x : JobResourceOptimizer O) q t,
            t = WORKER \/ t = PS ->
            exists x' q',
              (if bool_decide (is_Some (node_group_resources q !! t))
               then _verify_optimized_group_resource limit q t ≫= λ r, mret (fst r)
               else mret q) x = (x', Ok q')
              /\ _job_stage x' = _job_stage x).
  { intros x q t Ht. case_bool_decide as Hsome.
    - destruct Hsome as [g Hq].
      destruct (stage_verify x q t g Hq Ht) as (x' & q' & g' & E & Hst).
      exists x', q'. split; [| exact Hst].
      unfold mbind, M_bind, bind. rewrite E. reflexivity.
    - exists x, q. split; reflexivity. }
  destruct (stage_opt s1 p WORKER (or_introl eq_refl)) as (s2 & p2 & E2 & Hst2).
  unfold mbind, M_bind, bind in E2. unfold mbind, M_bind, bind. rewrite E2.
  destruct (stage_opt s2 p2 PS (or_intror eq_refl)) as (s3 & p3 & E3 & Hst3).
  unfold mbind, M_bind, bind in E3. rewrite E3.
  eexists _, _; split; [reflexivity |].
  rewrite Hst3, Hst2. reflexivity.
Qed.

(** *** The memory of a relaunched node *)

(** What [cur_mem * INCREMENTAL_MEMORY_FACTOR] is for a [cur_mem] of at most
    53 bits: the float nearest to the exact product. *)
Lemma int_times_exact (cur_mem : Z) (x : Float.float) :
  0 <= cur_mem <= 2 ^ 53 ->
  Float.int_times cur_mem (INCREMENTAL_MEMORY_FACTOR limit) = Ok x ->
  exists q, (q == inject_Z cur_mem)%Q
            /\ x = Float.round64 (q * INCREMENTAL_MEMORY_FACTOR limit).
Proof.
  intros Hm E. destruct (FloatFacts.of_int_exact cur_mem Hm) as (q & Eq & Hq).
  exists q. split; [exact Hq |].
  unfold Float.int_times in E. rewrite Eq in E. injection E as <-. reflexivity.
Qed.

(** The new memory is not below the old one, the live one and the original
    one: for an old memory of at most 53 bits and a factor of at least one
    (the conversion to a float is then exact), and for any old memory when the
    factor is at least one and a half. *)
Lemma incremented_memory_ge (live original : NodeGroupResource) (cur_mem v : Z) :
  0 <= cur_mem ->
  incremented_memory limit live original cur_mem = Ok v ->
  memory (node_resource live) <= v
  /\ memory (node_resource original) <= v
  /\ ((cur_mem <= 2 ^ 53 /\ (1 <= INCREMENTAL_MEMORY_FACTOR limit)%Q)
      \/ (3 # 2 <= INCREMENTAL_MEMORY_FACTOR limit)%Q ->
      cur_mem <= v).
Proof.
  intros Hm. unfold incremented_memory, Float.int_times.
  set (f := INCREMENTAL_MEMORY_FACTOR limit).
  destruct (Float.of_int cur_mem) as [q | e] eqn:Eq; [| discriminate].
  pose proof (FloatFacts.of_int_ok _ _ Eq) as Hq.
  assert (Hm0 : (0 <= inject_Z cur_mem)%Q) by (apply (FloatFacts.inject_Z_le 0); exact Hm).
  assert (Hq0 : (0 <= q)%Q) by (rewrite Hq; apply FloatFacts.rounded_nonneg; exact Hm0).
  destruct (Float.mul q f) as [x | [|]] eqn:Ex; cbn [Float.int_of_max3]; intros [= <-].
  - apply FloatFacts.round64_finite in Ex.
    split; [| split].
    + rewrite <- (PyFacts.int_inject_Z (memory (node_resource live))) at 1.
      apply PyFacts.int_mono, PyFacts.max3_ge_1.
    + rewrite <- (PyFacts.int_inject_Z (memory (node_resource original))) at 1.
      apply PyFacts.int_mono, PyFacts.max3_ge_3.
    + intros Hf.
      rewrite <- (PyFacts.int_inject_Z cur_mem) at 1.
      apply PyFacts.int_mono.
      apply Qle_trans with x; [| apply PyFacts.max3_ge_2].
      rewrite Ex.
      destruct Hf as [[H53 Hf] | Hf].
      * apply FloatFacts.rounded_ge; [split; assumption |].
        assert (Hqm : (q == inject_Z cur_mem)%Q)
          by (rewrite Hq; apply FloatFacts.rounded_int; split; assumption).
        rewrite <- Hqm. nra.
      * destruct (Z.eq_dec cur_mem 0) as [-> | Hne].
        -- apply FloatFacts.rounded_nonneg. apply Qmult_le_0_compat; [exact Hq0 | lra].
        -- assert (H1 : (1 <= inject_Z cur_mem)%Q)
             by (apply (FloatFacts.inject_Z_le 1); lia).
           assert (Hq1 : (1 <= q)%Q).
           { rewrite Hq. apply (FloatFacts.rounded_ge 1); [split; [lia | discriminate] |].
             exact H1. }
           apply (FloatFacts.two_roundings_of_growth _ q _ f Hm0);
             [rewrite Hq; apply FloatFacts.rounded_rel; exact H1 | exact Hf |].
           apply FloatFacts.rounded_rel. nra.
  - (* the product of two non-negative numbers is not minus infinity *)
    split; [apply Z.le_max_l | split; [apply Z.le_max_r |]].
    intros Hf. exfalso.
    apply FloatFacts.round64_infinite in Ex. destruct Ex as [Ex _].
    assert (Hf0 : (0 <= f)%Q) by (destruct Hf as [[_ Hf] | Hf]; lra).
    assert (Hp : (0 <= q * f)%Q) by (apply Qmult_le_0_compat; assumption).
    apply Qle_bool_iff in Hp. rewrite Hp in Ex. discriminate.
Qed.

(** The only exception is [OverflowError]. *)
Lemma incremented_memory_raises (live original : NodeGroupResource) (cur_mem : Z) e :
  incremented_memory limit live original cur_mem = Raise e -> e = OverflowError.
Proof.
  unfold incremented_memory, Float.int_times, Float.of_int.
  destruct (Float.round64 (inject_Z cur_mem)); [| congruence].
  destruct (Float.mul _ _) as [x | [|]]; cbn; congruence.
Qed.

(** No [OverflowError] for an old memory of at most 53 bits and a factor
    between 0 and [2^960]. *)
Lemma incremented_memory_returns (live original : NodeGroupResource) (cur_mem : Z) :
  0 <= cur_mem <= 2 ^ 53 ->
  (0 <= INCREMENTAL_MEMORY_FACTOR limit)%Q ->
  (INCREMENTAL_MEMORY_FACTOR limit <= 2 ^ 960)%Q ->
  exists v, incremented_memory limit live original cur_mem = Ok v.
Proof.
  intros Hm Hf0 Hf.
  destruct (FloatFacts.int_times_finite cur_mem _ Hm Hf0 Hf) as (q & _ & _ & E).
  unfold incremented_memory. rewrite E. eexists; reflexivity.
Qed.

(** *** [adjust_oom_worker_resource] *)

(** The node's new memory is computed from the object as the first half of
    the method leaves it. *)
Lemma adjust_oom_worker_resource_result
    (s s' : JobResourceOptimizer O) (node node' : Node) :
  adjust_oom_worker_resource limit ctx update node s = (s', Ok node') ->
  exists v,
    incremented_memory limit (_worker_resource s') (_original_worker_resource s')
      (memory (config_resource node)) = Ok v
    /\ node' = with_config_memory v node.
Proof.
  unfold adjust_oom_worker_resource.
  unfold mbind at 1, M_bind at 1, bind at 1, get at 1. cbv beta iota.
  unfold mbind at 1, M_bind at 1, bind at 1.
  match goal with
  | |- context [match ?x with (_, _) => _ end] => destruct x as [s1 [[] | e]]
  end; cbn; [| intros E; discriminate E].
  unfold mbind, M_bind, bind, of_result, get, mret, M_ret, ret. cbv beta iota.
  destruct (incremented_memory limit (_worker_resource s1)
              (_original_worker_resource s1) (memory (config_resource node)))
    as [v | e] eqn:Ev; intros E; [injection E as <- <- | discriminate E].
  exists v. split; [exact Ev | reflexivity].
Qed.

(** The first half in stage [WORKER_INITIAL] with the easydl worker enabled:
    it raises only on a non-empty plan without a worker group. *)
Lemma adjust_oom_worker_resource_initial
    (s : JobResourceOptimizer O) (node : Node) o' answer :
  easydl_worker_enabled ctx = true ->
  _job_stage s = WORKER_INITIAL ->
  generate_oom_recovery_plan (_resource_optimizer s) [name node] CREATE = (o', answer) ->
  let s1 := set_resource_optimizer o' s in
  let finish (x : JobResourceOptimizer O) :=
    (x, match incremented_memory limit (_worker_resource x)
                (_original_worker_resource x) (memory (config_resource node)) with
        | Ok v => Ok (with_config_memory v node)
        | Raise e => Raise e
        end) in
  adjust_oom_worker_resource limit ctx update node s =
  match answer with
  | None => finish s1
  | Some p =>
      if ResourcePlan_empty p then finish s1
      else match node_group_resources p !! WORKER with
           | Some recovered =>
               finish (set_worker_resource
                         (raise_memory (memory (node_resource recovered))
                            (_worker_resource s1)) s1)
           | None => (s1, Raise KeyError)
           end
  end.
Proof.
  intros He Hs Hg s1 finish.
  destruct s as [w ps ow ops o m sampled stage]; cbn in *; subst stage.
  unfold adjust_oom_worker_resource, call_generate_oom_recovery_plan,
    mbind, M_bind, bind, get, of_result; cbn.
  rewrite He; cbn. rewrite bool_decide_eq_true_2 by reflexivity. cbn. rewrite Hg.
  subst finish s1. cbv beta.
  destruct answer as [p |]; cbn.
  - destruct (ResourcePlan_empty p); cbn.
    + destruct (incremented_memory _ _ _ _); reflexivity.
    + destruct (node_group_resources p !! WORKER); cbn; [| reflexivity].
      destruct (incremented_memory _ _ _ _); reflexivity.
  - destruct (incremented_memory _ _ _ _); reflexivity.
Qed.

(** Outside that stage the method goes through [optimize_worker_resource],
    which raises only when the optimizer answers [None]. *)
Lemma adjust_oom_worker_resource_later
    (s : JobResourceOptimizer O) (node : Node) o' p :
  easydl_worker_enabled ctx = false \/ _job_stage s <> WORKER_INITIAL ->
  generate_opt_plan (_resource_optimizer s) WORKER_INITIAL (Some INITIAL) = (o', Some p) ->
  exists s1,
    adjust_oom_worker_resource limit ctx update node s
    = (s1, match incremented_memory limit (_worker_resource s1)
                   (_original_worker_resource s1) (memory (config_resource node)) with
           | Ok v => Ok (with_config_memory v node)
           | Raise e => Raise e
           end).
Proof.
  intros Hb Hg.
  assert (Hcond : easydl_worker_enabled ctx
                  && bool_decide (_job_stage s = WORKER_INITIAL) = false).
  { destruct Hb as [-> | Hne]; [reflexivity |].
    rewrite bool_decide_eq_false_2 by exact Hne. apply andb_false_r. }
  destruct s as [w ps ow ops o m sampled stage]; cbn in *.
  unfold adjust_oom_worker_resource, optimize_worker_resource,
    _get_worker_resource_at_init_phase, call_generate_opt_plan,
    mbind, M_bind, bind, get, of_result; cbn.
  rewrite Hcond; cbn. rewrite Hg; cbn.
  destruct (ResourcePlan_empty p); cbn;
    [| destruct (node_group_resources p !! WORKER); cbn];
    match goal with
    | |- ex (fun s1 => match ?r with Ok _ => _ | Raise _ => (?x, _) end = _) =>
        exists x; cbn;
        match goal with
        | |- context [match ?r' with Ok _ => _ | Raise _ => _ end] => destruct r'
        end; reflexivity
    end.
Qed.

(** C3: [adjust_oom_worker_resource] on a node with a non-negative memory.
    When it returns, the node's memory is
    [int(max(live worker memory, old node memory * INCREMENTAL_MEMORY_FACTOR,
    original worker memory))] as Python computes it, read on the object as
    the call leaves it: the product is a float product (for an old memory of
    at most 53 bits, the float nearest to the exact product).  The new memory
    is not below the old one when the old one has at most 53 bits and the
    factor is at least one, and for any old memory when the factor is at
    least one and a half.  A call that raises leaves the node as it was.  In
    stage [WORKER_INITIAL] with the easydl worker enabled, the live worker
    memory is first raised to the max of its value and the worker memory of
    the OOM-recovery plan (it is unchanged without such a plan), and the call
    returns unless the plan is non-empty without a worker group
    ([KeyError]). *)
Theorem adjust_oom_worker_resource_memory
    (s : JobResourceOptimizer O) (node : Node) :
  0 <= memory (config_resource node) ->
  (forall s' node',
     adjust_oom_worker_resource limit ctx update node s = (s', Ok node') ->
     (exists x,
        Float.int_times (memory (config_resource node))
          (INCREMENTAL_MEMORY_FACTOR limit) = Ok x
        /\ Float.int_of_max3 (memory (node_resource (_worker_resource s'))) x
             (memory (node_resource (_original_worker_resource s')))
           = Ok (memory (config_resource node'))
        /\ (memory (config_resource node) <= 2 ^ 53 ->
            exists q, (q == inject_Z (memory (config_resource node)))%Q
                      /\ x = Float.round64 (q * INCREMENTAL_MEMORY_FACTOR limit)))
     /\ ((memory (config_resource node) <= 2 ^ 53
          /\ (1 <= INCREMENTAL_MEMORY_FACTOR limit)%Q)
         \/ (3 # 2 <= INCREMENTAL_MEMORY_FACTOR limit)%Q ->
         memory (config_resource node) <= memory (config_resource node')))
  /\ (easydl_worker_enabled ctx = true ->
      _job_stage s = WORKER_INITIAL ->
      forall o' answer,
        generate_oom_recovery_plan (_resource_optimizer s) [name node] CREATE
        = (o', answer) ->
        let r := adjust_oom_worker_resource limit ctx update node s in
        match answer with
        | Some p =>
            if ResourcePlan_empty p then _worker_resource (fst r) = _worker_resource s
            else
              match node_group_resources p !! WORKER with
              | Some recovered =>
                  memory (node_resource (_worker_resource (fst r)))
                  = Z.max (memory (node_resource (_worker_resource s)))
                          (memory (node_resource recovered))
              | None => snd r = Raise KeyError
              end
        | None => _worker_resource (fst r) = _worker_resource s
        end
        /\ (memory (config_resource node) <= 2 ^ 53 ->
            (0 <= INCREMENTAL_MEMORY_FACTOR limit)%Q ->
            (INCREMENTAL_MEMORY_FACTOR limit <= 2 ^ 960)%Q ->
            (forall p, answer = Some p -> ResourcePlan_empty p = false ->
                       is_Some (node_group_resources p !! WORKER)) ->
            exists node', snd r = Ok node'))
  /\ (easydl_worker_enabled ctx = false \/ _job_stage s <> WORKER_INITIAL ->
      forall o' p,
        generate_opt_plan (_resource_optimizer s) WORKER_INITIAL (Some INITIAL)
        = (o', Some p) ->
        memory (config_resource node) <= 2 ^ 53 ->
        (0 <= INCREMENTAL_MEMORY_FACTOR limit)%Q ->
        (INCREMENTAL_MEMORY_FACTOR limit <= 2 ^ 960)%Q ->
        exists s' node',
          adjust_oom_worker_resource limit ctx update node s = (s', Ok node')).
Proof.
  intros Hm. split; [| split].
  - intros s' node' E. apply adjust_oom_worker_resource_result in E.
    destruct E as (v & Ev & ->). cbn [config_resource with_config_memory memory].
    pose proof (incremented_memory_ge _ _ _ _ Hm Ev) as (_ & _ & Hge).
    split; [| exact Hge].
    unfold incremented_memory in Ev.
    destruct (Float.int_times (memory (config_resource node))
                (INCREMENTAL_MEMORY_FACTOR limit)) as [x | e] eqn:Ex; [| discriminate].
    exists x. split; [reflexivity |]. split; [exact Ev |].
    intros H53. apply (int_times_exact _ x (conj Hm H53) Ex).
  - intros He Hs o' answer Hg r.
    pose proof (adjust_oom_worker_resource_initial s node o' answer He Hs Hg) as E.
    cbv beta zeta in E. fold r in E.
    assert (Hret : forall x : JobResourceOptimizer O,
               memory (config_resource node) <= 2 ^ 53 ->
               (0 <= INCREMENTAL_MEMORY_FACTOR limit)%Q ->
               (INCREMENTAL_MEMORY_FACTOR limit <= 2 ^ 960)%Q ->
               exists node',
                 match incremented_memory limit (_worker_resource x)
                         (_original_worker_resource x) (memory (config_resource node)) with
                 | Ok v => Ok (with_config_memory v node)
                 | Raise e => Raise e
                 end = Ok node').
    { intros x H53 Hf0 Hf.
      destruct (incremented_memory_returns (_worker_resource x)
                  (_original_worker_resource x) _ (conj Hm H53) Hf0 Hf) as (v & ->).
      eexists; reflexivity. }
    destruct answer as [p |].
    + destruct (ResourcePlan_empty p) eqn:Ee.
      * rewrite E. split; [reflexivity |]. intros H53 Hf0 Hf _. cbn [snd].
        apply Hret; assumption.
      * destruct (node_group_resources p !! WORKER) as [recovered |] eqn:Er.
        -- rewrite E. split; [reflexivity |]. intros H53 Hf0 Hf _. cbn [snd].
           apply Hret; assumption.
        -- rewrite E. split; [reflexivity |]. intros _ _ _ Hw.
           destruct (Hw p eq_refl Ee) as [g Hg']. congruence.
    + rewrite E. split; [reflexivity |]. intros H53 Hf0 Hf _. cbn [snd].
      apply Hret; assumption.
  - intros Hb o' p Hg H53 Hf0 Hf.
    destruct (adjust_oom_worker_resource_later s node o' p Hb Hg) as (s1 & ->).
    destruct (incremented_memory_returns (_worker_resource s1)
                (_original_worker_resource s1) _ (conj Hm H53) Hf0 Hf) as (v & ->).
    eexists _, _; reflexivity.
Qed.

End Facts.

Import Fixtures.

(** The claim as first worded fails in two places.  For the PS group: the
    user asked for 20 parameter servers, the optimizer proposes 3, and with
    [MAX_PS_NUM = 15] the live count after the plan is applied is 15, not the
    user's 20.  On the OOM path: the user gave the workers 8192 MiB, which is
    at least [MIN_VALID_MEMORY]; [adjust_oom_worker_resource] applies the
    12288 MiB of the optimizer's recovery plan, so the live worker memory is no
    longer the user's. *)
Lemma override_lost_to_ps_cap_and_oom_path :
  (0 < count (_original_ps_resource (pinned_job []))
   /\ count (_ps_resource
               (fst (_verify_optimized_group_resource sample_limit
                       (plan_of [(PS, group 3 2 4096)]) PS (pinned_job []))))
      = 15
   /\ count (_original_ps_resource (pinned_job [])) = 20)
  /\ (MIN_VALID_MEMORY sample_limit
      <= memory (node_resource (_original_worker_resource oom_job))
      /\ memory (node_resource
                   (_worker_resource
                      (fst (adjust_oom_worker_resource sample_limit easydl_on
                              update_positive (node "worker-0" 8192) oom_job))))
         = 12288
      /\ memory (node_resource
                   (_original_worker_resource
                      (fst (adjust_oom_worker_resource sample_limit easydl_on
                              update_positive (node "worker-0" 8192) oom_job))))
         = 8192).
Proof.
  split; (split; [vm_compute; first [reflexivity | discriminate] |]);
    split; vm_compute; reflexivity.
Qed.

(** Both failures are there for every value of the constants: some user
    count is not the capped count, and a recovery plan above the user's memory
    raises the live memory past it. *)
Lemma override_lost_for_every_limit (l : NodeResourceLimit) :
  (exists n, 0 < n /\ Z.min n (MAX_PS_NUM l) <> n)
  /\ (exists m r, MIN_VALID_MEMORY l <= m /\ Z.max m r <> m).
Proof.
  split.
  - exists (Z.max 1 (MAX_PS_NUM l + 1)). lia.
  - exists (MIN_VALID_MEMORY l), (MIN_VALID_MEMORY l + 1). lia.
Qed.

Lemma user_override_filter_invariant_witness :
  exists s' verified,
    _verify_optimized_group_resource sample_limit
      (plan_of [(PS, group 3 2 4096)]) PS
      (run sample_limit easydl_on update_positive id new_plan
         [Call_init_job_resource; Call_get_job_resource_plan]
         (new_JobResourceOptimizer (group 4 4 8192) (group 20 4 8192)
            ([Some (plan_of [(WORKER, group 16 2 16384)])] : scripted)))
    = (s', Ok verified)
    /\ user_override_wins_capped sample_limit (group 20 4 8192) (_ps_resource s').
Proof.
  destruct (user_override_filter_invariant sample_limit easydl_on update_positive id
              new_plan (group 4 4 8192) (group 20 4 8192)
              ([Some (plan_of [(WORKER, group 16 2 16384)])] : scripted)
              [Call_init_job_resource; Call_get_job_resource_plan])
    as [Hverify _].
  apply (Hverify (plan_of [(PS, group 3 2 4096)]) PS (group 3 2 4096)).
  - right; reflexivity.
  - vm_compute; reflexivity.
Defined.

(** The user asked for 4 workers with 4 cores and 8192 MiB, the optimizer
    proposes 16 workers with 2 cores and 16384 MiB.  With the sample limits,
    count, cpu and memory of the live worker resource are the user's (8192 MiB
    is at least [MIN_VALID_MEMORY], so the proposed memory is not taken
    either). *)
Example user_override_example :
  _worker_resource
    (fst (get_job_resource_plan sample_limit id
            (initialised
               (pinned_job [None; Some (plan_of [(WORKER, group 16 2 16384)])]))))
  = group 4 4 8192.
Proof. vm_compute; reflexivity. Qed.

Lemma get_job_resource_plan_raises_on_empty_worker_plan_witness :
  _job_stage idle_job = WORKER_INITIAL
  /\ generate_opt_plan (_resource_optimizer idle_job) WORKER_INITIAL (Some INITIAL)
     = ([], Some new_plan)
  /\ ResourcePlan_empty new_plan = true
  /\ get_job_resource_plan sample_limit id idle_job
     = (set_job_stage PS_INITIAL (set_resource_optimizer [] idle_job),
        Raise AttributeError).
Proof.
  assert (H1 : _job_stage idle_job = WORKER_INITIAL) by (vm_compute; reflexivity).
  assert (H2 : generate_opt_plan (_resource_optimizer idle_job) WORKER_INITIAL
                 (Some INITIAL) = ([], Some new_plan)) by (vm_compute; reflexivity).
  assert (H3 : ResourcePlan_empty new_plan = true) by (vm_compute; reflexivity).
  split; [exact H1 |]. split; [exact H2 |]. split; [exact H3 |].
  exact (get_job_resource_plan_raises_on_empty_worker_plan sample_limit id
           idle_job [] new_plan H1 H2 H3).
Defined.

(** The same call in the two later stages returns [None]. *)
Example get_job_resource_plan_later_stages_return_none :
  snd (get_job_resource_plan sample_limit id (set_job_stage PS_INITIAL idle_job))
  = Ok None
  /\ snd (get_job_resource_plan sample_limit id (set_job_stage RUNNING idle_job))
     = Ok None.
Proof. split; vm_compute; reflexivity. Qed.

Lemma adjust_oom_worker_resource_memory_witness :
  0 <= memory (config_resource (node "worker-0" 8192))
  /\ exists s' node',
       adjust_oom_worker_resource sample_limit easydl_on update_positive
         (node "worker-0" 8192) oom_job = (s', Ok node')
       /\ memory (node_resource (_worker_resource s')) = 12288
       /\ memory (config_resource node') = 12288
       /\ 8192 <= memory (config_resource node').
Proof.
  assert (H1 : 0 <= memory (config_resource (node "worker-0" 8192)))
    by (vm_compute; discriminate).
  split; [exact H1 |].
  destruct (adjust_oom_worker_resource_memory sample_limit easydl_on update_positive
              oom_job (node "worker-0" 8192) H1) as (Hret & _ & _).
  destruct (adjust_oom_worker_resource sample_limit easydl_on update_positive
              (node "worker-0" 8192) oom_job) as [s' [node' | e]] eqn:E;
    [| vm_compute in E; discriminate E].
  exists s', node'. split; [reflexivity |].
  destruct (Hret s' node' eq_refl) as [_ Hge].
  assert (Hf : memory (config_resource (node "worker-0" 8192)) <= 2 ^ 53
               /\ (1 <= INCREMENTAL_MEMORY_FACTOR sample_limit)%Q)
    by (split; vm_compute; discriminate).
  specialize (Hge (or_introl Hf)).
  vm_compute in E. injection E as <- <-.
  split; [reflexivity |]. split; [reflexivity |]. exact Hge.
Defined.

(** The bound of 53 bits is needed: with a factor of exactly one, a node of
    [2^53 + 1] MiB is relaunched with [2^53] MiB, one less (the conversion of
    the [int] to a float rounds it); with the factor 1.5 the same node gets
    [3 * 2^52] MiB, where the exact product would give one more. *)
Example adjust_oom_worker_resource_rounds :
  incremented_memory
       {| MIN_VALID_MEMORY := 1024; MIN_VALID_CPU := 2; MAX_PS_NUM := 15;
          MAX_MEMORY := 65536; INCREMENTAL_MEMORY_FACTOR := 1 |}
       (group 4 4 8192) (group 4 4 8192) (2 ^ 53 + 1)
     = Ok (2 ^ 53)
  /\ incremented_memory sample_limit (group 4 4 8192) (group 4 4 8192) (2 ^ 53 + 1)
     = Ok (3 * 2 ^ 52)
  /\ Py.int (inject_Z (2 ^ 53 + 1) * (3 # 2)) = 3 * 2 ^ 52 + 1.
Proof. repeat split; vm_compute; reflexivity. Qed.

End JobFacts.

(** ** The task manager *)

Module ShardFacts.
Import Resource Shard MethodFacts.

Lemma od_get_set_eq {A} (k : string) (v : A) (d : list (string * A)) :
  od_get k (od_set k v d) = Some v.
Proof.
  induction d as [| [k' v'] d IH]; simpl.
  - rewrite String.eqb_refl. reflexivity.
  - destruct (String.eqb k k') eqn:E; simpl; rewrite ?String.eqb_refl, ?E; auto.
Qed.

Lemma od_get_set_ne {A} (k k0 : string) (v : A) (d : list (string * A)) :
  k0 <> k -> od_get k0 (od_set k v d) = od_get k0 d.
Proof.
  intros Hne. induction d as [| [k' v'] d IH]; simpl.
  - destruct (String.eqb k0 k) eqn:E; [apply String.eqb_eq in E; contradiction | reflexivity].
  - destruct (String.eqb k k') eqn:E; simpl.
    + apply String.eqb_eq in E; subst k'.
      destruct (String.eqb k0 k) eqn:E'; [apply String.eqb_eq in E'; contradiction | reflexivity].
    + rewrite IH. reflexivity.
Qed.

Lemma Qgtb_true (a b : Q) : Qgtb a b = true <-> (b < a)%Q.
Proof.
  unfold Qgtb. rewrite negb_true_iff. split.
  - intros E. apply Qnot_le_lt. intros Hle. apply Qle_bool_iff in Hle. congruence.
  - intros Hlt. destruct (Qle_bool a b) eqn:E; [| reflexivity].
    apply Qle_bool_iff in E. lra.
Qed.

Lemma is_EVALUATION_true (t : TaskType) : is_EVALUATION t = true <-> t = EVALUATION.
Proof. destruct t; simpl; split; congruence. Qed.

Section Facts.

Context {D Splitter Checkpoint P : Type}.
Context `{DatasetManger D Splitter Checkpoint} `{PerfMonitor P}.
Variable Callback : Type.

(** *** [new_dataset] *)

(** A negative size, or a name already present, leaves the task manager as it
    is. *)
Lemma new_dataset_rejected
    (self : TaskManager D P Callback) batch_size dataset_size name splitter t :
  dataset_size < 0 \/ od_mem name (_datasets self) = true ->
  new_dataset Callback batch_size dataset_size name splitter t self = self.
Proof.
  unfold new_dataset. intros [Hneg | Hmem].
  - destruct (od_mem name (_datasets self)); [reflexivity |].
    apply Z.ltb_lt in Hneg. rewrite Hneg. reflexivity.
  - rewrite Hmem. reflexivity.
Qed.

(** Any size from zero upwards, with a fresh name, creates the dataset. *)
Lemma new_dataset_created
    (self : TaskManager D P Callback) batch_size dataset_size name splitter t :
  0 <= dataset_size ->
  get_dataset Callback name self = None ->
  get_dataset Callback name
    (new_dataset Callback batch_size dataset_size name splitter t self)
  = Some (BatchDatasetManager t batch_size splitter).
Proof.
  unfold new_dataset, get_dataset, od_mem. intros Hsize Hfresh. rewrite Hfresh.
  apply Z.ltb_ge in Hsize. rewrite Hsize. simpl. apply od_get_set_eq.
Qed.

(** C4, the failing case: [new_dataset] with [dataset_size = 0] and a fresh
    name does create and publish the dataset (the test is
    [dataset_size < 0]). *)
Theorem new_dataset_accepts_size_zero
    (self : TaskManager D P Callback) (batch_size : Z) (name : string)
    (splitter : Splitter) (t : TaskType) :
  get_dataset Callback name self = None ->
  get_dataset Callback name (new_dataset Callback batch_size 0 name splitter t self)
  = Some (BatchDatasetManager t batch_size splitter)
  /\ _datasets (new_dataset Callback batch_size 0 name splitter t self)
     <> _datasets self.
Proof.
  intros Hfresh. split.
  - apply new_dataset_created; [lia | exact Hfresh].
  - intros Heq.
    pose proof (new_dataset_created self batch_size 0 name splitter t
                  (Z.le_refl 0) Hfresh) as Hc.
    unfold get_dataset in Hc, Hfresh. rewrite Heq, Hfresh in Hc. discriminate Hc.
Qed.

(** *** The timeout sweep *)

Lemma is_timeout_true (self : TaskManager D P Callback) cur doing_task :
  is_timeout Callback self cur doing_task = true <->
  task_type (task doing_task) = EVALUATION
  /\ (inject_Z (_task_process_timeout self)
      < cur - default cur (_worker_start_task_time self !! node_id doing_task))%Q.
Proof.
  unfold is_timeout. rewrite andb_true_iff, is_EVALUATION_true, Qgtb_true.
  reflexivity.
Qed.

(** The inner loop stops at the first timed-out task of the snapshot. *)
Lemma check_doing_tasks_spec
    (self : TaskManager D P Callback) name cur doing_tasks dataset :
  (forallb (fun p => negb (is_timeout Callback self cur (snd p))) doing_tasks = true
   /\ check_doing_tasks Callback self name cur doing_tasks dataset = (dataset, []))
  \/ exists before id doing_task rest,
       doing_tasks = before ++ (id, doing_task) :: rest
       /\ forallb (fun p => negb (is_timeout Callback self cur (snd p))) before = true
       /\ is_timeout Callback self cur doing_task = true
       /\ check_doing_tasks Callback self name cur doing_tasks dataset
          = (fst (report_task_status dataset id false),
             Reported_failed name id
               :: _invoke_task_timeout_callback Callback (node_id doing_task) self).
Proof.
  induction doing_tasks as [| [id doing_task] rest IH]; simpl.
  - left. split; reflexivity.
  - destruct (is_timeout Callback self cur doing_task) eqn:E; simpl.
    + right. exists [], id, doing_task, rest. repeat split; assumption.
    + destruct IH as [[Hall Heq] | (before & id' & dt' & rest' & -> & Hb & Ht & Heq)].
      * left. split; assumption.
      * right. exists ((id, doing_task) :: before), id', dt', rest'.
        simpl. rewrite E. simpl. repeat split; assumption.
Qed.

(** C7: with a non-negative timeout (the sweeper runs only when it is
    positive), one pass over a dataset either reports nothing and leaves the
    dataset alone, or reports exactly one task of the snapshot of [doing]
    failed and calls every timeout callback with that task's worker id; that
    task has type [EVALUATION] and its worker has a recorded start time
    [start] with [cur - start > task_process_timeout]. *)
Theorem sweep_dataset_reports_at_most_one
    (self : TaskManager D P Callback) (name : string) (cur : Q) (dataset : D) :
  0 <= _task_process_timeout self ->
  (sweep_dataset Callback self name cur dataset = (dataset, []))
  \/ exists id doing_task start,
       In (id, doing_task) (doing dataset)
       /\ task_type (task doing_task) = EVALUATION
       /\ _worker_start_task_time self !! node_id doing_task = Some start
       /\ (inject_Z (_task_process_timeout self) < cur - start)%Q
       /\ sweep_dataset Callback self name cur dataset
          = (fst (report_task_status dataset id false),
             Reported_failed name id
               :: map (fun callback_fn =>
                         Callback_invoked callback_fn (node_id doing_task))
                      (_task_timeout_callbacks self)).
Proof.
  intros Hto. unfold sweep_dataset.
  destruct (check_doing_tasks_spec self name cur (doing dataset) dataset)
    as [[_ Heq] | (before & id & dt & rest & Hd & _ & Ht & Heq)].
  - left. exact Heq.
  - right. apply is_timeout_true in Ht. destruct Ht as [Hty Hlt].
    destruct (_worker_start_task_time self !! node_id dt) as [start |] eqn:Es.
    + exists id, dt, start. repeat split; try assumption.
      rewrite Hd. apply in_or_app. right. left. reflexivity.
    + simpl in Hlt. exfalso.
      assert (inject_Z 0 <= inject_Z (_task_process_timeout self))%Q
        by (rewrite <- Zle_Qle; exact Hto).
      assert (inject_Z 0 == 0)%Q by reflexivity.
      lra.
Qed.

(** *** [task_hanged] *)

Lemma hang_true (timeout : Z) (now : Q) (ds : D) :
  hang timeout now ds = true <->
  (0 < get_latest_task_end_time ds)%Q
  /\ (inject_Z timeout < now - get_latest_task_end_time ds)%Q.
Proof. unfold hang. rewrite andb_true_iff, !Qgtb_true. reflexivity. Qed.

Lemma forallb_imap {A} (f : nat -> A -> bool) (l : list A) :
  forallb id (imap f l) = true <->
  forall i x, l !! i = Some x -> f i x = true.
Proof.
  revert f. induction l as [| a l IH]; intros f; simpl.
  - split; [intros _ i x Hl; discriminate | reflexivity].
  - rewrite andb_true_iff, IH. split.
    + intros [Ha Hl] [| i] x Hx; simpl in Hx.
      * injection Hx as <-. exact Ha.
      * apply (Hl i x Hx).
    + intros Hall. split.
      * apply (Hall 0%nat a eq_refl).
      * intros i x Hx. apply (Hall (S i) x Hx).
Qed.

(** C8 (as amended): [task_hanged] is true exactly when there is at least
    one dataset and every dataset has a latest task end time above zero that
    lies more than [task_process_timeout] before the clock reading taken for
    it. *)
Theorem task_hanged_iff (clock : nat -> Q) (self : TaskManager D P Callback) :
  task_hanged Callback clock self = true <->
  _datasets self <> []
  /\ forall i name ds,
       _datasets self !! i = Some (name, ds) ->
       (0 < get_latest_task_end_time ds)%Q
       /\ (inject_Z (_task_process_timeout self)
           < clock i - get_latest_task_end_time ds)%Q.
Proof.
  unfold task_hanged.
  destruct (_datasets self) as [| nd rest] eqn:Ed.
  - simpl. split; [discriminate | intros [Hne _]; contradiction].
  - rewrite <- Ed.
    assert (Hcons : imap (fun i nd0 => hang (_task_process_timeout self) (clock i) (snd nd0))
                      (_datasets self) <> []) by (rewrite Ed; discriminate).
    destruct (imap _ (_datasets self)) as [| b bs] eqn:Ei; [contradiction |].
    rewrite <- Ei, forallb_imap. split.
    + intros Hall. split; [rewrite Ed; discriminate |].
      intros i name ds Hl. apply hang_true. apply (Hall i (name, ds) Hl).
    + intros [_ Hall] i [name ds] Hl. apply hang_true. apply (Hall i name ds Hl).
Qed.

(** *** [restore_dataset_from_checkpoint] *)

(** C9: [restore_dataset_from_checkpoint] never raises; it returns [True]
    exactly when the blob parses, a dataset has the checkpoint's name and that
    dataset's [restore_checkpoint] does not raise, and [False] in every other
    case. *)
Theorem restore_dataset_from_checkpoint_total
    (blob : string) (self : TaskManager D P Callback) :
  exists self' ok,
    restore_dataset_from_checkpoint Callback blob self = (self', Ok ok)
    /\ (ok = true <->
        exists dataset_checkpoint dataset,
          from_json blob = Ok dataset_checkpoint
          /\ get_dataset Callback (dataset_name dataset_checkpoint) self = Some dataset
          /\ snd (restore_checkpoint dataset dataset_checkpoint) = Ok tt).
Proof.
  unfold restore_dataset_from_checkpoint, try_except, get_dataset,
    mbind, M_bind, bind, lift_result, attr_of, get, put, mret, M_ret, ret, raise.
  destruct (from_json blob) as [cp | e] eqn:Ej; cbv beta iota.
  - destruct (od_get (dataset_name cp) (_datasets self)) as [ds |] eqn:Eg; cbv beta iota.
    + destruct (restore_checkpoint ds cp) as [ds' [[] | e]] eqn:Er; cbv beta iota.
      * eexists _, true; split; [reflexivity |]. split; [| reflexivity].
        intros _. exists cp, ds. rewrite Er. repeat split; assumption.
      * eexists _, false; split; [reflexivity |]. split; [discriminate |].
        intros (cp' & ds0 & Hc & Hd & Hr). injection Hc as <-.
        rewrite Eg in Hd. injection Hd as <-. rewrite Er in Hr. discriminate Hr.
    + eexists _, false; split; [reflexivity |]. split; [discriminate |].
      intros (cp' & ds0 & Hc & Hd & _). injection Hc as <-.
      rewrite Eg in Hd. discriminate Hd.
  - eexists _, false; split; [reflexivity |]. split; [discriminate |].
    intros (cp' & ds0 & Hc & _). discriminate Hc.
Qed.

End Facts.
End ShardFacts.

Module ShardExamples.
Import Resource Shard Fixtures.

Lemma new_dataset_accepts_size_zero_witness :
  get_dataset nat "train" fresh_manager = None
  /\ get_dataset nat "train" (new_dataset nat 32 0 "train" [] TRAINING fresh_manager)
     = Some (BatchDatasetManager TRAINING 32 [])
  /\ _datasets (new_dataset nat 32 0 "train" [] TRAINING fresh_manager)
     <> _datasets fresh_manager.
Proof.
  split; [reflexivity |].
  apply (ShardFacts.new_dataset_accepts_size_zero nat fresh_manager 32 "train" []
           TRAINING).
  reflexivity.
Defined.

(** The sweep at time 100: the training task of worker 1 is passed over,
    the evaluation task of worker 2 (90 s old) is reported and both callbacks
    are called with worker 2; the evaluation task of worker 3 (95 s old) is
    left for a later pass. *)
Example sweep_dataset_example :
  snd (sweep_dataset nat sweeping_manager "eval" 100 sweeping_dataset)
  = [Reported_failed "eval" 1; Callback_invoked 7%nat 2; Callback_invoked 8%nat 2]
  /\ is_timeout nat sweeping_manager 100
       {| task := a_task 2 EVALUATION; node_type := WORKER; node_id := 3;
          start_time := 0 |} = true.
Proof. split; vm_compute; reflexivity. Qed.

Lemma sweep_dataset_reports_at_most_one_witness :
  0 <= _task_process_timeout sweeping_manager
  /\ (sweep_dataset nat sweeping_manager "eval" 100 sweeping_dataset
      = (sweeping_dataset, [])
      \/ exists id doing_task start,
           In (id, doing_task) (doing sweeping_dataset)
           /\ task_type (task doing_task) = EVALUATION
           /\ _worker_start_task_time sweeping_manager !! node_id doing_task
              = Some start
           /\ (inject_Z (_task_process_timeout sweeping_manager) < 100 - start)%Q
           /\ sweep_dataset nat sweeping_manager "eval" 100 sweeping_dataset
              = (fst (report_task_status sweeping_dataset id false),
                 Reported_failed "eval" id
                   :: map (fun callback_fn =>
                             Callback_invoked callback_fn (node_id doing_task))
                          (_task_timeout_callbacks sweeping_manager))).
Proof.
  assert (H0 : 0 <= _task_process_timeout sweeping_manager)
    by (vm_compute; discriminate).
  split; [exact H0 |].
  exact (ShardFacts.sweep_dataset_reports_at_most_one nat sweeping_manager "eval"
           100 sweeping_dataset H0).
Defined.

(** The claim as first worded fails without datasets: "every dataset"
    holds of none, yet [task_hanged] answers [False]. *)
Lemma task_hanged_false_without_datasets :
  task_hanged nat (fun _ => 100%Q) fresh_manager = false
  /\ (forall i name (ds : dataset),
        _datasets fresh_manager !! i = Some (name, ds) ->
        (0 < get_latest_task_end_time ds)%Q
        /\ (inject_Z (_task_process_timeout fresh_manager)
            < 100 - get_latest_task_end_time ds)%Q).
Proof.
  split; [reflexivity |].
  intros i name ds Hl. destruct i; discriminate Hl.
Qed.

(** With a dataset whose last task ended at time 10, the answer at time 100
    follows the timeout of 60 s. *)
Example task_hanged_example :
  let ended (t : Q) : dataset :=
    {| ds_task_type := TRAINING; ds_batch_size := 32; ds_todo := [];
       ds_doing := []; ds_latest_task_end_time := t; ds_completed_step := 3 |} in
  task_hanged nat (fun _ => 100%Q) (set_datasets nat [("train", ended 10%Q)] fresh_manager)
  = true
  /\ task_hanged nat (fun _ => 100%Q) (set_datasets nat [("train", ended 50%Q)] fresh_manager)
     = false
  /\ task_hanged nat (fun _ => 100%Q) (set_datasets nat [("train", ended 0%Q)] fresh_manager)
     = false.
Proof. repeat split; vm_compute; reflexivity. Qed.

(** The three failures and the success of [restore_dataset_from_checkpoint]
    on the sample manager: an unparsable blob, a checkpoint for a dataset
    that does not exist, and a checkpoint for "eval". *)
Example restore_dataset_from_checkpoint_example :
  snd (restore_dataset_from_checkpoint nat "" sweeping_manager) = Ok false
  /\ snd (restore_dataset_from_checkpoint nat "train" sweeping_manager) = Ok false
  /\ snd (restore_dataset_from_checkpoint nat "eval" sweeping_manager) = Ok true.
Proof. repeat split; vm_compute; reflexivity. Qed.

End ShardExamples.

(** ** The servicer *)

Module ServicerFacts.
Import Resource Shard Servicer MethodFacts.

Section Facts.

Context {T N Running Sp J R : Type}.
Context `{TaskManagerLike T} `{NodeManager N Running} `{SpeedMonitor Sp}.
Context `{JobMetricCollector J Sp Running}.
Variable ctx : Servicer.Context.

(** *** [get_task] *)

(** The branch of [get_task] for a pull that yields nothing, over any task
    manager: on a dataset that is not completed the response's type is [WAIT]
    exactly when there is no rendezvous server, or there is one and exactly
    one worker is running.  (A servicer with a rendezvous server has a node
    manager.) *)
Lemma get_task_without_a_task
    (self : MasterServicer T N Sp J R) (request : GetTaskRequest)
    (t_first t_task t_reset : Q) (pulled : T) :
  tm_has_dataset (get_dataset_name request) (_task_manager self) = true ->
  tm_get_dataset_task (worker_type request) (worker_id request)
    (get_dataset_name request) t_task (_task_manager self) = (pulled, None) ->
  tm_dataset_completed (get_dataset_name request) pulled = false ->
  (_rendezvous_server self <> None -> _node_manager self <> None) ->
  exists self' res,
    get_task request t_first t_task t_reset self = (self', Ok res)
    /\ model_version res = _version self
    /\ _task_manager self'
       = tm_reset_worker_start_task_time (worker_id request) t_reset pulled
    /\ (msg_type res = WAIT <->
        _rendezvous_server self = None
        \/ (_rendezvous_server self <> None
            /\ exists n, _node_manager self = Some n
                         /\ length (get_running_workers n) = 1%nat)).
Proof.
  intros Hknown Hpull Hincomplete Hnm.
  destruct self as [tm nm sp rs jmc v t0 flag log]; cbn in *.
  unfold get_task, on_task_manager, mbind, M_bind, bind, get, modify, mret, M_ret, ret.
  cbn.
  destruct (start_time_unset t0); cbn; rewrite Hknown; cbn; rewrite Hpull; cbn;
    rewrite Hincomplete; cbn;
    (destruct rs as [r |]; cbn;
     [ destruct nm as [n |]; [| exfalso; apply Hnm; [discriminate | reflexivity]]; cbn;
       destruct (length (get_running_workers n) =? 1)%nat eqn:El; cbn;
       eexists _, _; (split; [reflexivity |]); cbn;
       (split; [reflexivity |]); (split; [reflexivity |])
     | eexists _, _; (split; [reflexivity |]); cbn;
       (split; [reflexivity |]); (split; [reflexivity |]) ]).
  all: cbn.
  all: try (split; [intros _; right; split; [discriminate |];
                    eexists; split; [reflexivity | apply Nat.eqb_eq; assumption]
                   | reflexivity]).
  all: try (split; [discriminate |];
            intros [Hn | [_ (n' & Hn' & Hl)]]; [discriminate |];
            injection Hn' as <-; apply Nat.eqb_neq in El; contradiction).
  all: try (split; [intros _; left; reflexivity | reflexivity]).
Qed.

(** *** Autoscale, one call after the other *)

Lemma latch_refl allowed o : latch allowed o o.
Proof. left; reflexivity. Qed.

Lemma latch_weaken (allowed allowed' : autoscale_site -> Prop) o o' :
  (forall site, allowed site -> allowed' site) ->
  latch allowed o o' -> latch allowed' o o'.
Proof.
  intros Hsub [-> | (Hb & Ha & site & Hs & Hl)]; [left; reflexivity |].
  right. repeat split; try assumption. exists site; auto.
Qed.

(** The flag is unset only while no call has been made, and at most one call
    is ever made: this survives every move that [latch] allows. *)
Lemma latch_invariant allowed (o o' : bool * list autoscale_site) :
  latch allowed o o' ->
  (fst o = false -> snd o = []) /\ (length (snd o) <= 1)%nat ->
  (fst o' = false -> snd o' = []) /\ (length (snd o') <= 1)%nat.
Proof.
  intros [-> | (Hb & Ha & site & _ & Hl)] [Hflag Hlen]; [split; assumption |].
  split.
  - rewrite Ha; discriminate.
  - rewrite Hl, (Hflag Hb). simpl. lia.
Qed.

Lemma keeps_get_task (s : MasterServicer T N Sp J R) request t_first t_task t_reset :
  keeps_at autoscale_view s (get_task request t_first t_task t_reset).
Proof.
  destruct s as [tm nm sp rs jmc v t0 flag log].
  unfold keeps_at, get_task, on_task_manager, attr_of, of_result, mbind, M_bind, bind,
    get, modify, mret, M_ret, ret, raise; cbn.
  repeat (case_match; simplify_eq/=); reflexivity.
Qed.

(** [call_start_auto_scale], computed. *)
Lemma call_start_auto_scale_eq (site : autoscale_site) (s : MasterServicer T N Sp J R) :
  call_start_auto_scale site s
  = match _node_manager s with
    | Some n =>
        (autoscale_started site (fst (start_auto_scale n)) s, snd (start_auto_scale n))
    | None => (s, Raise AttributeError)
    end.
Proof. unfold call_start_auto_scale. destruct s as [tm [n |] sp rs jmc v t0 flag log]; reflexivity. Qed.

Lemma report_global_step_moves (s : MasterServicer T N Sp J R) request :
  (forall n, snd (start_auto_scale n) = Ok tt) ->
  latch (eq Sample_count_trigger) (autoscale_view s)
    (autoscale_view (fst (report_global_step ctx request s))).
Proof.
  intros Hret.
  destruct s as [tm nm sp rs jmc v t0 flag log].
  unfold report_global_step, _collect_runtime_stats, _check_start_auto_scale_worker,
    call_start_auto_scale, attr_of, of_result, mbind, M_bind, bind, get, put, modify,
    mret, M_ret, ret, raise; cbn.
  destruct jmc as [j |]; cbn; destruct nm as [n |]; cbn; destruct flag; cbn;
    try (left; reflexivity);
    match goal with
    | |- context [(?a <=? ?b)] => destruct (a <=? b)
    end; cbn; try rewrite (Hret n); cbn;
    first [ left; reflexivity
          | right; repeat split; exists Sample_count_trigger; split; reflexivity ].
Qed.

(** What one [report_task_result] does to the flag and the history when
    [start_auto_scale] returns: nothing, or one call from the sample-count
    trigger, or one call from the non-training trigger, and this last only
    under the trigger's guard. *)
Lemma report_task_result_moves (s : MasterServicer T N Sp J R) request t_report now :
  (forall n, snd (start_auto_scale n) = Ok tt) ->
  latch (eq Sample_count_trigger) (autoscale_view s)
    (autoscale_view (fst (report_task_result ctx request t_report now s)))
  \/ (_start_autoscale s = false
      /\ _start_autoscale (fst (report_task_result ctx request t_report now s)) = true
      /\ autoscale_calls (fst (report_task_result ctx request t_report now s))
         = autoscale_calls s ++ [Non_training_trigger]
      /\ _node_manager s <> None
      /\ completed_global_step (_speed_monitor s) = 0
      /\ exists t0, _start_training_time s = Some t0
                    /\ seconds_to_autoscale_worker ctx < Py.int now - t0).
Proof.
  intros Hret.
  destruct s as [tm nm sp rs jmc v t0 flag log].
  unfold report_task_result, non_training_guard, on_task_manager,
    _collect_runtime_stats, _check_start_auto_scale_worker,
    call_start_auto_scale, attr_of, of_result, mbind, M_bind, bind, get, put, modify,
    mret, M_ret, ret, raise; cbn.
  destruct (tm_report_dataset_task _ _ _ _) as [tm1 [[task nid] | e]]; cbn;
    [| left; left; reflexivity].
  destruct flag; cbn.
  - destruct jmc as [j |]; cbn; [| left; left; reflexivity].
    destruct task as [task |]; cbn; [| left; left; reflexivity].
    destruct (is_PREDICTION (task_type task)); cbn; [| left; left; reflexivity].
    destruct nm as [n |]; cbn; left; left; reflexivity.
  - destruct nm as [n |]; cbn.
    + destruct (completed_global_step sp =? 0) eqn:Ec; cbn.
      * destruct t0 as [t0 |]; cbn; [| left; left; reflexivity].
        destruct (seconds_to_autoscale_worker ctx <? Py.int now - t0) eqn:Et; cbn.
        -- assert (Hfire :
             _node_manager
               {| _task_manager := tm; _node_manager := Some n; _speed_monitor := sp;
                  _rendezvous_server := rs; _job_metric_collector := jmc;
                  _version := v; _start_training_time := Some t0;
                  _start_autoscale := false; autoscale_calls := log |} <> None
             /\ completed_global_step sp = 0
             /\ exists t1, Some t0 = Some t1
                           /\ seconds_to_autoscale_worker ctx < Py.int now - t1).
           { split; [discriminate |]. split; [apply Z.eqb_eq; exact Ec |].
             exists t0. split; [reflexivity | apply Z.ltb_lt; exact Et]. }
           rewrite (Hret n); cbn.
           destruct jmc as [j |]; cbn;
             [destruct task as [task |]; cbn;
              [destruct (is_PREDICTION (task_type task)); cbn |] |];
             right; repeat split; try reflexivity; apply Hfire.
        -- destruct jmc as [j |]; cbn; [| left; left; reflexivity].
           destruct task as [task |]; cbn; [| left; left; reflexivity].
           destruct (is_PREDICTION (task_type task)); cbn; [| left; left; reflexivity].
           match goal with
           | |- context [(?a <=? ?b)] => destruct (a <=? b)
           end; cbn; try rewrite (Hret n); cbn;
           first [ left; left; reflexivity
                 | left; right; repeat split; exists Sample_count_trigger;
                   split; reflexivity ].
      * destruct jmc as [j |]; cbn; [| left; left; reflexivity].
        destruct task as [task |]; cbn; [| left; left; reflexivity].
        destruct (is_PREDICTION (task_type task)); cbn; [| left; left; reflexivity].
        match goal with
        | |- context [(?a <=? ?b)] => destruct (a <=? b)
        end; cbn; try rewrite (Hret n); cbn;
        first [ left; left; reflexivity
              | left; right; repeat split; exists Sample_count_trigger;
                split; reflexivity ].
    + destruct jmc as [j |]; cbn; [| left; left; reflexivity].
      destruct task as [task |]; cbn; [| left; left; reflexivity].
      destruct (is_PREDICTION (task_type task)); cbn; left; left; reflexivity.
Qed.

Lemma after_moves (c : call) (s : MasterServicer T N Sp J R) :
  (forall n, snd (start_auto_scale n) = Ok tt) ->
  latch (fun _ => True) (autoscale_view s) (autoscale_view (after ctx c s)).
Proof.
  intros Hret.
  destruct c as [request t1 t2 t3 | request t1 t2 | request | ft fn fs fj]; simpl.
  - left. apply keeps_get_task.
  - destruct (report_task_result_moves s request t1 t2 Hret)
      as [Hl | (Hb & Ha & Hlog & _)].
    + apply (latch_weaken (eq Sample_count_trigger)); [trivial | exact Hl].
    + right. repeat split; try assumption.
      exists Non_training_trigger. split; [trivial | exact Hlog].
  - apply (latch_weaken (eq Sample_count_trigger)); [trivial |].
    apply report_global_step_moves. exact Hret.
  - left. reflexivity.
Qed.

Lemma run_invariant (calls : list call) (s : MasterServicer T N Sp J R) :
  (forall n, snd (start_auto_scale n) = Ok tt) ->
  (_start_autoscale s = false -> autoscale_calls s = [])
  /\ (length (autoscale_calls s) <= 1)%nat ->
  (_start_autoscale (run ctx calls s) = false -> autoscale_calls (run ctx calls s) = [])
  /\ (length (autoscale_calls (run ctx calls s)) <= 1)%nat.
Proof.
  intros Hret.
  unfold run. revert s. induction calls as [| c calls IH]; intros s Hinv; [exact Hinv |].
  simpl. apply IH.
  apply (latch_invariant (fun _ => True) (autoscale_view s) (autoscale_view (after ctx c s)));
    [apply after_moves; exact Hret | exact Hinv].
Qed.

(** With one handler at a time and a [start_auto_scale] that returns: starting
    from a new servicer, after any sequence of [get_task],
    [report_task_result] and [report_global_step] calls (and any activity of
    the collaborators in between), [start_auto_scale] has been called at most
    once, and never while [_start_autoscale] is still unset; and if the next
    [report_task_result] calls it from the non-training trigger, then
    [_start_autoscale] was unset, a node manager is present,
    [completed_global_step] is [0] and [int(now)] minus [_start_training_time]
    exceeds [seconds_to_autoscale_worker]. *)
Lemma autoscale_at_most_once_in_turn
    (task_manager : T) (node_manager : option N) (speed_monitor : Sp)
    (rendezvous_server : option R) (job_metric_collector : option J)
    (calls : list call) :
  (forall n, snd (start_auto_scale n) = Ok tt) ->
  let s := run ctx calls
             (new_MasterServicer task_manager node_manager speed_monitor
                rendezvous_server job_metric_collector) in
  (length (autoscale_calls s) <= 1)%nat
  /\ (_start_autoscale s = false -> autoscale_calls s = [])
  /\ forall request t_report now rest,
       autoscale_calls (fst (report_task_result ctx request t_report now s))
       = autoscale_calls s ++ Non_training_trigger :: rest ->
       _start_autoscale s = false
       /\ _node_manager s <> None
       /\ completed_global_step (_speed_monitor s) = 0
       /\ exists t0, _start_training_time s = Some t0
                     /\ seconds_to_autoscale_worker ctx < Py.int now - t0.
Proof.
  intros Hret s.
  destruct (run_invariant calls
              (new_MasterServicer task_manager node_manager speed_monitor
                 rendezvous_server job_metric_collector) Hret) as [Hflag Hlen].
  { split; [reflexivity | simpl; lia]. }
  fold s in Hflag, Hlen.
  split; [exact Hlen |]. split; [exact Hflag |].
  intros request t_report now rest Hlog.
  destruct (report_task_result_moves s request t_report now Hret)
    as [[Heq | (_ & _ & site & <- & Hl)] | (Hb & _ & _ & Hn & Hc & Ht)].
  - unfold autoscale_view in Heq. injection Heq as _ Heq.
    rewrite Heq in Hlog. rewrite <- (app_nil_r (autoscale_calls s)) in Hlog at 1.
    apply app_inv_head in Hlog. discriminate Hlog.
  - unfold autoscale_view in Hl. cbn [snd] in Hl. rewrite Hl in Hlog.
    apply app_inv_head in Hlog. discriminate Hlog.
  - repeat split; assumption.
Qed.

(** *** Autoscale, handlers on the thread pool *)

(** A handler that no other thread interrupts does what the method does. *)
Lemma uninterrupted_report_global_step (request : GlobalStepRecord)
    (s : MasterServicer T N Sp J R) :
  uninterrupted (report_global_step_steps ctx request) s
  = report_global_step ctx request s.
Proof.
  destruct s as [tm nm sp rs jmc v t0 flag log].
  unfold report_global_step_steps, report_global_step,
    _check_start_auto_scale_worker_steps, _check_start_auto_scale_worker, atomically,
    _collect_runtime_stats, call_start_auto_scale, attr_of, of_result, mbind, M_bind,
    bind, get, put, modify, mret, M_ret, ret, raise; cbn.
  destruct jmc as [j |]; cbn; destruct nm as [n |]; cbn; try reflexivity;
    destruct flag; cbn; try reflexivity;
    match goal with
    | |- context [(?a <=? ?b)] => destruct (a <=? b)
    end; cbn; try reflexivity;
    destruct (start_auto_scale n) as [n' [[] | e]]; reflexivity.
Qed.

Lemma uninterrupted_report_task_result (request : TaskResult) (t_report now : Q)
    (s : MasterServicer T N Sp J R) :
  uninterrupted (report_task_result_steps ctx request t_report now) s
  = report_task_result ctx request t_report now s.
Proof.
  destruct s as [tm nm sp rs jmc v t0 flag log].
  unfold report_task_result_steps, report_task_result, non_training_guard,
    on_task_manager, _check_start_auto_scale_worker_steps,
    _check_start_auto_scale_worker, atomically,
    _collect_runtime_stats, call_start_auto_scale, attr_of, of_result, mbind, M_bind,
    bind, get, put, modify, mret, M_ret, ret, raise; cbn.
  destruct (tm_report_dataset_task _ _ _ _) as [tm1 [[task nid] | e]]; cbn;
    [| reflexivity].
  repeat first
    [ reflexivity
    | match goal with
      | |- context [match ?x with _ => _ end] =>
          match x with
          | context [match _ with _ => _ end] => fail 1
          | _ => destruct x eqn:?; cbn
          end
      | |- context [if ?x then _ else _] =>
          match x with
          | context [if _ then _ else _] => fail 1
          | _ => destruct x eqn:?; cbn
          end
      end ].
Qed.

(** One step of thread 0 or of thread 1 in a pool of two handlers. *)
Lemma step_handler_0 (s : MasterServicer T N Sp J R) effect rest h :
  step_handler 0 {| master_servicer := s; in_flight := [Step effect rest; h] |}
  = {| master_servicer := effect s; in_flight := [rest s; h] |}.
Proof. reflexivity. Qed.

Lemma step_handler_1 (s : MasterServicer T N Sp J R) effect rest h :
  step_handler 1 {| master_servicer := s; in_flight := [h; Step effect rest] |}
  = {| master_servicer := effect s; in_flight := [h; rest s] |}.
Proof. reflexivity. Qed.

(** C6: two [report_global_step] handlers on the thread pool, on a servicer
    whose flag is unset and whose sample count reaches the limit once both
    steps are collected.  On the schedule that alternates between the two
    threads, both test [_start_autoscale] before either assigns it, and
    [start_auto_scale] is called twice, both times from the sample-count
    trigger; when both calls return, both handlers finish and the flag is
    set. *)
Theorem autoscale_fires_twice_when_interleaved
    (s : MasterServicer T N Sp J R) (n : N) (first second : GlobalStepRecord) :
  _start_autoscale s = false ->
  _node_manager s = Some n ->
  sample_count_to_adjust_worker ctx
  <= get_sample_count
       (collect_global_step
          (collect_global_step (_speed_monitor s) (global_step first) (timestamp first))
          (global_step second) (timestamp second)) ->
  let p := interleave [0; 1; 0; 1; 0; 1; 0; 1; 0; 1]%nat
             {| master_servicer := s;
                in_flight := [report_global_step_steps ctx first;
                              report_global_step_steps ctx second] |} in
  autoscale_calls (master_servicer p)
  = autoscale_calls s ++ [Sample_count_trigger; Sample_count_trigger]
  /\ _node_manager (master_servicer p)
     = Some (fst (start_auto_scale (fst (start_auto_scale n))))
  /\ (snd (start_auto_scale n) = Ok tt ->
      snd (start_auto_scale (fst (start_auto_scale n))) = Ok tt ->
      in_flight p = [Finished; Finished] /\ _start_autoscale (master_servicer p) = true).
Proof.
  intros Hflag Hnm Hcount.
  destruct s as [tm nm sp rs jmc v t0 flag log]; cbn in Hflag, Hnm, Hcount.
  subst flag nm. apply Z.leb_le in Hcount.
  unfold interleave, report_global_step_steps, _check_start_auto_scale_worker_steps,
    atomically, _collect_runtime_stats, call_start_auto_scale, attr_of, of_result,
    mbind, M_bind, bind, get, put, modify, mret, M_ret, ret, raise.
  cbn [fold_left].
  rewrite step_handler_0; cbn -[step_handler].
  rewrite step_handler_1; cbn -[step_handler].
  destruct jmc as [j |]; cbn -[step_handler];
    rewrite step_handler_0; cbn -[step_handler];
    rewrite step_handler_1; cbn -[step_handler];
    rewrite step_handler_0; cbn -[step_handler]; rewrite Hcount; cbn -[step_handler];
    rewrite step_handler_1; cbn -[step_handler]; rewrite Hcount; cbn -[step_handler];
    rewrite step_handler_0; cbn -[step_handler];
    (destruct (start_auto_scale n) as [n1 [[] | e1]] eqn:E1; cbn -[step_handler];
     rewrite ?step_handler_1; cbn -[step_handler];
     (destruct (start_auto_scale n1) as [n2 [[] | e2]] eqn:E2; cbn;
      rewrite <- ?app_assoc; cbn;
      (split; [reflexivity |]); (split; [reflexivity |]);
      intros Hr1 Hr2; try discriminate Hr1; try discriminate Hr2;
      split; reflexivity)).
Qed.

End Facts.

(** *** [get_task] over the task manager of task_manager.py *)

Section OverTaskManager.

Context {D Splitter Checkpoint P N Running Sp J R : Type}.
Context `{DatasetManger D Splitter Checkpoint} `{PerfMonitor P}.
Context `{NodeManager N Running} `{SpeedMonitor Sp}.
Context `{JobMetricCollector J Sp Running}.
Variable Callback : Type.

#[local] Existing Instance Wiring.TaskManager_like.

(** [get_dataset_task] on a dataset the task manager knows yields the task
    its dataset manager hands out, whatever that is, and records the
    caller's start time. *)
Lemma get_dataset_task_yields
    (tm : TaskManager D P Callback) (wt : NodeType) (wid : Z) (name : string)
    (now : Q) (dataset : D) :
  get_dataset Callback name tm = Some dataset ->
  snd (get_dataset_task Callback wt wid name now tm)
  = Some (snd (Shard.get_task dataset wt wid))
  /\ _worker_start_task_time (fst (get_dataset_task Callback wt wid name now tm)) !! wid
     = Some now.
Proof.
  unfold get_dataset, get_dataset_task. intros ->.
  destruct (Shard.get_task dataset wt wid) as [d t]; cbn.
  split; [reflexivity |].
  unfold reset_worker_start_task_time; cbn. apply lookup_insert_eq.
Qed.

(** C5: on a dataset the task manager knows, the pull yields the task [t]
    that the dataset manager hands out ([get_dataset_task] returns [None]
    only for a dataset it does not know, so the [WAIT] branch is not
    reached).  If every number of [t] fits its protobuf field, [get_task]
    returns a response that carries the id, the type and the shard of [t] and
    is stamped with [_version], and leaves the caller's start time reset (by
    [reset_worker_start_task_time], after the pull).  If one does not,
    [get_task] raises [ValueError]: the servicer's reset is skipped and the
    caller's start time is the one the pull recorded. *)
Theorem get_task_on_known_dataset
    (self : MasterServicer (TaskManager D P Callback) N Sp J R)
    (request : GetTaskRequest) (t_first t_task t_reset : Q) (dataset : D) :
  get_dataset Callback (get_dataset_name request) (_task_manager self) = Some dataset ->
  let t := snd (Shard.get_task dataset (worker_type request) (worker_id request)) in
  let pull :=
    get_dataset_task Callback (worker_type request) (worker_id request)
      (get_dataset_name request) t_task (_task_manager self) in
  let r := get_task request t_first t_task t_reset self in
  snd pull = Some t
  /\ (fits_TaskMsg t = true ->
      exists res,
        snd r = Ok res
        /\ msg_task_id res = task_id t
        /\ msg_type res = task_type t
        /\ msg_shard res
           = {| msg_name := shard_name (shard t);
                msg_start := shard_start (shard t);
                msg_end := shard_end (shard t);
                msg_indices := record_indices (shard t) |}
        /\ model_version res = _version self
        /\ _task_manager (fst r)
           = reset_worker_start_task_time Callback (worker_id request) t_reset (fst pull)
        /\ _worker_start_task_time (_task_manager (fst r)) !! worker_id request
           = Some t_reset)
  /\ (fits_TaskMsg t = false ->
      snd r = Raise ValueError
      /\ _task_manager (fst r) = fst pull
      /\ _worker_start_task_time (_task_manager (fst r)) !! worker_id request
         = Some t_task).
Proof.
  intros Hknown t pull r. subst r pull.
  destruct (get_dataset_task_yields (_task_manager self) (worker_type request)
              (worker_id request) (get_dataset_name request) t_task dataset Hknown)
    as [Hyield Htime].
  fold t in Hyield.
  destruct (get_dataset_task Callback (worker_type request) (worker_id request)
              (get_dataset_name request) t_task (_task_manager self))
    as [pulled yielded] eqn:Epull.
  cbn [fst snd] in Hyield, Htime |- *. subst yielded.
  split; [reflexivity |].
  assert (Hr : get_task request t_first t_task t_reset self
    = match with_task t (with_model_version (_version self) new_TaskMsg) with
      | Ok res =>
          (set_task_manager
             (reset_worker_start_task_time Callback (worker_id request) t_reset pulled)
             (set_task_manager pulled
                (if start_time_unset (_start_training_time self)
                 then set_start_training_time (Some (Py.int t_first)) self
                 else self)), Ok res)
      | Raise e =>
          (set_task_manager pulled
             (if start_time_unset (_start_training_time self)
              then set_start_training_time (Some (Py.int t_first)) self
              else self), Raise e)
      end).
  { destruct self as [tm nm sp rs jmc v t0 flag log]; cbn in *.
    unfold get_task, on_task_manager, of_result, mbind, M_bind, bind, get, modify,
      mret, M_ret, ret.
    cbn -[get_dataset_task get_dataset]. rewrite Hknown.
    destruct (start_time_unset t0); cbn -[get_dataset_task get_dataset];
      rewrite Epull; cbn;
      destruct (with_task t _) as [res | e]; reflexivity. }
  unfold with_task in Hr.
  split; intros Hfits; rewrite Hfits in Hr; rewrite Hr; cbn.
  - eexists. split; [reflexivity |]. cbn. repeat split; try reflexivity.
    unfold reset_worker_start_task_time; cbn. apply lookup_insert_eq.
  - repeat split; try reflexivity.
    destruct (start_time_unset (_start_training_time self)); exact Htime.
Qed.

End OverTaskManager.
End ServicerFacts.

Module ServicerExamples.
Import Resource Shard Servicer Fixtures.

Lemma get_task_on_known_dataset_witness :
  get_dataset nat (get_dataset_name a_request) (_task_manager a_servicer)
  = Some (BatchDatasetManager TRAINING 32 [a_task 0 TRAINING; a_task 1 TRAINING])
  /\ exists res,
       snd (get_task a_request 1000 1001 1002 a_servicer) = Ok res
       /\ msg_task_id res = 0
       /\ msg_type res = TRAINING
       /\ msg_shard res
          = {| msg_name := "train"; msg_start := 0; msg_end := 100; msg_indices := [] |}
       /\ model_version res = 0
       /\ _worker_start_task_time
            (_task_manager (fst (get_task a_request 1000 1001 1002 a_servicer))) !! 4
          = Some 1002%Q.
Proof.
  assert (H1 : get_dataset nat (get_dataset_name a_request) (_task_manager a_servicer)
               = Some (BatchDatasetManager TRAINING 32
                         [a_task 0 TRAINING; a_task 1 TRAINING]))
    by (vm_compute; reflexivity).
  split; [exact H1 |].
  destruct (ServicerFacts.get_task_on_known_dataset nat a_servicer a_request
              1000 1001 1002 _ H1) as (_ & Hfits & _).
  destruct (Hfits eq_refl) as (res & E & Hid & Hty & Hsh & Hv & _ & Ht).
  exists res. repeat split; assumption.
Defined.

(** A task numbered [2^31] on a dataset that is known and not completed: the
    task manager yields it, and [get_task] raises [ValueError] instead of
    returning a response; the only reset of the caller's start time is the
    pull's own, at its reading of the clock. *)
Lemma get_task_raises_past_int32 :
  let r := get_task a_request 1000 1001 1002 a_servicer_past_int32 in
  tm_has_dataset "train" (_task_manager a_servicer_past_int32) = true
  /\ snd (tm_get_dataset_task WORKER 4 "train" 1001 (_task_manager a_servicer_past_int32))
     = Some (a_task (2 ^ 31) TRAINING)
  /\ tm_dataset_completed "train" (_task_manager (fst r)) = false
  /\ snd r = Raise ValueError
  /\ _worker_start_task_time (_task_manager (fst r)) !! 4 = Some 1001%Q.
Proof. repeat split; vm_compute; reflexivity. Qed.

(** The [WAIT] branch, on a task manager that yields nothing: [WAIT] without
    a rendezvous server, [WAIT] with one and a single running worker, the
    default type with one and two running workers.  Over the task manager of
    task_manager.py a dataset with nothing left to hand out yields its
    manager's task all the same, and the response carries it. *)
Example get_task_wait_example :
  snd (get_task a_request 1000 1001 1002 (a_drained_servicer None [1; 2]))
  = Ok (with_type WAIT new_TaskMsg)
  /\ snd (get_task a_request 1000 1001 1002 (a_drained_servicer (Some tt) [1]))
     = Ok (with_type WAIT new_TaskMsg)
  /\ snd (get_task a_request 1000 1001 1002 (a_drained_servicer (Some tt) [1; 2]))
     = Ok new_TaskMsg
  /\ (let once := fst (get_task a_request 1000 1001 1002 a_servicer) in
      let twice := fst (get_task a_request 1000 1001 1002 once) in
      tm_dataset_completed "train" (_task_manager twice) = false
      /\ match snd (get_task a_request 1000 1001 1002 twice) with
         | Ok res => Some (msg_task_id res, msg_type res)
         | Raise _ => None
         end = Some (-1, NONE)).
Proof. repeat split; vm_compute; reflexivity. Qed.

(** A run in which the non-training trigger fires: the first task is pulled
    at time 1000 and reported at time 1100 with no global step completed (the
    limit is 90 s); six global-step reports follow, enough samples for the
    other trigger, which stays silent because the flag is set. *)
Example autoscale_example :
  let calls :=
    [ Call_get_task a_request 1000 1001 1002;
      Call_report_task_result
        {| req_task_id := 0; req_dataset_name := "train"; err_message := "" |}
        1100 1100;
      Collaborators_change id id (fun _ => {| completed_steps := 0; samples := 9 |}) id;
      Call_report_global_step {| global_step := 10; timestamp := 1200 |} ] in
  autoscale_calls (run sample_context calls a_servicer) = [Non_training_trigger]
  /\ (scale_calls <$> _node_manager (run sample_context calls a_servicer)) = Some 1%nat
  /\ autoscale_calls (run sample_context (removelast calls) a_servicer)
     = [Non_training_trigger]
  /\ autoscale_calls
       (run sample_context
          [Collaborators_change id id
             (fun _ => {| completed_steps := 0; samples := 9 |}) id;
           Call_report_global_step {| global_step := 10; timestamp := 1200 |}]
          a_servicer)
     = [Sample_count_trigger].
Proof. repeat split; vm_compute; reflexivity. Qed.

Lemma autoscale_fires_twice_when_interleaved_witness :
  _start_autoscale a_sampled_servicer = false
  /\ sample_count_to_adjust_worker sample_context <= 11
  /\ let p := interleave [0; 1; 0; 1; 0; 1; 0; 1; 0; 1]%nat
                {| master_servicer := a_sampled_servicer;
                   in_flight :=
                     [report_global_step_steps sample_context
                        {| global_step := 41; timestamp := 1200 |};
                      report_global_step_steps sample_context
                        {| global_step := 42; timestamp := 1201 |}] |} in
     autoscale_calls (master_servicer p) = [Sample_count_trigger; Sample_count_trigger]
     /\ (scale_calls <$> _node_manager (master_servicer p)) = Some 2%nat
     /\ in_flight p = [Finished; Finished]
     /\ _start_autoscale (master_servicer p) = true.
Proof.
  split; [reflexivity |]. split; [vm_compute; discriminate |].
  destruct (ServicerFacts.autoscale_fires_twice_when_interleaved sample_context
              a_sampled_servicer {| running_workers := [1; 2; 3]; scale_calls := 0 |}
              {| global_step := 41; timestamp := 1200 |}
              {| global_step := 42; timestamp := 1201 |} eq_refl eq_refl)
    as (Hcalls & Hnm & Hdone).
  { vm_compute; discriminate. }
  destruct (Hdone eq_refl eq_refl) as [Hfin Hflag].
  cbv zeta. split; [exact Hcalls |]. split; [rewrite Hnm; reflexivity |].
  split; assumption.
Defined.

(** One handler at a time is not enough either: a [start_auto_scale] that
    raises leaves the flag unset, and the next report calls it again. *)
Example autoscale_fires_again_after_a_failure :
  let once :=
    report_global_step sample_context {| global_step := 41; timestamp := 1200 |}
      a_flaky_servicer in
  let twice :=
    report_global_step sample_context {| global_step := 42; timestamp := 1201 |}
      (fst once) in
  snd once = Raise OtherException
  /\ _start_autoscale (fst once) = false
  /\ autoscale_calls (fst once) = [Sample_count_trigger]
  /\ snd twice = Ok tt
  /\ _start_autoscale (fst twice) = true
  /\ autoscale_calls (fst twice) = [Sample_count_trigger; Sample_count_trigger]
  /\ (start_attempts <$> _node_manager (fst twice)) = Some 2%nat.
Proof. repeat split; vm_compute; reflexivity. Qed.

End ServicerExamples.

(** ** The Atorch event collector *)

Module AtorchFacts.
Import Atorch.

Section Facts.

Variable line : Type.
Variable parse_line : line -> result event.

Lemma monitor_file_cons (l : line) (lines : list line) (c : AtorchEventCollector) :
  _monitor_file line parse_line (l :: lines) c
  = _monitor_file line parse_line lines (handle_line line parse_line l c).
Proof. reflexivity. Qed.

(** Once the first step is known it stays, and each parsed event is reported
    when, and only when, its step differs from it. *)
Lemma monitor_file_first_step_known
    (lines : list line) (c : AtorchEventCollector) (first : Z) :
  _first_step c = Some first ->
  _first_step (_monitor_file line parse_line lines c) = Some first
  /\ reported (_monitor_file line parse_line lines c)
     = reported c ++ filter (fun e => differs_from first e = true)
                            (parsed line parse_line lines).
Proof.
  revert c. induction lines as [| l lines IH]; intros c Hc.
  - simpl. rewrite app_nil_r. split; [exact Hc | reflexivity].
  - rewrite monitor_file_cons. unfold parsed; simpl. unfold handle_line.
    destruct (parse_line l) as [e | x]; [| apply IH; exact Hc].
    unfold handle_event. rewrite Hc. simpl. rewrite Hc.
    rewrite filter_cons. fold (differs_from first e).
    destruct (differs_from first e) eqn:Ed.
    + rewrite decide_True by reflexivity.
      destruct (IH (_report_event e c) Hc) as [Hf Hr].
      split; [exact Hf |]. rewrite Hr. simpl. rewrite <- app_assoc. reflexivity.
    + rewrite decide_False by discriminate. apply IH. exact Hc.
Qed.

(** What a run of [_monitor_file] by one thread, with no other thread in
    between, adds to the events reported to the master.  When the
    collector's [_first_step] is unset on entry, nothing is reported for the
    lines up to and including the first one that parses to a TRAINER step
    event of type BEGIN; that event's step becomes [_first_step], and of the
    events parsed after it exactly those with another step are reported.
    When [_first_step] is already set on entry (it belongs to the collector,
    not to the file), it stays, and of all the events parsed exactly those
    with another step are reported. *)
Lemma monitor_file_reports (lines : list line) (c : AtorchEventCollector) :
  match _first_step c with
  | Some first =>
      _first_step (_monitor_file line parse_line lines c) = Some first
      /\ reported (_monitor_file line parse_line lines c)
         = reported c ++ filter (fun e => differs_from first e = true)
                                (parsed line parse_line lines)
  | None =>
      (forallb (fun e => negb (is_trainer_step_begin e)) (parsed line parse_line lines)
       = true
       /\ _first_step (_monitor_file line parse_line lines c) = None
       /\ reported (_monitor_file line parse_line lines c) = reported c)
      \/ exists before l b rest,
           lines = before ++ l :: rest
           /\ forallb (fun e => negb (is_trainer_step_begin e))
                (parsed line parse_line before) = true
           /\ parse_line l = Ok b
           /\ is_trainer_step_begin b = true
           /\ _first_step (_monitor_file line parse_line lines c) = Some (step b)
           /\ reported (_monitor_file line parse_line lines c)
              = reported c ++ filter (fun e => differs_from (step b) e = true)
                                     (parsed line parse_line rest)
  end.
Proof.
  destruct (_first_step c) as [first |] eqn:Hc.
  - apply monitor_file_first_step_known. exact Hc.
  - revert c Hc. induction lines as [| l lines IH]; intros c Hc.
    + left. repeat split; [exact Hc].
    + rewrite monitor_file_cons. unfold handle_line.
      destruct (parse_line l) as [e | x] eqn:Ep.
      * unfold handle_event. rewrite Hc.
        destruct (is_trainer_step_begin e) eqn:Eb.
        -- right. exists [], l, e, lines. simpl.
           rewrite Z.eqb_refl. simpl.
           destruct (monitor_file_first_step_known lines
                       (set_first_step (Some (step e)) c) (step e) eq_refl)
             as [Hf Hr].
           repeat split; try assumption.
        -- rewrite Hc.
           destruct (IH c Hc) as [(Hall & Hf & Hr) | (before & l' & b & rest & -> & Hb & Hp & Hbb & Hf & Hr)].
           ++ left. unfold parsed; simpl. rewrite Ep. simpl. rewrite Eb. simpl.
              repeat split; assumption.
           ++ right. exists (l :: before), l', b, rest.
              unfold parsed; simpl. rewrite Ep. simpl. rewrite Eb. simpl.
              repeat split; assumption.
      * destruct (IH c Hc) as [(Hall & Hf & Hr) | (before & l' & b & rest & -> & Hb & Hp & Hbb & Hf & Hr)].
        -- left. unfold parsed; simpl. rewrite Ep. repeat split; assumption.
        -- right. exists (l :: before), l', b, rest.
           unfold parsed; simpl. rewrite Ep. repeat split; assumption.
Qed.

(** *** The rank threads *)

Lemma first_step_source_more c0 (events more : list event) f :
  first_step_source c0 events f -> first_step_source c0 (events ++ more) f.
Proof.
  intros [Hf | (b & Hb & Hbegin & Hstep)]; [left; exact Hf |].
  right. exists b. split; [apply elem_of_app; left; exact Hb | split; assumption].
Qed.

Lemma position_justified_more c0 (events more : list event) first first' p :
  (first <> None -> first' <> None) ->
  position_justified c0 events first p ->
  position_justified c0 (events ++ more) first' p.
Proof.
  intros Hfirst. destruct p as [| | e | e | e | e | e |]; simpl; try exact id.
  - intros He. apply elem_of_app; left; exact He.
  - intros [He Hb]. split; [apply elem_of_app; left; exact He | exact Hb].
  - intros He. apply elem_of_app; left; exact He.
  - intros [He Hf]. split; [apply elem_of_app; left; exact He | exact (Hfirst Hf)].
  - intros [He (f & Hs & Hn)]. split; [apply elem_of_app; left; exact He |].
    exists f. split; [apply first_step_source_more; exact Hs | exact Hn].
Qed.

Lemma threads_invariant_update c0 (st : collectors line) i t' c' more :
  threads_invariant line c0 st ->
  (forall f, _first_step c' = Some f -> first_step_source c0 (observed line st ++ more) f) ->
  (_first_step (shared line st) <> None -> _first_step c' <> None) ->
  position_justified c0 (observed line st ++ more) (_first_step c') (at_line line t') ->
  (reported c' = reported (shared line st)
   \/ exists e, reported c' = reported (shared line st) ++ [e]
               /\ e ∈ observed line st
               /\ exists f, first_step_source c0 (observed line st) f /\ step e <> f) ->
  threads_invariant line c0
    {| shared := c'; threads := <[i := t']> (threads line st);
       observed := observed line st ++ more |}.
Proof.
  intros (Hf & Hall & new & Hrep & Hnew) Hf' Hset Hpos Hreported.
  assert (Hnew' :
    Forall (fun e => e ∈ observed line st ++ more
                     /\ exists f, first_step_source c0 (observed line st ++ more) f
                                  /\ step e <> f) new).
  { eapply Forall_impl; [exact Hnew |]. intros e [He (f & Hs & Hn)].
    split; [apply elem_of_app; left; exact He |].
    exists f. split; [apply first_step_source_more; exact Hs | exact Hn]. }
  split; [exact Hf' |]. split.
  - cbn. apply Forall_insert; [| exact Hpos].
    eapply Forall_impl; [exact Hall |]. intros t Ht.
    eapply position_justified_more; [exact Hset | exact Ht].
  - cbn. destruct Hreported as [E | (e & E & He & f & Hs & Hn)].
    + exists new. rewrite E. split; [exact Hrep | exact Hnew'].
    + exists (new ++ [e]). rewrite E, Hrep, <- app_assoc. split; [reflexivity |].
      apply Forall_app. split; [exact Hnew' |]. constructor; [| constructor].
      split; [apply elem_of_app; left; exact He |].
      exists f. split; [apply first_step_source_more; exact Hs | exact Hn].
Qed.

Lemma thread_turn_invariant c0 (st : collectors line) i f :
  f = thread_step line parse_line \/ f = thread_fails line ->
  threads_invariant line c0 st ->
  threads_invariant line c0 (thread_turn line f i st).
Proof.
  intros Hwhich Hinv. unfold thread_turn.
  destruct (threads line st !! i) as [t |] eqn:Ei; [| exact Hinv].
  pose proof Hinv as (Hf & Hall & _).
  pose proof (Forall_lookup_1 _ _ _ _ Hall Ei) as Hpos. cbn beta in Hpos.
  assert (Hkeep : forall f0, _first_step (shared line st) = Some f0 ->
                    first_step_source c0 (observed line st ++ []) f0)
    by (intros f0 Hf0; apply first_step_source_more, Hf, Hf0).
  assert (Hhere : forall p,
            position_justified c0 (observed line st) (_first_step (shared line st)) p ->
            position_justified c0 (observed line st ++ [])
              (_first_step (shared line st)) p)
    by (intros p; apply position_justified_more; exact id).
  destruct t as [file rest_of_file pos].
  destruct Hwhich as [-> | ->]; unfold thread_step, thread_fails; cbn in Hpos |- *;
    destruct pos as [| | e | e | e | e | e |]; cbn in Hpos |- *.
  (* steps that do not raise *)
  - destruct (_stop_collector (shared line st));
      (apply threads_invariant_update;
       [exact Hinv | exact Hkeep | exact id | exact I | left; reflexivity]).
  - destruct (_stop_collector (shared line st));
      [apply threads_invariant_update;
       [exact Hinv | exact Hkeep | exact id | exact I | left; reflexivity] |].
    destruct rest_of_file as [| l rest];
      [apply threads_invariant_update;
       [exact Hinv | exact Hkeep | exact id | exact I | left; reflexivity] |].
    destruct (parse_line l) as [e | x];
      [| apply threads_invariant_update;
         [exact Hinv | exact Hkeep | exact id | exact I | left; reflexivity]].
    apply threads_invariant_update;
      [exact Hinv | | exact id | | left; reflexivity].
    + intros f0 Hf0. apply first_step_source_more, Hf, Hf0.
    + cbn. apply elem_of_app; right. apply list_elem_of_singleton. reflexivity.
  - apply threads_invariant_update;
      [exact Hinv | exact Hkeep | exact id | | left; reflexivity].
    cbn. destruct (_first_step (shared line st)); [apply (Hhere (At_second_if e)), Hpos |].
    destruct (is_trainer_step_begin e) eqn:Eb.
    + cbn. split; [apply elem_of_app; left; exact Hpos | exact Eb].
    + apply (Hhere (At_second_if e)), Hpos.
  - destruct Hpos as [He Hb].
    apply threads_invariant_update; [exact Hinv | | | | left; reflexivity].
    + cbn. intros f0 [= <-]. right. exists e.
      split; [apply elem_of_app; left; exact He | split; [exact Hb | reflexivity]].
    + discriminate.
    + cbn. apply elem_of_app; left; exact He.
  - apply threads_invariant_update;
      [exact Hinv | exact Hkeep | exact id | | left; reflexivity].
    cbn. destruct (_first_step (shared line st)) eqn:Ef; [| exact I].
    cbn. split; [apply elem_of_app; left; exact Hpos | discriminate].
  - destruct Hpos as [He Hset].
    apply threads_invariant_update;
      [exact Hinv | exact Hkeep | exact id | | left; reflexivity].
    cbn. destruct (_first_step (shared line st)) as [first |] eqn:Ef;
      [| contradiction Hset; reflexivity].
    unfold differs_from. destruct (step e =? first) eqn:Ec; cbn; [exact I |].
    split; [apply elem_of_app; left; exact He |].
    exists first. split; [apply first_step_source_more, Hf; reflexivity |].
    apply Z.eqb_neq; exact Ec.
  - destruct Hpos as [He Hsrc].
    apply threads_invariant_update; [exact Hinv | exact Hkeep | exact id | exact I |].
    right. exists e. split; [reflexivity | split; assumption].
  - apply threads_invariant_update;
      [exact Hinv | exact Hkeep | exact id | exact I | left; reflexivity].
  (* steps that raise *)
  - destruct (_stop_collector (shared line st));
      (apply threads_invariant_update;
       [exact Hinv | exact Hkeep | exact id | exact I | left; reflexivity]).
  - apply threads_invariant_update;
      [exact Hinv | exact Hkeep | exact id | exact I | left; reflexivity].
  - apply threads_invariant_update;
      [exact Hinv | exact Hkeep | exact id | | left; reflexivity].
    apply (Hhere (At_first_if e)), Hpos.
  - apply threads_invariant_update;
      [exact Hinv | exact Hkeep | exact id | | left; reflexivity].
    apply (Hhere (At_assignment e)), Hpos.
  - apply threads_invariant_update;
      [exact Hinv | exact Hkeep | exact id | | left; reflexivity].
    apply (Hhere (At_second_if e)), Hpos.
  - apply threads_invariant_update;
      [exact Hinv | exact Hkeep | exact id | | left; reflexivity].
    apply (Hhere (At_comparison e)), Hpos.
  - destruct Hpos as [He Hsrc].
    apply threads_invariant_update; [exact Hinv | exact Hkeep | exact id | exact I |].
    right. exists e. split; [reflexivity | split; assumption].
  - apply threads_invariant_update;
      [exact Hinv | exact Hkeep | exact id | exact I | left; reflexivity].
Qed.

Lemma turn_invariant c0 (u : turn line) (st : collectors line) :
  threads_invariant line c0 st ->
  threads_invariant line c0 (turn_of line parse_line u st).
Proof.
  intros Hinv. destruct u as [i | i | | files]; cbn.
  - apply thread_turn_invariant; [left; reflexivity | exact Hinv].
  - apply thread_turn_invariant; [right; reflexivity | exact Hinv].
  - destruct Hinv as (Hf & Hall & Hrep). split; [exact Hf |]. split; assumption.
  - destruct Hinv as (Hf & Hall & Hrep). split; [exact Hf |]. split; [| exact Hrep].
    cbn. apply Forall_app. split; [exact Hall |].
    apply Forall_fmap, Forall_forall. intros file _. exact I.
Qed.

Lemma scheduled_invariant c0 (turns : list (turn line)) (st : collectors line) :
  threads_invariant line c0 st ->
  threads_invariant line c0 (scheduled line parse_line turns st).
Proof.
  unfold scheduled. revert st.
  induction turns as [| u turns IH]; intros st Hinv; [exact Hinv |].
  cbn. apply IH, turn_invariant, Hinv.
Qed.

Lemma no_threads_invariant c0 : threads_invariant line c0 (no_threads line c0).
Proof.
  split; [intros f Hf; left; exact Hf |]. split; [constructor |].
  exists []. split; [cbn; rewrite app_nil_r; reflexivity | constructor].
Qed.

Lemma scheduled_app (turns more : list (turn line)) (st : collectors line) :
  scheduled line parse_line (turns ++ more) st
  = scheduled line parse_line more (scheduled line parse_line turns st).
Proof. apply fold_left_app. Qed.

Lemma stop_collector_handle_line (l : line) (c : AtorchEventCollector) :
  _stop_collector (handle_line line parse_line l c) = _stop_collector c.
Proof.
  unfold handle_line, handle_event.
  destruct (parse_line l) as [e | x]; [| reflexivity].
  destruct (_first_step c) as [first |] eqn:Ef; cbn.
  - rewrite Ef. destruct (negb (step e =? first)); reflexivity.
  - destruct (is_trainer_step_begin e); cbn.
    + destruct (negb (step e =? step e)); reflexivity.
    + rewrite Ef. reflexivity.
Qed.

(** A thread that no other thread interrupts, and whose steps do not raise,
    does to the collector what [_monitor_file] does. *)
Lemma lone_thread_monitors
    (file lines : list line) (c : AtorchEventCollector) (events : list event) :
  _stop_collector c = false ->
  exists n,
    scheduled line parse_line (repeat (Runs 0) n)
      {| shared := c;
         threads := [{| log_file := file; unread := lines; at_line := At_while_true |}];
         observed := events |}
    = {| shared := _monitor_file line parse_line lines c;
         threads := [{| log_file := file; unread := []; at_line := At_while_true |}];
         observed := events ++ parsed line parse_line lines |}.
Proof.
  revert c events. induction lines as [| l lines IH]; intros c events Hrun.
  - exists 0%nat. cbn. rewrite app_nil_r. reflexivity.
  - destruct (IH (handle_line line parse_line l c)
                 (events ++ parsed line parse_line [l]))
      as [n Hn]; [rewrite stop_collector_handle_line; exact Hrun |].
    assert (Hparsed : (events ++ parsed line parse_line [l]) ++ parsed line parse_line lines
                      = events ++ parsed line parse_line (l :: lines)).
    { rewrite <- app_assoc. f_equal. unfold parsed. cbn.
      destruct (parse_line l); reflexivity. }
    rewrite Hparsed in Hn. rewrite monitor_file_cons.
    assert (Hsteps : exists k,
      scheduled line parse_line (repeat (Runs 0) k)
        {| shared := c;
           threads := [{| log_file := file; unread := l :: lines;
                          at_line := At_while_true |}];
           observed := events |}
      = {| shared := handle_line line parse_line l c;
           threads := [{| log_file := file; unread := lines;
                          at_line := At_while_true |}];
           observed := events ++ parsed line parse_line [l] |}).
    { unfold handle_line, handle_event, parsed. cbn.
      destruct (parse_line l) as [e | x] eqn:Ep.
      - destruct (_first_step c) as [first |] eqn:Ef.
        + cbn. rewrite Ef.
          destruct (negb (step e =? first)) eqn:Ed.
          * exists 5%nat. unfold scheduled, thread_turn, thread_step; cbn.
            rewrite Hrun, Ep; cbn. rewrite ?Ef; cbn. rewrite ?Ef; cbn.
            unfold differs_from. rewrite ?Ef, ?Ed; cbn. rewrite ?Ef, ?Ed; cbn.
            rewrite <- !app_assoc; cbn. reflexivity.
          * exists 4%nat. unfold scheduled, thread_turn, thread_step; cbn.
            rewrite Hrun, Ep; cbn. rewrite ?Ef; cbn. rewrite ?Ef; cbn.
            unfold differs_from. rewrite ?Ef, ?Ed; cbn. rewrite ?Ef, ?Ed; cbn.
            rewrite <- !app_assoc; cbn. reflexivity.
        + destruct (is_trainer_step_begin e) eqn:Eb; cbn.
          * rewrite Z.eqb_refl. cbn.
            exists 5%nat. unfold scheduled, thread_turn, thread_step; cbn.
            rewrite Hrun, Ep; cbn. rewrite ?Ef, ?Eb; cbn.
            unfold differs_from. rewrite ?Z.eqb_refl; cbn.
            rewrite <- !app_assoc; cbn. reflexivity.
          * rewrite Ef.
            exists 3%nat. unfold scheduled, thread_turn, thread_step; cbn.
            rewrite Hrun, Ep; cbn. rewrite ?Ef, ?Eb; cbn. rewrite ?Ef; cbn.
            rewrite <- !app_assoc; cbn. reflexivity.
      - exists 1%nat. unfold scheduled, thread_turn, thread_step; cbn.
        rewrite Hrun, Ep; cbn. rewrite ?app_nil_r. reflexivity. }
    destruct Hsteps as [k Hk].
    exists (k + n)%nat. rewrite repeat_app, scheduled_app, Hk. exact Hn.
Qed.

(** C10 (as amended).  The rank threads of a collector share its
    [_first_step].  Whatever the schedule of the threads, of the calls of
    [start_collectors] and [stop_collectors] and of the steps that raise:
    [_first_step] only ever holds the value it had before the threads were
    started or the step of a TRAINER step event of type BEGIN that some
    thread has parsed; every event reported since is one a thread parsed,
    and its step differs from such a value; so a collector whose
    [_first_step] was unset reports nothing, and leaves it unset, as long as
    no thread has parsed a TRAINER step event of type BEGIN.  And a single
    rank thread that runs undisturbed through the lines of its file does what
    [_monitor_file] does: with [_first_step] unset before, nothing is
    reported for the lines up to and including the first BEGIN line of the
    file, whose step becomes [_first_step], and of the events parsed after it
    exactly those with another step are reported; with [_first_step] set
    before, it stays and of all the events parsed exactly those with another
    step are reported. *)
Theorem rank_threads_report (c0 : AtorchEventCollector) :
  (forall turns : list (turn line),
     let st := scheduled line parse_line turns (no_threads line c0) in
     (forall f, _first_step (shared line st) = Some f ->
        first_step_source c0 (observed line st) f)
     /\ (exists new,
           reported (shared line st) = reported c0 ++ new
           /\ forall e, e ∈ new ->
                e ∈ observed line st
                /\ exists f, first_step_source c0 (observed line st) f /\ step e <> f)
     /\ (_first_step c0 = None ->
         (forall b, b ∈ observed line st -> is_trainer_step_begin b = false) ->
         _first_step (shared line st) = None
         /\ reported (shared line st) = reported c0))
  /\ (forall lines : list line,
        exists n,
          let st := scheduled line parse_line
                      (Start_is_called [lines] :: repeat (Runs 0) n)
                      (no_threads line c0) in
          let c := shared line st in
          threads line st
          = [{| log_file := lines; unread := []; at_line := At_while_true |}]
          /\ observed line st = parsed line parse_line lines
          /\ c = _monitor_file line parse_line lines (start_collectors c0)
          /\ match _first_step c0 with
             | Some first =>
                 _first_step c = Some first
                 /\ reported c
                    = reported c0 ++ filter (fun e => differs_from first e = true)
                                            (parsed line parse_line lines)
             | None =>
                 (forallb (fun e => negb (is_trainer_step_begin e))
                    (parsed line parse_line lines) = true
                  /\ _first_step c = None
                  /\ reported c = reported c0)
                 \/ exists before l b rest,
                      lines = before ++ l :: rest
                      /\ forallb (fun e => negb (is_trainer_step_begin e))
                           (parsed line parse_line before) = true
                      /\ parse_line l = Ok b
                      /\ is_trainer_step_begin b = true
                      /\ _first_step c = Some (step b)
                      /\ reported c
                         = reported c0
                           ++ filter (fun e => differs_from (step b) e = true)
                                     (parsed line parse_line rest)
             end).
Proof.
  split.
  - intros turns st.
    destruct (scheduled_invariant c0 turns (no_threads line c0) (no_threads_invariant c0))
      as (Hf & _ & new & Hrep & Hnew).
    fold st in Hf, Hrep, Hnew.
    split; [exact Hf |]. split.
    + exists new. split; [exact Hrep |].
      intros e He. exact (proj1 (Forall_forall _ _) Hnew e He).
    + intros Hunset Hnone.
      assert (Hsrc : forall f, first_step_source c0 (observed line st) f -> False).
      { intros f [Hf0 | (b & Hb & Hbegin & _)]; [congruence |].
        rewrite (Hnone b Hb) in Hbegin. discriminate Hbegin. }
      split.
      * destruct (_first_step (shared line st)) as [f |] eqn:Ef; [| reflexivity].
        destruct (Hsrc f (Hf f eq_refl)).
      * rewrite Hrep. destruct new as [| e new]; [apply app_nil_r |].
        destruct (proj1 (Forall_forall _ _) Hnew e) as [_ (f & Hs & _)];
          [left |]. destruct (Hsrc f Hs).
  - intros lines.
    destruct (lone_thread_monitors lines lines (start_collectors c0) [] eq_refl)
      as [n Hn].
    exists (S n). cbv zeta.
    assert (E : scheduled line parse_line
                  (Start_is_called [lines] :: repeat (Runs 0) (S n)) (no_threads line c0)
                = {| shared := _monitor_file line parse_line lines (start_collectors c0);
                     threads := [{| log_file := lines; unread := [];
                                    at_line := At_while_true |}];
                     observed := parsed line parse_line lines |}).
    { change ([] ++ parsed line parse_line lines) with (parsed line parse_line lines) in Hn.
      rewrite <- Hn. unfold scheduled. cbn [fold_left repeat].
      unfold turn_of at 2. unfold thread_turn at 1. reflexivity. }
    rewrite E. cbn [shared threads observed].
    split; [reflexivity |]. split; [reflexivity |]. split; [reflexivity |].
    exact (monitor_file_reports lines (start_collectors c0)).
Qed.

End Facts.

Import Fixtures.

(** The claim as first worded fails when one collector follows two files:
    after rank 0's log has given the first step 5, the checkpoint event of
    step 7 in rank 1's log is reported although no line of that file is a
    TRAINER step event of type BEGIN. *)
Lemma reported_without_begin_on_that_file :
  reported
    (_monitor_file _ parsed_line rank1_log
       (_monitor_file _ parsed_line rank0_log new_AtorchEventCollector))
  = reported (_monitor_file _ parsed_line rank0_log new_AtorchEventCollector)
    ++ [an_event SAVER TRAIN_EVT_FLASH_CKPT END 7]
  /\ forallb (fun e => negb (is_trainer_step_begin e))
       (parsed _ parsed_line rank1_log) = true.
Proof. split; vm_compute; reflexivity. Qed.

(** Three rank threads on one new collector, whose files hold the BEGIN of
    step 5, the BEGIN of step 6 and a checkpoint event of step 6.  The first
    two threads both find [_first_step] unset before either assigns it; the
    third compares its event with 5, and the second thread then stores 6.
    The checkpoint event of step 6 is reported while [_first_step] is 6, and
    the first thread reports its own BEGIN event. *)
Example rank_threads_example :
  let st :=
    scheduled _ parsed_line
      [ Start_is_called
          [ [Ok (an_event TRAINER TRAIN_EVT_STEP BEGIN 5)];
            [Ok (an_event TRAINER TRAIN_EVT_STEP BEGIN 6)];
            [Ok (an_event SAVER TRAIN_EVT_FLASH_CKPT END 6)] ];
        Runs 0; Runs 1; Runs 2; Runs 0; Runs 1; Runs 0; Runs 1; Runs 0;
        Runs 2; Runs 2; Runs 2; Runs 2; Runs 1; Runs 2;
        Runs 0; Runs 0; Runs 0; Runs 1; Runs 1 ]%nat
      (no_threads _ new_AtorchEventCollector) in
  _first_step (shared _ st) = Some 6
  /\ reported (shared _ st)
     = [ an_event SAVER TRAIN_EVT_FLASH_CKPT END 6;
         an_event TRAINER TRAIN_EVT_STEP BEGIN 5 ]
  /\ at_line _ <$> threads _ st = [At_while_true; At_while_true; At_while_true].
Proof. repeat split; vm_compute; reflexivity. Qed.

(** On rank 0's log alone, read by a new collector: the lines before the
    BEGIN of step 5 and the events of step 5 are not reported, the BEGIN of
    step 6 is. *)
Example monitor_file_example :
  reported (_monitor_file _ parsed_line rank0_log new_AtorchEventCollector)
  = [an_event TRAINER TRAIN_EVT_STEP BEGIN 6]
  /\ _first_step (_monitor_file _ parsed_line rank0_log new_AtorchEventCollector)
     = Some 5.
Proof. split; vm_compute; reflexivity. Qed.

End AtorchFacts.
(** ** More of [master/resource/job.py] *)

Module JobLifecycle.
Import Resource Plan Job MethodFacts.

(** *** Observations that the plan applications leave alone *)

Section View.

Context {O : Type} `{ResourceOptimizer O}.
Variable limit : NodeResourceLimit.
Variable ctx : Job.Context.
Variable update : NodeGroupResource -> Z -> Q -> Z -> NodeGroupResource.
Variable adjust : ResourcePlan -> ResourcePlan.
Variable default_plan : ResourcePlan.

Context {X : Type} (f : JobResourceOptimizer O -> X).
Hypothesis f_worker : forall r s, f (set_worker_resource r s) = f s.
Hypothesis f_ps : forall r s, f (set_ps_resource r s) = f s.

Section Calls.

Hypothesis f_optimizer : forall o s, f (set_resource_optimizer o s) = f s.

Lemma view_opt_call (s : JobResourceOptimizer O) stage config :
  keeps_at f s (call_generate_opt_plan stage config).
Proof.
  unfold keeps_at, call_generate_opt_plan.
  destruct (generate_opt_plan _ _ _); apply f_optimizer.
Qed.

Lemma view_oom_call (s : JobResourceOptimizer O) names stage :
  keeps_at f s (call_generate_oom_recovery_plan names stage).
Proof.
  unfold keeps_at, call_generate_oom_recovery_plan.
  destruct (generate_oom_recovery_plan _ _ _); apply f_optimizer.
Qed.

End Calls.

Ltac view_step :=
  lazymatch goal with
  | |- keeps_at _ _ (mret _) => apply keeps_ret
  | |- keeps_at _ _ (ret _) => apply keeps_ret
  | |- keeps_at _ _ (raise _) => apply keeps_raise
  | |- keeps_at _ _ get => apply keeps_get
  | |- keeps_at _ _ (put _) =>
      apply keeps_put; first [ reflexivity | apply f_worker | apply f_ps ]
  | |- keeps_at _ _ (modify _) =>
      apply keeps_modify; first [ reflexivity | apply f_worker | apply f_ps ]
  | |- keeps_at _ _ (get ≫= _) => apply keeps_get_bind
  | |- keeps_at _ _ (_ ≫= _) => apply keeps_bind; [ | intros ? ? ? ]
  | |- keeps_at _ _ _ => first [ progress cbv beta zeta | case_match ]
  end.

Ltac view := repeat view_step.

Lemma view_verify (s : JobResourceOptimizer O) plan node_type :
  keeps_at f s (_verify_optimized_group_resource limit plan node_type).
Proof. unfold _verify_optimized_group_resource, subscript. view. Qed.

Lemma view_verify_if_present (s : JobResourceOptimizer O) plan node_type :
  keeps_at f s (verify_if_present limit plan node_type).
Proof. unfold verify_if_present. view; apply view_verify. Qed.

(** [get_job_resource_plan] leaves such an observation as the stage's fetch
    of the plan left it. *)
Lemma view_after_fetch (s : JobResourceOptimizer O) :
  f (fst (get_job_resource_plan limit adjust s)) =
  f (fst ((match _job_stage s with
           | WORKER_INITIAL =>
               plan ← _get_worker_resource_at_init_phase;
               _ ← modify (set_job_stage PS_INITIAL);
               mret plan
           | PS_INITIAL =>
               plan ← _get_ps_resource_plan;
               _ ← modify (set_job_stage RUNNING);
               mret plan
           | RUNNING =>
               plan ← _get_ps_resource_plan;
               p ← attr_of plan;
               if ResourcePlan_empty p then _get_worker_resource_at_running
               else mret plan
           | CREATE => mret None
           end) s)).
Proof.
  unfold get_job_resource_plan.
  change ((get ≫= ?k) s) with (k s s). cbv beta.
  match goal with
  | |- context [(?fetch ≫= ?k) s] =>
      destruct (fetch s) as [s1 [plan | e]] eqn:E1;
      [ rewrite (bind_ok fetch k s s1 plan E1)
      | rewrite (bind_raise fetch k s s1 e E1); reflexivity ]
  end.
  cbn [fst].
  match goal with
  | |- f (fst (?m s1)) = f s1 => change (keeps_at f s1 m)
  end.
  unfold attr_of. view; apply view_verify_if_present.
Qed.

End View.

Section Facts.

Context {O : Type} `{ResourceOptimizer O}.
Variable limit : NodeResourceLimit.
Variable ctx : Job.Context.
Variable update : NodeGroupResource -> Z -> Q -> Z -> NodeGroupResource.
Variable adjust : ResourcePlan -> ResourcePlan.
Variable default_plan : ResourcePlan.

(** *** The stage machine *)

Lemma stage_opt_call (s : JobResourceOptimizer O) stage config :
  keeps_at _job_stage s (call_generate_opt_plan stage config).
Proof. apply view_opt_call. reflexivity. Qed.

Lemma stage_oom_call (s : JobResourceOptimizer O) names stage :
  keeps_at _job_stage s (call_generate_oom_recovery_plan names stage).
Proof. apply view_oom_call. reflexivity. Qed.

Lemma stage_init_phase (s : JobResourceOptimizer O) :
  keeps_at _job_stage s _get_worker_resource_at_init_phase.
Proof.
  unfold _get_worker_resource_at_init_phase, attr_of.
  keeps; apply stage_opt_call.
Qed.

Lemma stage_ps_plan (s : JobResourceOptimizer O) :
  keeps_at _job_stage s _get_ps_resource_plan.
Proof. unfold _get_ps_resource_plan. keeps; apply stage_opt_call. Qed.

Lemma stage_running (s : JobResourceOptimizer O) :
  keeps_at _job_stage s _get_worker_resource_at_running.
Proof.
  unfold _get_worker_resource_at_running, _get_worker_resource_at_sample_phase,
    _get_worker_resource_at_stable_phase.
  keeps; apply stage_opt_call.
Qed.

Lemma stage_optimize_worker_resource (s : JobResourceOptimizer O) :
  keeps_at _job_stage s (optimize_worker_resource update).
Proof. unfold optimize_worker_resource. keeps; apply stage_init_phase. Qed.

Lemma stage_adjust_oom_worker_resource (s : JobResourceOptimizer O) node :
  keeps_at _job_stage s (adjust_oom_worker_resource limit ctx update node).
Proof.
  unfold adjust_oom_worker_resource, subscript.
  keeps; first [ apply stage_oom_call | apply stage_optimize_worker_resource ].
Qed.

Lemma stage_adjust_oom_ps_resource (s : JobResourceOptimizer O) node started :
  keeps_at _job_stage s (adjust_oom_ps_resource limit adjust node started).
Proof.
  unfold adjust_oom_ps_resource, subscript.
  keeps; first [ apply stage_oom_call
               | apply (view_verify limit _job_stage); reflexivity ].
Qed.

(** One [get_job_resource_plan]: the stage stays or moves to the next one,
    and [RUNNING] is kept. *)
Lemma stage_get_job_resource_plan (s : JobResourceOptimizer O) :
  let s' := fst (get_job_resource_plan limit adjust s) in
  _job_stage s' = _job_stage s
  \/ (_job_stage s = WORKER_INITIAL /\ _job_stage s' = PS_INITIAL)
  \/ (_job_stage s = PS_INITIAL /\ _job_stage s' = RUNNING).
Proof.
  cbv zeta.
  rewrite (view_after_fetch limit adjust _job_stage) by reflexivity.
  destruct (_job_stage s) eqn:Es.
  - left. exact Es.
  - pose proof (stage_init_phase s) as K. unfold keeps_at in K.
    destruct (_get_worker_resource_at_init_phase s) as [s1 [p | e]] eqn:E.
    + rewrite (bind_ok _ _ _ _ _ E). right; left. split; reflexivity.
    + rewrite (bind_raise _ _ _ _ _ E). left. cbn [fst] in *. congruence.
  - pose proof (stage_ps_plan s) as K. unfold keeps_at in K.
    destruct (_get_ps_resource_plan s) as [s1 [p | e]] eqn:E.
    + rewrite (bind_ok _ _ _ _ _ E). right; right. split; reflexivity.
    + rewrite (bind_raise _ _ _ _ _ E). left. cbn [fst] in *. congruence.
  - left. rewrite <- Es.
    match goal with
    | |- _job_stage (fst (?m s)) = _job_stage s => change (keeps_at _job_stage s m)
    end.
    unfold attr_of. keeps; first [ apply stage_ps_plan | apply stage_running ].
Qed.


Lemma stage_after_not_init (c : call) (s : JobResourceOptimizer O) :
  c <> Call_init_job_resource ->
  (stage_rank (_job_stage s)
   <= stage_rank (_job_stage (after limit ctx update adjust default_plan c s)))%nat.
Proof.
  intros Hc. destruct c; simpl.
  - congruence.
  - rewrite (stage_optimize_worker_resource s). lia.
  - rewrite (stage_adjust_oom_worker_resource s). lia.
  - rewrite (stage_adjust_oom_ps_resource s). lia.
  - destruct (stage_get_job_resource_plan s) as [E | [[E1 E2] | [E1 E2]]];
      cbv zeta in *.
    + rewrite E. lia.
    + rewrite E1, E2. simpl. lia.
    + rewrite E1, E2. simpl. lia.
Qed.

(** X1.  Without a new [init_job_resource], no sequence of calls takes the
    stage back: it only moves along [CREATE], [WORKER_INITIAL], [PS_INITIAL],
    [RUNNING], whether the calls return or raise; in particular a job that has
    reached [RUNNING] stays there. *)
Theorem stage_never_goes_back (calls : list call) (s : JobResourceOptimizer O) :
  Forall (fun c => c <> Call_init_job_resource) calls ->
  (stage_rank (_job_stage s)
   <= stage_rank (_job_stage (run limit ctx update adjust default_plan calls s)))%nat
  /\ (_job_stage s = RUNNING ->
      _job_stage (run limit ctx update adjust default_plan calls s) = RUNNING).
Proof.
  intros Hcalls.
  assert (Hmono : (stage_rank (_job_stage s)
            <= stage_rank (_job_stage (run limit ctx update adjust default_plan calls s)))%nat).
  { unfold run. revert s. induction Hcalls as [| c calls Hc _ IH]; intros s; simpl.
    - lia.
    - etransitivity; [apply (stage_after_not_init c s Hc) | apply IH]. }
  split; [exact Hmono |].
  intros Es. rewrite Es in Hmono.
  destruct (_job_stage (run limit ctx update adjust default_plan calls s));
    simpl in Hmono; first [ reflexivity | lia ].
Qed.

(** X2.  Before [init_job_resource] (stage [CREATE]), [get_job_resource_plan]
    raises [AttributeError]: no branch assigns [plan], and [plan.empty()] is
    evaluated on [None].  The optimizer is not consulted and the object is
    left as it was. *)
Theorem get_job_resource_plan_raises_before_init (s : JobResourceOptimizer O) :
  _job_stage s = CREATE ->
  get_job_resource_plan limit adjust s = (s, Raise AttributeError).
Proof.
  intros Es. unfold get_job_resource_plan.
  change ((get ≫= ?k) s) with (k s s). cbv beta. rewrite Es. reflexivity.
Qed.

(** *** [_init_job_resource_by_optimizer] *)

(** X3.  [_init_job_resource_by_optimizer] returns whatever the optimizer
    answers ([None], an empty plan, a plan without the groups) and from
    whatever stage, and leaves the job in [WORKER_INITIAL]; a live resource
    whose easydl switch is off is not touched, and the snapshots and the
    sampling flag never are. *)
Theorem init_job_resource_by_optimizer_returns (s : JobResourceOptimizer O) :
  exists s',
    _init_job_resource_by_optimizer limit ctx update default_plan s = (s', Ok tt)
    /\ _job_stage s' = WORKER_INITIAL
    /\ (easydl_worker_enabled ctx = false -> _worker_resource s' = _worker_resource s)
    /\ (easydl_ps_enabled ctx = false -> _ps_resource s' = _ps_resource s)
    /\ originals s' = originals s
    /\ optimize_worker_sampled s' = optimize_worker_sampled s.
Proof.
  unfold _init_job_resource_by_optimizer.
  change ((get ≫= ?k) s) with (k s s). cbv beta.
  unfold call_generate_opt_plan, mbind, M_bind, bind, modify, get, mret, M_ret, ret.
  destruct (generate_opt_plan (_resource_optimizer s) (_job_stage s) None) as [o answer].
  cbv beta iota zeta.
  set (plan := match answer with
               | Some p => if ResourcePlan_empty p then default_plan else p
               | None => default_plan
               end).
  destruct (node_group_resources plan !! WORKER) as [w |];
    destruct (node_group_resources plan !! PS) as [p |];
    destruct (easydl_worker_enabled ctx), (easydl_ps_enabled ctx);
    cbn;
    repeat match goal with
           | |- context [check_ignore_original ?l ?a ?b ?c ?d] =>
               destruct (check_ignore_original l a b c d) as [[? ?] ?]
           | |- context [_check_ignore_original_worker_resource ?l ?a ?b ?c ?d] =>
               destruct (_check_ignore_original_worker_resource l a b c d) as [[? ?] ?]
           | |- context [_check_ignore_original_ps_resource ?l ?a ?b ?c ?d] =>
               destruct (_check_ignore_original_ps_resource l a b c d) as [[? ?] ?]
           end;
    cbn; eexists; (split; [reflexivity |]); cbn;
    repeat split; intros; congruence.
Qed.

(** *** [adjust_oom_ps_resource] *)

(** X4.  [adjust_oom_ps_resource] on a node with a non-negative memory ends
    in one of four ways.  It returns early with the node untouched, which
    happens only before training has started; then the live PS resource has
    gone through the user-override filter, with the count capped at
    [MAX_PS_NUM].  Or it returns an empty [ResourcePlan()]: the live PS memory
    has not shrunk, the PS count is kept, and the node's memory is
    [int(max(live, cur_mem * INCREMENTAL_MEMORY_FACTOR, original))] as Python
    computes it (a float product), which is at least the live PS memory and
    the user's memory, and at least the node's old memory when that has at
    most 53 bits and the factor is at least one, or when the factor is at
    least one and a half.  Or it raises the [KeyError] of a non-empty recovery
    plan without a PS group, and no resource has changed.  Or it raises
    [OverflowError] from that product, which needs an old memory of more than
    53 bits or a factor outside [0, 2^960]; the node is then as it was. *)
Theorem adjust_oom_ps_resource_replans_or_raises_memory
    (s : JobResourceOptimizer O) (node : Node) (started : bool) :
  0 <= memory (config_resource node) ->
  match adjust_oom_ps_resource limit adjust node started s with
  | (s', Ok (plan', node')) =>
      (node' = node /\ started = false
       /\ user_override_wins_capped limit (_original_ps_resource s) (_ps_resource s'))
      \/ (plan' = new_plan
          /\ name node' = name node
          /\ incremented_memory limit (_ps_resource s') (_original_ps_resource s')
               (memory (config_resource node))
             = Ok (memory (config_resource node'))
          /\ ((memory (config_resource node) <= 2 ^ 53
               /\ (1 <= INCREMENTAL_MEMORY_FACTOR limit)%Q)
              \/ (3 # 2 <= INCREMENTAL_MEMORY_FACTOR limit)%Q ->
              memory (config_resource node) <= memory (config_resource node'))
          /\ memory (node_resource (_ps_resource s')) <= memory (config_resource node')
          /\ memory (node_resource (_original_ps_resource s))
             <= memory (config_resource node')
          /\ memory (node_resource (_ps_resource s))
             <= memory (node_resource (_ps_resource s'))
          /\ count (_ps_resource s') = count (_ps_resource s))
  | (s', Raise e) =>
      (e = KeyError /\ resources s' = resources s)
      \/ (e = OverflowError
          /\ incremented_memory limit (_ps_resource s') (_original_ps_resource s')
               (memory (config_resource node))
             = Raise OverflowError
          /\ (memory (config_resource node) <= 2 ^ 53 ->
              (0 <= INCREMENTAL_MEMORY_FACTOR limit)%Q ->
              (INCREMENTAL_MEMORY_FACTOR limit <= 2 ^ 960)%Q -> False)
          /\ memory (node_resource (_ps_resource s))
             <= memory (node_resource (_ps_resource s'))
          /\ count (_ps_resource s') = count (_ps_resource s)
          /\ originals s' = originals s)
  end.
Proof.
  intros Hm.
  assert (Hfinish : forall s1 : JobResourceOptimizer O,
            originals s1 = originals s ->
            memory (node_resource (_ps_resource s))
            <= memory (node_resource (_ps_resource s1)) ->
            count (_ps_resource s1) = count (_ps_resource s) ->
            match
              (self ← get;
               new_memory ← of_result
                 (incremented_memory limit (_ps_resource self)
                    (_original_ps_resource self) (memory (config_resource node)));
               mret (new_plan, with_config_memory new_memory node)) s1
            with
            | (s', Ok (plan', node')) =>
                (node' = node /\ started = false
                 /\ user_override_wins_capped limit (_original_ps_resource s)
                      (_ps_resource s'))
                \/ (plan' = new_plan
                    /\ name node' = name node
                    /\ incremented_memory limit (_ps_resource s')
                         (_original_ps_resource s') (memory (config_resource node))
                       = Ok (memory (config_resource node'))
                    /\ ((memory (config_resource node) <= 2 ^ 53
                         /\ (1 <= INCREMENTAL_MEMORY_FACTOR limit)%Q)
                        \/ (3 # 2 <= INCREMENTAL_MEMORY_FACTOR limit)%Q ->
                        memory (config_resource node) <= memory (config_resource node'))
                    /\ memory (node_resource (_ps_resource s'))
                       <= memory (config_resource node')
                    /\ memory (node_resource (_original_ps_resource s))
                       <= memory (config_resource node')
                    /\ memory (node_resource (_ps_resource s))
                       <= memory (node_resource (_ps_resource s'))
                    /\ count (_ps_resource s') = count (_ps_resource s))
            | (s', Raise e) =>
                (e = KeyError /\ resources s' = resources s)
                \/ (e = OverflowError
                    /\ incremented_memory limit (_ps_resource s')
                         (_original_ps_resource s') (memory (config_resource node))
                       = Raise OverflowError
                    /\ (memory (config_resource node) <= 2 ^ 53 ->
                        (0 <= INCREMENTAL_MEMORY_FACTOR limit)%Q ->
                        (INCREMENTAL_MEMORY_FACTOR limit <= 2 ^ 960)%Q -> False)
                    /\ memory (node_resource (_ps_resource s))
                       <= memory (node_resource (_ps_resource s'))
                    /\ count (_ps_resource s') = count (_ps_resource s)
                    /\ originals s' = originals s)
            end).
  { intros s1 Ho Hl Hc.
    unfold mbind, M_bind, bind, get, of_result, mret, M_ret, ret. cbv beta iota.
    destruct (incremented_memory limit (_ps_resource s1) (_original_ps_resource s1)
                (memory (config_resource node))) as [v | e] eqn:Ev.
    - right. cbn [config_resource with_config_memory memory name].
      destruct (JobFacts.incremented_memory_ge limit _ _ _ _ Hm Ev) as (G1 & G2 & G3).
      assert (Hops : _original_ps_resource s1 = _original_ps_resource s)
        by (unfold originals in Ho; congruence).
      rewrite <- Hops. repeat split; assumption.
    - right. pose proof (JobFacts.incremented_memory_raises limit _ _ _ _ Ev) as ->.
      repeat split; try assumption.
      intros H53 Hf0 Hf.
      destruct (JobFacts.incremented_memory_returns limit (_ps_resource s1)
                  (_original_ps_resource s1) _ (conj Hm H53) Hf0 Hf) as (v & Ev').
      congruence. }
  unfold adjust_oom_ps_resource.
  destruct (generate_oom_recovery_plan (_resource_optimizer s) [name node] PS_INITIAL)
    as [o answer] eqn:Eo.
  assert (Ecall : call_generate_oom_recovery_plan [name node] PS_INITIAL s
                  = (set_resource_optimizer o s, Ok answer)).
  { unfold call_generate_oom_recovery_plan. rewrite Eo. reflexivity. }
  rewrite (bind_ok _ _ _ _ _ Ecall).
  set (s0 := set_resource_optimizer o s).
  destruct answer as [p |].
  2:{ rewrite (bind_ok _ _ s0 s0 None eq_refl). cbv beta iota.
      apply (Hfinish s0); [reflexivity | cbn; lia | reflexivity]. }
  destruct (ResourcePlan_empty p); cbn [negb].
  { rewrite (bind_ok _ _ s0 s0 None eq_refl). cbv beta iota.
    apply (Hfinish s0); [reflexivity | cbn; lia | reflexivity]. }
  destruct (node_group_resources p !! PS) as [ps |] eqn:Ep; unfold subscript.
  2:{ cbn. left. split; reflexivity. }
  destruct (negb started && (0 <? count ps)
            && (memory (node_resource ps) <? MAX_MEMORY limit)) eqn:Econd.
  - destruct (JobFacts.verify_ps limit s0 p ps Ep) as (num & c & mem & E & Hv).
    unfold mret, M_ret, ret, mbind, M_bind, bind. cbn [fst snd].
    rewrite Econd, Hv. cbn.
    left. split; [reflexivity |]. split.
    + destruct started; [discriminate | reflexivity].
    + apply (JobFacts.filter_wins_capped limit (_original_ps_resource s) ps). exact E.
  - set (s1 := set_ps_resource
                 (raise_memory (memory (node_resource ps)) (_ps_resource s0)) s0).
    assert (E1 : (ps0 ← ret ps;
                  (if negb started && (0 <? count ps0)
                      && (memory (node_resource ps0) <? MAX_MEMORY limit)
                   then
                     r ← _verify_optimized_group_resource limit p PS;
                     mret (Some (adjust (fst r)))
                   else
                     _ ← modify (fun s =>
                           set_ps_resource
                             (raise_memory (memory (node_resource ps0)) (_ps_resource s)) s);
                     mret None)) s0 = (s1, Ok None)).
    { unfold mret, M_ret, ret, mbind, M_bind, bind, modify. rewrite Econd. reflexivity. }
    rewrite (bind_ok _ _ s0 s1 None E1). cbv beta iota.
    apply (Hfinish s1); [reflexivity | cbn; lia | reflexivity].
Qed.
End Facts.

(** *** The phases asked of the optimizer *)

Section Requests.

Context {O : Type} `{ResourceOptimizer O}.
Variable limit : NodeResourceLimit.
Variable ctx : Job.Context.
Variable update : NodeGroupResource -> Z -> Q -> Z -> NodeGroupResource.
Variable adjust : ResourcePlan -> ResourcePlan.
Variable default_plan : ResourcePlan.

Lemma phases_opt_call (s : JobResourceOptimizer (logged O)) stage config :
  call_generate_opt_plan stage config s
  = (set_resource_optimizer
       (fst (generate_opt_plan (fst (_resource_optimizer s)) stage config),
        snd (_resource_optimizer s) ++ [Opt_plan_request stage config]) s,
     Ok (snd (generate_opt_plan (fst (_resource_optimizer s)) stage config))).
Proof.
  unfold call_generate_opt_plan. cbn.
  destruct (generate_opt_plan (fst (_resource_optimizer s)) stage config). reflexivity.
Qed.

Lemma running_phases_snoc (log : list request) (r : request) :
  running_phases (log ++ [r])
  = running_phases log ++ match running_phase r with Some ph => [ph] | None => [] end.
Proof.
  unfold running_phases. rewrite omap_app. f_equal.
Qed.

Lemma phases_kept_by_opt_call (s : JobResourceOptimizer (logged O)) stage config :
  running_phase (Opt_plan_request stage config) = None ->
  keeps_at requested_phases s (call_generate_opt_plan stage config).
Proof.
  intros Hr. unfold keeps_at. rewrite phases_opt_call. cbn [fst].
  unfold requested_phases.
  cbn [optimize_worker_sampled _resource_optimizer set_resource_optimizer snd].
  rewrite running_phases_snoc, Hr, app_nil_r. reflexivity.
Qed.

Lemma phases_kept_by_oom_call (s : JobResourceOptimizer (logged O)) names stage :
  keeps_at requested_phases s (call_generate_oom_recovery_plan names stage).
Proof.
  unfold keeps_at, call_generate_oom_recovery_plan. cbn.
  destruct (generate_oom_recovery_plan (fst (_resource_optimizer s)) names stage).
  unfold requested_phases.
  cbn [fst optimize_worker_sampled _resource_optimizer set_resource_optimizer snd].
  rewrite running_phases_snoc, app_nil_r. reflexivity.
Qed.

Lemma phases_kept_by_init_phase (s : JobResourceOptimizer (logged O)) :
  keeps_at requested_phases s _get_worker_resource_at_init_phase.
Proof.
  unfold _get_worker_resource_at_init_phase, attr_of.
  keeps; apply phases_kept_by_opt_call; reflexivity.
Qed.

Lemma phases_kept_by_ps_plan (s : JobResourceOptimizer (logged O)) :
  keeps_at requested_phases s _get_ps_resource_plan.
Proof.
  unfold _get_ps_resource_plan. keeps; apply phases_kept_by_opt_call; reflexivity.
Qed.

Lemma phases_kept_by_optimize_worker_resource (s : JobResourceOptimizer (logged O)) :
  keeps_at requested_phases s (optimize_worker_resource update).
Proof. unfold optimize_worker_resource. keeps; apply phases_kept_by_init_phase. Qed.

Lemma phases_kept_by_adjust_oom_worker_resource
    (s : JobResourceOptimizer (logged O)) node :
  keeps_at requested_phases s (adjust_oom_worker_resource limit ctx update node).
Proof.
  unfold adjust_oom_worker_resource, subscript.
  keeps; first [ apply phases_kept_by_oom_call
               | apply phases_kept_by_optimize_worker_resource ].
Qed.

Lemma phases_kept_by_adjust_oom_ps_resource
    (s : JobResourceOptimizer (logged O)) node started :
  keeps_at requested_phases s (adjust_oom_ps_resource limit adjust node started).
Proof.
  unfold adjust_oom_ps_resource, subscript.
  keeps; first [ apply phases_kept_by_oom_call
               | apply (view_verify limit requested_phases); reflexivity ].
Qed.

Lemma phases_kept_by_init (s : JobResourceOptimizer (logged O)) :
  keeps_at requested_phases s
    (_init_job_resource_by_optimizer limit ctx update default_plan).
Proof.
  unfold _init_job_resource_by_optimizer.
  keeps; apply phases_kept_by_opt_call; reflexivity.
Qed.

Lemma sample_phase_call (s : JobResourceOptimizer (logged O)) :
  _get_worker_resource_at_sample_phase s
  = call_generate_opt_plan WORKER_INITIAL (Some SAMPLE) s.
Proof.
  unfold _get_worker_resource_at_sample_phase.
  rewrite (bind_ok _ _ _ _ _ (phases_opt_call s WORKER_INITIAL (Some SAMPLE))).
  rewrite phases_opt_call. destruct (snd (generate_opt_plan _ _ _)); reflexivity.
Qed.

Lemma stable_phase_call (s : JobResourceOptimizer (logged O)) :
  _get_worker_resource_at_stable_phase s
  = call_generate_opt_plan WORKER_INITIAL (Some STABLE) s.
Proof.
  unfold _get_worker_resource_at_stable_phase.
  rewrite (bind_ok _ _ _ _ _ (phases_opt_call s WORKER_INITIAL (Some STABLE))).
  rewrite phases_opt_call. destruct (snd (generate_opt_plan _ _ _)); reflexivity.
Qed.

(** [_get_worker_resource_at_running] asks for [SAMPLE] when the flag is
    unset and for [STABLE] when it is set, and leaves the flag set. *)
Lemma phases_at_running (s : JobResourceOptimizer (logged O)) :
  requested_phases (fst (_get_worker_resource_at_running s))
  = (true,
     snd (requested_phases s)
     ++ [if optimize_worker_sampled s then STABLE else SAMPLE]).
Proof.
  unfold _get_worker_resource_at_running.
  change ((get ≫= ?k) s) with (k s s). cbv beta.
  destruct (optimize_worker_sampled s) eqn:Ef; cbn [negb].
  - rewrite stable_phase_call, phases_opt_call. cbn [fst].
    unfold requested_phases.
    cbn [fst optimize_worker_sampled _resource_optimizer set_resource_optimizer snd].
    rewrite running_phases_snoc; f_equal; first [exact Ef | reflexivity].
  - pose proof (sample_phase_call s) as Es. rewrite phases_opt_call in Es.
    rewrite (bind_ok _ _ _ _ _ Es).
    unfold mbind, M_bind, bind, modify, mret, M_ret, ret; cbn [fst].
    unfold requested_phases.
    cbn [fst optimize_worker_sampled _resource_optimizer set_resource_optimizer
         set_optimize_worker_sampled snd].
    rewrite running_phases_snoc; reflexivity.
Qed.

(** One call asks for no running phase, or for the one the flag selects. *)
Lemma phases_after (c : call) (s : JobResourceOptimizer (logged O)) :
  let s' := after limit ctx update adjust default_plan c s in
  requested_phases s' = requested_phases s
  \/ requested_phases s'
     = (true,
        snd (requested_phases s)
        ++ [if optimize_worker_sampled s then STABLE else SAMPLE]).
Proof.
  cbv zeta. destruct c; simpl.
  - left. apply phases_kept_by_init.
  - left. apply phases_kept_by_optimize_worker_resource.
  - left. apply phases_kept_by_adjust_oom_worker_resource.
  - left. apply phases_kept_by_adjust_oom_ps_resource.
  - rewrite (view_after_fetch limit adjust requested_phases) by reflexivity.
    destruct (_job_stage s).
    + left. reflexivity.
    + left.
      match goal with
      | |- requested_phases (fst (?m s)) = _ => change (keeps_at requested_phases s m)
      end.
      keeps; apply phases_kept_by_init_phase.
    + left.
      match goal with
      | |- requested_phases (fst (?m s)) = _ => change (keeps_at requested_phases s m)
      end.
      keeps; apply phases_kept_by_ps_plan.
    + pose proof (phases_kept_by_ps_plan s) as K. unfold keeps_at in K.
      destruct (_get_ps_resource_plan s) as [s1 [plan | e]] eqn:E.
      2:{ rewrite (bind_raise _ _ _ _ _ E). left. exact K. }
      rewrite (bind_ok _ _ _ _ _ E). cbn [fst] in K.
      destruct plan as [p |]; unfold attr_of.
      2:{ rewrite (bind_raise _ _ s1 s1 AttributeError eq_refl). left. exact K. }
      rewrite (bind_ok _ _ s1 s1 p eq_refl).
      destruct (ResourcePlan_empty p).
      * right. rewrite phases_at_running. rewrite K.
        unfold requested_phases in K. injection K as K1 K2. rewrite K1. reflexivity.
      * left. exact K.
Qed.

(** X5.  Over any sequence of calls on a new [JobResourceOptimizer], the
    worker phases other than [INITIAL] asked of the optimizer are [SAMPLE]
    once, followed by [STABLE] only: [SAMPLE] is never asked twice and
    [STABLE] never before [SAMPLE].  Nothing of the two has been asked as
    long as [optimize_worker_sampled] is unset. *)
Theorem sample_phase_requested_once
    (worker_resource ps_resource : NodeGroupResource) (o : O) (calls : list call) :
  let s := run limit ctx update adjust default_plan calls
             (new_JobResourceOptimizer worker_resource ps_resource ((o, []) : logged O)) in
  let phases := running_phases (snd (_resource_optimizer s)) in
  (optimize_worker_sampled s = false /\ phases = [])
  \/ (optimize_worker_sampled s = true /\ exists n, phases = SAMPLE :: repeat STABLE n).
Proof.
  cbv zeta.
  set (s0 := new_JobResourceOptimizer worker_resource ps_resource ((o, []) : logged O)).
  assert (H0 : (optimize_worker_sampled s0 = false
                /\ snd (requested_phases s0) = [])
               \/ (optimize_worker_sampled s0 = true
                   /\ exists n, snd (requested_phases s0) = SAMPLE :: repeat STABLE n))
    by (left; split; reflexivity).
  clearbody s0. unfold run. revert s0 H0.
  induction calls as [| c calls IH]; intros s0 H0; simpl; [exact H0 |].
  apply IH.
  destruct (phases_after c s0) as [E | E]; cbv zeta in E.
  - unfold requested_phases in E at 1 2. injection E as E1 E2.
    unfold requested_phases in *. cbn [snd] in *. rewrite E1, E2. exact H0.
  - unfold requested_phases in E at 1. injection E as E1 E2.
    unfold requested_phases in *. cbn [snd] in *. rewrite E1, E2.
    right. split; [reflexivity |].
    destruct H0 as [[Hf Hp] | [Hf [n Hp]]]; rewrite Hf, Hp.
    + exists 0%nat. reflexivity.
    + exists (S n). cbn [app]. f_equal. symmetry. apply repeat_cons.
Qed.

End Requests.

(** *** [JobResource] *)

Lemma or_Z_idem (a b : Z) : or_Z a (or_Z a b) = or_Z a b.
Proof. unfold or_Z. destruct (a =? 0) eqn:E; rewrite ?E; reflexivity. Qed.

Lemma or_Q_idem (a b : Q) : or_Q a (or_Q a b) = or_Q a b.
Proof. unfold or_Q. destruct (Qeq_bool a 0) eqn:E; rewrite ?E; reflexivity. Qed.

(** X6.  [JobResource.update_node_group_resource] never writes a zero
    count: a zero [num] keeps the group's count, which is 0 for a group the
    call had to create, and a call with [num], [cpu] and [memory] all zero
    leaves an existing group as it is.  The group exists afterwards, the
    groups of the other node types are untouched, and repeating the call
    changes nothing more. *)
Theorem update_node_group_resource_keeps_on_zero
    (node_type : NodeType) (num : Z) (cpu0 : Q) (mem : Z) (self : JobResource) :
  let self' := update_node_group_resource node_type num cpu0 mem self in
  (exists g,
     get_node_group_resource node_type self' = Some g
     /\ count g = (if num =? 0 then _get_group_node_num node_type self else num)
     /\ (num = 0 -> cpu0 == 0 -> mem = 0 ->
         forall old, get_node_group_resource node_type self = Some old -> g = old))
  /\ _get_group_node_num node_type self'
     = (if num =? 0 then _get_group_node_num node_type self else num)
  /\ (forall other, other <> node_type ->
      get_node_group_resource other self' = get_node_group_resource other self)
  /\ update_node_group_resource node_type num cpu0 mem self' = self'.
Proof.
  cbv zeta.
  unfold update_node_group_resource, get_node_group_resource, _get_group_node_num.
  cbn [job_node_group_resources]. rewrite !lookup_insert_eq.
  repeat split.
  - eexists. split; [reflexivity |]. cbn. split.
    + unfold or_Z. destruct (job_node_group_resources self !! node_type);
        destruct (num =? 0); reflexivity.
    + intros -> Hc -> old ->. apply Qeq_bool_iff in Hc.
      unfold or_Z, or_Q. rewrite Hc. cbn. destruct old as [n [c m gt gn] p].
      reflexivity.
  - cbn. unfold or_Z. destruct (job_node_group_resources self !! node_type);
      destruct (num =? 0); reflexivity.
  - intros other Hne. apply lookup_insert_ne. congruence.
  - rewrite insert_insert_eq. do 2 f_equal. cbn.
    rewrite !or_Z_idem, or_Q_idem. reflexivity.
Qed.

End JobLifecycle.

Module JobLifecycleExamples.
Import Resource Plan Job Fixtures.

(** The calls of a job's life after its initialisation: two plans, an OOM of
    a worker and one of a parameter server, a third plan. *)
Lemma stage_never_goes_back_witness :
  Forall (fun c => c <> Call_init_job_resource)
    [Call_get_job_resource_plan; Call_get_job_resource_plan;
     Call_adjust_oom_worker_resource (node "worker-0" 8192);
     Call_adjust_oom_ps_resource (node "ps-0" 8192) true;
     Call_get_job_resource_plan]
  /\ (stage_rank (_job_stage (initialised (pinned_job [None; Some oom_plan])))
      <= stage_rank
           (_job_stage
              (run sample_limit easydl_on update_positive id new_plan
                 [Call_get_job_resource_plan; Call_get_job_resource_plan;
                  Call_adjust_oom_worker_resource (node "worker-0" 8192);
                  Call_adjust_oom_ps_resource (node "ps-0" 8192) true;
                  Call_get_job_resource_plan]
                 (initialised (pinned_job [None; Some oom_plan])))))%nat.
Proof.
  assert (H : Forall (fun c => c <> Call_init_job_resource)
                [Call_get_job_resource_plan; Call_get_job_resource_plan;
                 Call_adjust_oom_worker_resource (node "worker-0" 8192);
                 Call_adjust_oom_ps_resource (node "ps-0" 8192) true;
                 Call_get_job_resource_plan])
    by (repeat constructor; discriminate).
  split; [exact H |].
  exact (proj1 (JobLifecycle.stage_never_goes_back sample_limit easydl_on
                  update_positive id new_plan _ _ H)).
Defined.

Lemma get_job_resource_plan_raises_before_init_witness :
  _job_stage (pinned_job [Some oom_plan]) = CREATE
  /\ get_job_resource_plan sample_limit id (pinned_job [Some oom_plan])
     = (pinned_job [Some oom_plan], Raise AttributeError).
Proof.
  assert (H : _job_stage (pinned_job [Some oom_plan]) = CREATE) by reflexivity.
  split; [exact H |].
  exact (JobLifecycle.get_job_resource_plan_raises_before_init sample_limit id _ H).
Defined.

(** A parameter server of 8192 MiB runs out of memory and the optimizer
    proposes 3 servers of 16384 MiB.  Once training has started, the proposal
    only raises the memory: the live PS memory becomes 16384 MiB and the
    node's too.  Before that, the plan is returned with the user's 20 servers
    capped at [MAX_PS_NUM] and the node is left alone. *)
Lemma adjust_oom_ps_resource_replans_or_raises_memory_witness :
  0 <= memory (config_resource (node "ps-0" 8192))
  /\ match adjust_oom_ps_resource sample_limit id (node "ps-0" 8192) true
             (pinned_job [Some ps_oom_plan]) with
     | (s', Ok (plan', node')) =>
         plan' = new_plan
         /\ memory (config_resource node') = 16384
         /\ memory (node_resource (_ps_resource s')) = 16384
         /\ 8192 <= memory (config_resource node')
     | (_, Raise _) => False
     end.
Proof.
  assert (H1 : 0 <= memory (config_resource (node "ps-0" 8192)))
    by (vm_compute; discriminate).
  split; [exact H1 |].
  pose proof (JobLifecycle.adjust_oom_ps_resource_replans_or_raises_memory
                sample_limit id (pinned_job [Some ps_oom_plan]) (node "ps-0" 8192) true
                H1) as T.
  destruct (adjust_oom_ps_resource sample_limit id (node "ps-0" 8192) true
              (pinned_job [Some ps_oom_plan])) as [s' [[plan' node'] | e]] eqn:E.
  - destruct T as [(_ & Hstarted & _) | (Hp & _ & _ & Hge & _)]; [discriminate |].
    assert (Hf : memory (config_resource (node "ps-0" 8192)) <= 2 ^ 53
                 /\ (1 <= INCREMENTAL_MEMORY_FACTOR sample_limit)%Q)
      by (split; vm_compute; discriminate).
    specialize (Hge (or_introl Hf)).
    vm_compute in E. injection E as <- <- <-.
    split; [reflexivity |]. split; [reflexivity |]. split; [reflexivity | exact Hge].
  - vm_compute in E. discriminate E.
Defined.

Example adjust_oom_ps_resource_example :
  (let '(s', r) := adjust_oom_ps_resource sample_limit id (node "ps-0" 8192) false
                     (pinned_job [Some ps_oom_plan]) in
   (count (_ps_resource s'), memory (node_resource (_ps_resource s')),
    match r with
    | Ok (plan', node') =>
        Some (count <$> node_group_resources plan' !! PS, memory (config_resource node'))
    | Raise _ => None
    end))
  = (15, 8192, Some (Some 20, 8192)).
Proof. vm_compute. reflexivity. Qed.

(** A job that runs through its stages and then asks for a plan three more
    times while the optimizer has nothing for the parameter servers: the
    worker phases asked for are [SAMPLE], [STABLE], [STABLE]. *)
Example sample_phase_example :
  running_phases
    (snd (_resource_optimizer
            (run sample_limit easydl_on update_positive id new_plan
               [Call_init_job_resource; Call_get_job_resource_plan;
                Call_get_job_resource_plan; Call_get_job_resource_plan;
                Call_get_job_resource_plan; Call_get_job_resource_plan]
               (new_JobResourceOptimizer (group 0 0 0) (group 0 0 0)
                  (([None; Some oom_plan] : scripted, []) : logged scripted)))))
  = [SAMPLE; STABLE; STABLE].
Proof. vm_compute. reflexivity. Qed.

Example update_node_group_resource_example :
  (let jr := update_node_group_resource WORKER 4 0 8192
               (update_node_group_resource WORKER 0 2 0 new_JobResource) in
   (worker_num jr, ps_num jr,
    (fun g => (cpu (node_resource g), memory (node_resource g)))
      <$> get_node_group_resource WORKER jr))
  = (4, 0, Some (2 : Q, 8192)).
Proof. vm_compute. reflexivity. Qed.

End JobLifecycleExamples.
(** ** More of [master/shard/task_manager.py] *)

Module ShardLifecycle.
Import Resource Shard MethodFacts.

Lemma od_mem_In {A} (k : string) (d : list (string * A)) :
  od_mem k d = true <-> In k (map fst d).
Proof.
  unfold od_mem. induction d as [| [k' v] d IH]; simpl.
  - split; [discriminate | contradiction].
  - destruct (String.eqb k k') eqn:E.
    + apply String.eqb_eq in E. subst. split; [left; reflexivity | reflexivity].
    + apply String.eqb_neq in E. rewrite IH. split.
      * intros Hin. right. exact Hin.
      * intros [Heq | Hin]; [congruence | exact Hin].
Qed.

Lemma od_mem_get {A} (k : string) (d : list (string * A)) :
  od_mem k d = true <-> is_Some (od_get k d).
Proof.
  unfold od_mem. destruct (od_get k d).
  - split; [eauto | reflexivity].
  - split; [discriminate | intros [? ?]; discriminate].
Qed.

(** Assigning to a key keeps the keys and their order when the key is
    present, and adds it at the end when it is not. *)
Lemma od_set_names {A} (k : string) (v : A) (d : list (string * A)) :
  map fst (od_set k v d) = if od_mem k d then map fst d else map fst d ++ [k].
Proof.
  unfold od_mem. induction d as [| [k' v'] d IH]; simpl.
  - reflexivity.
  - destruct (String.eqb k k') eqn:E; simpl.
    + apply String.eqb_eq in E. subst. reflexivity.
    + rewrite IH. destruct (od_get k d); reflexivity.
Qed.

Lemma od_set_names_present {A} (k : string) (v v0 : A) (d : list (string * A)) :
  od_get k d = Some v0 -> map fst (od_set k v d) = map fst d.
Proof. intros E. rewrite od_set_names. unfold od_mem. rewrite E. reflexivity. Qed.

Lemma od_get_In {A} (k : string) (v : A) (d : list (string * A)) :
  NoDup (map fst d) -> In (k, v) d -> od_get k d = Some v.
Proof.
  induction d as [| [k' v'] d IH]; simpl; intros Hnd Hin; [contradiction |].
  apply NoDup_cons in Hnd as [Hnotin Hnd].
  destruct Hin as [[= -> ->] | Hin].
  - rewrite String.eqb_refl. reflexivity.
  - destruct (String.eqb k k') eqn:E.
    + apply String.eqb_eq in E. subst. exfalso. apply Hnotin.
      apply list_elem_of_In. apply (in_map fst) in Hin. exact Hin.
    + apply IH; assumption.
Qed.

Section Facts.

Context {D Splitter Checkpoint P : Type}.
Context `{DatasetManger D Splitter Checkpoint} `{PerfMonitor P}.
Variable Callback : Type.

(** *** What one call does to one dataset *)

(** [report_dataset_task] on a dataset that exists, computed. *)
Lemma report_dataset_task_known
    (s : TaskManager D P Callback) request success now dataset :
  od_get (req_dataset_name request) (_datasets s) = Some dataset ->
  report_dataset_task Callback request success now s
  = (let s1 :=
       set_datasets Callback
         (od_set (req_dataset_name request)
            (fst (report_task_status dataset (req_task_id request) success))
            (_datasets s)) s in
     match snd (report_task_status dataset (req_task_id request) success) with
     | (true, Some doing_task) =>
         (reset_worker_start_task_time Callback (node_id doing_task) now s1,
          Ok (Some (task doing_task), Some (node_id doing_task)))
     | (true, None) => (s1, Raise AttributeError)
     | (false, _) => (s1, Ok (None, None))
     end).
Proof.
  intros E. unfold report_dataset_task.
  change ((get ≫= ?k) s) with (k s s). cbv beta. rewrite E.
  destruct (report_task_status dataset (req_task_id request) success)
    as [dataset' [[] [doing_task |]]]; reflexivity.
Qed.


(** [report_dataset_task] raises [ValueError] exactly when the dataset is
    unknown, and then changes nothing. *)
Lemma report_dataset_task_unknown
    (s : TaskManager D P Callback) request success now :
  od_get (req_dataset_name request) (_datasets s) = None ->
  report_dataset_task Callback request success now s = (s, Raise ValueError).
Proof.
  intros E. unfold report_dataset_task.
  change ((get ≫= ?k) s) with (k s s). cbv beta. rewrite E. reflexivity.
Qed.

(** What a call that works on the dataset [name] may change of the
    dictionary: the value under [name], which stays present. *)
Lemma report_dataset_task_frame
    (s : TaskManager D P Callback) request success now :
  let s' := fst (report_dataset_task Callback request success now s) in
  dataset_names Callback s' = dataset_names Callback s
  /\ (forall k, k <> req_dataset_name request ->
      od_get k (_datasets s') = od_get k (_datasets s))
  /\ (is_Some (od_get (req_dataset_name request) (_datasets s)) ->
      is_Some (od_get (req_dataset_name request) (_datasets s'))).
Proof.
  cbv zeta.
  destruct (od_get (req_dataset_name request) (_datasets s)) as [dataset |] eqn:E.
  - rewrite (report_dataset_task_known s request success now dataset E). cbv zeta.
    assert (Hn : forall v, map fst (od_set (req_dataset_name request) v (_datasets s))
                           = map fst (_datasets s))
      by (intros v; apply (od_set_names_present _ _ dataset); exact E).
    destruct (snd (report_task_status dataset (req_task_id request) success))
      as [[] [doing_task |]]; cbn [fst]; unfold dataset_names; cbn;
      (split; [apply Hn |]);
      (split; [intros k Hk; apply ShardFacts.od_get_set_ne; exact Hk |]);
      intros _; rewrite ShardFacts.od_get_set_eq; eauto.
  - rewrite (report_dataset_task_unknown s request success now E). cbn [fst].
    split; [reflexivity |]. split; [reflexivity |]. intros [? ?]; discriminate.
Qed.

Lemma get_dataset_task_names
    (s : TaskManager D P Callback) node_type0 node_id0 name now :
  dataset_names Callback (fst (get_dataset_task Callback node_type0 node_id0 name now s))
  = dataset_names Callback s.
Proof.
  unfold get_dataset_task, dataset_names.
  destruct (od_get name (_datasets s)) as [dataset |] eqn:E; [| reflexivity].
  destruct (get_task dataset node_type0 node_id0) as [dataset' t].
  repeat case_match; cbn; apply (od_set_names_present _ _ dataset); exact E.
Qed.

Lemma sweep_datasets_names
    (s : TaskManager D P Callback) clock i (datasets : list (string * D)) :
  map fst (fst (sweep_datasets Callback s clock i datasets)) = map fst datasets.
Proof.
  revert i. induction datasets as [| [name dataset] rest IH]; intros i; simpl.
  - reflexivity.
  - destruct (sweep_dataset Callback s name (clock i) dataset) as [dataset' events].
    specialize (IH (S i)).
    destruct (sweep_datasets Callback s clock (S i) rest) as [rest' events'].
    simpl in *. rewrite IH. reflexivity.
Qed.

Lemma sweep_pass_names (s : TaskManager D P Callback) clock :
  dataset_names Callback (fst (sweep_pass Callback clock s)) = dataset_names Callback s.
Proof.
  unfold sweep_pass, dataset_names.
  pose proof (sweep_datasets_names s clock 0%nat (_datasets s)) as Hn.
  destruct (sweep_datasets Callback s clock 0%nat (_datasets s)) as [datasets events].
  exact Hn.
Qed.

Lemma restore_dataset_from_checkpoint_names (s : TaskManager D P Callback) blob :
  dataset_names Callback (fst (restore_dataset_from_checkpoint Callback blob s))
  = dataset_names Callback s.
Proof.
  unfold restore_dataset_from_checkpoint, try_except, lift_result, attr_of.
  unfold mbind, M_bind, bind, get, put, mret, M_ret, ret, raise.
  destruct (from_json blob) as [dataset_checkpoint | e]; [| reflexivity].
  destruct (od_get (dataset_name dataset_checkpoint) (_datasets s))
    as [dataset |] eqn:E; [| reflexivity].
  destruct (restore_checkpoint dataset dataset_checkpoint) as [dataset' [[] | e]];
    cbn; unfold dataset_names; cbn;
    apply (od_set_names_present _ _ dataset); exact E.
Qed.

(** The inner loop of [recover_tasks] works on one dataset. *)
Lemma recover_ids_frame
    (s : TaskManager D P Callback) name clock ids :
  let s' := fst (recover_ids Callback name clock ids s) in
  dataset_names Callback s' = dataset_names Callback s
  /\ (forall k, k <> name -> od_get k (_datasets s') = od_get k (_datasets s))
  /\ (is_Some (od_get name (_datasets s)) -> is_Some (od_get name (_datasets s'))).
Proof.
  cbv zeta. revert s. induction ids as [| id rest IH]; intros s; simpl.
  - split; [reflexivity |]. split; [reflexivity |]. tauto.
  - set (request := {| req_task_id := id; req_dataset_name := name;
                       err_message := EmptyString |}).
    destruct (report_dataset_task_frame s request false (clock name id))
      as (Hn & Hk & Hp). cbv zeta in *. cbn [req_dataset_name request] in *.
    destruct (report_dataset_task Callback request false (clock name id) s)
      as [s1 [r | e]] eqn:E; cbn [fst] in *.
    + rewrite (bind_ok _ _ _ _ _ E).
      destruct (IH s1) as (Hn1 & Hk1 & Hp1).
      destruct (recover_ids Callback name clock rest s1) as [s2 [r2 | e2]] eqn:E2;
        cbn [fst] in *;
        [ rewrite (bind_ok _ _ _ _ _ E2) | rewrite (bind_raise _ _ _ _ _ E2) ];
        unfold mret, M_ret, ret; cbn [fst]; (split; [congruence |]);
        (split; [intros k Hne; rewrite Hk1, Hk by exact Hne; reflexivity |]);
        intros Hs; apply Hp1, Hp, Hs.
    + rewrite (bind_raise _ _ _ _ _ E). cbn [fst].
      split; [exact Hn |]. split; [exact Hk | exact Hp].
Qed.

(** When the inner loop returns, it has reported every id it was given; it
    never raises the [ValueError] of an unknown dataset on a dataset that
    exists. *)
Lemma recover_ids_result
    (s : TaskManager D P Callback) name clock ids :
  is_Some (od_get name (_datasets s)) ->
  match snd (recover_ids Callback name clock ids s) with
  | Ok recovered => recovered = ids
  | Raise e => e = AttributeError
  end.
Proof.
  revert s. induction ids as [| id rest IH]; intros s Hs; simpl.
  - reflexivity.
  - set (request := {| req_task_id := id; req_dataset_name := name;
                       err_message := EmptyString |}).
    destruct (report_dataset_task_frame s request false (clock name id))
      as (_ & _ & Hp). cbv zeta in Hp. cbn [req_dataset_name request] in Hp.
    specialize (Hp Hs).
    destruct Hs as [dataset Hs].
    pose proof (report_dataset_task_known s request false (clock name id) dataset Hs)
      as Hr. cbv zeta in Hr.
    destruct (report_dataset_task Callback request false (clock name id) s)
      as [s1 [r | e]] eqn:E; cbn [fst] in *.
    + rewrite (bind_ok _ _ _ _ _ E).
      specialize (IH s1 Hp).
      destruct (recover_ids Callback name clock rest s1) as [s2 [r2 | e2]] eqn:E2;
        [ rewrite (bind_ok _ _ _ _ _ E2) | rewrite (bind_raise _ _ _ _ _ E2) ];
        cbn [snd] in *; [cbn; congruence | exact IH].
    + rewrite (bind_raise _ _ _ _ _ E). cbn [snd].
      destruct (snd (report_task_status dataset (req_task_id request) false))
        as [[] [doing_task |]]; congruence.
Qed.

(** The ids [recover_tasks] is to report for a dataset, as the entry it logs. *)
Lemma recover_datasets_spec
    (node_type0 : NodeType) (node_id0 : Z) (clock : string -> Z -> Q)
    (pairs : list (string * D)) (s : TaskManager D P Callback) :
  NoDup (map fst pairs) ->
  (forall name dataset, In (name, dataset) pairs ->
     od_get name (_datasets s) = Some dataset) ->
  let r := recover_datasets Callback node_type0 node_id0 clock (map fst pairs) s in
  dataset_names Callback (fst r) = dataset_names Callback s
  /\ match snd r with
     | Ok logged =>
         logged
         = omap (fun nd =>
                   match doing_ids_of node_type0 node_id0 (snd nd) with
                   | [] => None
                   | ids => Some (fst nd, ids)
                   end) pairs
     | Raise e => e = AttributeError
     end.
Proof.
  cbv zeta. revert s. induction pairs as [| [name dataset] rest IH]; intros s Hnd Hin.
  - simpl. split; reflexivity.
  - simpl map in *. apply NoDup_cons in Hnd as [Hnotin Hnd].
    cbn [recover_datasets].
    change ((get ≫= ?k) s) with (k s s). cbv beta.
    rewrite (Hin name dataset (or_introl eq_refl)).
    cbn [omap list_omap snd fst].
    assert (Hrest : forall s1 : TaskManager D P Callback,
              (forall k, k <> name -> od_get k (_datasets s1) = od_get k (_datasets s)) ->
              forall name' dataset', In (name', dataset') rest ->
                od_get name' (_datasets s1) = Some dataset').
    { intros s1 Hk name' dataset' Hin'.
      rewrite Hk.
      - apply Hin. right. exact Hin'.
      - intros ->. apply Hnotin. apply list_elem_of_In.
        apply (in_map fst) in Hin'. exact Hin'. }
    destruct (doing_ids_of node_type0 node_id0 dataset) as [| id ids] eqn:Eids.
    + apply IH; [exact Hnd |]. intros name' dataset' Hin'. apply Hin. right. exact Hin'.
    + destruct (recover_ids_frame s name clock (id :: ids)) as (Hn & Hk & _).
      pose proof (recover_ids_result s name clock (id :: ids)
                    (ex_intro _ dataset (Hin name dataset (or_introl eq_refl)))) as Hr.
      cbv zeta in *.
      destruct (recover_ids Callback name clock (id :: ids) s) as [s1 [r | e]] eqn:E;
        cbn [fst snd] in *.
      * rewrite (bind_ok _ _ _ _ _ E). subst r.
        destruct (IH s1 Hnd (Hrest s1 Hk)) as (Hn1 & Hl1).
        destruct (recover_datasets Callback node_type0 node_id0 clock (map fst rest) s1)
          as [s2 [logged | e2]] eqn:E2; cbn [fst snd] in *.
        -- rewrite (bind_ok _ _ _ _ _ E2). cbn [fst snd mret M_ret ret].
           split; [congruence |]. rewrite Hl1. reflexivity.
        -- rewrite (bind_raise _ _ _ _ _ E2). cbn [fst snd].
           split; [congruence | exact Hl1].
      * rewrite (bind_raise _ _ _ _ _ E). cbn [fst snd]. split; [exact Hn | exact Hr].
Qed.

Lemma recover_tasks_names
    (s : TaskManager D P Callback) node_type0 node_id0 clock :
  NoDup (dataset_names Callback s) ->
  dataset_names Callback (fst (recover_tasks Callback node_type0 node_id0 clock s))
  = dataset_names Callback s.
Proof.
  intros Hnd. unfold recover_tasks.
  change ((get ≫= ?k) s) with (k s s). cbv beta.
  apply (recover_datasets_spec node_type0 node_id0 clock (_datasets s) s Hnd).
  intros name dataset Hin. apply od_get_In; assumption.
Qed.

(** *** The dictionary of datasets over a task manager's life *)

Lemma new_dataset_names
    (s : TaskManager D P Callback) batch_size dataset_size name splitter t :
  let s' := new_dataset Callback batch_size dataset_size name splitter t s in
  dataset_names Callback s' = dataset_names Callback s
  \/ (dataset_names Callback s' = dataset_names Callback s ++ [name]
      /\ ~ In name (dataset_names Callback s)).
Proof.
  cbv zeta. unfold new_dataset, dataset_names.
  destruct (od_mem name (_datasets s)) eqn:Em; [left; reflexivity |].
  destruct (dataset_size <? 0); [left; reflexivity |].
  right. cbn. rewrite od_set_names, Em. split; [reflexivity |].
  intros Hin. apply od_mem_In in Hin. congruence.
Qed.

Lemma names_after (c : call Callback) (s : TaskManager D P Callback) :
  NoDup (dataset_names Callback s) ->
  dataset_names Callback s `prefix_of` dataset_names Callback (after Callback c s)
  /\ NoDup (dataset_names Callback (after Callback c s)).
Proof.
  intros Hnd.
  assert (Hsame : forall s' : TaskManager D P Callback,
            dataset_names Callback s' = dataset_names Callback s ->
            dataset_names Callback s `prefix_of` dataset_names Callback s'
            /\ NoDup (dataset_names Callback s'))
    by (intros s' ->; split; [reflexivity | exact Hnd]).
  destruct c as [batch_size dataset_size nm splitter t | | | | | | |]; simpl.
  - destruct (new_dataset_names s batch_size dataset_size nm splitter t)
      as [E | [E Hfresh]]; cbv zeta in E.
    + apply Hsame, E.
    + rewrite E. split; [apply prefix_app_r; reflexivity |].
      apply NoDup_app. split; [exact Hnd |]. split.
      * intros x Hx Hx'. apply list_elem_of_singleton in Hx'. subst.
        apply Hfresh, list_elem_of_In, Hx.
      * apply NoDup_singleton.
  - apply Hsame, get_dataset_task_names.
  - apply Hsame, report_dataset_task_frame.
  - apply Hsame, recover_tasks_names, Hnd.
  - apply Hsame. reflexivity.
  - apply Hsame. reflexivity.
  - apply Hsame, sweep_pass_names.
  - apply Hsame, restore_dataset_from_checkpoint_names.
Qed.

(** X7.  Over a task manager's whole life the dictionary of datasets only
    grows: no call removes, renames or reorders a dataset, so the names held
    at any moment are a prefix of the names held later, and no name is ever
    held twice ([new_dataset] on a known name is ignored). *)
Theorem dataset_names_only_grow
    (task_process_timeout : Z) (perf_monitor : P)
    (earlier later : list (call Callback)) :
  let s1 := run Callback earlier (new_TaskManager Callback task_process_timeout perf_monitor) in
  let s2 := run Callback later s1 in
  dataset_names Callback s1 `prefix_of` dataset_names Callback s2
  /\ NoDup (dataset_names Callback s2).
Proof.
  cbv zeta.
  assert (Hrun : forall calls (s : TaskManager D P Callback),
            NoDup (dataset_names Callback s) ->
            dataset_names Callback s `prefix_of` dataset_names Callback (run Callback calls s)
            /\ NoDup (dataset_names Callback (run Callback calls s))).
  { unfold run. induction calls as [| c calls IH]; intros s Hnd; simpl.
    - split; [reflexivity | exact Hnd].
    - destruct (names_after c s Hnd) as [Hp Hnd'].
      destruct (IH _ Hnd') as [Hp' Hnd''].
      split; [etransitivity; eassumption | exact Hnd'']. }
  assert (H1 : NoDup (dataset_names Callback
                        (run Callback earlier
                           (new_TaskManager Callback task_process_timeout perf_monitor))))
    by (apply Hrun; apply NoDup_nil_2).
  apply Hrun, H1.
Qed.

(** *** [report_dataset_task] *)

(** X8.  [report_dataset_task] raises [ValueError] exactly when the dataset
    is unknown, and then leaves the task manager as it was.  When it returns
    a task and a node, that node's start time has been set to the clock's
    reading; when it returns [(None, None)] for a report the dataset did not
    accept, no start time has changed.  It never adds or removes a
    dataset. *)
Theorem report_dataset_task_outcome
    (s : TaskManager D P Callback) (request : TaskResult) (success : bool) (now : Q) :
  let r := report_dataset_task Callback request success now s in
  (snd r = Raise ValueError <-> get_dataset Callback (req_dataset_name request) s = None)
  /\ (get_dataset Callback (req_dataset_name request) s = None -> fst r = s)
  /\ (forall t n, snd r = Ok (Some t, Some n) ->
        _worker_start_task_time (fst r) !! n = Some now)
  /\ (forall t n, snd r = Ok (t, n) -> (t = None <-> n = None))
  /\ (snd r = Ok (None, None) ->
        _worker_start_task_time (fst r) = _worker_start_task_time s)
  /\ dataset_names Callback (fst r) = dataset_names Callback s.
Proof.
  cbv zeta. unfold get_dataset.
  split; [| split; [| split; [| split; [| split]]]].
  6: apply report_dataset_task_frame.
  all: destruct (od_get (req_dataset_name request) (_datasets s)) as [dataset |] eqn:E;
    [ rewrite (report_dataset_task_known s request success now dataset E); cbv zeta;
      destruct (snd (report_task_status dataset (req_task_id request) success))
        as [[] [doing_task |]]; cbn [fst snd]
    | rewrite (report_dataset_task_unknown s request success now E); cbn [fst snd] ].
  all: try (split; intros; congruence).
  all: try (intros; congruence).
  all: try (intros t n [= <- <-]; cbn; apply lookup_insert_eq).
  all: try (intros t n [= <- <-]; split; intros; congruence).
  all: try reflexivity.
Qed.

(** *** A pull and the timeout sweep *)

Lemma get_dataset_task_start_time
    (s : TaskManager D P Callback) node_type0 node_id0 name now :
  is_Some (get_dataset Callback name s) ->
  let s' := fst (get_dataset_task Callback node_type0 node_id0 name now s) in
  _worker_start_task_time s' !! node_id0 = Some now
  /\ _task_process_timeout s' = _task_process_timeout s
  /\ _task_timeout_callbacks s' = _task_timeout_callbacks s.
Proof.
  unfold get_dataset, get_dataset_task. intros [dataset E]. rewrite E. cbv zeta.
  destruct (get_task dataset node_type0 node_id0) as [dataset' t].
  repeat case_match; cbn; (split; [apply lookup_insert_eq |]); split; reflexivity.
Qed.

(** X9.  A worker that has just pulled from a known dataset is safe from the
    timeout sweep for [task_process_timeout] seconds: as long as the sweep's
    clock reading is at most the pull's reading plus the timeout, no doing
    task of that worker is found timed out, and a sweep of any dataset calls
    no timeout callback with that worker's id. *)
Theorem fresh_pull_is_not_timed_out
    (s : TaskManager D P Callback)
    (node_type0 : NodeType) (node_id0 : Z) (name : string) (now cur : Q) :
  is_Some (get_dataset Callback name s) ->
  (cur - now <= inject_Z (_task_process_timeout s))%Q ->
  let s' := fst (get_dataset_task Callback node_type0 node_id0 name now s) in
  (forall doing_task,
     node_id doing_task = node_id0 -> is_timeout Callback s' cur doing_task = false)
  /\ (forall name' dataset callback_fn,
        ~ In (Callback_invoked callback_fn node_id0)
             (snd (sweep_dataset Callback s' name' cur dataset))).
Proof.
  intros Hknown Hcur. cbv zeta.
  destruct (get_dataset_task_start_time s node_type0 node_id0 name now Hknown)
    as (Hstart & Htimeout & _). cbv zeta in *.
  set (s' := fst (get_dataset_task Callback node_type0 node_id0 name now s)) in *.
  assert (Hsafe : forall doing_task,
            node_id doing_task = node_id0 -> is_timeout Callback s' cur doing_task = false).
  { intros doing_task Hid.
    destruct (is_timeout Callback s' cur doing_task) eqn:Et; [| reflexivity].
    apply ShardFacts.is_timeout_true in Et as [_ Hlt].
    rewrite Hid, Hstart, Htimeout in Hlt. cbn in Hlt. lra. }
  split; [exact Hsafe |].
  intros name' dataset callback_fn Hin. unfold sweep_dataset in Hin.
  destruct (ShardFacts.check_doing_tasks_spec Callback s' name' cur (doing dataset) dataset)
    as [[_ E] | (before & id & doing_task & rest & _ & _ & Ht & E)];
    rewrite E in Hin; cbn [snd] in Hin.
  - contradiction.
  - destruct Hin as [Hin | Hin]; [discriminate |].
    unfold _invoke_task_timeout_callback in Hin.
    apply in_map_iff in Hin as (cb & [= _ Hid] & _).
    rewrite (Hsafe doing_task Hid) in Ht. discriminate.
Qed.

(** *** [recover_tasks] *)

End Facts.
End ShardLifecycle.

Module ShardLifecycleExamples.
Import Resource Shard Fixtures.

Lemma fresh_pull_is_not_timed_out_witness :
  is_Some (get_dataset nat "eval" sweeping_manager)
  /\ (150 - 100 <= inject_Z (_task_process_timeout sweeping_manager))%Q
  /\ let s' := fst (get_dataset_task nat WORKER 2 "eval" 100 sweeping_manager) in
     (forall doing_task,
        node_id doing_task = 2 -> is_timeout nat s' 150 doing_task = false)
     /\ (forall name' dataset callback_fn,
           ~ In (Callback_invoked callback_fn 2)
                (snd (sweep_dataset nat s' name' 150 dataset))).
Proof.
  assert (H1 : is_Some (get_dataset nat "eval" sweeping_manager))
    by (eexists; vm_compute; reflexivity).
  assert (H2 : (150 - 100 <= inject_Z (_task_process_timeout sweeping_manager))%Q)
    by (vm_compute; discriminate).
  split; [exact H1 |]. split; [exact H2 |].
  exact (ShardLifecycle.fresh_pull_is_not_timed_out nat sweeping_manager WORKER 2
           "eval" 100 150 H1 H2).
Defined.

(** Worker 2 pulled its evaluation task at time 10.  A sweep at time 100
    finds it timed out; had the worker pulled again at time 90, the same
    sweep would move on to worker 3, whose pull dates from time 5. *)
Example fresh_pull_example :
  snd (sweep_pass nat (fun _ => 100%Q) sweeping_manager)
  = [Reported_failed "eval" 1; Callback_invoked 7%nat 2; Callback_invoked 8%nat 2]
  /\ snd (sweep_pass nat (fun _ => 100%Q)
            (fst (get_dataset_task nat WORKER 2 "eval" 90 sweeping_manager)))
     = [Reported_failed "eval" 2; Callback_invoked 7%nat 3; Callback_invoked 8%nat 3].
Proof. split; vm_compute; reflexivity. Qed.


(** Worker 2 dies while it holds task 1 of "eval": the task is reported as
    failed and is back at the head of the dataset's todo queue; the tasks of
    workers 1 and 3 stay where they are. *)
Example recover_tasks_example :
  (let '(s', r) := recover_tasks nat WORKER 2 (fun _ _ => 100%Q) sweeping_manager in
   (r,
    (fun d => (map task_id (ds_todo d), map fst (ds_doing d)))
      <$> get_dataset nat "eval" s'))
  = (Ok [("eval", [1])], Some ([1], [0; 2])).
Proof. vm_compute. reflexivity. Qed.

Example report_dataset_task_example :
  snd (report_dataset_task nat
         {| req_task_id := 1; req_dataset_name := "test"; err_message := "" |}
         true 100 sweeping_manager)
  = Raise ValueError
  /\ snd (report_dataset_task nat
            {| req_task_id := 9; req_dataset_name := "eval"; err_message := "" |}
            true 100 sweeping_manager)
     = Ok (None, None)
  /\ snd (report_dataset_task nat
            {| req_task_id := 1; req_dataset_name := "eval"; err_message := "" |}
            true 100 sweeping_manager)
     = Ok (Some (a_task 1 EVALUATION), Some 2).
Proof. repeat split; vm_compute; reflexivity. Qed.

(** Two datasets are created, one of them twice: the second creation is
    ignored and the order is that of the first creations. *)
Example dataset_names_example :
  dataset_names nat
    (run nat
       [Call_new_dataset 32 100 "train" [a_task 0 TRAINING] TRAINING;
        Call_new_dataset 32 100 "eval" [a_task 1 EVALUATION] EVALUATION;
        Call_get_dataset_task WORKER 1 "train" 0;
        Call_new_dataset 64 200 "train" [] TRAINING;
        Call_new_dataset 32 (-1) "test" [] PREDICTION]
       fresh_manager)
  = ["train"; "eval"].
Proof. vm_compute. reflexivity. Qed.

End ShardLifecycleExamples.
(** ** More of [master/servicer.py] *)

Module ServicerLifecycle.
Import Resource Shard Servicer MethodFacts.

Section Facts.

Context {T N Running Sp J R : Type}.
Context `{TaskManagerLike T} `{NodeManager N Running} `{SpeedMonitor Sp}.
Context `{JobMetricCollector J Sp Running}.
Variable ctx : Servicer.Context.

(** *** [_start_training_time] *)






(** *** [get_task] on an unknown dataset *)

(** X12.  [get_task] for a dataset the task manager does not know returns
    the default task message stamped with the model version: its type is
    [NONE], not [WAIT], and it carries no shard.  The task manager is not
    called, so the worker's start time is not reset; the call still starts
    the training clock when that is unset. *)
Theorem get_task_on_unknown_dataset
    (s : MasterServicer T N Sp J R) (request : GetTaskRequest)
    (t_first t_task t_reset : Q) :
  tm_has_dataset (get_dataset_name request) (_task_manager s) = false ->
  exists s',
    get_task request t_first t_task t_reset s
    = (s', Ok (with_model_version (_version s) new_TaskMsg))
    /\ _task_manager s' = _task_manager s
    /\ autoscale_view s' = autoscale_view s
    /\ s' = (if start_time_unset (_start_training_time s)
             then set_start_training_time (Some (Py.int t_first)) s else s).
Proof.
  intros Hunknown.
  unfold get_task.
  change ((get ≫= ?k) s) with (k s s). cbv beta.
  destruct (start_time_unset (_start_training_time s));
    unfold mbind, M_bind, bind, modify, mret, M_ret, ret; cbn [fst snd];
    rewrite Hunknown; cbn [negb];
    eexists; (split; [reflexivity |]); repeat split.
Qed.

(** *** When [report_task_result] raises *)

(** X13.  The exceptions of [report_task_result].  An exception of the task
    manager (the [ValueError] of an unknown dataset) propagates before
    anything else is done: no autoscale is started.  A report that reaches
    the non-training guard with autoscale not started, a node manager and no
    completed step, before any [get_task] has set [_start_training_time],
    raises [TypeError] (the subtraction [int - None]).  With a metric
    collector, a report for which the task manager yields no task (a failed
    or unknown task) raises [AttributeError] on [task.task_type], unless the
    non-training trigger fires on the way and [start_auto_scale] itself
    raises: then that exception ends the call. *)
Theorem report_task_result_raises
    (s : MasterServicer T N Sp J R) (request : TaskResult) (t_report now : Q) :
  let reported :=
    tm_report_dataset_task request (String.eqb (err_message request) EmptyString)
      t_report (_task_manager s) in
  let r := report_task_result ctx request t_report now s in
  (forall e, snd reported = Raise e ->
     r = (set_task_manager (fst reported) s, Raise e))
  /\ (forall yielded,
        snd reported = Ok yielded ->
        _start_autoscale s = false ->
        is_Some (_node_manager s) ->
        completed_global_step (_speed_monitor s) = 0 ->
        _start_training_time s = None ->
        r = (set_task_manager (fst reported) s, Raise TypeError))
  /\ (forall node,
        snd reported = Ok (None, node) ->
        is_Some (_job_metric_collector s) ->
        (_start_autoscale s = true \/ _node_manager s = None
         \/ completed_global_step (_speed_monitor s) <> 0
         \/ is_Some (_start_training_time s)) ->
        snd r = Raise AttributeError
        \/ exists n e,
             _node_manager s = Some n
             /\ _start_autoscale s = false
             /\ snd (start_auto_scale n) = Raise e
             /\ snd r = Raise e).
Proof.
  cbv zeta.
  destruct s as [tm nm sp rs jmc v t0 flag log].
  unfold report_task_result, non_training_guard, on_task_manager,
    _collect_runtime_stats, _check_start_auto_scale_worker,
    call_start_auto_scale, attr_of, of_result, mbind, M_bind, bind, get, put, modify, mret,
    M_ret, ret, raise; cbn.
  destruct (tm_report_dataset_task _ _ _ _) as [tm1 [[task nid] | e]]; cbn.
  - split; [intros e [=] |]. split.
    + intros yielded _ -> [n ->] Hc ->. cbn.
      apply Z.eqb_eq in Hc. rewrite Hc. reflexivity.
    + intros node [= -> ->] [j ->] Hguard.
      destruct flag; cbn; [left; reflexivity |].
      destruct nm as [n |]; cbn; [| left; reflexivity].
      destruct (completed_global_step sp =? 0) eqn:Ec; cbn; [| left; reflexivity].
      destruct t0 as [t0 |]; cbn.
      * destruct (seconds_to_autoscale_worker ctx <? Py.int now - t0); cbn;
          [| left; reflexivity].
        destruct (start_auto_scale n) as [n1 [[] | e]] eqn:Es; cbn;
          [left; reflexivity |].
        right. exists n, e. rewrite Es. repeat split; reflexivity.
      * exfalso. apply Z.eqb_eq in Ec.
        destruct Hguard as [Hg | [Hg | [Hg | [? Hg]]]]; congruence.
  - split; [intros e' [= ->]; reflexivity |].
    split; [intros yielded [=] | intros node [=]].
Qed.

End Facts.
End ServicerLifecycle.

Module ShardRpcFacts.
Import Resource Shard Servicer ShardRpc MethodFacts.

Section Facts.

Context {D Splitter Checkpoint P : Type}.
Context `{DatasetManger D Splitter Checkpoint} `{PerfMonitor P}.
Variable Callback : Type.
Context {N Running Sp J R : Type}.
Context `{NodeManager N Running} `{SpeedMonitor Sp} `{JobMetricCollector J Sp Running}.
Variable new_dataset_splitter : bool -> Z -> Z -> Z -> string -> string -> Splitter.
Variable to_json : Checkpoint -> string.
Variable collect_dataset_metric : J -> string -> Z -> string -> J.
Variable collect_training_hyper_params : J -> Z -> Z -> J.

Lemma report_dataset_shard_params_task_manager
    (s : MasterServicer (TaskManager D P Callback) N Sp J R) (request : ShardParams) :
  snd (report_dataset_shard_params Callback new_dataset_splitter
         collect_dataset_metric collect_training_hyper_params request s) = Ok tt
  /\ _task_manager
       (fst (report_dataset_shard_params Callback new_dataset_splitter
               collect_dataset_metric collect_training_hyper_params request s))
     = new_dataset Callback (batch_size request) (dataset_size request)
         (params_dataset_name request)
         (new_dataset_splitter (shuffle request)
            (batch_size request
             * (if num_minibatches_per_shard request =? 0 then 100
                else num_minibatches_per_shard request))
            (dataset_size request) (num_epochs request)
            (params_dataset_name request) (storage_type request))
         (params_task_type request) (_task_manager s).
Proof.
  unfold report_dataset_shard_params, mbind, M_bind, bind, modify, get, put, mret,
    M_ret, ret. cbn.
  destruct (_job_metric_collector s); split; reflexivity.
Qed.

(** X14.  The first accepted [report_dataset_shard_params] for a dataset
    name wins: a report with a size of at least zero returns and the dataset
    exists afterwards, and a later report for the same name, whatever its
    batch size, size or task type, returns and leaves the task manager as it
    was.  A dataset the report creates is split into shards of
    [batch_size * num_minibatches_per_shard] records, with 100 minibatches
    when the request's field is 0. *)
Theorem report_dataset_shard_params_first_wins
    (s : MasterServicer (TaskManager D P Callback) N Sp J R)
    (request later : ShardParams) :
  0 <= dataset_size request ->
  params_dataset_name later = params_dataset_name request ->
  let report := report_dataset_shard_params Callback new_dataset_splitter
                  collect_dataset_metric collect_training_hyper_params in
  let s1 := fst (report request s) in
  snd (report request s) = Ok tt
  /\ snd (report later s1) = Ok tt
  /\ is_Some (get_dataset Callback (params_dataset_name request) (_task_manager s1))
  /\ _task_manager (fst (report later s1)) = _task_manager s1
  /\ (get_dataset Callback (params_dataset_name request) (_task_manager s) = None ->
      get_dataset Callback (params_dataset_name request) (_task_manager s1)
      = Some (BatchDatasetManager (params_task_type request) (batch_size request)
                (new_dataset_splitter (shuffle request)
                   (batch_size request
                    * (if num_minibatches_per_shard request =? 0 then 100
                       else num_minibatches_per_shard request))
                   (dataset_size request) (num_epochs request)
                   (params_dataset_name request) (storage_type request)))).
Proof.
  intros Hsize Hname. cbv zeta.
  destruct (report_dataset_shard_params_task_manager s request) as [Hr Ht].
  set (s1 := fst (report_dataset_shard_params Callback new_dataset_splitter
                    collect_dataset_metric collect_training_hyper_params request s)) in *.
  destruct (report_dataset_shard_params_task_manager s1 later) as [Hr' Ht'].
  assert (Hknown : is_Some (get_dataset Callback (params_dataset_name request)
                              (_task_manager s1))).
  { rewrite Ht. unfold get_dataset, new_dataset.
    destruct (od_mem (params_dataset_name request) (_datasets (_task_manager s))) eqn:Em.
    - apply ShardLifecycle.od_mem_get. exact Em.
    - apply Z.ltb_ge in Hsize. rewrite Hsize. cbn.
      rewrite ShardFacts.od_get_set_eq. eauto. }
  split; [exact Hr |]. split; [exact Hr' |]. split; [exact Hknown |]. split.
  - rewrite Ht'. apply ShardFacts.new_dataset_rejected. right.
    rewrite Hname. apply ShardLifecycle.od_mem_get. exact Hknown.
  - intros Hfresh. rewrite Ht.
    apply ShardFacts.new_dataset_created; assumption.
Qed.

(** X15.  [get_shard_checkpoint] has no guard for a missing dataset: for a
    name the task manager does not know it raises [AttributeError]
    ([dataset.checkpoint()] on [None]), where the task manager's own
    [get_dataset_checkpoint] returns [None].  For a known dataset it returns
    the checkpoint's JSON, or the empty string when the dataset has no
    checkpoint.  It never changes the servicer. *)
Theorem get_shard_checkpoint_needs_the_dataset
    (s : MasterServicer (TaskManager D P Callback) N Sp J R) (name : string) :
  fst (get_shard_checkpoint Callback to_json name s) = s
  /\ match get_dataset Callback name (_task_manager s) with
     | None =>
         snd (get_shard_checkpoint Callback to_json name s) = Raise AttributeError
         /\ get_dataset_checkpoint Callback name (_task_manager s) = None
     | Some dataset =>
         snd (get_shard_checkpoint Callback to_json name s)
         = Ok (match get_dataset_checkpoint Callback name (_task_manager s) with
               | Some c => to_json c
               | None => EmptyString
               end)
     end.
Proof.
  unfold get_shard_checkpoint, get_dataset_checkpoint, get_dataset.
  change ((get ≫= ?k) s) with (k s s). cbv beta.
  unfold attr_of, mbind, M_bind, bind, mret, M_ret, ret, raise.
  destruct (od_get name (_datasets (_task_manager s))) as [dataset |]; cbn.
  - destruct (checkpoint dataset); split; reflexivity.
  - split; [reflexivity |]. split; reflexivity.
Qed.

End Facts.
End ShardRpcFacts.

Module ServicerLifecycleExamples.
Import Resource Shard Servicer ShardRpc Fixtures.


Lemma get_task_on_unknown_dataset_witness :
  tm_has_dataset "test" (_task_manager a_servicer) = false
  /\ exists s',
       get_task {| worker_type := WORKER; worker_id := 4; get_dataset_name := "test" |}
         1000 1001 1002 a_servicer
       = (s', Ok (with_model_version (_version a_servicer) new_TaskMsg))
       /\ _task_manager s' = _task_manager a_servicer
       /\ autoscale_view s' = autoscale_view a_servicer
       /\ s' = (if start_time_unset (_start_training_time a_servicer)
                then set_start_training_time (Some (Py.int 1000)) a_servicer
                else a_servicer).
Proof.
  assert (H1 : tm_has_dataset "test" (_task_manager a_servicer) = false)
    by (vm_compute; reflexivity).
  split; [exact H1 |].
  exact (ServicerLifecycle.get_task_on_unknown_dataset a_servicer
           {| worker_type := WORKER; worker_id := 4; get_dataset_name := "test" |}
           1000 1001 1002 H1).
Defined.

(** A result reported for a dataset that does not exist; a result reported to
    a servicer that has not served any [get_task] yet; a failed task reported
    to a servicer with a metric collector. *)
Example report_task_result_example :
  snd (report_task_result sample_context
         {| req_task_id := 0; req_dataset_name := "test"; err_message := "" |}
         1000 1000 a_servicer)
  = Raise ValueError
  /\ snd (report_task_result sample_context
            {| req_task_id := 0; req_dataset_name := "train"; err_message := "" |}
            1000 1000 a_servicer)
     = Raise TypeError
  /\ snd (report_task_result sample_context
            {| req_task_id := 0; req_dataset_name := "train"; err_message := "oom" |}
            1000 1000 a_measured_servicer)
     = Raise AttributeError.
Proof. repeat split; vm_compute; reflexivity. Qed.

Lemma report_dataset_shard_params_first_wins_witness :
  0 <= dataset_size (shard_params "test" 32 1000)
  /\ params_dataset_name (shard_params "test" 64 500)
     = params_dataset_name (shard_params "test" 32 1000)
  /\ let report := report_dataset_shard_params nat one_shard_splitter
                     no_dataset_metric no_hyper_params in
     let s1 := fst (report (shard_params "test" 32 1000) a_servicer) in
     snd (report (shard_params "test" 32 1000) a_servicer) = Ok tt
     /\ snd (report (shard_params "test" 64 500) s1) = Ok tt
     /\ is_Some (get_dataset nat "test" (_task_manager s1))
     /\ _task_manager (fst (report (shard_params "test" 64 500) s1)) = _task_manager s1
     /\ (get_dataset nat "test" (_task_manager a_servicer) = None ->
         get_dataset nat "test" (_task_manager s1)
         = Some (BatchDatasetManager TRAINING 32
                   (one_shard_splitter false (32 * 100) 1000 1 "test" ""))).
Proof.
  assert (H1 : 0 <= dataset_size (shard_params "test" 32 1000))
    by (vm_compute; discriminate).
  assert (H2 : params_dataset_name (shard_params "test" 64 500)
               = params_dataset_name (shard_params "test" 32 1000)) by reflexivity.
  split; [exact H1 |]. split; [exact H2 |].
  exact (ShardRpcFacts.report_dataset_shard_params_first_wins nat one_shard_splitter
           no_dataset_metric no_hyper_params a_servicer
           (shard_params "test" 32 1000) (shard_params "test" 64 500) H1 H2).
Defined.

Example get_shard_checkpoint_example :
  snd (get_shard_checkpoint nat checkpoint_to_json "test" a_servicer)
  = Raise AttributeError
  /\ snd (get_shard_checkpoint nat checkpoint_to_json "train" a_servicer) = Ok ""
  /\ snd (report_shard_checkpoint nat "test" a_servicer) = Ok false.
Proof. repeat split; vm_compute; reflexivity. Qed.

End ServicerLifecycleExamples.
(** ** More of [diagnosis/datacollector/atorch_event_collector.py] *)

Module AtorchLifecycle.
Import Atorch.

Section Facts.

Variable line : Type.
Variable parse_line : line -> result event.

Lemma parsed_app (l1 l2 : list line) :
  parsed line parse_line (l1 ++ l2)
  = parsed line parse_line l1 ++ parsed line parse_line l2.
Proof. unfold parsed. apply omap_app. Qed.

Lemma monitor_file_app (l1 l2 : list line) (c : AtorchEventCollector) :
  _monitor_file line parse_line (l1 ++ l2) c
  = _monitor_file line parse_line l2 (_monitor_file line parse_line l1 c).
Proof. unfold _monitor_file. apply fold_left_app. Qed.

Lemma monitor_file_stop_flag (lines : list line) (c : AtorchEventCollector) :
  _stop_collector (_monitor_file line parse_line lines c) = _stop_collector c.
Proof.
  revert c. induction lines as [| l lines IH]; intros c; [reflexivity |].
  rewrite AtorchFacts.monitor_file_cons, IH.
  unfold handle_line, handle_event.
  repeat case_match; reflexivity.
Qed.

Lemma handle_event_known (e : event) (c : AtorchEventCollector) (first : Z) :
  _first_step c = Some first ->
  handle_event e c = if differs_from first e then _report_event e c else c.
Proof.
  intros Hc. unfold handle_event. rewrite Hc. cbv beta iota zeta. rewrite Hc.
  reflexivity.
Qed.

Lemma handle_event_unknown (e : event) (c : AtorchEventCollector) :
  _first_step c = None ->
  handle_event e c
  = if is_trainer_step_begin e then set_first_step (Some (step e)) c else c.
Proof.
  intros Hc. unfold handle_event. rewrite Hc. cbv beta iota zeta.
  destruct (is_trainer_step_begin e).
  - cbn. rewrite Z.eqb_refl. reflexivity.
  - rewrite Hc. reflexivity.
Qed.

(** What a line adds to the reported events is an event that differs from
    the first step the collector ends up with. *)
Lemma monitor_file_adds (lines : list line) (c : AtorchEventCollector) :
  exists added,
    reported (_monitor_file line parse_line lines c) = reported c ++ added
    /\ (_first_step (_monitor_file line parse_line lines c) = None -> added = [])
    /\ (forall first,
          _first_step (_monitor_file line parse_line lines c) = Some first ->
          added `sublist_of`
            filter (fun e => differs_from first e = true) (parsed line parse_line lines)).
Proof.
  revert c. induction lines as [| l lines IH]; intros c.
  - exists []. simpl. rewrite app_nil_r. repeat split; intros; reflexivity.
  - rewrite AtorchFacts.monitor_file_cons.
    destruct (IH (handle_line line parse_line l c)) as (added & Hr & Hnone & Hsome).
    unfold handle_line in *.
    destruct (parse_line l) as [e | x] eqn:Ep.
    2:{ exists added. unfold parsed; simpl. rewrite Ep. repeat split; assumption. }
    assert (Hp : parsed line parse_line (l :: lines) = e :: parsed line parse_line lines)
      by (unfold parsed; simpl; rewrite Ep; reflexivity).
    rewrite Hp.
    destruct (_first_step (handle_event e c)) as [f |] eqn:Ef.
    + (* the first step is known once [e] has been handled *)
      destruct (AtorchFacts.monitor_file_first_step_known line parse_line lines
                  (handle_event e c) f Ef) as [Hlatch _].
      assert (Hline : reported (handle_event e c)
                      = reported c ++ (if differs_from f e then [e] else [])).
      { destruct (_first_step c) as [f0 |] eqn:Ec.
        - rewrite (handle_event_known e c f0 Ec) in Ef |- *.
          destruct (differs_from f0 e) eqn:Ed; cbn in Ef; rewrite Ec in Ef;
            injection Ef as <-; rewrite Ed; cbn; rewrite ?app_nil_r; reflexivity.
        - rewrite (handle_event_unknown e c Ec) in Ef |- *.
          destruct (is_trainer_step_begin e); cbn in Ef.
          + injection Ef as <-. unfold differs_from. rewrite Z.eqb_refl. cbn.
            rewrite app_nil_r. reflexivity.
          + congruence. }
      exists ((if differs_from f e then [e] else []) ++ added).
      rewrite Hr, Hline, <- app_assoc. split; [reflexivity |].
      split; [rewrite Hlatch; discriminate |].
      intros first Hfirst. rewrite Hlatch in Hfirst. injection Hfirst as <-.
      rewrite filter_cons.
      destruct (differs_from f e) eqn:Ed.
      * rewrite decide_True by reflexivity. simpl. apply sublist_skip.
        apply Hsome. exact Hlatch.
      * rewrite decide_False by discriminate. simpl. apply Hsome. exact Hlatch.
    + (* still no first step: the line reports nothing *)
      assert (Hline : reported (handle_event e c) = reported c).
      { destruct (_first_step c) as [f0 |] eqn:Ec.
        - rewrite (handle_event_known e c f0 Ec) in Ef.
          destruct (differs_from f0 e); cbn in Ef; congruence.
        - rewrite (handle_event_unknown e c Ec) in Ef |- *.
          destruct (is_trainer_step_begin e); [discriminate | reflexivity]. }
      exists added. rewrite Hr, Hline. split; [reflexivity |].
      split; [exact Hnone |].
      intros first Hfirst. rewrite filter_cons.
      destruct (decide (differs_from first e = true)).
      * apply sublist_cons. apply Hsome. exact Hfirst.
      * apply Hsome. exact Hfirst.
Qed.

(** X16.  A retry reports again what was already reported.  When
    [_monitor_file], run by the one rank thread of a collector, has ended
    with an exception after it had read some lines of the file,
    [collect_events] calls it again and the file is read from its beginning.
    Once the first step is known, the second attempt reports every event it
    parses whose step differs from it, those that had been skipped before the
    first step was known included.  So a second attempt that reads at least
    the lines of the first reports every event of the first a second time;
    and one that is itself cut short reports again what the first attempt
    had reported up to that line. *)
Theorem retry_reports_again
    (first_read second_read : list line) (c : AtorchEventCollector) :
  _stop_collector c = false ->
  let c1 := collect_events line parse_line [first_read] c in
  let c2 := collect_events line parse_line [first_read; second_read] c in
  exists attempt1 attempt2,
    reported c1 = reported c ++ attempt1
    /\ reported c2 = reported c ++ attempt1 ++ attempt2
    /\ (_first_step c1 = None -> attempt1 = [])
    /\ (forall first,
          _first_step c1 = Some first ->
          attempt2 = filter (fun e => differs_from first e = true)
                       (parsed line parse_line second_read))
    /\ (forall more,
          second_read = first_read ++ more -> attempt1 `sublist_of` attempt2)
    /\ (forall unreached,
          first_read = second_read ++ unreached ->
          exists again later,
            attempt1 = again ++ later
            /\ reported (_monitor_file line parse_line second_read c)
               = reported c ++ again
            /\ again `sublist_of` attempt2).
Proof.
  intros Hrun. cbv zeta. unfold collect_events. rewrite Hrun. simpl.
  set (c1 := _monitor_file line parse_line first_read c).
  destruct (monitor_file_adds first_read c) as (attempt1 & Hr1 & Hnone & Hsome).
  fold c1 in Hr1, Hnone, Hsome.
  assert (Hcut : forall attempt2 unreached,
            (forall first, _first_step c1 = Some first ->
               attempt2 = filter (fun e => differs_from first e = true)
                            (parsed line parse_line second_read)) ->
            first_read = second_read ++ unreached ->
            exists again later,
              attempt1 = again ++ later
              /\ reported (_monitor_file line parse_line second_read c)
                 = reported c ++ again
              /\ again `sublist_of` attempt2).
  { intros attempt2 unreached H2 Hsplit.
    destruct (monitor_file_adds second_read c) as (again & Ha & Hanone & Hasome).
    destruct (monitor_file_adds unreached (_monitor_file line parse_line second_read c))
      as (later & Hl & _ & _).
    rewrite <- monitor_file_app, <- Hsplit in Hl. fold c1 in Hl.
    exists again, later. split.
    - rewrite Ha, Hr1, <- app_assoc in Hl. apply app_inv_head in Hl. exact Hl.
    - split; [exact Ha |].
      destruct (_first_step (_monitor_file line parse_line second_read c))
        as [f |] eqn:Ef.
      + destruct (AtorchFacts.monitor_file_first_step_known line parse_line unreached
                    (_monitor_file line parse_line second_read c) f Ef) as [Hf _].
        rewrite <- monitor_file_app, <- Hsplit in Hf. fold c1 in Hf.
        rewrite (H2 f Hf). apply Hasome. reflexivity.
      + rewrite (Hanone eq_refl). apply sublist_nil_l. }
  destruct (_first_step c1) as [first |] eqn:Ef.
  - destruct (AtorchFacts.monitor_file_first_step_known line parse_line
                second_read c1 first Ef) as [_ Hr2].
    exists attempt1,
      (filter (fun e => differs_from first e = true)
         (parsed line parse_line second_read)).
    split; [exact Hr1 |]. split; [rewrite Hr2, Hr1, <- app_assoc; reflexivity |].
    split; [discriminate |].
    split; [intros f [= <-]; reflexivity |].
    split.
    + intros more ->. rewrite parsed_app, filter_app. apply sublist_inserts_r.
      apply Hsome. reflexivity.
    + intros unreached Hsplit. apply (Hcut _ unreached); [| exact Hsplit].
      intros f [= <-]. reflexivity.
  - rewrite (Hnone eq_refl) in *.
    destruct (monitor_file_adds second_read c1) as (attempt2 & Hr2 & _ & _).
    exists [], attempt2.
    split; [exact Hr1 |]. split; [rewrite Hr2, Hr1, <- app_assoc; reflexivity |].
    split; [reflexivity |].
    split; [intros f [=] |].
    split; [intros more _; apply sublist_nil_l |].
    intros unreached Hsplit. apply (Hcut _ unreached); [| exact Hsplit].
    intros f [=].
Qed.

(** *** The first step over the collector's life *)




End Facts.

Import Fixtures.

Lemma retry_reports_again_witness :
  _stop_collector new_AtorchEventCollector = false
  /\ let c1 := collect_events _ parsed_line [rank0_log] new_AtorchEventCollector in
     let c2 := collect_events _ parsed_line [rank0_log; rank0_log ++ rank1_log]
                 new_AtorchEventCollector in
     exists attempt1 attempt2,
       reported c1 = reported new_AtorchEventCollector ++ attempt1
       /\ reported c2 = reported new_AtorchEventCollector ++ attempt1 ++ attempt2
       /\ attempt1 `sublist_of` attempt2
       /\ attempt2 = filter (fun e => differs_from 5 e = true)
                       (parsed _ parsed_line (rank0_log ++ rank1_log)).
Proof.
  assert (H1 : _stop_collector new_AtorchEventCollector = false) by reflexivity.
  split; [exact H1 |].
  destruct (retry_reports_again _ parsed_line rank0_log (rank0_log ++ rank1_log)
              new_AtorchEventCollector H1)
    as (attempt1 & attempt2 & Hr1 & Hr2 & _ & Hknown & Hlonger & _).
  exists attempt1, attempt2.
  split; [exact Hr1 |]. split; [exact Hr2 |].
  split; [exact (Hlonger rank1_log eq_refl) |].
  apply Hknown. vm_compute. reflexivity.
Defined.

(** Rank 0's log read twice by a new collector: the BEGIN of step 6 is
    reported by both attempts, and the second also reports the checkpoint
    event of step 4 that precedes the first step.  A second attempt that
    ends after two lines reports that checkpoint event only. *)
Example retry_example :
  reported (collect_events _ parsed_line [rank0_log; rank0_log] new_AtorchEventCollector)
  = [an_event TRAINER TRAIN_EVT_STEP BEGIN 6;
     an_event SAVER TRAIN_EVT_FLASH_CKPT END 4;
     an_event TRAINER TRAIN_EVT_STEP BEGIN 6]
  /\ reported (collect_events _ parsed_line [rank0_log; take 2 rank0_log]
                 new_AtorchEventCollector)
     = [an_event TRAINER TRAIN_EVT_STEP BEGIN 6;
        an_event SAVER TRAIN_EVT_FLASH_CKPT END 4].
Proof. split; vm_compute; reflexivity. Qed.


End AtorchLifecycle.
(** ** [common/log.py] *)

Module LogFacts.
Import OsPath Log MethodFacts.

Section Facts.

Variable environ : gmap string string.
Variable LOG_LEVEL_ENV : string.
Variable LOG_ROOT_DIR_ENV : string.
Variable LOG_ROTATE_MAX_BYTES_ENV : string.
Variable LOG_ROTATE_BACKUP_COUNT_ENV : string.
Variable unicode_isdigit : string -> bool.
Variable unicode_int : string -> result Z.
Variable within_int_max_str_digits : string -> bool.
Variable makedirs : string -> result unit.
Variable open_log_file : string -> result unit.

(** *** The log level *)

(** X18.  [get_log_level] always answers one of the five level names: the
    value of the environment variable when it is one of them, and ["INFO"]
    when the variable is unset, empty or anything else. *)
Theorem get_log_level_in_range :
  In (get_log_level environ LOG_LEVEL_ENV) _LOGGER_LEVEL_RANGE
  /\ (forall v, environ !! LOG_LEVEL_ENV = Some v -> In v _LOGGER_LEVEL_RANGE ->
        get_log_level environ LOG_LEVEL_ENV = v)
  /\ (get_log_level environ LOG_LEVEL_ENV <> "INFO"%string ->
      environ !! LOG_LEVEL_ENV = Some (get_log_level environ LOG_LEVEL_ENV)).
Proof.
  unfold get_log_level.
  destruct (environ !! LOG_LEVEL_ENV) as [v |]; cycle 1.
  - split; [simpl; tauto |]. split; [intros v [=] | congruence].
  - destruct (existsb (String.eqb v) _LOGGER_LEVEL_RANGE) eqn:Ein.
    + assert (Hin : In v _LOGGER_LEVEL_RANGE).
      { apply existsb_exists in Ein as (x & Hx & Ex).
        apply String.eqb_eq in Ex. subst. exact Hx. }
      assert (Ht : truthy v = true).
      { simpl in Hin. destruct Hin as [<- | [<- | [<- | [<- | [<- | []]]]]]; reflexivity. }
      rewrite Ht. cbn. split; [exact Hin |]. split; [intros ? [= <-] _ |]; reflexivity.
    + rewrite orb_true_r. split; [simpl; tauto |]. split; [| congruence].
      intros v' [= <-] Hin. exfalso.
      assert (existsb (String.eqb v) _LOGGER_LEVEL_RANGE = true).
      { apply existsb_exists. exists v. split; [exact Hin | apply String.eqb_refl]. }
      congruence.
Qed.

(** *** Numbers read from the environment *)

Lemma number_from_env_spec (key : string) (least fallback : Z) :
  least <= fallback ->
  let s := getenv_or_empty environ key in
  let r := number_from_env environ unicode_isdigit unicode_int
             within_int_max_str_digits key least fallback in
  (forall v, r = Ok v -> least <= v)
  /\ (truthy s = false -> r = Ok fallback)
  /\ (is_ascii s = true -> all_ascii_digits s = false -> r = Ok fallback)
  /\ (is_ascii s = true -> truthy s = true -> all_ascii_digits s = true ->
      within_int_max_str_digits s = true ->
      r = Ok (if least <=? decimal_value s then decimal_value s else fallback))
  /\ (forall e, r = Raise e ->
        truthy s = true
        /\ (is_ascii s = false \/ within_int_max_str_digits s = false)).
Proof.
  intros Hle. cbv zeta. unfold number_from_env, isdigit, int_of_digits.
  set (s := getenv_or_empty environ key).
  destruct (truthy s) eqn:Et; cbn [andb];
    [destruct (is_ascii s) eqn:Ea;
     [destruct (all_ascii_digits s) eqn:Ed;
      [destruct (within_int_max_str_digits s) eqn:Ew;
       [destruct (least <=? decimal_value s) eqn:El |] |]
     |destruct (unicode_isdigit s);
      [destruct (unicode_int s) as [v |] eqn:Eu;
       [destruct (least <=? v) eqn:El; rewrite ?Eu |] |]] |];
    repeat split; try congruence;
    try (intros v' [= <-]; first [exact Hle | apply Z.leb_le; assumption]);
    try (intros e' _; first [left; reflexivity | right; reflexivity]);
    try (left; reflexivity); try (right; reflexivity).
Qed.

(** X19.  [get_file_handler_max_bytes] never answers less than 1 MiB.  It
    answers the default of 200 MiB when the variable is unset or empty, or
    holds ASCII text that is not all digits; for a string of ASCII digits it
    answers the number when that is at least 1 MiB and the default
    otherwise.  It can only raise on a value that [isdigit] accepts and
    [int] refuses: one with a character outside ASCII, or one longer than
    the interpreter's limit for decimal strings. *)
Theorem get_file_handler_max_bytes_at_least_one_mib :
  let s := getenv_or_empty environ LOG_ROTATE_MAX_BYTES_ENV in
  let r := get_file_handler_max_bytes environ LOG_ROTATE_MAX_BYTES_ENV
             unicode_isdigit unicode_int within_int_max_str_digits in
  (forall v, r = Ok v -> 1048576 <= v)
  /\ (truthy s = false -> r = Ok 209715200)
  /\ (is_ascii s = true -> all_ascii_digits s = false -> r = Ok 209715200)
  /\ (is_ascii s = true -> truthy s = true -> all_ascii_digits s = true ->
      within_int_max_str_digits s = true ->
      r = Ok (if 1048576 <=? decimal_value s then decimal_value s else 209715200))
  /\ (forall e, r = Raise e ->
        truthy s = true
        /\ (is_ascii s = false \/ within_int_max_str_digits s = false)).
Proof.
  apply (number_from_env_spec LOG_ROTATE_MAX_BYTES_ENV (1024 * 1024) (200 * 1024 * 1024)).
  lia.
Qed.

(** X20.  [get_file_handler_backup_count] never answers less than 1: a
    string of ASCII digits that denotes at least 1 is taken, and ["0"], an
    unset or empty variable and ASCII text that is not all digits give the
    default of 5. *)
Theorem get_file_handler_backup_count_at_least_one :
  let s := getenv_or_empty environ LOG_ROTATE_BACKUP_COUNT_ENV in
  let r := get_file_handler_backup_count environ LOG_ROTATE_BACKUP_COUNT_ENV
             unicode_isdigit unicode_int within_int_max_str_digits in
  (forall v, r = Ok v -> 1 <= v)
  /\ (truthy s = false -> r = Ok 5)
  /\ (is_ascii s = true -> all_ascii_digits s = false -> r = Ok 5)
  /\ (is_ascii s = true -> truthy s = true -> all_ascii_digits s = true ->
      within_int_max_str_digits s = true ->
      r = Ok (if 1 <=? decimal_value s then decimal_value s else 5))
  /\ (forall e, r = Raise e ->
        truthy s = true
        /\ (is_ascii s = false \/ within_int_max_str_digits s = false)).
Proof.
  apply (number_from_env_spec LOG_ROTATE_BACKUP_COUNT_ENV 1 5). lia.
Qed.


(** *** [get_logger] *)

Lemma update_logger_spec (name : string) (f : Logger -> Logger) (s : Logging) :
  update_logger name f s
  = (set_loggers (<[name := f (default new_Logger (loggers s !! name))]> (loggers s)) s,
     Ok tt).
Proof. reflexivity. Qed.

Lemma getLogger_spec (name : string) (s : Logging) :
  exists s' l,
    getLogger name s = (s', Ok l)
    /\ _LOGGER_CACHE s' = _LOGGER_CACHE s
    /\ _DEFAULT_HANDLERS s' = _DEFAULT_HANDLERS s
    /\ forall a, contents a s' = contents a s.
Proof.
  unfold getLogger. change ((get ≫= ?k) s) with (k s s). cbv beta.
  destruct (loggers s !! name) as [l |] eqn:El; eexists _, _; repeat split.
  intros [h | | other]; try reflexivity. cbn.
  destruct (decide (name = other)) as [<- | Hne].
  - rewrite lookup_insert_eq, El. reflexivity.
  - rewrite lookup_insert_ne by exact Hne. reflexivity.
Qed.

(** An assignment to a logger that leaves its [handlers] alone leaves every
    list a caller may pass as it is. *)
Lemma contents_update_logger (name : string) (f : Logger -> Logger) (s : Logging) :
  (forall g, handlers (f g) = handlers g) ->
  forall a,
    contents a
      (set_loggers (<[name := f (default new_Logger (loggers s !! name))]> (loggers s)) s)
    = contents a s.
Proof.
  intros Hf [h | | other]; try reflexivity. cbn.
  destruct (decide (name = other)) as [<- | Hne].
  - rewrite lookup_insert_eq. cbn. apply Hf.
  - rewrite lookup_insert_ne by exact Hne. reflexivity.
Qed.

Lemma setup_extra_logger_spec (s : Logging) :
  exists s',
    __setup_extra_logger s = (s', Ok tt)
    /\ _LOGGER_CACHE s' = _LOGGER_CACHE s
    /\ _DEFAULT_HANDLERS s' = _DEFAULT_HANDLERS s
    /\ forall a, contents a s' = contents a s.
Proof.
  unfold __setup_extra_logger.
  destruct (getLogger_spec "tornado.access" s) as (s1 & l & E & Hc & Hd & Ha).
  rewrite (bind_ok _ _ _ _ _ E), update_logger_spec.
  eexists. split; [reflexivity |]. split; [exact Hc |]. split; [exact Hd |].
  intros a. rewrite contents_update_logger by reflexivity. apply Ha.
Qed.

(** The handlers built for a caller that passes none: the default handlers,
    preceded by a rotating file handler when a log directory is set. *)
Lemma own_handlers_spec (s : Logging) :
  let dir := get_base_log_dir environ LOG_ROOT_DIR_ENV in
  let m := own_handlers environ LOG_ROOT_DIR_ENV LOG_ROTATE_MAX_BYTES_ENV
             LOG_ROTATE_BACKUP_COUNT_ENV unicode_isdigit unicode_int
             within_int_max_str_digits makedirs open_log_file in
  fst (m s) = s
  /\ match snd (m s) with
     | Ok own =>
         if truthy dir then
           exists max_bytes backup_count,
             own = RotatingFileHandler (path_join dir "dlrover.log") max_bytes backup_count
                     :: _DEFAULT_HANDLERS s
             /\ 1048576 <= max_bytes /\ 1 <= backup_count
         else own = _DEFAULT_HANDLERS s
     | Raise e => truthy dir = true
     end.
Proof.
  cbv zeta. unfold own_handlers, get_base_log_file.
  set (dir := get_base_log_dir environ LOG_ROOT_DIR_ENV).
  destruct (truthy dir) eqn:Et.
  2:{ cbn. rewrite ?Et. cbn. split; reflexivity. }
  destruct (makedirs dir) as [[] | e]; [| cbn; split; reflexivity].
  assert (Ej : truthy (path_join dir "dlrover.log") = true).
  { unfold path_join, truthy in *.
    destruct (String.eqb dir "") eqn:Ee; [discriminate |]. cbn [orb].
    destruct dir as [| a d]; [discriminate |].
    destruct (ends_with_slash (String a d)); reflexivity. }
  cbn [Shard.lift_result].
  rewrite (bind_ok _ _ s s (path_join dir "dlrover.log") eq_refl), Ej.
  assert (Hm : forall v,
            get_file_handler_max_bytes environ LOG_ROTATE_MAX_BYTES_ENV unicode_isdigit
              unicode_int within_int_max_str_digits = Ok v -> 1048576 <= v)
    by (apply (number_from_env_spec LOG_ROTATE_MAX_BYTES_ENV (1024 * 1024)
                 (200 * 1024 * 1024)); lia).
  assert (Hb : forall v,
            get_file_handler_backup_count environ LOG_ROTATE_BACKUP_COUNT_ENV
              unicode_isdigit unicode_int within_int_max_str_digits = Ok v -> 1 <= v)
    by (apply (number_from_env_spec LOG_ROTATE_BACKUP_COUNT_ENV 1 5); lia).
  destruct (get_file_handler_max_bytes environ LOG_ROTATE_MAX_BYTES_ENV unicode_isdigit
              unicode_int within_int_max_str_digits) as [max_bytes | e];
    [| cbn; split; reflexivity].
  destruct (get_file_handler_backup_count environ LOG_ROTATE_BACKUP_COUNT_ENV
              unicode_isdigit unicode_int within_int_max_str_digits)
    as [backup_count | e]; [| cbn; split; reflexivity].
  destruct (open_log_file (path_join dir "dlrover.log")) as [[] | e];
    [| cbn; split; reflexivity].
  cbn. split; [reflexivity |].
  exists max_bytes, backup_count. split; [reflexivity |].
  split; [apply Hm | apply Hb]; reflexivity.
Qed.


(** X21.  What [get_logger] leaves when it does not answer from the cache.
    The logger returned is the one registered under the name; its level is
    [get_log_level()], [propagate] is off, and its handlers end with the
    default handlers.  They are preceded by what the list passed held, or,
    when the caller passes none and a log directory is set, by one rotating
    file handler on [<dir>/dlrover.log] with at least 1 MiB and at least one
    backup.  A list the caller passes is extended in place by the default
    handlers: a list of the caller's own leaves the module's
    [_DEFAULT_HANDLERS] as it was, the module's [_DEFAULT_HANDLERS] itself is
    doubled, and the [handlers] of a registered logger are extended on that
    logger.  The call can only raise while it builds the file handler. *)
Theorem get_logger_configures
    (name : string) (handlers0 : option handlers_arg) (update : bool) (s : Logging) :
  _LOGGER_CACHE s !! name = None \/ update = true ->
  let dir := get_base_log_dir environ LOG_ROOT_DIR_ENV in
  let r := get_logger environ LOG_LEVEL_ENV LOG_ROOT_DIR_ENV LOG_ROTATE_MAX_BYTES_ENV
             LOG_ROTATE_BACKUP_COUNT_ENV unicode_isdigit unicode_int
             within_int_max_str_digits makedirs open_log_file name handlers0 update s in
  match snd r with
  | Ok (logger, caller_list) =>
      logger = name
      /\ exists own,
           loggers (fst r) !! name
           = Some {| level := get_log_level environ LOG_LEVEL_ENV;
                     handlers := own ++ _DEFAULT_HANDLERS s;
                     propagate := false |}
           /\ match handlers0 with
              | Some a =>
                  own = contents a s
                  /\ caller_list = Some (own ++ _DEFAULT_HANDLERS s)
                  /\ match a with
                     | Own_list h =>
                         own = h /\ _DEFAULT_HANDLERS (fst r) = _DEFAULT_HANDLERS s
                     | The_default_handlers =>
                         _DEFAULT_HANDLERS (fst r)
                         = _DEFAULT_HANDLERS s ++ _DEFAULT_HANDLERS s
                     | Handlers_of other =>
                         _DEFAULT_HANDLERS (fst r) = _DEFAULT_HANDLERS s
                         /\ handlers <$> loggers (fst r) !! other
                            = Some (own ++ _DEFAULT_HANDLERS s)
                     end
              | None =>
                  caller_list = None
                  /\ _DEFAULT_HANDLERS (fst r) = _DEFAULT_HANDLERS s
                  /\ if truthy dir then
                       exists max_bytes backup_count,
                         own = [RotatingFileHandler (path_join dir "dlrover.log")
                                  max_bytes backup_count]
                         /\ 1048576 <= max_bytes /\ 1 <= backup_count
                     else own = []
              end
  | Raise e => handlers0 = None /\ truthy dir = true
  end.
Proof.
  intros Hfresh. cbv zeta. unfold get_logger.
  destruct (setup_extra_logger_spec s) as (s1 & E1 & Hc1 & Hd1 & Ha1).
  rewrite (bind_ok _ _ _ _ _ E1).
  change ((get ≫= ?k) s1) with (k s1 s1). cbv beta.
  assert (Hmiss : (if negb update then _LOGGER_CACHE s1 !! name else None) = None).
  { destruct update; [reflexivity |]. cbn. rewrite Hc1.
    destruct Hfresh as [Hf | Hf]; [exact Hf | discriminate]. }
  rewrite Hmiss.
  destruct (getLogger_spec name s1) as (s2 & l & E2 & Hc2 & Hd2 & Ha2).
  rewrite (bind_ok _ _ _ _ _ E2).
  rewrite (bind_ok _ _ _ _ _ (update_logger_spec name _ s2)).
  pose proof (contents_update_logger name (setLevel (get_log_level environ LOG_LEVEL_ENV))
                s2 (fun g => eq_refl)) as Ha3.
  set (s3 := set_loggers _ s2) in *.
  assert (Hd3 : _DEFAULT_HANDLERS s3 = _DEFAULT_HANDLERS s) by (cbn; congruence).
  assert (Hcontents : forall a, contents a s3 = contents a s)
    by (intros a; rewrite Ha3, Ha2, Ha1; reflexivity).
  assert (Hl3 : exists g, loggers s3 !! name
                          = Some (setLevel (get_log_level environ LOG_LEVEL_ENV) g))
    by (eexists; cbn [s3 loggers set_loggers]; apply lookup_insert_eq).
  destruct Hl3 as [g Hl3]. clearbody s3. clear Ha3.
  assert (Hfinal : forall hs s4,
            (exists g4, loggers s4 !! name
                        = Some (setLevel (get_log_level environ LOG_LEVEL_ENV) g4)) ->
            loggers
              (set_loggers
                 (<[name := set_propagate false
                      (default new_Logger
                         (loggers
                            (set_loggers
                               (<[name := set_handlers hs
                                    (default new_Logger (loggers s4 !! name))]>
                                  (loggers s4)) s4) !! name))]>
                    (loggers
                       (set_loggers
                          (<[name := set_handlers hs
                               (default new_Logger (loggers s4 !! name))]>
                             (loggers s4)) s4)))
                 (set_loggers
                    (<[name := set_handlers hs
                         (default new_Logger (loggers s4 !! name))]>
                       (loggers s4)) s4)) !! name
            = Some {| level := get_log_level environ LOG_LEVEL_ENV;
                      handlers := hs; propagate := false |}).
  { intros hs s4 [g4 Hl4]. cbn [loggers set_loggers].
    rewrite !lookup_insert_eq, Hl4. reflexivity. }
  destruct handlers0 as [a |].
  - destruct a as [h | | other].
    + rewrite (bind_ok _ _ s3 s3 (contents (Own_list h) s ++ _DEFAULT_HANDLERS s))
        by (rewrite <- Hd3; reflexivity).
      rewrite (bind_ok _ _ _ _ _ (update_logger_spec name _ s3)).
      rewrite (bind_ok _ _ _ _ _ (update_logger_spec name _ _)).
      cbn [snd fst mret M_ret ret]. split; [reflexivity |].
      exists h. rewrite (Hfinal _ s3) by (exists g; exact Hl3).
      split; [reflexivity |]. split; [reflexivity |]. split; [reflexivity |].
      split; [reflexivity | exact Hd3].
    + rewrite (bind_ok _ _ s3
                 (set_default_handlers (_DEFAULT_HANDLERS s ++ _DEFAULT_HANDLERS s) s3)
                 (contents The_default_handlers s ++ _DEFAULT_HANDLERS s))
        by (cbn [contents]; rewrite <- Hd3; reflexivity).
      rewrite (bind_ok _ _ _ _ _ (update_logger_spec name _ _)).
      rewrite (bind_ok _ _ _ _ _ (update_logger_spec name _ _)).
      cbn [snd fst mret M_ret ret]. split; [reflexivity |].
      exists (_DEFAULT_HANDLERS s).
      rewrite (Hfinal _ (set_default_handlers _ s3)) by (exists g; exact Hl3).
      split; [reflexivity |]. split; [reflexivity |]. split; reflexivity.
    + rewrite (bind_ok _ _ s3
                 (set_loggers
                    (<[other := set_handlers (contents (Handlers_of other) s
                                              ++ _DEFAULT_HANDLERS s)
                         (default new_Logger (loggers s3 !! other))]> (loggers s3)) s3)
                 (contents (Handlers_of other) s ++ _DEFAULT_HANDLERS s))
        by (rewrite <- (Hcontents (Handlers_of other)), <- Hd3; reflexivity).
      rewrite (bind_ok _ _ _ _ _ (update_logger_spec name _ _)).
      rewrite (bind_ok _ _ _ _ _ (update_logger_spec name _ _)).
      cbn [snd fst mret M_ret ret]. split; [reflexivity |].
      exists (contents (Handlers_of other) s).
      assert (Hl4 : exists g4,
                loggers
                  (set_loggers
                     (<[other := set_handlers (contents (Handlers_of other) s
                                               ++ _DEFAULT_HANDLERS s)
                          (default new_Logger (loggers s3 !! other))]> (loggers s3)) s3)
                  !! name
                = Some (setLevel (get_log_level environ LOG_LEVEL_ENV) g4)).
      { cbn [loggers set_loggers].
        destruct (decide (other = name)) as [-> | Hne].
        - rewrite lookup_insert_eq, Hl3. cbn.
          exists (set_handlers (contents (Handlers_of name) s ++ _DEFAULT_HANDLERS s) g).
          reflexivity.
        - rewrite lookup_insert_ne by exact Hne. exists g. exact Hl3. }
      rewrite (Hfinal _ _ Hl4).
      split; [reflexivity |]. split; [reflexivity |]. split; [reflexivity |].
      split; [exact Hd3 |].
      cbn [loggers set_loggers].
      destruct (decide (other = name)) as [-> | Hne].
      * rewrite !lookup_insert_eq. reflexivity.
      * rewrite !(lookup_insert_ne _ name other) by (intros E; apply Hne; symmetry; exact E).
        rewrite lookup_insert_eq. reflexivity.
  - destruct (own_handlers_spec s3) as [Hs Hr]. cbv zeta in Hs, Hr.
    destruct (own_handlers environ LOG_ROOT_DIR_ENV LOG_ROTATE_MAX_BYTES_ENV
                LOG_ROTATE_BACKUP_COUNT_ENV unicode_isdigit unicode_int
                within_int_max_str_digits makedirs open_log_file s3)
      as [s3' [own | e]] eqn:Eo; cbn [fst snd] in Hs, Hr; subst s3'.
    + rewrite (bind_ok _ _ _ _ _ Eo).
      rewrite (bind_ok _ _ _ _ _ (update_logger_spec name _ s3)).
      rewrite (bind_ok _ _ _ _ _ (update_logger_spec name _ _)).
      cbn [snd fst mret M_ret ret]. split; [reflexivity |].
      rewrite (Hfinal _ s3) by (exists g; exact Hl3).
      destruct (truthy (get_base_log_dir environ LOG_ROOT_DIR_ENV)).
      * destruct Hr as (max_bytes & backup_count & -> & Hm & Hb).
        exists [RotatingFileHandler
                  (path_join (get_base_log_dir environ LOG_ROOT_DIR_ENV) "dlrover.log")
                  max_bytes backup_count].
        rewrite Hd3. split; [reflexivity |].
        split; [reflexivity |]. split; [exact Hd3 |]. exists max_bytes, backup_count.
        split; [reflexivity |]. split; assumption.
      * subst own. exists []. rewrite Hd3. split; [reflexivity |].
        split; [reflexivity |]. split; [exact Hd3 | reflexivity].
    + rewrite (bind_raise _ _ _ _ _ Eo). cbn [snd]. split; [reflexivity | exact Hr].
Qed.

Lemma join_repeat_twice {A} (d : list A) (n : nat) :
  concat (repeat (d ++ d) n) = concat (repeat d (2 * n)).
Proof.
  induction n as [| n IH]; [reflexivity |].
  replace (2 * S n)%nat with (S (S (2 * n))) by lia.
  cbn [repeat concat]. rewrite IH, <- app_assoc. reflexivity.
Qed.

(** No call writes [_LOGGER_CACHE]. *)
Lemma get_logger_cache
    (name : string) (handlers0 : option handlers_arg) (update : bool) (s : Logging) :
  _LOGGER_CACHE (fst (get_logger environ LOG_LEVEL_ENV LOG_ROOT_DIR_ENV
                        LOG_ROTATE_MAX_BYTES_ENV LOG_ROTATE_BACKUP_COUNT_ENV
                        unicode_isdigit unicode_int within_int_max_str_digits makedirs
                        open_log_file name handlers0 update s))
  = _LOGGER_CACHE s.
Proof.
  match goal with
  | |- _LOGGER_CACHE (fst (?m s)) = _ => assert (K : keeps_at _LOGGER_CACHE s m)
  end.
  { unfold get_logger, __setup_extra_logger, extend_by_default_handlers, getLogger,
      update_logger, own_handlers, Shard.lift_result.
    keeps. }
  exact K.
Qed.

(** What a call that is not answered from the cache does to
    [_DEFAULT_HANDLERS]: it doubles the list when it is the list passed, and
    leaves it alone otherwise. *)
Lemma get_logger_default_handlers
    (name : string) (handlers0 : option handlers_arg) (update : bool) (s : Logging) :
  _LOGGER_CACHE s = ∅ ->
  _DEFAULT_HANDLERS
    (after environ LOG_LEVEL_ENV LOG_ROOT_DIR_ENV LOG_ROTATE_MAX_BYTES_ENV
       LOG_ROTATE_BACKUP_COUNT_ENV unicode_isdigit unicode_int within_int_max_str_digits
       makedirs open_log_file (Call_get_logger name handlers0 update) s)
  = if passes_the_default_handlers (Call_get_logger name handlers0 update)
    then _DEFAULT_HANDLERS s ++ _DEFAULT_HANDLERS s
    else _DEFAULT_HANDLERS s.
Proof.
  intros Hempty. unfold after.
  destruct (passes_the_default_handlers (Call_get_logger name handlers0 update)) eqn:Ep.
  - destruct handlers0 as [[h | | other] |]; try discriminate Ep.
    unfold get_logger.
    destruct (setup_extra_logger_spec s) as (s1 & E1 & Hc1 & Hd1 & _).
    rewrite (bind_ok _ _ _ _ _ E1).
    change ((get ≫= ?k) s1) with (k s1 s1). cbv beta.
    assert (Hmiss : (if negb update then _LOGGER_CACHE s1 !! name else None) = None).
    { destruct update; [reflexivity |]. cbn. rewrite Hc1, Hempty. apply lookup_empty. }
    rewrite Hmiss.
    destruct (getLogger_spec name s1) as (s2 & l & E2 & _ & Hd2 & _).
    rewrite (bind_ok _ _ _ _ _ E2).
    rewrite (bind_ok _ _ _ _ _ (update_logger_spec name _ s2)).
    set (s3 := set_loggers _ s2).
    assert (Hd3 : _DEFAULT_HANDLERS s3 = _DEFAULT_HANDLERS s) by (cbn; congruence).
    clearbody s3.
    rewrite (bind_ok _ _ s3
               (set_default_handlers (_DEFAULT_HANDLERS s3 ++ _DEFAULT_HANDLERS s3) s3)
               (_DEFAULT_HANDLERS s3 ++ _DEFAULT_HANDLERS s3) eq_refl).
    rewrite (bind_ok _ _ _ _ _ (update_logger_spec name _ _)).
    rewrite (bind_ok _ _ _ _ _ (update_logger_spec name _ _)).
    cbn. rewrite Hd3. reflexivity.
  - match goal with
    | |- _DEFAULT_HANDLERS (fst (?m s)) = _ => assert (K : keeps_at _DEFAULT_HANDLERS s m)
    end.
    { unfold get_logger, __setup_extra_logger, extend_by_default_handlers, getLogger,
        update_logger, own_handlers, Shard.lift_result.
      destruct handlers0 as [[h | | other] |]; try discriminate Ep; keeps. }
    exact K.
Qed.

(** X22.  [get_logger] never stores anything in [_LOGGER_CACHE]: after any
    sequence of calls it is what it was.  Since the cache is empty when the
    module is imported, no call is ever answered from it, and [update] makes
    no difference to what a call does.  [_DEFAULT_HANDLERS] is not safe from
    the calls: a call that passes the module's own list as [handlers] extends
    it by itself, so that after a sequence of calls it holds the stream
    handler [2^k] times, [k] being the number of such calls; calls that pass
    another list or none leave it as it is. *)
Theorem logger_cache_is_never_filled (calls : list call) :
  let run_all :=
    run environ LOG_LEVEL_ENV LOG_ROOT_DIR_ENV LOG_ROTATE_MAX_BYTES_ENV
      LOG_ROTATE_BACKUP_COUNT_ENV unicode_isdigit unicode_int
      within_int_max_str_digits makedirs open_log_file in
  let logger_of :=
    get_logger environ LOG_LEVEL_ENV LOG_ROOT_DIR_ENV LOG_ROTATE_MAX_BYTES_ENV
      LOG_ROTATE_BACKUP_COUNT_ENV unicode_isdigit unicode_int
      within_int_max_str_digits makedirs open_log_file in
  (forall s, _LOGGER_CACHE (run_all calls s) = _LOGGER_CACHE s)
  /\ (forall name handlers0,
        logger_of name handlers0 false (run_all calls initial_Logging)
        = logger_of name handlers0 true (run_all calls initial_Logging))
  /\ (forall s,
        _LOGGER_CACHE s = ∅ ->
        _DEFAULT_HANDLERS (run_all calls s)
        = concat (repeat (_DEFAULT_HANDLERS s)
                   (2 ^ length (filter (fun c => passes_the_default_handlers c = true)
                                  calls))))
  /\ _DEFAULT_HANDLERS (run_all calls initial_Logging)
     = repeat StreamHandler_stderr
         (2 ^ length (filter (fun c => passes_the_default_handlers c = true) calls)).
Proof.
  cbv zeta.
  assert (Hrun : forall s,
            _LOGGER_CACHE
              (run environ LOG_LEVEL_ENV LOG_ROOT_DIR_ENV LOG_ROTATE_MAX_BYTES_ENV
                 LOG_ROTATE_BACKUP_COUNT_ENV unicode_isdigit unicode_int
                 within_int_max_str_digits makedirs open_log_file calls s)
            = _LOGGER_CACHE s).
  { unfold run. induction calls as [| [name handlers0 update] calls IH]; intros s; simpl.
    - reflexivity.
    - rewrite IH. apply get_logger_cache. }
  assert (Hdefaults : forall s,
            _LOGGER_CACHE s = ∅ ->
            _DEFAULT_HANDLERS
              (run environ LOG_LEVEL_ENV LOG_ROOT_DIR_ENV LOG_ROTATE_MAX_BYTES_ENV
                 LOG_ROTATE_BACKUP_COUNT_ENV unicode_isdigit unicode_int
                 within_int_max_str_digits makedirs open_log_file calls s)
            = concat (repeat (_DEFAULT_HANDLERS s)
                       (2 ^ length (filter (fun c => passes_the_default_handlers c = true)
                                      calls)))).
  { clear Hrun. unfold run.
    induction calls as [| c calls IH]; intros s Hempty.
    - cbn. rewrite app_nil_r. reflexivity.
    - cbn [fold_left]. rewrite IH.
      2:{ destruct c as [name handlers0 update]. cbn [after].
          rewrite get_logger_cache. exact Hempty. }
      destruct c as [name handlers0 update].
      rewrite (get_logger_default_handlers name handlers0 update s Hempty).
      rewrite filter_cons.
      destruct (passes_the_default_handlers (Call_get_logger name handlers0 update)).
      + rewrite decide_True by reflexivity. cbn [length].
        rewrite Nat.pow_succ_r'. apply join_repeat_twice.
      + rewrite decide_False by discriminate. reflexivity. }
  split; [exact Hrun |]. split; [| split; [exact Hdefaults |]].
  - intros name handlers0.
    pose proof (Hrun initial_Logging) as Hc.
    set (s := run _ _ _ _ _ _ _ _ _ _ calls initial_Logging) in *.
    unfold get_logger.
    destruct (setup_extra_logger_spec s) as (s1 & E1 & Hc1 & _).
    rewrite !(bind_ok _ _ _ _ _ E1).
    change ((get ≫= ?k) s1) with (k s1 s1). cbv beta.
    cbn [negb]. rewrite Hc1, Hc. cbn [_LOGGER_CACHE initial_Logging].
    rewrite lookup_empty. reflexivity.
  - rewrite (Hdefaults initial_Logging eq_refl). cbn [_DEFAULT_HANDLERS initial_Logging].
    generalize (2 ^ length (filter (λ c : call, passes_the_default_handlers c = true)
                              calls))%nat.
    intros n. induction n as [| n IHn]; [reflexivity |].
    cbn. cbn in IHn. rewrite IHn. reflexivity.
Qed.
End Facts.
End LogFacts.

Module LogExamples.
Import OsPath Log Fixtures.

(** The cases of [test_log.py]. *)
Example get_file_handler_max_bytes_example :
  map (fun v => get_file_handler_max_bytes {[ "LOG_ROTATE_MAX_BYTES"%string := v ]}
                  "LOG_ROTATE_MAX_BYTES" no_unicode_digit no_unicode_int any_length)
      ["10485760"; "1023"; "invalid"; "1048576"; ""]%string
  = [Ok 10485760; Ok 209715200; Ok 209715200; Ok 1048576; Ok 209715200]
  /\ get_file_handler_max_bytes ∅ "LOG_ROTATE_MAX_BYTES" no_unicode_digit
       no_unicode_int any_length
     = Ok 209715200.
Proof. split; vm_compute; reflexivity. Qed.

Example get_file_handler_backup_count_example :
  map (fun v => get_file_handler_backup_count {[ "LOG_ROTATE_BACKUP_COUNT"%string := v ]}
                  "LOG_ROTATE_BACKUP_COUNT" no_unicode_digit no_unicode_int any_length)
      ["10"; "0"; "invalid"; "1"; "007"]%string
  = [Ok 10; Ok 5; Ok 5; Ok 1; Ok 7].
Proof. vm_compute. reflexivity. Qed.

Example get_log_level_example :
  map (fun v => get_log_level {[ "LOG_LEVEL"%string := v ]} "LOG_LEVEL")
      ["INFO"; "INVALID"; "DEBUG"; "debug"; ""]%string
  = ["INFO"; "INFO"; "DEBUG"; "INFO"; "INFO"]%string.
Proof. vm_compute. reflexivity. Qed.

Lemma get_logger_configures_witness :
  (_LOGGER_CACHE initial_Logging !! "dlrover.logger"%string = None \/ false = true)
  /\ match snd (sample_get_logger "dlrover.logger" None false initial_Logging) with
     | Ok (logger, caller_list) =>
         logger = "dlrover.logger"%string
         /\ exists own,
              loggers (fst (sample_get_logger "dlrover.logger" None false initial_Logging))
                !! "dlrover.logger"%string
              = Some {| level := get_log_level log_environ "LOG_LEVEL";
                        handlers := own ++ _DEFAULT_HANDLERS initial_Logging;
                        propagate := false |}
              /\ caller_list = None
              /\ _DEFAULT_HANDLERS
                   (fst (sample_get_logger "dlrover.logger" None false initial_Logging))
                 = _DEFAULT_HANDLERS initial_Logging
              /\ if truthy (get_base_log_dir log_environ "LOG_ROOT_DIR") then
                   exists max_bytes backup_count,
                     own = [RotatingFileHandler
                              (path_join (get_base_log_dir log_environ "LOG_ROOT_DIR")
                                 "dlrover.log") max_bytes backup_count]
                     /\ 1048576 <= max_bytes /\ 1 <= backup_count
                 else own = []
     | Raise e => None = (None : option handlers_arg)
                  /\ truthy (get_base_log_dir log_environ "LOG_ROOT_DIR") = true
     end.
Proof.
  assert (H1 : _LOGGER_CACHE initial_Logging !! "dlrover.logger"%string = None
               \/ false = true) by (left; reflexivity).
  split; [exact H1 |].
  exact (LogFacts.get_logger_configures log_environ "LOG_LEVEL" "LOG_ROOT_DIR"
           "LOG_ROTATE_MAX_BYTES" "LOG_ROTATE_BACKUP_COUNT" no_unicode_digit
           no_unicode_int any_length fs_ok fs_ok "dlrover.logger" None false
           initial_Logging H1).
Defined.

(** The default logger of the sample environment, and a logger obtained
    twice with the same list of handlers: the list has grown by the default
    handler at each call.  A caller that passes the module's
    [_DEFAULT_HANDLERS] doubles it, and the next logger gets the stream
    handler twice; a caller that passes the handlers of the default logger
    extends them on that logger. *)
Example get_logger_example :
  loggers (fst (sample_get_logger "dlrover.logger" None false initial_Logging))
    !! "dlrover.logger"%string
  = Some {| level := "DEBUG";
            handlers := [RotatingFileHandler "/var/log/dlrover/dlrover.log" 10485760 5;
                         StreamHandler_stderr];
            propagate := false |}
  /\ (let '(s1, r1) := sample_get_logger "job" (Some (Own_list [Caller_handler 1])) false
                         initial_Logging in
      match r1 with
      | Ok (_, Some grown) =>
          Some (grown, snd (sample_get_logger "job" (Some (Own_list grown)) false s1))
      | _ => None
      end)
     = Some ([Caller_handler 1; StreamHandler_stderr],
             Ok ("job"%string,
                 Some [Caller_handler 1; StreamHandler_stderr; StreamHandler_stderr]))
  /\ (let s1 := fst (sample_get_logger "job" (Some The_default_handlers) false
                       initial_Logging) in
      let s2 := fst (sample_get_logger "other" (Some (Own_list [])) false s1) in
      (_DEFAULT_HANDLERS s1, handlers <$> loggers s2 !! "other"%string))
     = ([StreamHandler_stderr; StreamHandler_stderr],
        Some [StreamHandler_stderr; StreamHandler_stderr])
  /\ (let s1 := fst (sample_get_logger "dlrover.logger" None false initial_Logging) in
      let s2 := fst (sample_get_logger "job" (Some (Handlers_of "dlrover.logger")) false
                       s1) in
      (handlers <$> loggers s2 !! "dlrover.logger"%string, _DEFAULT_HANDLERS s2))
     = (Some [RotatingFileHandler "/var/log/dlrover/dlrover.log" 10485760 5;
              StreamHandler_stderr; StreamHandler_stderr],
        [StreamHandler_stderr]).
Proof. repeat split; vm_compute; reflexivity. Qed.

End LogExamples.
(** ** [trainer/torch/flash_checkpoint/megatron_dist_ckpt.py] *)

Module MegatronFacts.
Import Stdlib.Strings.Ascii OsPath Megatron MethodFacts.

(** *** The names of the step directories *)

Lemma string_app_inv_head (p a b : string) : (p ++ a = p ++ b)%string -> a = b.
Proof. induction p as [| c p IH]; simpl; intros E; [exact E |]. injection E as E. auto. Qed.

Lemma string_of_uint_inj (d d' : Decimal.uint) :
  DecimalString.NilEmpty.string_of_uint d = DecimalString.NilEmpty.string_of_uint d' ->
  d = d'.
Proof.
  intros E. apply (f_equal DecimalString.NilEmpty.uint_of_string) in E.
  rewrite !DecimalString.NilEmpty.usu in E. congruence.
Qed.

Lemma string_of_uint_no_sign (d : Decimal.uint) (s : string) :
  DecimalString.NilEmpty.string_of_uint d <> ("-" ++ s)%string.
Proof. destruct d; cbn; discriminate. Qed.

Lemma of_uint_zeros (k : nat) (d : Decimal.uint) :
  N.of_uint (Nat.iter k Decimal.D0 d) = N.of_uint d.
Proof. induction k as [| k IH]; [reflexivity |]. cbn. exact IH. Qed.

Lemma padded_digits_inj (k k' : nat) (n n' : N) :
  Nat.iter k Decimal.D0 (N.to_uint n) = Nat.iter k' Decimal.D0 (N.to_uint n') -> n = n'.
Proof.
  intros E. apply (f_equal N.of_uint) in E.
  rewrite !of_uint_zeros, !DecimalN.Unsigned.of_to in E. exact E.
Qed.

Lemma zero_padded_inj (width : nat) (a b : Z) :
  zero_padded width a = zero_padded width b -> a = b.
Proof.
  unfold zero_padded.
  destruct (a <? 0) eqn:Ea, (b <? 0) eqn:Eb; intros E.
  - apply string_app_inv_head, string_of_uint_inj, padded_digits_inj in E.
    apply Z.ltb_lt in Ea, Eb. apply (f_equal Z.of_N) in E.
    rewrite !N2Z.inj_abs_N in E. lia.
  - exfalso. symmetry in E. cbn [String.append] in E.
    exact (string_of_uint_no_sign _ _ E).
  - exfalso. cbn [String.append] in E. exact (string_of_uint_no_sign _ _ E).
  - cbn [String.append] in E.
    apply string_of_uint_inj, padded_digits_inj in E.
    apply Z.ltb_ge in Ea, Eb. apply (f_equal Z.of_N) in E.
    rewrite !N2Z.inj_abs_N in E. lia.
Qed.

Lemma path_join_inj (a b b' : string) : path_join a b = path_join a b' -> b = b'.
Proof.
  unfold path_join.
  destruct (String.eqb a "" || ends_with_slash a); intros E.
  - exact (string_app_inv_head _ _ _ E).
  - apply string_app_inv_head in E. exact (string_app_inv_head _ _ _ E).
Qed.

Lemma step_path_inj (checkpoint_dir : string) (a b : Z) :
  step_path checkpoint_dir a = step_path checkpoint_dir b -> a = b.
Proof.
  unfold step_path, iter_directory. intros E.
  apply path_join_inj, string_app_inv_head, zero_padded_inj in E. exact E.
Qed.

(** X23.  Distinct steps have distinct checkpoint directories under the
    same folder: ["iter_{:07d}"] pads a step to seven digits but never cuts a
    longer one, and a negative step keeps its sign. *)
Theorem step_path_injective (checkpoint_dir : string) (a b : Z) :
  step_path checkpoint_dir a = step_path checkpoint_dir b <-> a = b.
Proof. split; [apply step_path_inj | intros ->; reflexivity]. Qed.

Example iter_directory_example :
  map iter_directory [0; 42; 1234567; 12345678; -5]
  = ["iter_0000000"; "iter_0000042"; "iter_1234567"; "iter_12345678";
     "iter_-000005"]%string
  /\ step_path "/ckpt" 400 = "/ckpt/iter_0000400"%string
  /\ step_path "/ckpt/" 400 = "/ckpt/iter_0000400"%string.
Proof. repeat split; vm_compute; reflexivity. Qed.


(** *** The name of the distributed optimizer's file *)

Lemma chars_app (a b : string) :
  list_ascii_of_string (a ++ b) = list_ascii_of_string a ++ list_ascii_of_string b.
Proof. induction a as [| c a IH]; simpl; [reflexivity |]. rewrite IH. reflexivity. Qed.

Lemma string_app_assoc (a b c : string) : ((a ++ b) ++ c = a ++ b ++ c)%string.
Proof.
  rewrite <- (string_of_list_ascii_of_string ((a ++ b) ++ c)).
  rewrite <- (string_of_list_ascii_of_string (a ++ b ++ c)).
  rewrite !chars_app, app_assoc. reflexivity.
Qed.

Lemma string_app_inv_tail (a b p : string) : (a ++ p = b ++ p)%string -> a = b.
Proof.
  intros E. apply (f_equal list_ascii_of_string) in E. rewrite !chars_app in E.
  apply app_inv_tail in E. apply (f_equal string_of_list_ascii) in E.
  rewrite !string_of_list_ascii_of_string in E. exact E.
Qed.

Lemma ends_with_slash_app (a b : string) :
  b <> EmptyString -> ends_with_slash (a ++ b) = ends_with_slash b.
Proof.
  intros Hb. unfold ends_with_slash. rewrite chars_app, rev_app_distr.
  destruct b as [| c b]; [congruence |]. simpl.
  destruct (rev (list_ascii_of_string b) ++ [c]) eqn:E; [| reflexivity].
  apply app_eq_nil in E as [_ E]. discriminate.
Qed.

Lemma digits_no_slash (d : Decimal.uint) :
  ~ In "/"%char (list_ascii_of_string (DecimalString.NilEmpty.string_of_uint d)).
Proof.
  induction d; simpl; try tauto; intros [E | Hin]; try discriminate; tauto.
Qed.

Lemma digits_end (d : Decimal.uint) :
  d <> Decimal.Nil ->
  DecimalString.NilEmpty.string_of_uint d <> EmptyString
  /\ ends_with_slash (DecimalString.NilEmpty.string_of_uint d) = false.
Proof.
  intros Hd. split; [destruct d; [congruence | discriminate ..] |].
  unfold ends_with_slash.
  destruct (rev (list_ascii_of_string (DecimalString.NilEmpty.string_of_uint d)))
    as [| c l] eqn:E; [reflexivity |].
  destruct (Ascii.eqb c "/") eqn:Ec; [| reflexivity].
  apply Ascii.eqb_eq in Ec. subst c. exfalso.
  apply (digits_no_slash d). apply in_rev. rewrite E. left. reflexivity.
Qed.

Lemma padded_nonnil (k : nat) (n : N) : Nat.iter k Decimal.D0 (N.to_uint n) <> Decimal.Nil.
Proof.
  destruct k as [| k]; [| discriminate]. cbn.
  destruct n as [| p]; [discriminate |]. apply DecimalPos.Unsigned.to_uint_nonnil.
Qed.

Lemma zero_padded_shape (width : nat) (z : Z) :
  zero_padded width z <> EmptyString
  /\ ends_with_slash (zero_padded width z) = false
  /\ ~ In "/"%char (list_ascii_of_string (zero_padded width z)).
Proof.
  unfold zero_padded.
  set (d := Nat.iter _ Decimal.D0 (N.to_uint (Z.abs_N z))).
  assert (Hd : d <> Decimal.Nil) by apply padded_nonnil.
  destruct (digits_end d Hd) as [Hne Hend].
  split; [destruct (z <? 0); [discriminate | exact Hne] |].
  split.
  - rewrite ends_with_slash_app by exact Hne. exact Hend.
  - rewrite chars_app. intros Hin. apply in_app_or in Hin as [Hin | Hin].
    + destruct (z <? 0); simpl in Hin; [destruct Hin as [E | []]; discriminate | tauto].
    + exact (digits_no_slash d Hin).
Qed.

(** Two paths cut at their first slash agree piece by piece. *)
Lemma split_at_slash (a a' b b' : string) :
  ~ In "/"%char (list_ascii_of_string a) ->
  ~ In "/"%char (list_ascii_of_string a') ->
  (a ++ "/" ++ b = a' ++ "/" ++ b')%string -> a = a' /\ b = b'.
Proof.
  revert a'. induction a as [| c a IH]; intros [| c' a'] Ha Ha' E; simpl in *.
  - injection E as E. split; [reflexivity | exact E].
  - injection E as E _. exfalso. apply Ha'. left. congruence.
  - injection E as E _. exfalso. apply Ha. left. congruence.
  - injection E as -> E. destruct (IH a') as [-> ->]; [tauto | tauto | exact E |].
    split; reflexivity.
Qed.

Lemma dist_optimizer_checkpoint_name_shape
    (rank : Z) (checkpoints_path : string) (iteration : Z) :
  get_dist_optimizer_checkpoint_name (Some rank) checkpoints_path iteration false
  = (path_join checkpoints_path EmptyString
     ++ iter_directory iteration ++ "/" ++ ("rank_" ++ zero_padded 5 rank)
     ++ "/" ++ "distrib_optim.pt")%string.
Proof.
  unfold get_dist_optimizer_checkpoint_name.
  destruct (zero_padded_shape 7 iteration) as (Hne7 & Hend7 & _).
  destruct (zero_padded_shape 5 rank) as (Hne5 & Hend5 & _).
  assert (Hjoin : forall a b : string,
            b <> EmptyString -> ends_with_slash b = false ->
            (path_join a b <> EmptyString /\ ends_with_slash (path_join a b) = false)).
  { intros a b Hb He. unfold path_join.
    destruct (String.eqb a "" || ends_with_slash a).
    - split; [destruct a; [exact Hb | discriminate] |].
      rewrite ends_with_slash_app by exact Hb. exact He.
    - split; [destruct a; discriminate |].
      rewrite !ends_with_slash_app by (exact Hb || discriminate). exact He. }
  assert (Hrel : forall a b : string,
            a <> EmptyString -> ends_with_slash a = false ->
            path_join a b = (a ++ "/" ++ b)%string).
  { intros a b Ha He. unfold path_join. rewrite He.
    destruct a; [congruence | reflexivity]. }
  assert (Hd : iter_directory iteration <> EmptyString
               /\ ends_with_slash (iter_directory iteration) = false).
  { unfold iter_directory. split; [discriminate |].
    rewrite ends_with_slash_app by exact Hne7. exact Hend7. }
  assert (Hr : ("rank_" ++ zero_padded 5 rank)%string <> EmptyString
               /\ ends_with_slash ("rank_" ++ zero_padded 5 rank) = false).
  { split; [discriminate |]. rewrite ends_with_slash_app by exact Hne5. exact Hend5. }
  destruct (Hjoin checkpoints_path (iter_directory iteration) (proj1 Hd) (proj2 Hd))
    as [Hx1 Hx2].
  rewrite (Hrel _ "distrib_optim.pt"%string); [| apply Hjoin; apply Hr ..].
  rewrite (Hrel _ _ Hx1 Hx2).
  unfold path_join at 1 2.
  destruct (String.eqb checkpoints_path "" || ends_with_slash checkpoints_path).
  - rewrite !string_app_assoc. reflexivity.
  - rewrite !string_app_assoc. reflexivity.
Qed.

(** X24.  No two ranks and no two iterations share a distributed
    optimizer file: under one checkpoint folder, the names for [(iteration,
    rank)] and [(iteration', rank')] are equal only when both the iterations
    and the ranks are.  A release checkpoint ignores the iteration, and a
    process group that is not initialized counts as rank 0. *)
Theorem dist_optimizer_checkpoint_names_are_distinct
    (checkpoints_path : string) (iteration iteration' rank rank' : Z) :
  (get_dist_optimizer_checkpoint_name (Some rank) checkpoints_path iteration false
   = get_dist_optimizer_checkpoint_name (Some rank') checkpoints_path iteration' false
   <-> iteration = iteration' /\ rank = rank')
  /\ get_dist_optimizer_checkpoint_name (Some rank) checkpoints_path iteration true
     = get_dist_optimizer_checkpoint_name (Some rank) checkpoints_path iteration' true
  /\ (forall release,
        get_dist_optimizer_checkpoint_name None checkpoints_path iteration release
        = get_dist_optimizer_checkpoint_name (Some 0) checkpoints_path iteration release).
Proof.
  split; [| split; [reflexivity | intros release; reflexivity]].
  split; [| intros [-> ->]; reflexivity].
  rewrite !dist_optimizer_checkpoint_name_shape. intros E.
  apply string_app_inv_head in E.
  assert (Hslash : forall z, ~ In "/"%char (list_ascii_of_string (iter_directory z))).
  { intros z. unfold iter_directory. rewrite chars_app. intros Hin.
    apply in_app_or in Hin as [Hin | Hin].
    - simpl in Hin. repeat (destruct Hin as [Hin | Hin]; [discriminate |]). exact Hin.
    - exact (proj2 (proj2 (zero_padded_shape 7 z)) Hin). }
  apply split_at_slash in E as [Ei Er]; [| apply Hslash ..].
  split.
  - unfold iter_directory in Ei.
    apply string_app_inv_head, zero_padded_inj in Ei. exact Ei.
  - apply string_app_inv_tail in Er.
    apply string_app_inv_head, zero_padded_inj in Er. exact Er.
Qed.

Example dist_optimizer_checkpoint_name_example :
  get_dist_optimizer_checkpoint_name (Some 3) "/ckpt" 400 false
  = "/ckpt/iter_0000400/rank_00003/distrib_optim.pt"%string
  /\ get_dist_optimizer_checkpoint_name None "/ckpt/" 400 true
     = "/ckpt/release/rank_00000/distrib_optim.pt"%string.
Proof. split; vm_compute; reflexivity. Qed.

Section Strategies.

Variable delete_func : string -> result unit.

(** A deletion never fails the caller: the path is handed to [delete_func]
    and whatever that raises is swallowed. *)
Lemma try_delete_spec {S} (record : string -> S -> S) (rm_dir : string) (s : S) :
  try_delete delete_func record rm_dir s = (record rm_dir s, Ok tt).
Proof.
  unfold try_delete, try_except, mbind, M_bind, bind, modify, Shard.lift_result.
  destruct (delete_func rm_dir) as [[] | e]; reflexivity.
Qed.

(** *** [KeepStepIntervalStrategy] *)

Lemma interval_clean_up_spec (step : Z) (s : KeepStepIntervalStrategy) :
  interval_clean_up delete_func step s
  = if _keep_interval s =? 0 then (s, Raise OtherException)
    else if step mod _keep_interval s =? 0 then (s, Ok tt)
    else (interval_record (step_path (interval_checkpoint_dir s) step) s, Ok tt).
Proof.
  unfold interval_clean_up. change ((get ≫= ?k) s) with (k s s). cbv beta.
  destruct (_keep_interval s =? 0); [reflexivity |].
  destruct (step mod _keep_interval s =? 0); [reflexivity |].
  apply try_delete_spec.
Qed.

Lemma interval_run_spec (steps : list Z) (s : KeepStepIntervalStrategy) :
  _keep_interval s <> 0 ->
  interval_run delete_func steps s
  = {| _keep_interval := _keep_interval s;
       interval_checkpoint_dir := interval_checkpoint_dir s;
       interval_deleted :=
         interval_deleted s
         ++ map (step_path (interval_checkpoint_dir s))
              (List.filter (fun step => negb (step mod _keep_interval s =? 0)) steps) |}.
Proof.
  intros Hk. apply Z.eqb_neq in Hk. unfold interval_run.
  revert s Hk. induction steps as [| step steps IH]; intros s Hk; simpl.
  - rewrite app_nil_r. destruct s; reflexivity.
  - rewrite interval_clean_up_spec, Hk.
    destruct (step mod _keep_interval s =? 0); cbn [fst negb].
    + apply IH, Hk.
    + rewrite IH by exact Hk. cbn. rewrite <- app_assoc. reflexivity.
Qed.

(** X25.  [KeepStepIntervalStrategy] with a non-zero interval: every
    [clean_up] returns, whatever [delete_func] does; the paths handed to
    [delete_func] are the directories of the steps that are not multiples of
    the interval, once per call and in the order of the calls; and the
    directory of a multiple of the interval is never handed to it. *)
Theorem keep_step_interval_deletes
    (keep_interval : Z) (checkpoint_dir : string) (steps : list Z) :
  keep_interval <> 0 ->
  let s := interval_run delete_func steps
             (new_KeepStepIntervalStrategy keep_interval checkpoint_dir) in
  interval_deleted s
  = map (step_path checkpoint_dir)
      (List.filter (fun step => negb (step mod keep_interval =? 0)) steps)
  /\ (forall step s0,
        _keep_interval s0 = keep_interval ->
        snd (interval_clean_up delete_func step s0) = Ok tt)
  /\ (forall kept,
        kept mod keep_interval = 0 ->
        ~ In (step_path checkpoint_dir kept) (interval_deleted s)).
Proof.
  intros Hk. cbv zeta.
  assert (Hd : interval_deleted
                 (interval_run delete_func steps
                    (new_KeepStepIntervalStrategy keep_interval checkpoint_dir))
               = map (step_path checkpoint_dir)
                   (List.filter (fun step => negb (step mod keep_interval =? 0)) steps))
    by (rewrite interval_run_spec by exact Hk; reflexivity).
  split; [exact Hd |]. split.
  - intros step s0 E. rewrite interval_clean_up_spec, E.
    apply Z.eqb_neq in Hk. rewrite Hk.
    destruct (step mod keep_interval =? 0); reflexivity.
  - intros kept Hkept Hin. rewrite Hd in Hin.
    apply in_map_iff in Hin as (step & Hpath & Hin).
    apply step_path_inj in Hpath. subst step.
    apply filter_In in Hin as [_ Hin]. apply Z.eqb_eq in Hkept.
    rewrite Hkept in Hin. discriminate.
Qed.

(** *** [KeepLatestStepStrategy] *)

Lemma latest_clean_up_spec (step : Z) (s : KeepLatestStepStrategy) :
  latest_clean_up delete_func step s
  = if Z.of_nat (length (_steps s ++ [step])) =? _max_to_keep s then
      match _steps s ++ [step] with
      | rm_step :: rest =>
          (latest_record (step_path (latest_checkpoint_dir s) rm_step)
             (set_steps rest s), Ok tt)
      | [] => (set_steps (_steps s ++ [step]) s, Raise OtherException)
      end
    else (set_steps (_steps s ++ [step]) s, Ok tt).
Proof.
  unfold latest_clean_up, mbind, M_bind, bind, modify, get. cbn [fst snd].
  cbn [_steps _max_to_keep set_steps].
  destruct (Z.of_nat (length (_steps s ++ [step])) =? _max_to_keep s); [| reflexivity].
  destruct (_steps s ++ [step]) as [| rm_step rest]; [reflexivity |].
  unfold put. cbn [latest_checkpoint_dir set_steps].
  rewrite try_delete_spec. destruct s; reflexivity.
Qed.

(** One [clean_up] on a strategy that tracks fewer steps than
    [_max_to_keep]: the step is appended, and when that fills the list the
    oldest tracked step is dropped and its directory deleted. *)
Lemma latest_clean_up_step (step : Z) (s : KeepLatestStepStrategy) (m : nat) :
  _max_to_keep s = Z.of_nat (S m) ->
  (length (_steps s) <= m)%nat ->
  let s' := fst (latest_clean_up delete_func step s) in
  snd (latest_clean_up delete_func step s) = Ok tt
  /\ _max_to_keep s' = _max_to_keep s
  /\ latest_checkpoint_dir s' = latest_checkpoint_dir s
  /\ (length (_steps s') <= m)%nat
  /\ _steps s' = drop (length (_steps s ++ [step]) - m) (_steps s ++ [step])
  /\ latest_deleted s'
     = latest_deleted s
       ++ map (step_path (latest_checkpoint_dir s))
            (take (length (_steps s ++ [step]) - m) (_steps s ++ [step])).
Proof.
  intros Hmax Hlen. cbv zeta. rewrite latest_clean_up_spec, Hmax.
  assert (Hl : length (_steps s ++ [step]) = S (length (_steps s)))
    by (rewrite length_app; simpl; lia).
  destruct (Z.of_nat (length (_steps s ++ [step])) =? Z.of_nat (S m)) eqn:Efull.
  - apply Z.eqb_eq in Efull. apply Nat2Z.inj in Efull.
    destruct (_steps s ++ [step]) as [| rm_step rest] eqn:Es; [simpl in Efull; lia |].
    simpl in Efull. injection Efull as Efull.
    replace (length (rm_step :: rest) - m)%nat with 1%nat by (simpl; lia).
    cbn. rewrite drop_0, take_0. repeat split; try reflexivity; try exact Hmax. lia.
  - apply Z.eqb_neq in Efull.
    assert (Hm : (length (_steps s ++ [step]) <= m)%nat) by lia.
    replace (length (_steps s ++ [step]) - m)%nat with 0%nat by lia.
    cbn. rewrite drop_0, app_nil_r. repeat split; try reflexivity; try exact Hmax. exact Hm.
Qed.


Lemma latest_run_snoc (steps : list Z) (step : Z) (s : KeepLatestStepStrategy) :
  latest_run delete_func (steps ++ [step]) s
  = fst (latest_clean_up delete_func step (latest_run delete_func steps s)).
Proof. unfold latest_run. rewrite fold_left_app. reflexivity. Qed.

Lemma latest_run_spec (m : nat) (checkpoint_dir : string) (steps : list Z)
    (s0 : KeepLatestStepStrategy) :
  _max_to_keep s0 = Z.of_nat (S m) ->
  latest_checkpoint_dir s0 = checkpoint_dir ->
  _steps s0 = [] ->
  latest_deleted s0 = [] ->
  let s := latest_run delete_func steps s0 in
  _max_to_keep s = Z.of_nat (S m)
  /\ latest_checkpoint_dir s = checkpoint_dir
  /\ _steps s = drop (length steps - m) steps
  /\ latest_deleted s = map (step_path checkpoint_dir) (take (length steps - m) steps).
Proof.
  intros Hmax Hdir Hs Hd. cbv zeta.
  induction steps as [| step steps IH] using rev_ind.
  - cbn. repeat split; assumption.
  - destruct IH as (Imax & Idir & Is & Id).
    rewrite latest_run_snoc.
    set (s := latest_run delete_func steps s0) in *.
    assert (Hlen : (length (_steps s) <= m)%nat)
      by (rewrite Is, length_drop; lia).
    destruct (latest_clean_up_step step s m Imax Hlen)
      as (_ & Hmax' & Hdir' & _ & Hs' & Hd'). cbv zeta in *.
    split; [congruence |]. split; [congruence |].
    set (j := (length steps - m)%nat) in *.
    assert (Hj : (j <= length steps)%nat) by (unfold j; lia).
    assert (Et : _steps s ++ [step] = drop j (steps ++ [step]))
      by (rewrite Is, drop_app_le by exact Hj; reflexivity).
    assert (Ea : (j + (length (drop j (steps ++ [step])) - m)
                  = length (steps ++ [step]) - m)%nat).
    { rewrite length_drop, length_app. simpl. unfold j. lia. }
    split.
    + rewrite Hs', Et, drop_drop, Ea. reflexivity.
    + rewrite Hd', Id, Idir, Et, <- Ea, <- take_take_drop, map_app.
      rewrite take_app_le by exact Hj. reflexivity.
Qed.

(** X26.  [KeepLatestStepStrategy] pops with [len(self._steps) ==
    self._max_to_keep] right after the append, so it tracks at most
    [max(max_to_keep, 1) - 1] steps.  After [clean_up] has been called with a
    list of steps, the steps it tracks are the newest of them, up to that
    number; the directory of every older one has been handed to
    [delete_func] exactly once, oldest first; and with [max_to_keep <= 1]
    every step is deleted by the very call that passes it.  No call raises,
    whatever [delete_func] does. *)
Theorem keep_latest_tracks_the_newest
    (max_to_keep : Z) (checkpoint_dir : string) (steps : list Z) :
  let tracked := (Z.to_nat (Z.max max_to_keep 1) - 1)%nat in
  let s := latest_run delete_func steps
             (new_KeepLatestStepStrategy max_to_keep checkpoint_dir) in
  _steps s = drop (length steps - tracked) steps
  /\ latest_deleted s
     = map (step_path checkpoint_dir) (take (length steps - tracked) steps)
  /\ (length (_steps s) <= tracked)%nat
  /\ (forall step, snd (latest_clean_up delete_func step s) = Ok tt).
Proof.
  cbv zeta.
  set (m := (Z.to_nat (Z.max max_to_keep 1) - 1)%nat).
  assert (Hmax : _max_to_keep (new_KeepLatestStepStrategy max_to_keep checkpoint_dir)
                 = Z.of_nat (S m)) by (cbn; unfold m; lia).
  destruct (latest_run_spec m checkpoint_dir steps
              (new_KeepLatestStepStrategy max_to_keep checkpoint_dir)
              Hmax eq_refl eq_refl eq_refl) as (Imax & _ & Is & Id).
  cbv zeta in *.
  assert (Hlen : (length (_steps (latest_run delete_func steps
                    (new_KeepLatestStepStrategy max_to_keep checkpoint_dir))) <= m)%nat)
    by (rewrite Is, length_drop; lia).
  split; [exact Is |]. split; [exact Id |]. split; [exact Hlen |].
  intros step. apply (latest_clean_up_step step _ m Imax Hlen).
Qed.

End Strategies.

Import Fixtures.

Lemma keep_step_interval_deletes_witness :
  400 <> 0
  /\ let s := interval_run fs_ok [100; 200; 300; 400; 500]
                (new_KeepStepIntervalStrategy 400 "/ckpt") in
     interval_deleted s
     = map (step_path "/ckpt")
         (List.filter (fun step => negb (step mod 400 =? 0)) [100; 200; 300; 400; 500])
     /\ (forall step s0,
           _keep_interval s0 = 400 -> snd (interval_clean_up fs_ok step s0) = Ok tt)
     /\ (forall kept,
           kept mod 400 = 0 -> ~ In (step_path "/ckpt" kept) (interval_deleted s)).
Proof.
  assert (H1 : 400 <> 0) by discriminate.
  split; [exact H1 |].
  exact (keep_step_interval_deletes fs_ok 400 "/ckpt" [100; 200; 300; 400; 500] H1).
Defined.

(** Steps 100 to 500 with an interval of 400, then with the three newest
    kept, then with [max_to_keep = 1]; the deletions fail in the last two
    runs, which changes nothing. *)
Example clean_up_example :
  interval_deleted
    (interval_run fs_ok [100; 200; 300; 400; 500]
       (new_KeepStepIntervalStrategy 400 "/ckpt"))
  = ["/ckpt/iter_0000100"; "/ckpt/iter_0000200"; "/ckpt/iter_0000300";
     "/ckpt/iter_0000500"]%string
  /\ (let s := latest_run (fun _ => Raise OtherException) [100; 200; 300; 400; 500]
                 (new_KeepLatestStepStrategy 3 "/ckpt") in
      (_steps s, latest_deleted s))
     = ([400; 500],
        ["/ckpt/iter_0000100"; "/ckpt/iter_0000200"; "/ckpt/iter_0000300"]%string)
  /\ (let s := latest_run (fun _ => Raise OtherException) [100; 200]
                 (new_KeepLatestStepStrategy 1 "/ckpt") in
      (_steps s, latest_deleted s))
     = ([], ["/ckpt/iter_0000100"; "/ckpt/iter_0000200"]%string)
  /\ snd (interval_clean_up fs_ok 100 (new_KeepStepIntervalStrategy 0 "/ckpt"))
     = Raise OtherException.
Proof. repeat split; vm_compute; reflexivity. Qed.

End MegatronFacts.
